(** * Portfolio transaction importer: a shallow embedding and its properties

    The development follows the Python package [portfolio.transaction_importer]:

    - [parsers.py]      : [parse_date], [parse_decimal], [calculate_amount],
                          [standardize_option_transaction_type],
                          [parse_option_details];
    - [utils.py]        : [TransactionTypeMapper] and its default mappings;
    - [csv_import.py]   : [import_transactions_from_csv], the file it opens
                          being an input: its headers and rows, or the
                          exception of opening it;
    - [table_model.py]  : [TransactionTableModel.setData], with the slots
                          connected to [dataChanged], and [_validate_row];
    - [review_window.py]: [_on_data_changed], [load_csv], [save_to_database];
    - [db.py]           : [get_or_create_symbol] and [save_transactions];
    - [column_mapper.py]: [_detect_column_patterns], [_detect_special_formats].

    Modelling conventions.

    - A Python [str] is a list of code points ([pystr]).  Case mapping,
      [isalpha] and the digit class of [re] are modelled on the ASCII range
      (code points above 127 have no case, are no letters and no digits);
      the white-space class is the full set used by [str.isspace].
    - Exceptions are explicit: a computation that may raise returns
      [exc A]; [try/except] is a match on the raised exception.
    - Regular expressions are backtracking matchers that return the list of
      all ways to match a prefix, in the priority order of Python's [re];
      the first element is the match [re] reports.
    - [decimal.Decimal] values are sign/coefficient/exponent triples plus the
      special values; the string constructor and the comparison with zero
      are modelled, the context-dependent arithmetic ([*], [+], [-]) is a
      parameter of the sections that use it. *)

From Stdlib Require Import List NArith ZArith Bool String Ascii Lia.
Import ListNotations.


Local Open Scope N_scope.
Local Open Scope list_scope.

(* ===================================================================== *)
(** * Python strings *)
(* ===================================================================== *)

Definition char := N.
Definition pystr := list char.

(** A string literal of the source, as code points. *)
Definition str (s : string) : pystr :=
  map N_of_ascii (list_ascii_of_string s).

Fixpoint str_eqb (a b : pystr) : bool :=
  match a, b with
  | [], [] => true
  | x :: a', y :: b' => (x =? y) && str_eqb a' b'
  | _, _ => false
  end.

Definition chr_euro : char := 8364.

(** [str.isspace] on one character. *)
Definition is_space (c : char) : bool :=
  ((9 <=? c) && (c <=? 13)) || ((28 <=? c) && (c <=? 32))
  || (c =? 133) || (c =? 160) || (c =? 5760)
  || ((8192 <=? c) && (c <=? 8202))
  || (c =? 8232) || (c =? 8233) || (c =? 8239) || (c =? 8287) || (c =? 12288).

Definition is_digit (c : char) : bool := (48 <=? c) && (c <=? 57).
Definition is_upper (c : char) : bool := (65 <=? c) && (c <=? 90).
Definition is_lower (c : char) : bool := (97 <=? c) && (c <=? 122).
Definition is_alpha (c : char) : bool := is_upper c || is_lower c.

Definition lower_char (c : char) : char := if is_upper c then c + 32 else c.
Definition upper_char (c : char) : char := if is_lower c then c - 32 else c.

Definition lower (s : pystr) : pystr := map lower_char s.
Definition upper (s : pystr) : pystr := map upper_char s.

Fixpoint lstrip (s : pystr) : pystr :=
  match s with
  | c :: r => if is_space c then lstrip r else s
  | [] => []
  end.

Definition rstrip (s : pystr) : pystr := rev (lstrip (rev s)).

Definition strip (s : pystr) : pystr := rstrip (lstrip s).

Fixpoint startswith (p s : pystr) : bool :=
  match p, s with
  | [], _ => true
  | x :: p', y :: s' => (x =? y) && startswith p' s'
  | _ :: _, [] => false
  end.

(** [needle in hay]. *)
Fixpoint contains (needle hay : pystr) : bool :=
  startswith needle hay ||
  match hay with
  | [] => false
  | _ :: r => contains needle r
  end.

(** [s.replace(old, new)]: non-overlapping occurrences, left to right.
    [skip] counts the characters of a matched occurrence still to drop. *)
Fixpoint replace_from (old new : pystr) (skip : nat) (s : pystr) : pystr :=
  match s with
  | [] => []
  | c :: r =>
      match skip with
      | S k => replace_from old new k r
      | O =>
          if startswith old s
          then new ++ replace_from old new (pred (List.length old)) r
          else c :: replace_from old new O r
      end
  end.

Definition replace (old new s : pystr) : pystr :=
  match old with
  | [] => new ++ flat_map (fun c => c :: new) s
  | _ => replace_from old new O s
  end.

(** [s.split()]: maximal runs of non-space characters. *)
Fixpoint split_ws (cur : pystr) (s : pystr) : list pystr :=
  match s with
  | [] => match cur with [] => [] | _ => [rev cur] end
  | c :: r =>
      if is_space c
      then match cur with
           | [] => split_ws [] r
           | _ => rev cur :: split_ws [] r
           end
      else split_ws (c :: cur) r
  end.

Definition split (s : pystr) : list pystr := split_ws [] s.

(** [s.isalpha()]: non-empty and only letters. *)
Definition isalpha (s : pystr) : bool :=
  match s with [] => false | _ => forallb is_alpha s end.

(** Truth value of a string: non-empty. *)
Definition nonempty (s : pystr) : bool :=
  match s with [] => false | _ => true end.

(* ===================================================================== *)
(** * Exceptions *)
(* ===================================================================== *)

Inductive exn :=
| ValueError
| KeyError
| TypeError
| AttributeError
| InvalidOperation
| JSONDecodeError
| IntegrityError
| OSError
| FileNotFoundError.

Inductive exc (A : Type) :=
| Ok (a : A)
| Raise (e : exn).

Arguments Ok {A} a.
Arguments Raise {A} e.

Definition bind {A B} (c : exc A) (k : A -> exc B) : exc B :=
  match c with
  | Ok a => k a
  | Raise e => Raise e
  end.

Declare Scope py_scope.
Delimit Scope py_scope with py.
Notation "x <- c ;; k" := (bind c (fun x => k))
  (at level 61, c at next level, right associativity) : py_scope.

Definition exn_eqb (a b : exn) : bool :=
  match a, b with
  | ValueError, ValueError | KeyError, KeyError | TypeError, TypeError
  | AttributeError, AttributeError | InvalidOperation, InvalidOperation
  | JSONDecodeError, JSONDecodeError | IntegrityError, IntegrityError
  | OSError, OSError | FileNotFoundError, FileNotFoundError => true
  | _, _ => false
  end.

(** [except E] also catches the subclasses of [E]: a [JSONDecodeError] is a
    [ValueError], a [FileNotFoundError] is an [OSError]. *)
Definition exn_isa (e E : exn) : bool :=
  exn_eqb e E
  || match e, E with
     | JSONDecodeError, ValueError => true
     | FileNotFoundError, OSError => true
     | _, _ => false
     end.

(** [try: c except E: h]. *)
Definition try_except {A} (c : exc A) (E : exn) (h : exc A) : exc A :=
  match c with
  | Ok a => Ok a
  | Raise e => if exn_isa e E then h else Raise e
  end.

(** [try: c except Exception: h]. *)
Definition try_except_all {A} (c : exc A) (h : exc A) : exc A :=
  match c with
  | Ok a => Ok a
  | Raise _ => h
  end.

Definition raises {A} (c : exc A) : Prop :=
  exists e, c = Raise e.

Definition returns {A} (c : exc A) : Prop :=
  exists a, c = Ok a.

(* ===================================================================== *)
(** * Regular expressions as backtracking matchers *)
(* ===================================================================== *)

Module Re.

(** A matcher lists every (matched text, remainder) split of its input, most
    preferred first. *)
Definition matcher := pystr -> list (pystr * pystr).

Definition cls (p : char -> bool) : matcher :=
  fun s => match s with
           | c :: r => if p c then [([c], r)] else []
           | [] => []
           end.

Definition chr (c : char) : matcher := cls (N.eqb c).

(** A literal character under [re.IGNORECASE]. *)
Definition chr_ci (c : char) : matcher :=
  cls (fun x => lower_char x =? lower_char c).

Definition eps : matcher := fun s => [([], s)].

Definition seq (a b : matcher) : matcher :=
  fun s =>
    flat_map (fun xr =>
                map (fun yr => (fst xr ++ fst yr, snd yr)) (b (snd xr)))
             (a s).

Definition alt (a b : matcher) : matcher := fun s => a s ++ b s.

Definition opt (a : matcher) : matcher := alt a eps.

Fixpoint lit (p : pystr) : matcher :=
  match p with
  | [] => eps
  | c :: p' => seq (chr c) (lit p')
  end.

Fixpoint lit_ci (p : pystr) : matcher :=
  match p with
  | [] => eps
  | c :: p' => seq (chr_ci c) (lit_ci p')
  end.

(** Greedy bounded repetition of a character class, [[p]{lo,hi}]. *)
Fixpoint rep (p : char -> bool) (lo hi : nat) (s : pystr) : list (pystr * pystr) :=
  match hi with
  | O => match lo with O => [([], s)] | S _ => [] end
  | S hi' =>
      (match s with
       | c :: r =>
           if p c
           then map (fun xr => (c :: fst xr, snd xr)) (rep p (pred lo) hi' r)
           else []
       | [] => []
       end)
      ++ match lo with O => [([], s)] | S _ => [] end
  end.

(** [[p]+] and [[p]*]. *)
Definition plus (p : char -> bool) : matcher := fun s => rep p 1 (List.length s) s.
Definition star (p : char -> bool) : matcher := fun s => rep p 0 (List.length s) s.

(** [$] without [re.MULTILINE]: at the end, or before a final newline. *)
Definition at_end : matcher :=
  fun s => match s with
           | [] => [([], s)]
           | [10] => [([], s)]
           | _ => []
           end.

(** A pattern as a sequence of segments; every segment's text is recorded,
    so that a capturing group is a position in the list. *)
Fixpoint groups (ms : list matcher) (s : pystr) : list (list pystr * pystr) :=
  match ms with
  | [] => [([], s)]
  | m :: ms' =>
      flat_map (fun xr =>
                  map (fun gr => (fst xr :: fst gr, snd gr)) (groups ms' (snd xr)))
               (m s)
  end.

(** [re.match]: the preferred match at the start of the string. *)
Definition match_ (ms : list matcher) (s : pystr) : option (list pystr * pystr) :=
  hd_error (groups ms s).

(** [re.search]: the preferred match at the leftmost position that has one. *)
Fixpoint search (ms : list matcher) (s : pystr) : option (list pystr * pystr) :=
  match match_ ms s with
  | Some r => Some r
  | None =>
      match s with
      | [] => None
      | _ :: r => search ms r
      end
  end.

(** [m.group(i)] for the [i]-th segment (from zero). *)
Definition group (i : nat) (m : list pystr * pystr) : pystr :=
  nth i (fst m) [].

End Re.

(* ===================================================================== *)
(** * Dates: [datetime.date] and [datetime.strptime] *)
(* ===================================================================== *)

Record date := mkdate { year : N; month : N; day : N }.

Definition is_leap (y : N) : bool :=
  (y mod 4 =? 0) && (negb (y mod 100 =? 0) || (y mod 400 =? 0)).

Definition days_in_month (y m : N) : N :=
  match m with
  | 2 => if is_leap y then 29 else 28
  | 4 | 6 | 9 | 11 => 30
  | _ => 31
  end.

Definition valid_date (d : date) : bool :=
  (1 <=? year d) && (year d <=? 9999)
  && (1 <=? month d) && (month d <=? 12)
  && (1 <=? day d) && (day d <=? days_in_month (year d) (month d)).

(** [date(year, month, day)]. *)
Definition date_new (y m d : N) : exc date :=
  if valid_date (mkdate y m d) then Ok (mkdate y m d) else Raise ValueError.

Definition digit_val (c : char) : N := c - 48.

Fixpoint int_of_digits (acc : N) (s : pystr) : N :=
  match s with
  | [] => acc
  | c :: r => int_of_digits (10 * acc + digit_val c) r
  end.

(** [int(s)] on the texts that the patterns below capture: optional
    surrounding white space around decimal digits. *)
Definition py_int (s : pystr) : N := int_of_digits 0 (strip s).

(** The directives of the four formats. *)
Inductive fmt_item :=
| Dir_Y
| Dir_m
| Dir_d
| Sep (c : char).

Definition in_range (lo hi : string) (c : char) : bool :=
  match str lo, str hi with
  | [l], [h] => (l <=? c) && (c <=? h)
  | _, _ => false
  end.

(** The regular expressions [_strptime] substitutes for the directives. *)
Definition re_Y : Re.matcher :=
  Re.seq (Re.cls is_digit) (Re.seq (Re.cls is_digit)
    (Re.seq (Re.cls is_digit) (Re.cls is_digit))).

(** [1[0-2]|0[1-9]|[1-9]] *)
Definition re_m : Re.matcher :=
  Re.alt (Re.seq (Re.chr 49) (Re.cls (in_range "0" "2")))
    (Re.alt (Re.seq (Re.chr 48) (Re.cls (in_range "1" "9")))
            (Re.cls (in_range "1" "9"))).

(** [3[01]|[12]\d|0[1-9]|[1-9]| [1-9]] *)
Definition re_d : Re.matcher :=
  Re.alt (Re.seq (Re.chr 51) (Re.cls (in_range "0" "1")))
    (Re.alt (Re.seq (Re.cls (in_range "1" "2")) (Re.cls is_digit))
      (Re.alt (Re.seq (Re.chr 48) (Re.cls (in_range "1" "9")))
        (Re.alt (Re.cls (in_range "1" "9"))
                (Re.seq (Re.chr 32) (Re.cls (in_range "1" "9")))))).

Definition fmt_matcher (i : fmt_item) : Re.matcher :=
  match i with
  | Dir_Y => re_Y
  | Dir_m => re_m
  | Dir_d => re_d
  | Sep c => Re.chr c
  end.

(** Fields found so far, with the defaults of [_strptime]. *)
Fixpoint fmt_fields (fmt : list fmt_item) (gs : list pystr) (ymd : N * N * N)
  : N * N * N :=
  match fmt, gs with
  | i :: fmt', g :: gs' =>
      let '(y, m, d) := ymd in
      fmt_fields fmt' gs'
        match i with
        | Dir_Y => (py_int g, m, d)
        | Dir_m => (y, py_int g, d)
        | Dir_d => (y, m, py_int g)
        | Sep _ => ymd
        end
  | _, _ => ymd
  end.

(** [datetime.strptime(s, fmt).date()]. *)
Definition strptime (s : pystr) (fmt : list fmt_item) : exc date :=
  match Re.match_ (map fmt_matcher fmt) s with
  | None => Raise ValueError                 (* does not match format *)
  | Some (gs, rest) =>
      match rest with
      | _ :: _ => Raise ValueError           (* unconverted data remains *)
      | [] =>
          let '(y, m, d) := fmt_fields fmt gs (1900, 1, 1) in
          date_new y m d
      end
  end.

Definition chr_dash : char := 45.
Definition chr_slash : char := 47.

Definition fmt_iso : list fmt_item := [Dir_Y; Sep chr_dash; Dir_m; Sep chr_dash; Dir_d].
Definition fmt_us : list fmt_item := [Dir_m; Sep chr_slash; Dir_d; Sep chr_slash; Dir_Y].
Definition fmt_eu : list fmt_item := [Dir_d; Sep chr_slash; Dir_m; Sep chr_slash; Dir_Y].
Definition fmt_dashed : list fmt_item := [Dir_d; Sep chr_dash; Dir_m; Sep chr_dash; Dir_Y].

(** [formats = ['%Y-%m-%d', '%m/%d/%Y', '%d/%m/%Y', '%d-%m-%Y']] *)
Definition formats : list (list fmt_item) := [fmt_iso; fmt_us; fmt_eu; fmt_dashed].

(** Zero-padded decimal numerals, as [strftime] writes them. *)
Definition digit_chr (k : N) : char := 48 + k.

Definition pad2 (n : N) : pystr := [digit_chr (n / 10); digit_chr (n mod 10)].

Definition pad4 (n : N) : pystr :=
  [ digit_chr (n / 1000); digit_chr (n / 100 mod 10);
    digit_chr (n / 10 mod 10); digit_chr (n mod 10) ].

(** A date written year-month-day (as [str] of a date does), month/day/year
    and day/month/year. *)
Definition iso_string (d : date) : pystr :=
  pad4 (year d) ++ chr_dash :: pad2 (month d) ++ chr_dash :: pad2 (day d).

Definition us_string (d : date) : pystr :=
  pad2 (month d) ++ chr_slash :: pad2 (day d) ++ chr_slash :: pad4 (year d).

Definition eu_string (d : date) : pystr :=
  pad2 (day d) ++ chr_slash :: pad2 (month d) ++ chr_slash :: pad4 (year d).

(* ===================================================================== *)
(** * parsers.py: parse_date *)
(* ===================================================================== *)

(** [[0-9]{1,2}/[0-9]{1,2}/[0-9]{2,4}|[0-9]{4}-[0-9]{1,2}-[0-9]{1,2}] *)
Definition re_date_like : Re.matcher :=
  Re.alt
    (Re.seq (Re.rep is_digit 1 2) (Re.seq (Re.chr chr_slash)
      (Re.seq (Re.rep is_digit 1 2) (Re.seq (Re.chr chr_slash)
        (Re.rep is_digit 2 4)))))
    (Re.seq (Re.rep is_digit 4 4) (Re.seq (Re.chr chr_dash)
      (Re.seq (Re.rep is_digit 1 2) (Re.seq (Re.chr chr_dash)
        (Re.rep is_digit 1 2))))).

(** [r'as of (...)'] with [re.IGNORECASE]; the date is segment 1. *)
Definition as_of_pattern : list Re.matcher :=
  [Re.lit_ci (str "as of "); re_date_like].

Definition date_pattern : list Re.matcher := [re_date_like].

(** The loop [for fmt in formats: try: return strptime(...) except ValueError:
    continue]; [None] when the loop falls through. *)
Fixpoint try_formats (fmts : list (list fmt_item)) (s : pystr)
  : exc (option date) :=
  match fmts with
  | [] => Ok None
  | fmt :: fmts' =>
      match strptime s fmt with
      | Ok d => Ok (Some d)
      | Raise ValueError => try_formats fmts' s
      | Raise e => Raise e
      end
  end.

Definition parse_date (date_str : pystr) : exc (option date) :=
  let date_str :=
    match Re.search as_of_pattern date_str with
    | Some m => Re.group 1 m
    | None => date_str
    end in
  (r <- try_formats formats date_str ;;
   match r with
   | Some d => Ok (Some d)
   | None =>
       try_except_all
         (match Re.search date_pattern date_str with
          | Some m =>
              let clean_date_str := Re.group 0 m in
              try_formats formats clean_date_str
          | None => Ok None
          end)
         (Ok None)
   end)%py.


(* ===================================================================== *)
(** * decimal.Decimal *)
(* ===================================================================== *)

Inductive Decimal :=
| DFinite (negative : bool) (coefficient : N) (exponent : Z)
| DInfinity (negative : bool)
| DNaN (negative : bool) (signaling : bool) (payload : N).

(** [Decimal('0')] *)
Definition Decimal_zero : Decimal := DFinite false 0 0%Z.

(** [Decimal(n)] for a non-negative [int]. *)
Definition Decimal_of_N (n : N) : Decimal := DFinite false n 0%Z.

(** [bool(d)]: false only for a finite zero. *)
Definition dec_truthy (d : Decimal) : bool :=
  match d with
  | DFinite _ c _ => negb (c =? 0)
  | _ => true
  end.

(** [d < 0]: an ordering comparison with a NaN signals
    [InvalidOperation], which the default context traps. *)
Definition dec_lt_zero (d : Decimal) : exc bool :=
  match d with
  | DFinite neg c _ => Ok (neg && negb (c =? 0))
  | DInfinity neg => Ok neg
  | DNaN _ _ _ => Raise InvalidOperation
  end.

Module DecimalSyntax.

Definition is_sign (c : char) : bool := (c =? 43) || (c =? 45).
Definition chr_minus : char := 45.
Definition chr_dot : char := 46.
Definition chr_underscore : char := 95.

(** A zero-width assertion on the text still to match. *)
Definition look (p : pystr -> bool) : Re.matcher :=
  fun s => if p s then [([], s)] else [].

(** [\Z] *)
Definition at_Z : Re.matcher :=
  fun s => match s with [] => [([], s)] | _ => [] end.

(** [(?=\d|\.\d)] *)
Definition starts_number (s : pystr) : bool :=
  match s with
  | c :: r =>
      is_digit c
      || ((c =? chr_dot) && match r with d :: _ => is_digit d | [] => false end)
  | [] => false
  end.

Definition sign_seg : Re.matcher := Re.opt (Re.cls is_sign).

(** [[-+]? (?=\d|\.\d) \d* (\.\d* )? (E[-+]?\d+)? \Z] *)
Definition number_pattern : list Re.matcher :=
  [ sign_seg; look starts_number; Re.star is_digit;
    Re.opt (Re.seq (Re.chr chr_dot) (Re.star is_digit));
    Re.opt (Re.seq (Re.chr_ci 101) (Re.seq sign_seg (Re.plus is_digit)));
    at_Z ].

(** [[-+]? Inf(inity)? \Z] *)
Definition infinity_pattern : list Re.matcher :=
  [ sign_seg; Re.lit_ci (str "Inf"); Re.opt (Re.lit_ci (str "inity")); at_Z ].

(** [[-+]? s? NaN \d* \Z] *)
Definition nan_pattern : list Re.matcher :=
  [ sign_seg; Re.opt (Re.chr_ci 115); Re.lit_ci (str "NaN");
    Re.star is_digit; at_Z ].

Definition is_minus (g : pystr) : bool := str_eqb g [chr_minus].

(** The text of the exponent group, [E[-+]?\d+], as an integer. *)
Definition exponent_of (g : pystr) : Z :=
  match g with
  | _ :: c :: r =>
      if is_sign c
      then if c =? chr_minus then Z.opp (Z.of_N (int_of_digits 0 r))
           else Z.of_N (int_of_digits 0 r)
      else Z.of_N (int_of_digits 0 (c :: r))
  | _ => 0%Z
  end.

End DecimalSyntax.

(** [Decimal(s)] for a string: surrounding white space is dropped,
    underscores are ignored, and anything that is not a numeric string
    raises [InvalidOperation]. *)
Definition Decimal_of_str (s : pystr) : exc Decimal :=
  let s := replace [DecimalSyntax.chr_underscore] [] (strip s) in
  match Re.match_ DecimalSyntax.number_pattern s with
  | Some m =>
      let intpart := Re.group 2 m in
      let fracpart := tl (Re.group 3 m) in
      let exp := DecimalSyntax.exponent_of (Re.group 4 m) in
      Ok (DFinite (DecimalSyntax.is_minus (Re.group 0 m))
                  (int_of_digits 0 (intpart ++ fracpart))
                  (exp - Z.of_nat (List.length fracpart))%Z)
  | None =>
      match Re.match_ DecimalSyntax.infinity_pattern s with
      | Some m => Ok (DInfinity (DecimalSyntax.is_minus (Re.group 0 m)))
      | None =>
          match Re.match_ DecimalSyntax.nan_pattern s with
          | Some m =>
              Ok (DNaN (DecimalSyntax.is_minus (Re.group 0 m))
                       (nonempty (Re.group 1 m))
                       (int_of_digits 0 (Re.group 3 m)))
          | None => Raise InvalidOperation
          end
      end
  end.

(* ===================================================================== *)
(** * parsers.py: parse_decimal *)
(* ===================================================================== *)

Definition chr_dollar : char := 36.
Definition chr_comma : char := 44.

Definition parse_decimal (value_str : pystr) : exc (option Decimal) :=
  if negb (nonempty value_str) || str_eqb (strip value_str) []
  then Ok None
  else
    let cleaned :=
      strip (replace [chr_comma] []
               (replace [chr_euro] [] (replace [chr_dollar] [] value_str))) in
    try_except (d <- Decimal_of_str cleaned ;; Ok (Some d))%py
               InvalidOperation (Ok None).

(* ===================================================================== *)
(** * models.py: the enumerations *)
(* ===================================================================== *)

Inductive TransactionType :=
| BUY | SELL
| BUY_TO_OPEN | SELL_TO_OPEN | BUY_TO_CLOSE | SELL_TO_CLOSE
| OPTION_EXERCISE | OPTION_ASSIGNMENT | OPTION_EXPIRATION
| DIVIDEND | INTEREST | DEPOSIT | WITHDRAWAL
| TRANSFER_IN | TRANSFER_OUT
| FEE | SPLIT | OTHER.

Definition all_transaction_types : list TransactionType :=
  [ BUY; SELL; BUY_TO_OPEN; SELL_TO_OPEN; BUY_TO_CLOSE; SELL_TO_CLOSE;
    OPTION_EXERCISE; OPTION_ASSIGNMENT; OPTION_EXPIRATION;
    DIVIDEND; INTEREST; DEPOSIT; WITHDRAWAL; TRANSFER_IN; TRANSFER_OUT;
    FEE; SPLIT; OTHER ].

(** [t.value] *)
Definition ttype_value (t : TransactionType) : pystr :=
  str match t with
      | BUY => "buy" | SELL => "sell"
      | BUY_TO_OPEN => "buy_to_open" | SELL_TO_OPEN => "sell_to_open"
      | BUY_TO_CLOSE => "buy_to_close" | SELL_TO_CLOSE => "sell_to_close"
      | OPTION_EXERCISE => "option_exercise"
      | OPTION_ASSIGNMENT => "option_assignment"
      | OPTION_EXPIRATION => "option_expiration"
      | DIVIDEND => "dividend" | INTEREST => "interest"
      | DEPOSIT => "deposit" | WITHDRAWAL => "withdrawal"
      | TRANSFER_IN => "transfer_in" | TRANSFER_OUT => "transfer_out"
      | FEE => "fee" | SPLIT => "split" | OTHER => "other"
      end.

Definition ttype_eqb (a b : TransactionType) : bool :=
  str_eqb (ttype_value a) (ttype_value b).

(** [TransactionType(v)]: the member with that value, else [ValueError]. *)
Definition TransactionType_of_value (v : pystr) : exc TransactionType :=
  match find (fun t => str_eqb (ttype_value t) v) all_transaction_types with
  | Some t => Ok t
  | None => Raise ValueError
  end.

Inductive InstrumentType := STOCK | ETF | OPTION | CASH | OTHER_INSTRUMENT.

Definition all_instrument_types : list InstrumentType :=
  [STOCK; ETF; OPTION; CASH; OTHER_INSTRUMENT].

Definition itype_value (t : InstrumentType) : pystr :=
  str match t with
      | STOCK => "stock" | ETF => "etf" | OPTION => "option"
      | CASH => "cash" | OTHER_INSTRUMENT => "other"
      end.

Definition itype_eqb (a b : InstrumentType) : bool :=
  str_eqb (itype_value a) (itype_value b).

Definition InstrumentType_of_value (v : pystr) : exc InstrumentType :=
  match find (fun t => str_eqb (itype_value t) v) all_instrument_types with
  | Some t => Ok t
  | None => Raise ValueError
  end.

Inductive OptionType := CALL | PUT.

Definition otype_value (t : OptionType) : pystr :=
  str match t with CALL => "call" | PUT => "put" end.

Definition otype_eqb (a b : OptionType) : bool :=
  match a, b with CALL, CALL | PUT, PUT => true | _, _ => false end.

Definition OptionType_of_value (v : pystr) : exc OptionType :=
  if str_eqb v (str "call") then Ok CALL
  else if str_eqb v (str "put") then Ok PUT
  else Raise ValueError.

(* ===================================================================== *)
(** * Python dictionaries with string keys *)
(* ===================================================================== *)

(** Insertion-ordered, keys unique: an update keeps the key's position, a
    new key goes last. *)
Definition dict (V : Type) := list (pystr * V).

Fixpoint dict_get {V} (k : pystr) (d : dict V) : option V :=
  match d with
  | [] => None
  | (k', v) :: d' => if str_eqb k' k then Some v else dict_get k d'
  end.

Definition dict_has {V} (k : pystr) (d : dict V) : bool :=
  match dict_get k d with Some _ => true | None => false end.

Fixpoint dict_set {V} (k : pystr) (v : V) (d : dict V) : dict V :=
  match d with
  | [] => [(k, v)]
  | (k', v') :: d' =>
      if str_eqb k' k then (k', v) :: d' else (k', v') :: dict_set k v d'
  end.

Fixpoint dict_del {V} (k : pystr) (d : dict V) : dict V :=
  match d with
  | [] => []
  | (k', v') :: d' =>
      if str_eqb k' k then d' else (k', v') :: dict_del k d'
  end.

(** [d.update(e)] *)
Definition dict_update {V} (d e : dict V) : dict V :=
  fold_left (fun acc kv => dict_set (fst kv) (snd kv) acc) e d.

Definition dict_values {V} (d : dict V) : list V := map snd d.

Definition str_in (s : pystr) (l : list pystr) : bool :=
  existsb (str_eqb s) l.

(* ===================================================================== *)
(** * utils.py: TransactionTypeMapper *)
(* ===================================================================== *)

(** [self.mappings]: broker -> (action text -> transaction type value). *)
Definition Mappings := dict (dict pystr).

Definition kv (k : string) (t : TransactionType) : pystr * pystr :=
  (str k, ttype_value t).

(** [_init_default_mappings] *)
Definition default_mappings : Mappings :=
  [ (str "general",
      [ kv "buy" BUY; kv "sell" SELL; kv "dividend" DIVIDEND;
        kv "interest" INTEREST; kv "deposit" DEPOSIT;
        kv "withdrawal" WITHDRAWAL; kv "fee" FEE; kv "split" SPLIT;
        kv "transfer" TRANSFER_IN; kv "journal" TRANSFER_IN;
        kv "transfer shares" TRANSFER_IN; kv "journal shares" TRANSFER_IN;
        kv "transfer securities" TRANSFER_IN; kv "transfer funds" TRANSFER_IN;
        kv "securities transferred" TRANSFER_IN ]);
    (str "fidelity",
      [ kv "bought" BUY; kv "sold" SELL; kv "cash contribution" DEPOSIT;
        kv "dividend received" DIVIDEND; kv "reinvestment" BUY;
        kv "transferred in" TRANSFER_IN; kv "transferred out" TRANSFER_OUT;
        kv "journaled" TRANSFER_IN ]);
    (str "schwab",
      [ kv "bought" BUY; kv "sold" SELL; kv "qualified dividend" DIVIDEND;
        kv "non-qualified dividend" DIVIDEND; kv "bank interest" INTEREST;
        kv "service fee" FEE; kv "journal" TRANSFER_IN;
        kv "MoneyLink Transfer" TRANSFER_IN ]);
    (str "robinhood",
      [ kv "market buy" BUY; kv "market sell" SELL; kv "limit buy" BUY;
        kv "limit sell" SELL; kv "dividend" DIVIDEND; kv "deposit" DEPOSIT;
        kv "withdrawal" WITHDRAWAL; kv "transfer" TRANSFER_IN ]);
    (str "ibkr",
      [ kv "buy" BUY; kv "sell" SELL; kv "dividend" DIVIDEND;
        kv "deposit" DEPOSIT; kv "withdrawal" WITHDRAWAL;
        kv "transfer" TRANSFER_IN; kv "cash transfer" TRANSFER_IN ]);
    (str "tdameritrade",
      [ kv "bought" BUY; kv "sold" SELL; kv "reinvestment" BUY;
        kv "dividend" DIVIDEND; kv "transfer" TRANSFER_IN ]) ].

(** [for key, value in bucket.items(): if key in action_lower: result = value;
    break] *)
Definition scan_bucket {V} (bucket : dict V) (action_lower : pystr) : option V :=
  match find (fun kv => contains (fst kv) action_lower) bucket with
  | Some kv => Some (snd kv)
  | None => None
  end.

Definition is_transfer_value (v : pystr) : bool :=
  str_in v [ttype_value TRANSFER_IN; ttype_value TRANSFER_OUT].

(** The text found by the two lookups: the broker's own mappings first, the
    general ones when that gave nothing. *)
Definition mapped_value (mappings : Mappings) (action_lower : pystr)
    (broker : option pystr) : option pystr :=
  let result : option pystr := None in
  (* broker-specific mapping first *)
  let result :=
    match broker with
    | Some b =>
        if nonempty b
        then match dict_get (lower b) mappings with
             | Some bucket => scan_bucket bucket action_lower
             | None => result
             end
        else result
    | None => result
    end in
  (* then the general mappings *)
  match result with
  | None =>
      match dict_get (str "general") mappings with
      | Some bucket => scan_bucket bucket action_lower
      | None => result
      end
  | Some _ => result
  end.

Definition get_transaction_type (mappings : Mappings) (action_text : pystr)
    (broker : option pystr) (quantity : option Decimal)
  : exc (option TransactionType) :=
  let action_lower := lower action_text in
  let result := mapped_value mappings action_lower broker in
  (* direction of a transfer from the quantity *)
  (result <-
     match result, quantity with
     | Some v, Some q =>
         if is_transfer_value v
         then (neg <- dec_lt_zero q ;;
               Ok (Some (if neg : bool then ttype_value TRANSFER_OUT
                         else ttype_value TRANSFER_IN)))
         else Ok result
     | _, _ => Ok result
     end ;;
   (* the enumeration member of that value *)
   match result with
   | Some v =>
       try_except (t <- TransactionType_of_value v ;; Ok (Some t))
                  ValueError (Ok None)
   | None => Ok None
   end)%py.

(* ===================================================================== *)
(** * parsers.py: standardize_option_transaction_type *)
(* ===================================================================== *)

Definition option_action_mapping : list (pystr * TransactionType) :=
  [ (str "buy to open", BUY_TO_OPEN); (str "bto", BUY_TO_OPEN);
    (str "open buy", BUY_TO_OPEN); (str "opening purchase", BUY_TO_OPEN);
    (str "sell to open", SELL_TO_OPEN); (str "sto", SELL_TO_OPEN);
    (str "open sell", SELL_TO_OPEN); (str "opening sale", SELL_TO_OPEN);
    (str "option writing", SELL_TO_OPEN); (str "write", SELL_TO_OPEN);
    (str "buy to close", BUY_TO_CLOSE); (str "btc", BUY_TO_CLOSE);
    (str "close buy", BUY_TO_CLOSE); (str "closing purchase", BUY_TO_CLOSE);
    (str "sell to close", SELL_TO_CLOSE); (str "stc", SELL_TO_CLOSE);
    (str "close sell", SELL_TO_CLOSE); (str "closing sale", SELL_TO_CLOSE);
    (str "exercise", OPTION_EXERCISE); (str "exercised", OPTION_EXERCISE);
    (str "assignment", OPTION_ASSIGNMENT); (str "assigned", OPTION_ASSIGNMENT);
    (str "expiration", OPTION_EXPIRATION); (str "expired", OPTION_EXPIRATION);
    (str "worthless", OPTION_EXPIRATION) ].

(** [k in s] for a literal [k]. *)
Definition has (k : string) (s : pystr) : bool := contains (str k) s.

(** The chain of [if]/[elif] on the generic keywords. *)
Definition generic_transaction_type (action : pystr) (quantity : option Decimal)
  : exc TransactionType :=
  if has "buy" action then Ok BUY
  else if has "sell" action then Ok SELL
  else if has "dividend" action then Ok DIVIDEND
  else if has "interest" action then Ok INTEREST
  else if has "deposit" action then Ok DEPOSIT
  else if has "withdrawal" action then Ok WITHDRAWAL
  else if has "transfer" action || has "journal" action then
    match quantity with
    | Some q =>
        (neg <- dec_lt_zero q ;;
         Ok (if neg : bool then TRANSFER_OUT else TRANSFER_IN))%py
    | None => Ok TRANSFER_IN
    end
  else if has "fee" action then Ok FEE
  else if has "split" action then Ok SPLIT
  else Ok OTHER.

Definition standardize_option_transaction_type (mappings : Mappings)
    (action_str : pystr) (is_option : bool) (quantity : option Decimal)
    (broker : option pystr) : exc TransactionType :=
  let action := strip (lower action_str) in
  (mapped_type <- get_transaction_type mappings action broker quantity ;;
   match mapped_type with
   | Some t => Ok t
   | None =>
       match scan_bucket option_action_mapping action with
       | Some t => Ok t
       | None =>
           if is_option && (has "buy" action || has "purchase" action)
           then Ok BUY_TO_OPEN
           else if is_option && has "sell" action then Ok SELL_TO_CLOSE
           else generic_transaction_type action quantity
       end
   end)%py.

(** [try: c except (E1, E2, ...): h]. *)
Definition try_except_in {A} (c : exc A) (Es : list exn) (h : exc A)
  : exc A :=
  match c with
  | Ok a => Ok a
  | Raise e => if existsb (exn_isa e) Es then h else Raise e
  end.

(** [d / 1000].  The quotient of a finite decimal by a power of ten is
    exact; its exponent is brought back towards the dividend's while the
    coefficient ends in zero.  For coefficients within the context
    precision (28 digits by default), as the eight-digit strikes are, no
    rounding applies. *)
Fixpoint drop_zeros (n : nat) (c : N) (e : Z) : N * Z :=
  match n with
  | O => (c, e)
  | S n' => if c mod 10 =? 0 then drop_zeros n' (c / 10) (e + 1)%Z else (c, e)
  end.

Definition Decimal_div_1000 (d : Decimal) : exc Decimal :=
  match d with
  | DFinite neg c e =>
      if c =? 0 then Ok (DFinite neg 0 e)
      else let '(c', e') := drop_zeros 3 c (e - 3)%Z in Ok (DFinite neg c' e')
  | DInfinity neg => Ok (DInfinity neg)
  | DNaN neg false p => Ok (DNaN neg false p)
  | DNaN _ true _ => Raise InvalidOperation
  end.

(* ===================================================================== *)
(** * parsers.py: parse_option_details *)
(* ===================================================================== *)

Record OptionDetails := mkOptionDetails {
  is_option : bool;
  ticker : pystr;
  option_type : option OptionType;
  expiration_date : option date;
  strike_price : option Decimal
}.

Definition set_is_option (v : bool) (r : OptionDetails) : OptionDetails :=
  mkOptionDetails v (ticker r) (option_type r) (expiration_date r) (strike_price r).
Definition set_ticker (v : pystr) (r : OptionDetails) : OptionDetails :=
  mkOptionDetails (is_option r) v (option_type r) (expiration_date r) (strike_price r).
Definition set_option_type (v : option OptionType) (r : OptionDetails) : OptionDetails :=
  mkOptionDetails (is_option r) (ticker r) v (expiration_date r) (strike_price r).
Definition set_expiration_date (v : option date) (r : OptionDetails) : OptionDetails :=
  mkOptionDetails (is_option r) (ticker r) (option_type r) v (strike_price r).
Definition set_strike_price (v : option Decimal) (r : OptionDetails) : OptionDetails :=
  mkOptionDetails (is_option r) (ticker r) (option_type r) (expiration_date r) v.

(** [s[a:b]] *)
Definition slice (s : pystr) (a b : nat) : pystr := firstn (b - a) (skipn a s).

Definition is_C_or_P (c : char) : bool := (c =? 67) || (c =? 80).

(** [^([A-Z]+)([0-9]{6})([CP])([0-9]{8})$] *)
Definition occ_pattern : list Re.matcher :=
  [ Re.plus is_upper; Re.rep is_digit 6 6; Re.cls is_C_or_P;
    Re.rep is_digit 8 8; Re.at_end ].

(** The branch taken on a match of the OCC pattern. *)
Definition parse_occ (m : list pystr * pystr) (result : OptionDetails)
  : exc OptionDetails :=
  let result := set_is_option true result in
  let ticker := Re.group 0 m in
  let date_str := Re.group 1 m in
  let option_type_str := Re.group 2 m in
  let strike_str := Re.group 3 m in
  (result <-
     try_except
       (let year := 2000 + py_int (slice date_str 0 2) in
        let month := py_int (slice date_str 2 4) in
        let day := py_int (slice date_str 4 6) in
        d <- date_new year month day ;;
        Ok (set_expiration_date (Some d) result))
       ValueError (Ok result) ;;
   let result :=
     if str_eqb option_type_str (str "C") then set_option_type (Some CALL) result
     else if str_eqb option_type_str (str "P") then set_option_type (Some PUT) result
     else result in
   result <-
     try_except_in
       (d <- Decimal_of_str strike_str ;;
        q <- Decimal_div_1000 d ;;
        Ok (set_strike_price (Some q) result))
       [ValueError; InvalidOperation] (Ok result) ;;
   Ok (set_ticker ticker result))%py.

Definition option_indicators : list pystr :=
  [str "call"; str "put"; str "exp"; str "$"; str "strike"].

Definition is_upper_or_space (c : char) : bool := is_upper c || is_space c.

(** [^(?:CALL|PUT)\s+([A-Z\s]+)\s]; the ticker is segment 2. *)
Definition ticker_pattern : list Re.matcher :=
  [ Re.alt (Re.lit (str "CALL")) (Re.lit (str "PUT")); Re.plus is_space;
    Re.plus is_upper_or_space; Re.cls is_space ].

(** [[0-9]+(?:\.[0-9]+)?] *)
Definition re_number : Re.matcher :=
  Re.seq (Re.plus is_digit)
         (Re.opt (Re.seq (Re.chr DecimalSyntax.chr_dot) (Re.plus is_digit))).

(** [price_patterns], each with the index of its capturing segment. *)
Definition price_patterns : list (list Re.matcher * nat) :=
  [ ([Re.chr chr_dollar; re_number], 1%nat);
    ([re_number; Re.star is_space;
      Re.alt (Re.lit (str "strike"))
             (Re.alt (Re.lit (str "put")) (Re.lit (str "call")))], 0%nat);
    ([re_number], 0%nat) ].

(** [[0-9]{1,2}/[0-9]{1,2}/(?:[0-9]{2}|[0-9]{4})] *)
Definition re_short_date : Re.matcher :=
  Re.seq (Re.rep is_digit 1 2) (Re.seq (Re.chr chr_slash)
    (Re.seq (Re.rep is_digit 1 2) (Re.seq (Re.chr chr_slash)
      (Re.alt (Re.rep is_digit 2 2) (Re.rep is_digit 4 4))))).

(** [date_patterns], searched with [re.IGNORECASE]. *)
Definition date_patterns : list (list Re.matcher * nat) :=
  [ ([Re.lit_ci (str "exp"); Re.plus is_space; re_short_date], 2%nat);
    ([re_short_date], 0%nat) ].

(** [for pattern in price_patterns: ...] *)
Fixpoint strike_from (patterns : list (list Re.matcher * nat))
    (description : pystr) (result : OptionDetails) : exc OptionDetails :=
  match patterns with
  | [] => Ok result
  | (pattern, i) :: patterns' =>
      match Re.search pattern description with
      | Some price_match =>
          try_except_in
            (d <- Decimal_of_str (Re.group i price_match) ;;
             Ok (set_strike_price (Some d) result))%py      (* break *)
            [ValueError; InvalidOperation]
            (strike_from patterns' description result)      (* pass *)
      | None => strike_from patterns' description result
      end
  end.

(** [for pattern in date_patterns: ...] *)
Fixpoint expiration_from (patterns : list (list Re.matcher * nat))
    (description : pystr) (result : OptionDetails) : exc OptionDetails :=
  match patterns with
  | [] => Ok result
  | (pattern, i) :: patterns' =>
      match Re.search pattern description with
      | Some date_match =>
          let date_str := Re.group i date_match in
          try_except
            (v <- parse_date date_str ;;
             Ok (set_expiration_date v result))%py          (* break *)
            ValueError
            (expiration_from patterns' description result)  (* pass *)
      | None => expiration_from patterns' description result
      end
  end.

(** The block under [if description:]. *)
Definition from_description (symbol description : pystr)
    (result : OptionDetails) : exc OptionDetails :=
  if existsb (fun indicator => contains indicator (lower description))
             option_indicators
  then
    let result := set_is_option true result in
    let result :=
      if negb (nonempty symbol)
      then match Re.match_ ticker_pattern description with
           | Some ticker_match =>
               set_ticker (strip (Re.group 2 ticker_match)) result
           | None => result
           end
      else result in
    let result :=
      if has "call" (lower description) then set_option_type (Some CALL) result
      else if has "put" (lower description) then set_option_type (Some PUT) result
      else result in
    (result <- strike_from price_patterns description result ;;
     expiration_from date_patterns description result)%py
  else Ok result.

Definition is_none {A} (o : option A) : bool :=
  match o with None => true | Some _ => false end.

(** [not result['strike_price']] *)
Definition strike_unset (r : OptionDetails) : bool :=
  match strike_price r with
  | None => true
  | Some d => negb (dec_truthy d)
  end.

Definition is_some {A} (o : option A) : bool := negb (is_none o).

(** One round of [for part in parts[1:]: ...]. *)
Definition scan_part (part : pystr) (result : OptionDetails)
  : exc OptionDetails :=
  (date_val <- parse_date part ;;
   if is_some date_val && is_none (expiration_date result)
   then Ok (set_expiration_date date_val result)             (* continue *)
   else
     taken <-
       try_except_in
         (let price_str :=
            replace [chr_comma] [] (replace [chr_dollar] [] part) in
          price_val <- Decimal_of_str price_str ;;
          if strike_unset result
          then Ok (Some (set_strike_price (Some price_val) result))
          else Ok None)
         [ValueError; InvalidOperation] (Ok None) ;;
     match taken with
     | Some result' => Ok result'                            (* continue *)
     | None =>
         if str_in (upper part) [str "C"; str "CALL"]
            && is_none (option_type result)
         then Ok (set_option_type (Some CALL) result)
         else if str_in (upper part) [str "P"; str "PUT"]
                 && is_none (option_type result)
         then Ok (set_option_type (Some PUT) result)
         else Ok result
     end)%py.

Fixpoint scan_parts (parts : list pystr) (result : OptionDetails)
  : exc OptionDetails :=
  match parts with
  | [] => Ok result
  | part :: parts' =>
      (result <- scan_part part result ;; scan_parts parts' result)%py
  end.

(** The block under [if ' ' in symbol:]. *)
Definition from_spaced_symbol (symbol : pystr) (result : OptionDetails)
  : exc OptionDetails :=
  if contains (str " ") symbol
  then
    let parts := split symbol in
    if (3 <=? List.length parts)%nat
    then
      let result := set_ticker (hd [] parts) result in
      let result := set_is_option true result in
      scan_parts (tl parts) result
    else Ok result
  else Ok result.

(** [if result['is_option'] and not result['option_type']: ... = CALL] *)
Definition default_option_type (result : OptionDetails) : OptionDetails :=
  if is_option result && is_none (option_type result)
  then set_option_type (Some CALL) result
  else result.

(** [description] and its truth value: neither [None] nor empty. *)
Definition truthy_str (o : option pystr) : bool :=
  match o with
  | Some s => nonempty s
  | None => false
  end.

(** The steps after the OCC attempt and before the default. *)
Definition option_details_steps (symbol : pystr) (description : option pystr)
    (result : OptionDetails) : exc OptionDetails :=
  (result <-
     match description with
     | Some d => if nonempty d then from_description symbol d result else Ok result
     | None => Ok result
     end ;;
   from_spaced_symbol symbol result)%py.

Definition parse_option_details (symbol : pystr) (description : option pystr)
  : exc OptionDetails :=
  let result := mkOptionDetails false symbol None None None in
  if negb (nonempty symbol) && negb (truthy_str description)
  then Ok result
  else
    match Re.match_ occ_pattern symbol with
    | Some occ_match => parse_occ occ_match result
    | None =>
        (result <- option_details_steps symbol description result ;;
         Ok (default_option_type result))%py
    end.

(* ===================================================================== *)
(** * The library functions the importer calls *)
(* ===================================================================== *)

(** What the embedding takes from Python's libraries without modelling it:
    decoded JSON values with [json.loads], their truth value and whether
    they are a [dict]; the arithmetic of [Decimal] under the ambient
    context, which may round and may raise; and [str] of a [Decimal] and
    of a decoded JSON value. *)
Class Runtime := {
  JSON : Type;
  json_loads : pystr -> exc JSON;
  json_truthy : JSON -> bool;
  json_is_dict : JSON -> bool;
  json_str : JSON -> pystr;
  dec_mul : Decimal -> Decimal -> exc Decimal;
  dec_add : Decimal -> Decimal -> exc Decimal;
  dec_sub : Decimal -> Decimal -> exc Decimal;
  dec_str : Decimal -> pystr
}.

Section Importer.

Context {rt : Runtime}.

(** The values a staged transaction holds. *)
Inductive pyval :=
| VNone
| VStr (s : pystr)
| VInt (n : Z)
| VDec (d : Decimal)
| VDate (d : date)
| VTType (t : TransactionType)
| VIType (t : InstrumentType)
| VOType (t : OptionType)
| VJson (j : JSON)
| VList (l : list pystr)
| VDict (r : dict pystr).

(** [bool(v)] *)
Definition truthy (v : pyval) : bool :=
  match v with
  | VNone => false
  | VStr s => nonempty s
  | VInt n => negb (n =? 0)%Z
  | VDec d => dec_truthy d
  | VDate _ | VTType _ | VIType _ | VOType _ => true
  | VJson j => json_truthy j
  | VList l => match l with [] => false | _ => true end
  | VDict r => match r with [] => false | _ => true end
  end.

Definition is_ttype (v : pyval) (t : TransactionType) : bool :=
  match v with VTType t' => ttype_eqb t' t | _ => false end.

Definition is_itype (v : pyval) (t : InstrumentType) : bool :=
  match v with VIType t' => itype_eqb t' t | _ => false end.

(** [v in [t1, t2, ...]] for transaction types. *)
Definition ttype_in (v : pyval) (ts : list TransactionType) : bool :=
  existsb (is_ttype v) ts.

(** A value that is [None] or a [Decimal], as an optional [Decimal]. *)
Definition as_decimal (v : pyval) : option Decimal :=
  match v with VDec d => Some d | _ => None end.

Definition of_decimal (o : option Decimal) : pyval :=
  match o with Some d => VDec d | None => VNone end.

Definition of_date (o : option date) : pyval :=
  match o with Some d => VDate d | None => VNone end.

Definition of_option_type (o : option OptionType) : pyval :=
  match o with Some t => VOType t | None => VNone end.

(** A staged transaction: a [dict] from field names to values. *)
Definition Transaction := dict pyval.

(** [t.get(k)] *)
Definition tx_get (k : string) (t : Transaction) : pyval :=
  match dict_get (str k) t with Some v => v | None => VNone end.

(** [k in t] *)
Definition tx_has (k : string) (t : Transaction) : bool := dict_has (str k) t.

(** [t[k] = v] *)
Definition tx_set (k : string) (v : pyval) (t : Transaction) : Transaction :=
  dict_set (str k) v t.

Definition list_of (k : string) (t : Transaction) : list pystr :=
  match dict_get (str k) t with Some (VList l) => l | _ => [] end.

Definition errors_of (t : Transaction) : list pystr := list_of "errors" t.
Definition warnings_of (t : Transaction) : list pystr := list_of "warnings" t.

(** [t['errors'].append(msg)] *)
Definition append_error (msg : pystr) (t : Transaction) : Transaction :=
  tx_set "errors" (VList (errors_of t ++ [msg])) t.

Definition append_warning (msg : pystr) (t : Transaction) : Transaction :=
  tx_set "warnings" (VList (warnings_of t ++ [msg])) t.

(* ===================================================================== *)
(** * parsers.py: parse_json, calculate_amount *)
(* ===================================================================== *)

Definition parse_json (json_str : pystr) : exc (option JSON) :=
  if negb (nonempty json_str) || str_eqb (strip json_str) []
  then Ok None
  else try_except (j <- json_loads json_str ;; Ok (Some j))%py
                  JSONDecodeError (Ok None).

Definition calculate_amount (quantity price fees : option Decimal)
    (action : pystr) : exc (option Decimal) :=
  match quantity, price with
  | Some quantity, Some price =>
      if str_in action [str "buy"; str "sell"]
      then
        (amount <- dec_mul quantity price ;;
         amount <-
           match fees with
           | Some fees =>
               if str_eqb action (str "buy")
               then dec_add amount fees
               else dec_sub amount fees
           | None => Ok amount
           end ;;
         Ok (Some amount))%py
      else Ok None
  | _, _ => Ok None
  end.

(* ===================================================================== *)
(** * csv_import.py: one row of import_transactions_from_csv *)
(* ===================================================================== *)

(** A row of [csv.DictReader] and the column mappings: header -> text and
    field -> header.  The rows are those of lines with one cell for every
    header and no more: [DictReader] fills a shorter line with [None] and
    collects the surplus of a longer one under the key [None], and such
    lines are outside the embedding. *)
Definition Row := dict pystr.
Definition ColumnMappings := dict pystr.

(** [col = column_mappings.get(field)] followed by the test
    [col and col in row]: the text [row[col]] when the test holds. *)
Definition column_value (column_mappings : ColumnMappings) (row : Row)
    (field : string) : option pystr :=
  match dict_get (str field) column_mappings with
  | Some col => if nonempty col then dict_get col row else None
  | None => None
  end.

Definition cat (a : string) (b : pystr) : pystr := (str a ++ b)%list.

(** [s.split(sep)] for a one-character separator. *)
Fixpoint split_on (sep : char) (cur : pystr) (s : pystr) : list pystr :=
  match s with
  | [] => [rev cur]
  | c :: r =>
      if c =? sep then rev cur :: split_on sep [] r
      else split_on sep (c :: cur) r
  end.

(** [account_name.split('(')[-1].split(')')[0]] *)
Definition broker_of (account_name : pystr) : pystr :=
  hd [] (split_on 41 [] (last (split_on 40 [] account_name) [])).

Definition action_option_indicators : list pystr :=
  [ str "call"; str "put"; str "option"; str "bto"; str "sto"; str "btc";
    str "stc"; str "exercise"; str "assign" ].

Definition step_date (cm : ColumnMappings) (row : Row) (t : Transaction)
  : exc Transaction :=
  match column_value cm row "date" with
  | Some v =>
      (trans_date <- parse_date v ;;
       match trans_date with
       | Some d => Ok (tx_set "transaction_date" (VDate d) t)
       | None => Ok (append_error (cat "Invalid date format: " v) t)
       end)%py
  | None => Ok (append_error (str "Date field is required but not mapped") t)
  end.

Definition step_action (mappings : Mappings) (cm : ColumnMappings) (row : Row)
    (t : Transaction) : exc Transaction :=
  match column_value cm row "action" with
  | Some v =>
      let original_action := strip v in
      let action := lower original_action in
      let is_option_transaction :=
        existsb (fun indicator => contains indicator action)
                action_option_indicators
        || is_itype (tx_get "instrument_type" t) OPTION in
      let t :=
        if is_option_transaction
        then tx_set "instrument_type" (VIType OPTION) t else t in
      (* for expired options, set price and amount to zero *)
      let t :=
        if has "expir" action || has "worthless" action
        then tx_set "amount" (VDec Decimal_zero)
               (tx_set "price" (VDec Decimal_zero) t)
        else t in
      (t <-
         match column_value cm row "quantity" with
         | Some q => (d <- parse_decimal q ;;
                      Ok (tx_set "quantity" (of_decimal d) t))
         | None => Ok t
         end ;;
       let broker :=
         match column_value cm row "account_name" with
         | Some a =>
             if nonempty (strip a)
             then
               let account_name := strip a in
               if has "(" account_name && has ")" account_name
               then Some (broker_of account_name) else None
             else None
         | None => None
         end in
       try_except_all
         (ty <- standardize_option_transaction_type mappings action
                  is_option_transaction (as_decimal (tx_get "quantity" t))
                  broker ;;
          Ok (tx_set "transaction_type" (VTType ty) t))
         (Ok (tx_set "transaction_type_str" (VStr original_action)
                (append_error
                   (cat "Could not determine transaction type: " original_action)
                   t))))%py
  | None => Ok (append_error (str "Action field is required but not mapped") t)
  end.

Definition step_symbol (cm : ColumnMappings) (row : Row) (t : Transaction)
  : exc Transaction :=
  let symbol :=
    match column_value cm row "symbol" with
    | Some v => upper (strip v)
    | None => []
    end in
  let description :=
    match column_value cm row "notes" with
    | Some v => strip v
    | None => []
    end in
  let t := tx_set "symbol" (VStr symbol) t in
  if nonempty symbol || nonempty description
  then
    (option_details <- parse_option_details symbol (Some description) ;;
     if is_option option_details
     then
       let t := tx_set "instrument_type" (VIType OPTION) t in
       let t := tx_set "symbol" (VStr (ticker option_details)) t in
       let t := tx_set "option_type"
                  (of_option_type (option_type option_details)) t in
       let t := tx_set "expiration_date"
                  (of_date (expiration_date option_details)) t in
       let t := tx_set "strike_price"
                  (of_decimal (strike_price option_details)) t in
       let t := tx_set "original_symbol" (VStr symbol) t in
       Ok (if nonempty description
           then tx_set "notes" (VStr description) t else t)
     else Ok t)%py
  else Ok t.

Definition step_symbol_warning (t : Transaction) : Transaction :=
  if negb (truthy (tx_get "symbol" t)) && tx_has "transaction_type" t
  then
    if negb (ttype_in (tx_get "transaction_type" t)
               [DEPOSIT; WITHDRAWAL; FEE; INTEREST])
    then append_warning
           (str "Symbol is recommended for this transaction type but not mapped") t
    else t
  else t.

Definition step_instrument_type (cm : ColumnMappings) (row : Row)
    (t : Transaction) : exc Transaction :=
  match column_value cm row "instrument_type" with
  | Some v =>
      let instr_type := strip (lower v) in
      if nonempty instr_type
      then
        try_except
          (it <- InstrumentType_of_value instr_type ;;
           Ok (tx_set "instrument_type" (VIType it) t))%py
          ValueError
          (Ok (tx_set "instrument_type_str" (VStr instr_type)
                 (append_error (cat "Invalid instrument type: " instr_type) t)))
      else Ok t
  | None =>
      if truthy (tx_get "symbol" t)
      then Ok (append_warning
                 (str "Instrument type not provided, defaulting to 'stock'")
                 (tx_set "instrument_type" (VIType STOCK) t))
      else Ok t
  end.

Definition step_account_name (cm : ColumnMappings) (row : Row)
    (t : Transaction) : Transaction :=
  match column_value cm row "account_name" with
  | Some v =>
      let t := tx_set "account_name" (VStr (strip v)) t in
      if negb (nonempty (strip v))
      then append_error (str "Account name is empty") t
      else t
  | None => append_error (str "Account name is required but not mapped") t
  end.

(** [if 'quantity' not in transaction and column_mappings.get('quantity') in
    row] *)
Definition step_quantity (cm : ColumnMappings) (row : Row) (t : Transaction)
  : exc Transaction :=
  if negb (tx_has "quantity" t)
  then
    match dict_get (str "quantity") cm with
    | Some col =>
        match dict_get col row with
        | Some q => (d <- parse_decimal q ;;
                     Ok (tx_set "quantity" (of_decimal d) t))%py
        | None => Ok t
        end
    | None => Ok t
    end
  else Ok t.

Definition step_price (cm : ColumnMappings) (row : Row) (t : Transaction)
  : exc Transaction :=
  match column_value cm row "price" with
  | Some p => (d <- parse_decimal p ;; Ok (tx_set "price" (of_decimal d) t))%py
  | None => Ok t
  end.

Definition step_fees (cm : ColumnMappings) (row : Row) (t : Transaction)
  : exc Transaction :=
  match column_value cm row "fees" with
  | Some f =>
      (d <- parse_decimal (if nonempty f then f else str "0") ;;
       Ok (tx_set "fees" (of_decimal d) t))%py
  | None => Ok (tx_set "fees" (VDec Decimal_zero) t)
  end.

Definition step_journal_details (cm : ColumnMappings) (row : Row)
    (t : Transaction) : exc Transaction :=
  match column_value cm row "journal_details" with
  | Some v =>
      if nonempty (strip v)
      then
        (journal_details <- parse_json v ;;
         match journal_details with
         | Some j =>
             if json_truthy j
             then Ok (tx_set "journal_details" (VJson j) t)
             else Ok (tx_set "journal_details_str" (VStr v)
                        (append_error (cat "Invalid JSON in journal_details: " v) t))
         | None =>
             Ok (tx_set "journal_details_str" (VStr v)
                   (append_error (cat "Invalid JSON in journal_details: " v) t))
         end)%py
      else Ok t
  | None => Ok t
  end.

Definition step_notes (cm : ColumnMappings) (row : Row) (t : Transaction)
  : Transaction :=
  match column_value cm row "notes" with
  | Some v => tx_set "notes" (VStr (strip v)) t
  | None => t
  end.

(** The explicit amount of a mapped column that parses. *)
Definition step_explicit_amount (cm : ColumnMappings) (row : Row)
    (t : Transaction) : exc Transaction :=
  match column_value cm row "amount" with
  | Some a =>
      (explicit_amount <- parse_decimal a ;;
       match explicit_amount with
       | Some d => Ok (tx_set "amount" (VDec d) t)
       | None => Ok t
       end)%py
  | None => Ok t
  end.

(** [transaction['transaction_type'].value] *)
Definition ttype_value_of (v : pyval) : exc pystr :=
  match v with
  | VTType t => Ok (ttype_value t)
  | _ => Raise AttributeError
  end.

(** [if 'amount' not in transaction and 'transaction_type' in transaction] *)
Definition step_calculated_amount (t : Transaction) : exc Transaction :=
  if negb (tx_has "amount" t) && tx_has "transaction_type" t
  then
    (action <- ttype_value_of (tx_get "transaction_type" t) ;;
     calculated_amount <-
       calculate_amount (as_decimal (tx_get "quantity" t))
                        (as_decimal (tx_get "price" t))
                        (as_decimal (tx_get "fees" t)) action ;;
     match calculated_amount with
     | Some d => Ok (tx_set "amount" (VDec d) t)
     | None => Ok t
     end)%py
  else Ok t.

Definition is_None (v : pyval) : bool :=
  match v with VNone => true | _ => false end.

Definition when (b : bool) (f : Transaction -> Transaction) (t : Transaction)
  : Transaction := if b then f t else t.

(** The required fields of the transaction type. *)
Definition step_required_fields (t : Transaction) : Transaction :=
  if tx_has "transaction_type" t
  then
    let ttype := tx_get "transaction_type" t in
    let t :=
      if ttype_in ttype [BUY; SELL]
      then
        let t := when (is_None (tx_get "quantity" t))
                   (append_error
                      (str "Quantity is required for buy/sell transactions")) t in
        when (is_None (tx_get "price" t))
          (append_error (str "Price is required for buy/sell transactions")) t
      else if ttype_in ttype [DEPOSIT; WITHDRAWAL; FEE]
      then when (is_None (tx_get "amount" t))
             (append_error (str "Amount is required for cash transactions")) t
      else t in
    when (negb (tx_has "amount" t))
      (append_error (str "Cannot determine transaction amount")) t
  else t.

(** The transaction a row starts as. *)
Definition new_transaction (row_num : Z) (row : Row) : Transaction :=
  [ (str "row_num", VInt row_num); (str "errors", VList []);
    (str "warnings", VList []); (str "original", VDict row) ].

(** The body of the loop over the rows: one staged transaction per row. *)
Definition process_row (mappings : Mappings) (column_mappings : ColumnMappings)
    (row_num : Z) (row : Row) : exc Transaction :=
  let transaction := new_transaction row_num row in
  (t <- step_date column_mappings row transaction ;;
   t <- step_action mappings column_mappings row t ;;
   t <- step_symbol column_mappings row t ;;
   let t := step_symbol_warning t in
   t <- step_instrument_type column_mappings row t ;;
   let t := step_account_name column_mappings row t in
   t <- step_quantity column_mappings row t ;;
   t <- step_price column_mappings row t ;;
   t <- step_fees column_mappings row t ;;
   t <- step_journal_details column_mappings row t ;;
   let t := step_notes column_mappings row t in
   t <- step_explicit_amount column_mappings row t ;;
   t <- step_calculated_amount t ;;
   Ok (step_required_fields t))%py.

(** The rows of the file, numbered from 2. *)
Fixpoint process_rows (mappings : Mappings) (column_mappings : ColumnMappings)
    (row_num : Z) (rows : list Row) : exc (list Transaction) :=
  match rows with
  | [] => Ok []
  | row :: rows' =>
      (t <- process_row mappings column_mappings row_num row ;;
       ts <- process_rows mappings column_mappings (row_num + 1)%Z rows' ;;
       Ok (t :: ts))%py
  end.

(** What [open(filepath)] and [csv.DictReader] give: the headers and the
    rows of the file, or the exception of opening or reading it (a
    [FileNotFoundError] for a path without file). *)
Definition CsvFile : Type := exc (list pystr * list Row).

(** The two handlers around the body of [import_transactions_from_csv]:
    [except FileNotFoundError: raise FileNotFoundError(...)] and
    [except Exception as e: raise ValueError(...)]. *)
Definition import_handlers {A} (c : exc A) : exc A :=
  match c with
  | Ok a => Ok a
  | Raise e =>
      if exn_isa e FileNotFoundError then Raise FileNotFoundError
      else Raise ValueError
  end.

(** [import_transactions_from_csv(filepath)], without mappings: the headers
    and the first ten rows, for the preview. *)
Definition import_preview (file : CsvFile) : exc (list pystr * list Row) :=
  import_handlers
    (f <- file ;;
     Ok (fst f, firstn 10 (snd f)))%py.

(** [import_transactions_from_csv(filepath, column_mappings)]: a mapped
    column absent from the headers, and any exception of a row or of
    reading the file, end the import with a [ValueError]; a path without
    file ends it with a [FileNotFoundError]. *)
Definition import_transactions_from_csv (mappings : Mappings)
    (file : CsvFile) (column_mappings : ColumnMappings)
  : exc (list Transaction) :=
  import_handlers
    (f <- file ;;
     let headers := fst f in
     let rows := snd f in
     if forallb (fun kv => str_in (snd kv) headers) column_mappings
     then process_rows mappings column_mappings 2%Z rows
     else Raise ValueError)%py.

End Importer.

(* ===================================================================== *)
(** * table_model.py: TransactionTableModel *)
(* ===================================================================== *)

Section TableModel.

Context {rt : Runtime}.

(** The values the editors of the grid hand to [setData]: [None], a text, a
    date, a [Decimal], a decoded JSON value. *)
Inductive edit :=
| ENone
| EStr (s : pystr)
| EDate (d : date)
| EDec (d : Decimal)
| EJson (j : JSON).

Definition edit_value (v : edit) : pyval :=
  match v with
  | ENone => VNone
  | EStr s => VStr s
  | EDate d => VDate d
  | EDec d => VDec d
  | EJson j => VJson j
  end.

(** [str(value)], also what an f-string shows. *)
Definition edit_text (v : edit) : pystr :=
  match v with
  | ENone => str "None"
  | EStr s => s
  | EDate d => iso_string d
  | EDec d => dec_str d
  | EJson j => json_str j
  end.

(** [_add_error] *)
Definition add_error (error_message : pystr) (t : Transaction) : Transaction :=
  let t := if tx_has "errors" t then t else tx_set "errors" (VList []) t in
  if str_in error_message (errors_of t) then t
  else append_error error_message t.

(** [list.remove(x)]: the first occurrence. *)
Fixpoint list_remove (x : pystr) (l : list pystr) : list pystr :=
  match l with
  | [] => []
  | y :: l' => if str_eqb y x then l' else y :: list_remove x l'
  end.

(** [_remove_error] *)
Definition remove_error (error_message : pystr) (t : Transaction) : Transaction :=
  if tx_has "errors" t && str_in error_message (errors_of t)
  then
    let errors := list_remove error_message (errors_of t) in
    match errors with
    | [] => dict_del (str "errors") t
    | _ => tx_set "errors" (VList errors) t
    end
  else t.

(** [not data[k]] under the guard [k in data]; a missing key counts too. *)
Definition missing (k : string) (t : Transaction) : bool :=
  negb (tx_has k t) || negb (truthy (tx_get k t)).

(** The test on the account name; [strip] exists on texts only. *)
Definition account_name_missing (t : Transaction) : exc bool :=
  if missing "account_name" t then Ok true
  else match tx_get "account_name" t with
       | VStr s => Ok (str_eqb (strip s) [])
       | _ => Raise AttributeError
       end.

(** [_validate_row], the branch on the account name. *)
Definition check_account_name (no_account : bool) (data : Transaction)
  : Transaction :=
  if no_account
  then add_error (str "Account name is required") data
  else
    (* explicitly remove any account-related errors *)
    let errors_to_remove :=
      filter (fun error => has "account name" (lower error))
             (errors_of data) in
    fold_left (fun d error => remove_error error d) errors_to_remove data.

(** [_validate_row], the block under [if 'transaction_type' in data]. *)
Definition check_type_fields (data : Transaction) : Transaction :=
  if tx_has "transaction_type" data
  then
    let ttype := tx_get "transaction_type" data in
    let symbol_required := ttype_in ttype [BUY; SELL; DIVIDEND; SPLIT] in
    let data :=
      if symbol_required
      then
        let data := when (missing "symbol" data)
                      (add_error
                         (str "Symbol is required for this transaction type"))
                      data in
        when (missing "instrument_type" data)
          (add_error
             (str "Instrument type is required when symbol is provided")) data
      else data in
    let data :=
      if ttype_in ttype [BUY; SELL]
      then
        let data := when (negb (tx_has "quantity" data)
                          || is_None (tx_get "quantity" data))
                      (add_error
                         (str "Quantity is required for buy/sell transactions"))
                      data in
        when (negb (tx_has "price" data) || is_None (tx_get "price" data))
          (add_error (str "Price is required for buy/sell transactions")) data
      else data in
    when (negb (tx_has "amount" data) || is_None (tx_get "amount" data))
      (add_error (str "Amount is required for all transactions")) data
  else data.

(** [_validate_row] *)
Definition validate_row (data : Transaction) : exc Transaction :=
  (* clear existing errors *)
  let data := tx_set "errors" (VList []) data in
  let data := when (missing "transaction_date" data)
                (add_error (str "Date is required")) data in
  let data := when (missing "transaction_type" data)
                (add_error (str "Transaction type is required")) data in
  (no_account <- account_name_missing data ;;
   let data := check_account_name no_account data in
   let data := check_type_fields data in
   Ok data)%py.

Definition numeric_columns : list pystr :=
  [str "quantity"; str "price"; str "fees"; str "amount"].

(** The conversion of an edited value, per column; [inl t] is an edit that
    was refused ([return False]) and leaves [t], [inr t] goes on. *)
Definition convert_edit (column_name : pystr) (value : edit) (t : Transaction)
  : exc (Transaction + Transaction) :=
  if str_eqb column_name (str "transaction_date") then
    match value with
    | EDate d => Ok (inr (dict_set column_name (VDate d) t))
    | _ =>
        (parsed_date <- parse_date (edit_text value) ;;
         match parsed_date with
         | Some d => Ok (inr (dict_set column_name (VDate d) t))
         | None => Ok (inl t)
         end)%py
    end
  else if str_eqb column_name (str "transaction_type") then
    match value with
    | EStr s =>
        try_except
          (ty <- TransactionType_of_value s ;;
           Ok (inr (dict_set column_name (VTType ty) t)))%py
          ValueError
          (Ok (inl (add_error (cat "Invalid transaction type: " s)
                      (tx_set "transaction_type_str" (VStr s) t))))
    | _ => Ok (inr (dict_set column_name (edit_value value) t))
    end
  else if str_eqb column_name (str "instrument_type") then
    match value with
    | EStr s =>
        try_except
          (ty <- InstrumentType_of_value s ;;
           Ok (inr (dict_set column_name (VIType ty) t)))%py
          ValueError
          (Ok (inl (add_error (cat "Invalid instrument type: " s)
                      (tx_set "instrument_type_str" (VStr s) t))))
    | _ => Ok (inr (dict_set column_name (edit_value value) t))
    end
  else if str_in column_name numeric_columns then
    try_except_in
      match value with
      | ENone | EStr [] => Ok (inr (dict_set column_name VNone t))
      | EDec d => Ok (inr (dict_set column_name (VDec d) t))
      | EStr s =>
          (d <- Decimal_of_str s ;;
           Ok (inr (dict_set column_name (VDec d) t)))%py
      | EDate _ | EJson _ => Raise TypeError
      end
      [InvalidOperation; ValueError]
      (Ok (inl (add_error
                  (cat "Invalid number for "
                       (column_name ++ cat ": " (edit_text value))) t)))
  else if str_eqb column_name (str "journal_details") then
    match value with
    | ENone | EStr [] => Ok (inr (dict_set column_name VNone t))
    | EStr s =>
        try_except
          (j <- json_loads s ;; Ok (inr (dict_set column_name (VJson j) t)))%py
          JSONDecodeError
          (Ok (inl (add_error (cat "Invalid JSON: " s)
                      (tx_set "journal_details_str" (VStr s) t))))
    | EJson j =>
        if json_is_dict j
        then Ok (inr (dict_set column_name (VJson j) t))
        else Raise TypeError
    | EDate _ | EDec _ => Raise TypeError
    end
  else
    (* string columns (symbol, account_name, notes) *)
    Ok (inr (dict_set column_name (edit_value value) t)).

(** [# Recalculate amount if quantity, price, or fees changed] *)
Definition recalculate_amount (column_name : pystr) (t : Transaction)
  : exc Transaction :=
  if str_in column_name [str "quantity"; str "price"; str "fees"]
     && tx_has "transaction_type" t
  then
    let ttype := tx_get "transaction_type" t in
    if ttype_in ttype [BUY; SELL]
    then
      (action <- ttype_value_of ttype ;;
       calculated_amount <-
         calculate_amount (as_decimal (tx_get "quantity" t))
                          (as_decimal (tx_get "price" t))
                          (as_decimal (tx_get "fees" t)) action ;;
       match calculated_amount with
       | Some d => Ok (tx_set "amount" (VDec d) t)
       | None => Ok t
       end)%py
    else Ok t
  else Ok t.

(** [setData] on the row it addresses: the value returned and the row. *)
Definition setData_row (t : Transaction) (column_name : pystr) (value : edit)
  : exc (bool * Transaction) :=
  (c <- convert_edit column_name value t ;;
   match c with
   | inl t => Ok (false, t)
   | inr t =>
       t <- recalculate_amount column_name t ;;
       t <- validate_row t ;;
       Ok (true, t)
   end)%py.

Fixpoint list_set {A} (i : nat) (x : A) (l : list A) : list A :=
  match l, i with
  | [], _ => []
  | _ :: l', O => x :: l'
  | y :: l', S i' => y :: list_set i' x l'
  end.

(** [setData(index, value, Qt.EditRole)] with [index] at row [row] and the
    column named [column_name]; an invalid index returns [False].  An
    accepted edit ends with [self.dataChanged.emit(...)]: the slots
    connected to the signal, [dataChanged] here, run on the rows before the
    call returns. *)
Definition setData (dataChanged : list Transaction -> list Transaction)
    (data : list Transaction) (row : nat) (column_name : pystr)
    (value : edit) : exc (bool * list Transaction) :=
  match nth_error data row with
  | Some t =>
      (r <- setData_row t column_name value ;;
       let data := list_set row (snd r) data in
       Ok (fst r, if fst r then dataChanged data else data))%py
  | None => Ok (false, data)
  end.

(** [hasErrors] *)
Definition hasErrors (data : list Transaction) : bool :=
  existsb (fun row => truthy (tx_get "errors" row)) data.

(** review_window.py, [_on_data_changed]: once no row has errors, option
    expirations get price and amount zero. *)
Definition on_data_changed (data : list Transaction) : list Transaction :=
  if hasErrors data then data
  else map (fun transaction =>
              if is_ttype (tx_get "transaction_type" transaction) OPTION_EXPIRATION
              then tx_set "amount" (VDec Decimal_zero)
                     (tx_set "price" (VDec Decimal_zero) transaction)
              else transaction) data.

End TableModel.

(* ===================================================================== *)
(** * db.py: the storage and save_transactions *)
(* ===================================================================== *)

Section Database.

Context {rt : Runtime}.

Record Account := mkAccount {
  account_id : N;
  account_name : pystr
}.

(** A row of the table [symbols], with the values as they were given to
    the constructor.  The columns of the table are typed ([String(20)],
    [Numeric(20, 8)], ...): the record is what the database holds for
    values that these types store unchanged. *)
Record Symbol := mkSymbol {
  symbol_id : N;
  symbol_ticker : pyval;
  symbol_instrument_type : pyval;
  symbol_option_type : pyval;
  symbol_expiration_date : pyval;
  symbol_strike_price : pyval
}.

Record DbTransaction := mkDbTransaction {
  tr_account_id : N;
  tr_symbol_id : option N;
  tr_transaction_type : pyval;
  tr_transaction_date : pyval;
  tr_quantity : pyval;
  tr_price : pyval;
  tr_amount : pyval;
  tr_fees : pyval;
  tr_notes : pyval;
  tr_related_transaction_id : pyval
}.

(** The committed content of the database. *)
Record Storage := mkStorage {
  accounts : list Account;
  symbols : list Symbol;
  transactions : list DbTransaction
}.

(** What the database accepts when rows are sent to it: its unique keys,
    its [NOT NULL] columns, its column types. *)
Variable constraints : Storage -> bool.

(** A session: the committed storage, the storage as the open transaction
    sees it, and the objects added but not yet flushed. *)
Record Session := mkSession {
  committed : Storage;
  working : Storage;
  pending : list DbTransaction
}.

(** [SessionLocal()] *)
Definition begin (st : Storage) : Session := mkSession st st [].

(** [db.add(db_transaction)] *)
Definition add_transaction (tr : DbTransaction) (s : Session) : Session :=
  mkSession (committed s) (working s) (pending s ++ [tr]).

(** [db.flush()]: the pending objects go to the database, which may refuse
    them. *)
Definition flush (s : Session) : exc Session :=
  let w := mkStorage (accounts (working s)) (symbols (working s))
                     (transactions (working s) ++ pending s) in
  if constraints w then Ok (mkSession (committed s) w [])
  else Raise IntegrityError.

(** [db.commit()] *)
Definition commit (s : Session) : exc Storage :=
  (s <- flush s ;; Ok (working s))%py.

(** Equality of two decimals as numbers. *)
Definition dec_num_eqb (a b : Decimal) : bool :=
  match a, b with
  | DFinite n1 c1 e1, DFinite n2 c2 e2 =>
      if (c1 =? 0) || (c2 =? 0) then (c1 =? 0) && (c2 =? 0)
      else
        Bool.eqb n1 n2
        && let m := Z.min e1 e2 in
           (c1 * 10 ^ Z.to_N (e1 - m) =? c2 * 10 ^ Z.to_N (e2 - m))
  | DInfinity n1, DInfinity n2 => Bool.eqb n1 n2
  | _, _ => false
  end.

Definition date_eqb (a b : date) : bool :=
  (year a =? year b) && (month a =? month b) && (day a =? day b).

(** [column == value] in a filter: never true on [NULL]. *)
Definition sql_eq (a b : pyval) : bool :=
  match a, b with
  | VStr x, VStr y => str_eqb x y
  | VInt x, VInt y => (x =? y)%Z
  | VDec x, VDec y => dec_num_eqb x y
  | VDate x, VDate y => date_eqb x y
  | VTType x, VTType y => ttype_eqb x y
  | VIType x, VIType y => itype_eqb x y
  | VOType x, VOType y => otype_eqb x y
  | _, _ => false
  end.

(** [get_account_by_name] *)
Definition get_account_by_name (s : Session) (name : pyval) : option Account :=
  find (fun a => sql_eq (VStr (account_name a)) name) (accounts (working s)).

(** [get_or_create_symbol] *)
Definition get_or_create_symbol (s : Session)
    (ticker instrument_type option_type expiration_date strike_price : pyval)
  : exc (Symbol * Session) :=
  let is_opt := is_itype instrument_type OPTION in
  (os <-
     (if is_opt
      then
        if negb (truthy ticker) then Raise ValueError
        else
          (* a text as option type *)
          let option_type :=
            match option_type with
            | VStr o =>
                match OptionType_of_value (lower o) with
                | Ok t => VOType t
                | Raise _ => VOType CALL
                end
            | _ => option_type
            end in
          let option_type :=
            if negb (truthy option_type) then VOType CALL else option_type in
          (* a text as strike price *)
          strike_price <-
            match strike_price with
            | VStr p =>
                try_except_in
                  (d <- Decimal_of_str (replace [chr_dollar] [] p) ;; Ok (VDec d))
                  [InvalidOperation; ValueError] (Raise ValueError)
            | _ => Ok strike_price
            end ;;
          Ok (option_type, strike_price)
      else Ok (option_type, strike_price)) ;;
   let option_type := fst os in
   let strike_price := snd os in
   let query (sym : Symbol) : bool :=
     sql_eq (symbol_ticker sym) ticker
     && sql_eq (symbol_instrument_type sym) instrument_type
     && (if is_opt
         then sql_eq (symbol_option_type sym) option_type
              && (if truthy expiration_date
                  then sql_eq (symbol_expiration_date sym) expiration_date
                  else true)
              && (if truthy strike_price
                  then sql_eq (symbol_strike_price sym) strike_price
                  else true)
         else true) in
   match find query (symbols (working s)) with
   | Some symbol => Ok (symbol, s)
   | None =>
       let symbol :=
         mkSymbol (N.of_nat (List.length (symbols (working s))))
                  ticker instrument_type option_type expiration_date
                  strike_price in
       let s := mkSession (committed s)
                  (mkStorage (accounts (working s))
                             (symbols (working s) ++ [symbol])
                             (transactions (working s)))
                  (pending s) in
       s <- flush s ;;
       Ok (symbol, s)
   end)%py.

(** [transaction[k]] *)
Definition tx_index (k : string) (t : Transaction) : exc pyval :=
  match dict_get (str k) t with
  | Some v => Ok v
  | None => Raise KeyError
  end.

(** The record [save_transactions] builds for a row. *)
Definition db_transaction_of (account : Account) (symbol_id : option N)
    (transaction : Transaction) : exc DbTransaction :=
  (transaction_type <- tx_index "transaction_type" transaction ;;
   transaction_date <- tx_index "transaction_date" transaction ;;
   amount <- tx_index "amount" transaction ;;
   let fees :=
     if truthy (tx_get "fees" transaction) then tx_get "fees" transaction
     else VDec Decimal_zero in
   Ok (mkDbTransaction (account_id account) symbol_id transaction_type
         transaction_date (tx_get "quantity" transaction)
         (tx_get "price" transaction) amount fees
         (tx_get "notes" transaction)
         (if truthy (tx_get "related_transaction_id" transaction)
          then tx_get "related_transaction_id" transaction else VNone)))%py.

(** The body of the loop of [save_transactions]. *)
Definition save_one (s : Session) (transaction : Transaction) : exc Session :=
  if truthy (tx_get "errors" transaction) then Ok s          (* continue *)
  else
    (name <- tx_index "account_name" transaction ;;
     match get_account_by_name s name with
     | None => Raise ValueError                              (* Account not found *)
     | Some account =>
         resolved <-
           (if truthy (tx_get "symbol" transaction)
            then
              let instrument_type :=
                if tx_has "instrument_type" transaction
                then tx_get "instrument_type" transaction
                else VIType STOCK in
              let instrument_type :=
                if truthy (tx_get "option_type" transaction)
                   || truthy (tx_get "expiration_date" transaction)
                   || truthy (tx_get "strike_price" transaction)
                then VIType OPTION else instrument_type in
              try_except
                (r <- get_or_create_symbol s (tx_get "symbol" transaction)
                        instrument_type (tx_get "option_type" transaction)
                        (tx_get "expiration_date" transaction)
                        (tx_get "strike_price" transaction) ;;
                 Ok (Some (Some (symbol_id (fst r)), snd r)))
                ValueError (Ok None)                         (* continue *)
            else Ok (Some (None, s))) ;;
         match resolved with
         | None => Ok s
         | Some (symbol_id, s) =>
             db_transaction <- db_transaction_of account symbol_id transaction ;;
             Ok (add_transaction db_transaction s)
         end
     end)%py.

Fixpoint save_all (s : Session) (transactions : list Transaction) : exc Session :=
  match transactions with
  | [] => Ok s
  | transaction :: rest => (s <- save_one s transaction ;; save_all s rest)%py
  end.

(** [save_transactions]: the value returned or the exception raised, and
    the storage afterwards; [except Exception: db.rollback(); raise]. *)
Definition save_transactions (st : Storage) (transactions : list Transaction)
  : exc bool * Storage :=
  match (s <- save_all (begin st) transactions ;; commit s)%py with
  | Ok st' => (Ok true, st')
  | Raise e => (Raise e, st)
  end.

End Database.

(* ===================================================================== *)
(** * column_mapper.py: ColumnMapperDialog *)
(* ===================================================================== *)

Module ColumnMapper.

Local Open Scope string_scope.

Definition strs (l : list string) : list pystr := map str l.

Definition common_patterns : list (pystr * list pystr) :=
  [ (str "date", strs ["date"; "transaction date"; "trade date";
                       "activity date"; "run date"; "open date"]);
    (str "symbol", strs ["symbol"; "ticker"; "security"; "security symbol"]);
    (str "action", strs ["action"; "activity"; "transaction type"; "type";
                         "description"]);
    (str "quantity", strs ["quantity"; "qty"; "shares"; "amount"]);
    (str "price", strs ["price"; "price ($)"; "price/share"; "share price"]);
    (str "amount", strs ["amount"; "amount ($)"; "value"; "total";
                         "net amount"; "proceeds"; "total amount"]);
    (str "fees", strs ["fees"; "commission"; "fees & comm"; "commission ($)";
                       "fees ($)"]);
    (str "account_name", strs ["account"; "account name"; "acct"]);
    (str "instrument_type", strs ["instrument type"; "security type";
                                  "asset class"; "type"]);
    (str "notes", strs ["notes"; "description"; "comments"; "memo";
                        "memo_desc"]) ].

Definition description_fields : list pystr :=
  strs ["description"; "transaction description"; "security description";
        "details"].

(** [any(pattern in text for pattern in patterns)] *)
Definition matches_any (patterns : list pystr) (text : pystr) : bool :=
  existsb (fun pattern => contains pattern text) patterns.

(** The first loop: a description-like header for [notes]. *)
Fixpoint description_pass (headers : list pystr) (m : ColumnMappings)
  : ColumnMappings :=
  match headers with
  | [] => m
  | header :: headers' =>
      if matches_any description_fields (lower header)
      then
        if negb (dict_has (str "notes") m)
        then dict_set (str "notes") header m                 (* break *)
        else description_pass headers' m
      else description_pass headers' m
  end.

(** [for app_field, patterns in common_patterns.items(): ...] for one
    header. *)
Fixpoint assign_field (patterns : list (pystr * list pystr))
    (header_lower header : pystr) (m : ColumnMappings) : ColumnMappings :=
  match patterns with
  | [] => m
  | (app_field, pats) :: patterns' =>
      if matches_any pats header_lower
      then
        if negb (dict_has app_field m)
        then dict_set app_field header m                     (* break *)
        else assign_field patterns' header_lower header m
      else assign_field patterns' header_lower header m
  end.

(** Headers that look like metadata or instructions are skipped. *)
Definition skipped (header_lower : pystr) : bool :=
  startswith [34] header_lower || (50 <? List.length header_lower)%nat.

Definition pattern_step (m : ColumnMappings) (header : pystr) : ColumnMappings :=
  let header_lower := lower header in
  if skipped header_lower then m
  else assign_field common_patterns header_lower header m.

(** The second loop: the headers against the patterns of the fields. *)
Definition pattern_pass (headers : list pystr) (m : ColumnMappings)
  : ColumnMappings :=
  fold_left pattern_step headers m.

(** [row.get(header, '')] *)
Definition cell (row : Row) (header : pystr) : pystr :=
  match dict_get header row with Some v => v | None => [] end.

Definition short_word (v : pystr) : bool :=
  nonempty v && isalpha v && (1 <=? List.length v)%nat
  && (List.length v <=? 5)%nat.

(** The first header, not yet the value of a mapping, whose preview values
    satisfy [test]. *)
Fixpoint first_unmapped (test : pystr -> bool) (preview : list Row)
    (headers : list pystr) (m : ColumnMappings) : option pystr :=
  match headers with
  | [] => None
  | header :: headers' =>
      if str_in header (dict_values m)
      then first_unmapped test preview headers' m            (* continue *)
      else if existsb (fun row => test (cell row header)) preview
      then Some header                                       (* break *)
      else first_unmapped test preview headers' m
  end.

(** [if 'action' in mappings and 'symbol' not in mappings: ...] *)
Definition infer_symbol (headers : list pystr) (preview : list Row)
    (m : ColumnMappings) : ColumnMappings :=
  if dict_has (str "action") m && negb (dict_has (str "symbol") m)
  then
    match first_unmapped (fun v => short_word (upper (strip v)))
                         preview headers m with
    | Some header => dict_set (str "symbol") header m
    | None => m
    end
  else m.

Definition common_actions : list pystr :=
  strs ["buy"; "sell"; "dividend"; "deposit"; "withdrawal"].

(** [if 'date' in mappings and 'action' not in mappings: ...] *)
Definition infer_action (headers : list pystr) (preview : list Row)
    (m : ColumnMappings) : ColumnMappings :=
  if dict_has (str "date") m && negb (dict_has (str "action") m)
  then
    match first_unmapped (fun v => matches_any common_actions (lower v))
                         preview headers m with
    | Some header => dict_set (str "action") header m
    | None => m
    end
  else m.

(** [all(h in self.csv_headers for h in signature)] *)
Definition has_headers (headers : list pystr) (signature : list string) : bool :=
  forallb (fun h => str_in (str h) headers) signature.

Definition pairs (l : list (string * string)) : ColumnMappings :=
  map (fun kv => (str (fst kv), str (snd kv))) l.

Definition fidelity (headers : list pystr) (m : ColumnMappings) : ColumnMappings :=
  if has_headers headers ["Run Date"; "Action"; "Symbol"; "Amount ($)"]
  then
    let m := dict_update m
               (pairs [("date", "Run Date"); ("action", "Action");
                       ("symbol", "Symbol"); ("amount", "Amount ($)");
                       ("quantity", "Quantity"); ("price", "Price ($)");
                       ("fees", "Fees ($)")]) in
    match dict_get (str "account_name") m with
    | Some (_ :: _) => m
    | _ => dict_set (str "account_name") (str "Description") m
    end
  else m.

Definition schwab (headers : list pystr) (m : ColumnMappings) : ColumnMappings :=
  if has_headers headers
       ["Date"; "Symbol"; "Description"; "Quantity"; "Price"; "Amount"]
  then
    let m := dict_update m
               (pairs [("date", "Date"); ("symbol", "Symbol");
                       ("quantity", "Quantity"); ("price", "Price");
                       ("amount", "Amount")]) in
    dict_set (str "action") (str "Description") m
  else m.

Definition robinhood (headers : list pystr) (m : ColumnMappings) : ColumnMappings :=
  if has_headers headers
       ["Date"; "Symbol"; "Action"; "Quantity"; "Price"; "Fees & Comm"; "Amount"]
  then dict_update m
         (pairs [("date", "Date"); ("symbol", "Symbol"); ("action", "Action");
                 ("quantity", "Quantity"); ("price", "Price");
                 ("fees", "Fees & Comm"); ("amount", "Amount")])
  else m.

(** [for header, value in row.items(): if ...: mappings['symbol'] = header;
    break] for one preview row. *)
Definition symbol_of_row (row : Row) (m : ColumnMappings) : ColumnMappings :=
  match find (fun hv => short_word (strip (snd hv))) row with
  | Some hv => dict_set (str "symbol") (fst hv) m
  | None => m
  end.

Definition lot_details (headers : list pystr) (preview : list Row)
    (m : ColumnMappings) : ColumnMappings :=
  if has_headers headers
       ["Open Date"; "Quantity"; "Price"; "Cost/Share"; "Market Value";
        "Holding Period"]
  then
    let m := dict_update m
               (pairs [("date", "Open Date"); ("quantity", "Quantity");
                       ("price", "Cost/Share"); ("amount", "Market Value")]) in
    if negb (dict_has (str "symbol") m)
    then fold_left (fun m row => symbol_of_row row m) preview m
    else m
  else m.

(** [_detect_special_formats] *)
Definition detect_special_formats (headers : list pystr) (preview : list Row)
    (m : ColumnMappings) : ColumnMappings :=
  lot_details headers preview
    (robinhood headers (schwab headers (fidelity headers m))).

(** [_detect_column_patterns], on the mappings it finds ([{}] when the
    dialog opens) and the first five preview rows; the scan for option data
    only logs and is left out. *)
Definition detect_column_patterns (headers : list pystr)
    (preview_data : list Row) (m : ColumnMappings) : ColumnMappings :=
  let preview := firstn 5 preview_data in
  let m := description_pass headers m in
  let m := pattern_pass headers m in
  let m := infer_symbol headers preview m in
  let m := infer_action headers preview m in
  detect_special_formats headers preview m.

End ColumnMapper.

(* ===================================================================== *)
(** * utils.py: TransactionTypeMapper.add_mapping *)
(* ===================================================================== *)

(** [add_mapping(broker, action_text, transaction_type)] on the mappings of
    the mapper; [transaction_type] is a member of the enumeration or a
    text.  The file [_save_mappings] writes is not part of the model. *)
Definition add_mapping (mappings : Mappings) (broker action_text : pystr)
    (transaction_type : TransactionType + pystr) : Mappings :=
  let mappings : Mappings :=
    if negb (dict_has broker mappings)
    then dict_set broker ([] : dict pystr) mappings
    else mappings in
  let transaction_type :=
    match transaction_type with
    | inl t => ttype_value t
    | inr v => v
    end in
  match dict_get broker mappings with
  | Some bucket =>
      dict_set broker (dict_set (lower action_text) transaction_type bucket)
        mappings
  | None => mappings
  end.

(* ===================================================================== *)
(** * column_mapper.py: the mappings of the dialog *)
(* ===================================================================== *)

Module MapperDialog.

Definition required_fields : list pystr := [str "date"; str "action"].

(** [_on_mapping_changed(field, combo_box)] with the data of the entry the
    combo box shows: a header, or nothing for the entry "not mapped". *)
Definition on_mapping_changed (field : pystr) (selected_value : option pystr)
    (column_mappings : ColumnMappings) : ColumnMappings :=
  let selected :=
    match selected_value with
    | Some v => nonempty v
    | None => false
    end in
  if selected
  then match selected_value with
       | Some v => dict_set field v column_mappings
       | None => column_mappings
       end
  else if dict_has field column_mappings
  then dict_del field column_mappings
  else column_mappings.

(** [_validate_mappings]: the required fields without mapping, and whether
    the OK button is enabled. *)
Definition missing_required (column_mappings : ColumnMappings) : list pystr :=
  filter (fun f => negb (dict_has f column_mappings)) required_fields.

Definition ok_enabled (column_mappings : ColumnMappings) : bool :=
  (List.length (missing_required column_mappings) =? 0)%nat.

(** [_load_mapping], once the file is read: the mappings whose column is a
    header of the file. *)
Definition valid_mappings (mappings : ColumnMappings) (csv_headers : list pystr)
  : ColumnMappings :=
  filter (fun kv => str_in (snd kv) csv_headers) mappings.

End MapperDialog.

(* ===================================================================== *)
(** * review_window.py: TransactionReviewWindow *)
(* ===================================================================== *)

Section ReviewWindow.

Context {rt : Runtime}.

Variable constraints : Storage -> bool.

(** [load_csv] with a mapping dialog that is confirmed with
    [column_mappings]: the file is read a first time for the headers and
    the preview of the dialog; the account chosen in the account dialog
    ([None] when the dialog was cancelled or nothing was chosen) is asked
    for when [account_name] has no mapping, and without one nothing is
    loaded ([None]).  The result of the import gets the chosen account as
    [account_name] of every transaction.  An exception, which the window
    reports in a message box, loads nothing either: it is the [Raise] of
    the result. *)
Definition load_csv (mappings : Mappings) (file : CsvFile)
    (column_mappings : ColumnMappings)
    (selected_account : option pystr) : exc (option (list Transaction)) :=
  (_ <- import_preview file ;;
   let chosen :=
     if negb (dict_has (str "account_name") column_mappings)
     then match selected_account with
          | Some a => if nonempty a then Some (Some a) else None
          | None => None
          end
     else Some None in
   match chosen with
   | None => Ok None
   | Some account_name_override =>
       transactions <-
         import_transactions_from_csv mappings file column_mappings ;;
       let transactions :=
         match account_name_override with
         | Some name =>
             map (fun transaction =>
                    tx_set "account_name" (VStr name) transaction)
                 transactions
         | None => transactions
         end in
       Ok (Some transactions)
   end)%py.

(** [save_to_database]: whether [save_transactions] was called and returned,
    and the storage afterwards. *)
Definition save_to_database (st : Storage) (transactions : list Transaction)
  : bool * Storage :=
  match transactions with
  | [] => (false, st)
  | _ =>
      if hasErrors transactions then (false, st)
      else
        match save_transactions constraints st transactions with
        | (Ok _, st') => (true, st')
        | (Raise _, st') => (false, st')
        end
  end.

End ReviewWindow.

(* ===================================================================== *)
(** * Vocabulary of the properties *)
(* ===================================================================== *)

(** A string is blank when every character is white space; the empty string
    is blank. *)
Definition is_blank (s : pystr) : bool := forallb is_space s.

(** The characters [parse_decimal] removes before the conversion. *)
Definition is_currency_mark (c : char) : bool :=
  (c =? chr_dollar) || (c =? chr_euro) || (c =? chr_comma).

Definition cleaned_text (s : pystr) : pystr :=
  strip (filter (fun c => negb (is_currency_mark c)) s).

(** [Decimal(s)] where a malformed text gives no value. *)
Definition decimal_or_none (s : pystr) : option Decimal :=
  match Decimal_of_str s with
  | Ok d => Some d
  | Raise _ => None
  end.

(** The value of [parse_decimal]. *)
Definition decimal_value (s : pystr) : option Decimal :=
  if is_blank s then None else decimal_or_none (cleaned_text s).

Definition is_transfer (t : TransactionType) : bool :=
  match t with
  | TRANSFER_IN | TRANSFER_OUT => true
  | _ => false
  end.

(** The direction a quantity's sign fixes. *)
Definition transfer_direction (negative : bool) : TransactionType :=
  if negative then TRANSFER_OUT else TRANSFER_IN.

(** The first format of the list that parses the text. *)
Fixpoint first_format (fmts : list (list fmt_item)) (s : pystr) : option date :=
  match fmts with
  | [] => None
  | fmt :: fmts' =>
      match strptime s fmt with
      | Ok d => Some d
      | Raise _ => first_format fmts' s
      end
  end.

(** The text [parse_date] works on: the date after "as of" when there is
    one, the whole input otherwise. *)
Definition date_text (s : pystr) : pystr :=
  match Re.search as_of_pattern s with
  | Some m => Re.group 1 m
  | None => s
  end.

(** The value of [parse_date]: the first format that parses the text, else
    the first format that parses its first date-like substring. *)
Definition parse_date_value (s : pystr) : option date :=
  match first_format formats (date_text s) with
  | Some d => Some d
  | None =>
      match Re.search date_pattern (date_text s) with
      | Some m => first_format formats (Re.group 0 m)
      | None => None
      end
  end.

(** The characters that a date-like match can contain. *)
Definition is_date_char (c : char) : bool :=
  is_digit c || (c =? chr_slash) || (c =? chr_dash).

(** Every text a matcher accepts is made of characters in [P]. *)
Definition consumes (P : char -> Prop) (m : Re.matcher) : Prop :=
  forall s x r, In (x, r) (m s) -> Forall P x.

(** The same day and month, read the other way round. *)
Definition swap_day_month (d : date) : date :=
  mkdate (year d) (day d) (month d).

(** The steps of [parse_option_details] never clear the option flag and
    never unset an option type. *)
Definition details_grow (r r' : OptionDetails) : Prop :=
  (is_option r = true -> is_option r' = true)
  /\ (option_type r <> None -> option_type r' <> None).

(** ** An arithmetic for the examples

    Exact sums and products of finite decimals: what the [decimal] module
    computes as long as the result has no more digits than the context
    precision (28 by default), which the examples stay within. *)
Module ExampleRuntime.

Definition signed (neg : bool) (c : N) : Z :=
  if neg then Z.opp (Z.of_N c) else Z.of_N c.

Definition exact_mul (a b : Decimal) : exc Decimal :=
  match a, b with
  | DNaN _ true _, _ | _, DNaN _ true _ => Raise InvalidOperation
  | DNaN n false p, _ | _, DNaN n false p => Ok (DNaN n false p)
  | DInfinity n1, DInfinity n2 => Ok (DInfinity (xorb n1 n2))
  | DInfinity n1, DFinite n2 c _ | DFinite n2 c _, DInfinity n1 =>
      if c =? 0 then Raise InvalidOperation else Ok (DInfinity (xorb n1 n2))
  | DFinite n1 c1 e1, DFinite n2 c2 e2 =>
      Ok (DFinite (xorb n1 n2) (c1 * c2) (e1 + e2)%Z)
  end.

Definition exact_add (a b : Decimal) : exc Decimal :=
  match a, b with
  | DNaN _ true _, _ | _, DNaN _ true _ => Raise InvalidOperation
  | DNaN n false p, _ | _, DNaN n false p => Ok (DNaN n false p)
  | DInfinity n1, DInfinity n2 =>
      if Bool.eqb n1 n2 then Ok (DInfinity n1) else Raise InvalidOperation
  | DInfinity n, DFinite _ _ _ | DFinite _ _ _, DInfinity n => Ok (DInfinity n)
  | DFinite n1 c1 e1, DFinite n2 c2 e2 =>
      let m := Z.min e1 e2 in
      let z := (signed n1 (c1 * 10 ^ Z.to_N (e1 - m))
                + signed n2 (c2 * 10 ^ Z.to_N (e2 - m)))%Z in
      Ok (DFinite (if (z =? 0)%Z then n1 && n2 else (z <? 0)%Z) (Z.abs_N z) m)
  end.

Definition negate (a : Decimal) : Decimal :=
  match a with
  | DFinite n c e => DFinite (negb n) c e
  | DInfinity n => DInfinity (negb n)
  | DNaN n s p => DNaN n s p
  end.

Definition exact_sub (a b : Decimal) : exc Decimal := exact_add a (negate b).

(** The examples decode no JSON and show no decimal. *)
Definition runtime : Runtime :=
  {| JSON := unit;
     json_loads := fun _ => Raise JSONDecodeError;
     json_truthy := fun _ => true;
     json_is_dict := fun _ => true;
     json_str := fun _ => [];
     dec_mul := exact_mul;
     dec_add := exact_add;
     dec_sub := exact_sub;
     dec_str := fun _ => [] |}.

End ExampleRuntime.

(** The transaction [t'] differs from [t] at most at the keys [ks]. *)
Definition same_except {V} (ks : list pystr) (t t' : dict V) : Prop :=
  forall k, str_in k ks = false -> dict_get k t' = dict_get k t.

(** ** The rows of the examples *)
Module Examples.

Local Open Scope string_scope.

Definition table (l : list (string * string)) : dict pystr :=
  map (fun kv => (str (fst kv), str (snd kv))) l.

(** An expired option whose file gives a price and an amount. *)
Definition expired_mappings : ColumnMappings :=
  table [("date", "Date"); ("action", "Action"); ("price", "Price");
         ("amount", "Amount"); ("account_name", "Account")].

Definition expired_row : Row :=
  table [("Date", "2024-01-19"); ("Action", "Expired"); ("Price", "1.50");
         ("Amount", "150.00"); ("Account", "Main")].

(** An expired option whose file has no amount column. *)
Definition bare_mappings : ColumnMappings :=
  table [("date", "Date"); ("action", "Action"); ("account_name", "Account")].

Definition bare_expired_row : Row :=
  table [("Date", "2024-01-19"); ("Action", "Expired"); ("Account", "Main")].

(** A purchase with quantity and price. *)
Definition trade_mappings : ColumnMappings :=
  table [("date", "Date"); ("action", "Action"); ("quantity", "Qty");
         ("price", "Price"); ("fees", "Fees"); ("account_name", "Account")].

Definition buy_row : Row :=
  table [("Date", "2024-01-19"); ("Action", "buy"); ("Qty", "10");
         ("Price", "5"); ("Fees", "1"); ("Account", "Main")].

(** A deposit with an instrument type the application does not know, in a
    file without account column. *)
Definition deposit_mappings : ColumnMappings :=
  table [("date", "Date"); ("action", "Action"); ("amount", "Amount");
         ("instrument_type", "Type")].

Definition deposit_row : Row :=
  table [("Date", "2024-01-19"); ("Action", "deposit"); ("Amount", "100");
         ("Type", "bond")].

End Examples.

(** ** Amounts *)

(** The action of the row asks for the zeroes of an expired option. *)
Definition expiry_action (cm : ColumnMappings) (row : Row) : bool :=
  match column_value cm row "action" with
  | Some v =>
      has "expir" (lower (strip v)) || has "worthless" (lower (strip v))
  | None => false
  end.

(** The amount of a mapped amount column that parses. *)
Definition explicit_amount (cm : ColumnMappings) (row : Row) : option Decimal :=
  match column_value cm row "amount" with
  | Some a => decimal_value a
  | None => None
  end.

(** Quantity times price, plus the fees of a purchase or minus the fees of
    a sale, in the arithmetic of the runtime. *)
Definition trade_amount {rt : Runtime} (quantity price : Decimal)
    (fees : option Decimal) (buy : bool) : exc Decimal :=
  (amount <- dec_mul quantity price ;;
   match fees with
   | Some fees => if buy then dec_add amount fees else dec_sub amount fees
   | None => Ok amount
   end)%py.

(** The keys the steps of a row write, the five of the amount apart. *)
Definition other_keys : list pystr :=
  map str
    [ "transaction_date"; "errors"; "warnings"; "instrument_type"; "symbol";
      "option_type"; "expiration_date"; "strike_price"; "original_symbol";
      "notes"; "instrument_type_str"; "account_name"; "journal_details";
      "journal_details_str"; "transaction_type_str" ]%string.

(** The errors of [t] are still errors of [t']. *)
Definition errors_kept {rt : Runtime} (t t' : Transaction) : Prop :=
  forall m, In m (errors_of t) -> In m (errors_of t').

(** The two errors of the import about the amount of a row, and a row that
    carries neither. *)
Definition amount_errors : list pystr :=
  [ str "Amount is required for cash transactions";
    str "Cannot determine transaction amount" ].

Definition no_amount_error {rt : Runtime} (t : Transaction) : Prop :=
  forall m, In m (errors_of t) -> str_in m amount_errors = false.

(** ** The checks of the grid *)

(** A field that is absent or [None]. *)
Definition absent {rt : Runtime} (k : string) (t : Transaction) : bool :=
  negb (tx_has k t) || is_None (tx_get k t).

(** No account name, or a blank one. *)
Definition account_blank {rt : Runtime} (t : Transaction) : bool :=
  missing "account_name" t
  || match tx_get "account_name" t with
     | VStr s => str_eqb (strip s) []
     | _ => false
     end.

Definition error_if (b : bool) (msg : string) : list pystr :=
  if b then [str msg] else [].

(** The errors of the checks that depend on the transaction type. *)
Definition type_errors {rt : Runtime} (t : Transaction) : list pystr :=
  if tx_has "transaction_type" t
  then
    let ttype := tx_get "transaction_type" t in
    (if ttype_in ttype [BUY; SELL; DIVIDEND; SPLIT]
     then
       error_if (missing "symbol" t)
         "Symbol is required for this transaction type"
       ++ error_if (missing "instrument_type" t)
            "Instrument type is required when symbol is provided"
     else [])
    ++ (if ttype_in ttype [BUY; SELL]
        then
          error_if (absent "quantity" t)
            "Quantity is required for buy/sell transactions"
          ++ error_if (absent "price" t)
               "Price is required for buy/sell transactions"
        else [])
    ++ error_if (absent "amount" t)
         "Amount is required for all transactions"
  else [].

(** The errors of the required-field checks of the grid, in their order. *)
Definition grid_errors {rt : Runtime} (t : Transaction) : list pystr :=
  error_if (missing "transaction_date" t) "Date is required"
  ++ error_if (missing "transaction_type" t) "Transaction type is required"
  ++ error_if (account_blank t) "Account name is required"
  ++ type_errors t.

(** The staged transaction of an example row, with the default mappings and
    the arithmetic of the examples. *)
Definition staged (cm : ColumnMappings) (row : Row)
  : @Transaction ExampleRuntime.runtime :=
  match @process_row ExampleRuntime.runtime default_mappings cm 2 row with
  | Ok t => t
  | Raise _ => []
  end.

(** The row after a successful edit of one field. *)
Definition edited (t : @Transaction ExampleRuntime.runtime) (column : string)
    (value : @edit ExampleRuntime.runtime) : @Transaction ExampleRuntime.runtime :=
  match @setData_row ExampleRuntime.runtime t (str column) value with
  | Ok (_, t') => t'
  | Raise _ => []
  end.

(** ** Commit *)

(** A row without errors: the rows [save_transactions] works on. *)
Definition no_errors {rt : Runtime} (t : Transaction) : bool :=
  negb (truthy (tx_get "errors" t)).

(** A row whose strike price is no text: it is absent, [None] or a number,
    as the import leaves it. *)
Definition strike_not_text {rt : Runtime} (t : Transaction) : bool :=
  match tx_get "strike_price" t with
  | VStr _ => false
  | _ => true
  end.

(** All the transactions of a session: those flushed and those pending. *)
Definition all_transactions {rt : Runtime} (s : Session) : list DbTransaction :=
  transactions (working s) ++ pending s.

(** The arguments [save_transactions] resolves the symbol of a row with, and
    that resolution failing with a [ValueError]. *)
Definition symbol_rejected {rt : Runtime} (constraints : Storage -> bool)
    (t : Transaction) : Prop :=
  truthy (tx_get "symbol" t) = true
  /\ exists s instrument_type,
       get_or_create_symbol constraints s (tx_get "symbol" t) instrument_type
         (tx_get "option_type" t) (tx_get "expiration_date" t)
         (tx_get "strike_price" t) = Raise ValueError.

(** The row [t] has a record among [recs], for an account of its name. *)
Definition persisted {rt : Runtime} (st : Storage) (t : Transaction)
    (recs : list DbTransaction) : Prop :=
  exists name account symbol_id rec,
    dict_get (str "account_name") t = Some name
    /\ get_account_by_name (begin st) name = Some account
    /\ db_transaction_of account symbol_id t = Ok rec
    /\ In rec recs.


(** A batch of two staged rows, the first one with errors; a database that
    accepts every row, with the account of the second row and without. *)
Module CommitExamples.

Definition batch : list (@Transaction ExampleRuntime.runtime) :=
  [ staged Examples.deposit_mappings Examples.deposit_row;
    staged Examples.trade_mappings Examples.buy_row ].

Definition accepting (_ : @Storage ExampleRuntime.runtime) : bool := true.

Definition with_account : @Storage ExampleRuntime.runtime :=
  mkStorage [mkAccount 1 (str "Main")] [] [].

Definition without_account : @Storage ExampleRuntime.runtime :=
  mkStorage [] [] [].

End CommitExamples.

(** ** Column detection *)

(** The patterns of a field in the table of patterns. *)
Definition patterns_of (f : pystr) : option (list pystr) :=
  dict_get f ColumnMapper.common_patterns.

(** The entries of a table that stand before the entry of [f]. *)
Fixpoint entries_before (f : pystr) (table : list (pystr * list pystr))
  : list (pystr * list pystr) :=
  match table with
  | [] => []
  | (g, pats) :: table' =>
      if str_eqb g f then [] else (g, pats) :: entries_before f table'
  end.

(** The fields the pattern pass tries before [f] on every header. *)
Definition fields_before (f : pystr) : list (pystr * list pystr) :=
  entries_before f ColumnMapper.common_patterns.

(** No key occurs twice. *)
Fixpoint distinct_keys {V} (d : dict V) : bool :=
  match d with
  | [] => true
  | (k, _) :: d' => negb (dict_has k d') && distinct_keys d'
  end.

(** The header is looked at by the pattern pass and matches [pats]. *)
Definition candidate (pats : list pystr) (header : pystr) : bool :=
  negb (ColumnMapper.skipped (lower header))
  && ColumnMapper.matches_any pats (lower header).

(** Some row of the preview has a value in the column [header] that
    satisfies [test]. *)
Definition previewed (test : pystr -> bool) (preview : list Row)
    (header : pystr) : bool :=
  existsb (fun row => test (ColumnMapper.cell row header)) preview.

(** The tests of the two inferences on a preview value. *)
Definition symbol_like (v : pystr) : bool :=
  ColumnMapper.short_word (upper (strip v)).

Definition action_like (v : pystr) : bool :=
  ColumnMapper.matches_any ColumnMapper.common_actions (lower v).

Module MapperExamples.

Local Open Scope string_scope.

(** The headers of a Fidelity export. *)
Definition fidelity_headers : list pystr :=
  map str
    ["Run Date"; "Action"; "Symbol"; "Description"; "Quantity"; "Price ($)";
     "Commission ($)"; "Fees ($)"; "Accrued Interest ($)"; "Amount ($)";
     "Settlement Date"].

(** A file of cash movements: the amount, and the total after it. *)
Definition cash_headers : list pystr := map str ["Amount"; "Total"].

End MapperExamples.

(** ** Further examples *)

Module ImportExamples.

Local Open Scope string_scope.

(** The headers of the file of the purchase. *)
Definition trade_headers : list pystr :=
  map str ["Date"; "Action"; "Qty"; "Price"; "Fees"; "Account"].

(** The account the purchase names. *)
Definition main_account : @Account := mkAccount 1 (str "Main").

(** The headers of the file of the deposit. *)
Definition deposit_headers : list pystr :=
  map str ["Date"; "Action"; "Amount"; "Type"].

(** What [load_csv] shows for the file of the deposit, with the account
    "Main" chosen in the dialog. *)
Definition loaded_deposit : list (@Transaction ExampleRuntime.runtime) :=
  match @load_csv ExampleRuntime.runtime default_mappings
          (Ok (deposit_headers, [Examples.deposit_row]))
          Examples.deposit_mappings (Some (str "Main")) with
  | Ok (Some txs) => txs
  | _ => []
  end.

(** A session on the storage with the account "Main", and the symbol of a
    share looked up in it. *)
Definition fresh_session : @Session ExampleRuntime.runtime :=
  begin CommitExamples.with_account.

Definition share_lookup (s : @Session ExampleRuntime.runtime)
  : exc (@Symbol ExampleRuntime.runtime * @Session ExampleRuntime.runtime) :=
  get_or_create_symbol CommitExamples.accepting s (VStr (str "AAPL"))
    (VIType STOCK) VNone VNone VNone.

End ImportExamples.

(** ** What the columns of a symbol store *)

(** A decimal that a column of type [Numeric(20, 8)] stores as it is: a
    finite number with at most eight decimals and at most twelve digits
    before the point. *)
Definition numeric_20_8 (d : Decimal) : bool :=
  match d with
  | DFinite _ c e => (-8 <=? e)%Z && (Z.of_N c * 10 ^ (e + 8) <? 10 ^ 20)%Z
  | _ => false
  end.

(** ** Mappings and headers *)

(** The test of the import on its mappings: every mapped column is a header
    of the file. *)
Definition columns_exist (headers : list pystr) (m : ColumnMappings) : bool :=
  forallb (fun kv => str_in (snd kv) headers) m.

(** The headers of the rows are headers of the file. *)
Definition rows_within (headers : list pystr) (rows : list Row) : bool :=
  forallb (fun row => forallb (fun hv => str_in (fst hv) headers) row) rows.

(** ** Dates as files write them *)

(** A day or a month in two digits, or without the leading zero. *)
Definition numeral2 (padded : bool) (n : N) : pystr :=
  if padded || (10 <=? n) then pad2 n else [digit_chr n].

(** A date written year-month-day, month/day/year and day-month-year, with
    or without the leading zeros of month and day. *)
Definition iso_text (pm pd : bool) (d : date) : pystr :=
  pad4 (year d) ++ chr_dash :: numeral2 pm (month d)
  ++ chr_dash :: numeral2 pd (day d).

Definition us_text (pm pd : bool) (d : date) : pystr :=
  numeral2 pm (month d) ++ chr_slash :: numeral2 pd (day d)
  ++ chr_slash :: pad4 (year d).

Definition dashed_text (pm pd : bool) (d : date) : pystr :=
  numeral2 pd (day d) ++ chr_dash :: numeral2 pm (month d)
  ++ chr_dash :: pad4 (year d).

(** ** Option symbols *)

(** A symbol in the OCC format: the ticker, the expiration as two digits of
    year, month and day, [C] or [P], and the eight digits of the strike. *)
Definition occ_symbol (tk : pystr) (d : date) (call : bool) (strike : pystr)
  : pystr :=
  tk ++ (pad2 (year d - 2000) ++ pad2 (month d) ++ pad2 (day d))
     ++ (if call then str "C" else str "P") ++ strike.

Module OptionExamples.

Local Open Scope string_scope.

(** A purchase of an option named by its OCC symbol, in a file without a
    column of instrument types. *)
Definition option_mappings : ColumnMappings :=
  Examples.table [("date", "Date"); ("action", "Action"); ("symbol", "Symbol");
         ("quantity", "Qty"); ("price", "Price"); ("account_name", "Account")].

Definition option_row : Row :=
  Examples.table [("Date", "2021-11-19"); ("Action", "buy to open");
         ("Symbol", "msft211217c00340000"); ("Qty", "1"); ("Price", "5");
         ("Account", "Main")].

End OptionExamples.

(* ===================================================================== *)
(** * Properties *)
(* ===================================================================== *)

(** ** Strings *)

Lemma str_eqb_refl (a : pystr) : str_eqb a a = true.
Proof.
  induction a as [|x a IH]; simpl; [reflexivity|].
  now rewrite N.eqb_refl, IH.
Qed.

Lemma str_eqb_eq (a b : pystr) : str_eqb a b = true <-> a = b.
Proof.
  split.
  - revert b; induction a as [|x a IH]; intros [|y b]; simpl; try discriminate; auto.
    intros H; apply andb_true_iff in H as [H1 H2].
    apply N.eqb_eq in H1; subst; f_equal; auto.
  - intros ->; apply str_eqb_refl.
Qed.

Lemma str_eqb_neq (a b : pystr) : str_eqb a b = false <-> a <> b.
Proof.
  split.
  - intros H E; apply str_eqb_eq in E; congruence.
  - intros H; destruct (str_eqb a b) eqn:E; [|reflexivity].
    apply str_eqb_eq in E; contradiction.
Qed.

Lemma lstrip_nil_iff (s : pystr) : lstrip s = [] <-> forallb is_space s = true.
Proof.
  induction s as [|c s IH]; simpl; [tauto|].
  destruct (is_space c); simpl; [exact IH|].
  split; discriminate.
Qed.

Lemma forallb_rev {A} (p : A -> bool) (l : list A) :
  forallb p (rev l) = forallb p l.
Proof.
  induction l as [|x l IH]; simpl; [reflexivity|].
  rewrite forallb_app, IH; simpl.
  rewrite andb_true_r; apply andb_comm.
Qed.

Lemma lstrip_suffix (s : pystr) : exists p, s = p ++ lstrip s /\ forallb is_space p = true.
Proof.
  induction s as [|c s (p & E & Hp)]; simpl.
  - now exists [].
  - destruct (is_space c) eqn:Hc.
    + exists (c :: p); simpl; rewrite Hc, Hp; split; [now f_equal|reflexivity].
    + now exists [].
Qed.

Lemma lstrip_head (s : pystr) :
  match lstrip s with c :: _ => is_space c = false | [] => True end.
Proof.
  induction s as [|c s IH]; simpl; [exact I|].
  destruct (is_space c) eqn:Hc; [exact IH|exact Hc].
Qed.

Lemma strip_nil_iff (s : pystr) : strip s = [] <-> is_blank s = true.
Proof.
  unfold strip, rstrip, is_blank.
  destruct (lstrip_suffix s) as (p & E & Hp).
  split.
  - intros H.
    assert (H' : lstrip (rev (lstrip s)) = []).
    { apply (f_equal (@rev char)) in H.
      rewrite rev_involutive in H; exact H. }
    apply lstrip_nil_iff in H'; rewrite forallb_rev in H'.
    rewrite E, forallb_app, Hp, H'; reflexivity.
  - intros H; apply lstrip_nil_iff in H; rewrite H; reflexivity.
Qed.

Lemma replace_char_filter (c : char) (s : pystr) :
  replace [c] [] s = filter (fun x => negb (c =? x)) s.
Proof.
  unfold replace.
  induction s as [|x s IH]; simpl; [reflexivity|].
  rewrite andb_true_r.
  destruct (c =? x); simpl; now rewrite IH.
Qed.

Lemma filter_filter {A} (p q : A -> bool) (l : list A) :
  filter p (filter q l) = filter (fun x => q x && p x) l.
Proof.
  induction l as [|x l IH]; simpl; [reflexivity|].
  destruct (q x); simpl; [destruct (p x)|]; now rewrite IH.
Qed.

Lemma strip_sublist_Forall (P : char -> Prop) (s : pystr) :
  Forall P s -> Forall P (strip s).
Proof.
  assert (L : forall t, Forall P t -> Forall P (lstrip t)).
  { induction t as [|c t IH]; simpl; intros H; [constructor|].
    destruct (is_space c); [apply IH; now inversion H|exact H]. }
  intros H; unfold strip, rstrip.
  apply Forall_rev, L, Forall_rev, L, H.
Qed.

Lemma strip_first_not_space (s : pystr) :
  match strip s with c :: _ => is_space c = false | [] => True end.
Proof.
  unfold strip, rstrip.
  pose proof (lstrip_head s) as H.
  destruct (lstrip_suffix (rev (lstrip s))) as (p & E & Hp).
  set (t := lstrip (rev (lstrip s))) in *.
  assert (E' : lstrip s = rev t ++ rev p).
  { rewrite <- rev_app_distr, <- E, rev_involutive; reflexivity. }
  destruct (rev t) as [|c r] eqn:Ht; [exact I|].
  rewrite E' in H; exact H.
Qed.

Lemma strip_last_not_space (s : pystr) :
  match rev (strip s) with c :: _ => is_space c = false | [] => True end.
Proof.
  unfold strip, rstrip; rewrite rev_involutive; apply lstrip_head.
Qed.

(** ** parse_decimal *)

Lemma Decimal_of_str_raises (s : pystr) (e : exn) :
  Decimal_of_str s = Raise e -> e = InvalidOperation.
Proof.
  unfold Decimal_of_str.
  repeat match goal with
         | |- context [match ?x with _ => _ end] => destruct x
         end; congruence.
Qed.

Lemma parse_decimal_cleaned (s : pystr) :
  strip (replace [chr_comma] []
           (replace [chr_euro] [] (replace [chr_dollar] [] s))) = cleaned_text s.
Proof.
  rewrite !replace_char_filter, !filter_filter.
  unfold cleaned_text; f_equal.
  apply filter_ext; intros c; unfold is_currency_mark.
  rewrite !negb_orb, !(N.eqb_sym c), andb_assoc; reflexivity.
Qed.

Lemma parse_decimal_eq (s : pystr) : parse_decimal s = Ok (decimal_value s).
Proof.
  unfold parse_decimal, decimal_value.
  destruct (is_blank s) eqn:B.
  - assert (E : strip s = []) by now apply strip_nil_iff.
    rewrite E; simpl; now rewrite orb_true_r.
  - assert (N1 : nonempty s = true) by (destruct s; [discriminate|reflexivity]).
    assert (N2 : str_eqb (strip s) [] = false).
    { apply str_eqb_neq; intros E; apply strip_nil_iff in E; congruence. }
    rewrite N1, N2; cbn [negb orb].
    rewrite parse_decimal_cleaned; unfold decimal_or_none.
    destruct (Decimal_of_str (cleaned_text s)) eqn:D; simpl; [reflexivity|].
    apply Decimal_of_str_raises in D; subst; reflexivity.
Qed.

(** C10.  [parse_decimal] never raises.  On an empty or white-space-only
    input it returns [None]; on any other input it deletes every ['$'],
    ['€'] and [','] and the surrounding white space, and returns the exact
    value of the cleaned text when that is a valid decimal, and [None]
    when it is not. *)
Theorem parse_decimal_total_and_exact (s : pystr) :
  parse_decimal s =
    Ok (if is_blank s then None else decimal_or_none (cleaned_text s))
  /\ Forall (fun c => c <> chr_dollar /\ c <> chr_euro /\ c <> chr_comma)
            (cleaned_text s)
  /\ match cleaned_text s with c :: _ => is_space c = false | [] => True end
  /\ match rev (cleaned_text s) with c :: _ => is_space c = false | [] => True end.
Proof.
  repeat split.
  - apply parse_decimal_eq.
  - unfold cleaned_text; apply strip_sublist_Forall.
    apply Forall_forall; intros c Hc; apply filter_In in Hc as [_ Hc].
    unfold is_currency_mark in Hc; rewrite !negb_orb in Hc.
    apply andb_true_iff in Hc as [Hc H3]; apply andb_true_iff in Hc as [H1 H2].
    apply negb_true_iff in H1, H2, H3.
    apply N.eqb_neq in H1, H2, H3; auto.
  - apply strip_first_not_space.
  - apply strip_last_not_space.
Qed.

(** ** Transaction types *)

Lemma TransactionType_of_value_value (t : TransactionType) :
  TransactionType_of_value (ttype_value t) = Ok t.
Proof. destruct t; reflexivity. Qed.

Lemma TransactionType_of_value_inv (v : pystr) (t : TransactionType) :
  TransactionType_of_value v = Ok t -> v = ttype_value t.
Proof.
  unfold TransactionType_of_value.
  destruct (find _ _) as [t'|] eqn:F; [|discriminate].
  intros E; inversion E; subst t'.
  apply find_some in F as [_ F]; apply str_eqb_eq in F; now symmetry.
Qed.

Lemma TransactionType_of_value_raises (v : pystr) (e : exn) :
  TransactionType_of_value v = Raise e -> e = ValueError.
Proof.
  unfold TransactionType_of_value; destruct (find _ _); congruence.
Qed.

Lemma is_transfer_value_iff (t : TransactionType) :
  is_transfer_value (ttype_value t) = is_transfer t.
Proof. destruct t; reflexivity. Qed.

Lemma scan_bucket_In {V} (bucket : dict V) (a : pystr) (v : V) :
  scan_bucket bucket a = Some v -> In v (map snd bucket).
Proof.
  unfold scan_bucket; destruct (find _ _) as [[k v']|] eqn:F; [|discriminate].
  intros E; inversion E; subst.
  apply find_some in F as [F _]; now apply (in_map snd) in F.
Qed.

Lemma option_action_mapping_no_transfer (a : pystr) (t : TransactionType) :
  scan_bucket option_action_mapping a = Some t -> is_transfer t = false.
Proof.
  intros H; apply scan_bucket_In in H; simpl in H.
  repeat (destruct H as [<-|H]; [reflexivity|]); contradiction.
Qed.

Lemma get_transaction_type_transfer
    (mappings : Mappings) (action : pystr) (broker : option pystr)
    (q : Decimal) (neg : bool) (t : TransactionType) :
  dec_lt_zero q = Ok neg ->
  get_transaction_type mappings action broker (Some q) = Ok (Some t) ->
  is_transfer t = true ->
  t = transfer_direction neg.
Proof.
  intros Hq; unfold get_transaction_type.
  destruct (mapped_value _ _ _) as [v|]; [|discriminate].
  destruct (is_transfer_value v) eqn:Tv; simpl.
  - rewrite Hq; simpl.
    destruct neg; simpl; intros E; inversion E; reflexivity.
  - destruct (TransactionType_of_value v) as [t'|e] eqn:Tov; simpl.
    + intros E Ht; inversion E; subst t'.
      apply TransactionType_of_value_inv in Tov; subst v.
      rewrite is_transfer_value_iff in Tv; congruence.
    + destruct (exn_isa e ValueError); discriminate.
Qed.

Lemma get_transaction_type_overrides
    (mappings : Mappings) (action : pystr) (broker : option pystr)
    (q : Decimal) (neg : bool) (v : pystr) :
  dec_lt_zero q = Ok neg ->
  mapped_value mappings (lower action) broker = Some v ->
  is_transfer_value v = true ->
  get_transaction_type mappings action broker (Some q)
  = Ok (Some (transfer_direction neg)).
Proof.
  intros Hq Hv Tv; unfold get_transaction_type.
  rewrite Hv, Tv, Hq; simpl.
  destruct neg; reflexivity.
Qed.

Lemma generic_transaction_type_transfer
    (action : pystr) (q : Decimal) (neg : bool) (t : TransactionType) :
  dec_lt_zero q = Ok neg ->
  generic_transaction_type action (Some q) = Ok t ->
  is_transfer t = true ->
  t = transfer_direction neg.
Proof.
  intros Hq; unfold generic_transaction_type.
  repeat match goal with
         | |- context [if ?b then _ else _] => destruct b
         end;
    try (intros E; inversion E; subst; discriminate).
  rewrite Hq; simpl; intros E; inversion E; reflexivity.
Qed.

(** With a quantity that can be compared with zero the standardization
    returns. *)
Lemma get_transaction_type_returns (mappings : Mappings) (action : pystr)
    (broker : option pystr) (q : Decimal) (neg : bool) :
  dec_lt_zero q = Ok neg ->
  exists r, get_transaction_type mappings action broker (Some q) = Ok r.
Proof.
  intros Hq; unfold get_transaction_type.
  destruct (mapped_value _ _ _) as [v|]; cbn [bind]; [|eauto].
  destruct (is_transfer_value v); rewrite ?Hq; cbn [bind];
    unfold TransactionType_of_value;
    match goal with
    | |- context [find ?f ?l] => destruct (find f l)
    end; cbn; eauto.
Qed.

Lemma generic_transaction_type_returns (action : pystr) (q : Decimal)
    (neg : bool) :
  dec_lt_zero q = Ok neg ->
  exists t, generic_transaction_type action (Some q) = Ok t.
Proof.
  intros Hq; unfold generic_transaction_type; rewrite Hq; cbn [bind].
  repeat match goal with
         | |- context [if ?b then _ else _] => destruct b; [eauto|]
         end; eauto.
Qed.

Lemma standardize_returns (mappings : Mappings) (action : pystr)
    (is_option : bool) (q : Decimal) (broker : option pystr) (neg : bool) :
  dec_lt_zero q = Ok neg ->
  exists t,
    standardize_option_transaction_type mappings action is_option (Some q)
      broker = Ok t.
Proof.
  intros Hq; unfold standardize_option_transaction_type.
  destruct (get_transaction_type_returns mappings (strip (lower action))
              broker q neg Hq) as ([t|] & ->); cbn [bind]; [eauto|].
  destruct (scan_bucket option_action_mapping _); [eauto|].
  repeat match goal with
         | |- context [if ?b then _ else _] => destruct b; [eauto|]
         end.
  now apply generic_transaction_type_returns with (neg := neg).
Qed.

(** C1.  Whenever the quantity is known and comparable with zero, a transfer
    type comes out with the direction of the quantity's sign: a stored
    transfer value of either direction is replaced by it in
    [get_transaction_type], and every transfer type returned by
    [get_transaction_type] or [standardize_option_transaction_type] is
    [TRANSFER_OUT] for a negative quantity and [TRANSFER_IN] otherwise;
    [standardize_option_transaction_type] returns on such a quantity. *)
Theorem transfer_direction_follows_sign
    (mappings : Mappings) (action : pystr) (is_option : bool)
    (q : Decimal) (broker : option pystr) (neg : bool) :
  dec_lt_zero q = Ok neg ->
  (forall v,
      mapped_value mappings (lower action) broker = Some v ->
      is_transfer_value v = true ->
      get_transaction_type mappings action broker (Some q)
      = Ok (Some (transfer_direction neg)))
  /\ (forall t,
         get_transaction_type mappings action broker (Some q) = Ok (Some t) ->
         is_transfer t = true -> t = transfer_direction neg)
  /\ (forall t,
         standardize_option_transaction_type mappings action is_option
           (Some q) broker = Ok t ->
         is_transfer t = true -> t = transfer_direction neg)
  /\ (exists t,
         standardize_option_transaction_type mappings action is_option
           (Some q) broker = Ok t).
Proof.
  intros Hq; split; [|split; [|split]].
  4: now apply standardize_returns with (neg := neg).
  - intros v Hv Tv; eapply get_transaction_type_overrides; eassumption.
  - intros t G Ht; eapply get_transaction_type_transfer; eassumption.
  - intros t; unfold standardize_option_transaction_type.
    destruct (get_transaction_type _ _ _ _) as [[t'|]|e] eqn:G; simpl;
      [| |discriminate].
    + intros E; inversion E; subst t'.
      intros Ht; eapply get_transaction_type_transfer; eassumption.
    + destruct (scan_bucket option_action_mapping _) as [t'|] eqn:S.
      * intros E Ht; inversion E; subst t'.
        apply option_action_mapping_no_transfer in S; congruence.
      * repeat match goal with
               | |- context [if ?b then _ else _] =>
                   destruct b; [intros E; inversion E; subst; discriminate|]
               end.
        intros G' Ht; eapply generic_transaction_type_transfer; eassumption.
Qed.

Lemma transfer_direction_follows_sign_witness :
  standardize_option_transaction_type default_mappings (str "Journaled Shares")
    false (Some (DFinite true 5 0%Z)) (Some (str "Fidelity")) = Ok TRANSFER_OUT
  /\ TRANSFER_OUT = transfer_direction true.
Proof.
  split; [reflexivity|].
  refine (proj1 (proj2 (proj2 (@transfer_direction_follows_sign default_mappings
            (str "Journaled Shares") false (DFinite true 5 0%Z)
            (Some (str "Fidelity")) true _))) TRANSFER_OUT _ _);
    reflexivity.
Defined.

(** ** The default mappings *)

Lemma default_mappings_buckets (k : pystr) :
  dict_get k default_mappings = None
  \/ exists bucket,
       dict_get k default_mappings = Some bucket
       /\ In bucket (dict_values default_mappings).
Proof.
  unfold default_mappings, dict_values; cbn [dict_get map snd].
  repeat match goal with
         | |- context [if ?b then _ else _] =>
             destruct b; [right; eexists; split; [reflexivity|]; simpl; tauto|]
         end.
  now left.
Qed.

(** With the default mappings every lookup of an action text [a] gives the
    value [v], provided every bucket that has a match gives [v] and the
    general bucket has a match. *)
Lemma mapped_value_default (a v : pystr) (broker : option pystr) :
  forallb (fun bucket =>
             match scan_bucket bucket a with
             | Some v' => str_eqb v' v
             | None => true
             end) (dict_values default_mappings) = true ->
  (match dict_get (str "general") default_mappings with
   | Some bucket => scan_bucket bucket a
   | None => None
   end) = Some v ->
  mapped_value default_mappings a broker = Some v.
Proof.
  intros Hall Hgen; unfold mapped_value.
  rewrite forallb_forall in Hall.
  destruct broker as [b|]; [|exact Hgen].
  destruct (nonempty b); [|exact Hgen].
  destruct (default_mappings_buckets (lower b)) as [E|(bucket & E & Hin)];
    rewrite E; [exact Hgen|].
  specialize (Hall _ Hin).
  destruct (scan_bucket bucket a) as [v'|]; [|exact Hgen].
  apply str_eqb_eq in Hall; now subst.
Qed.

(** With the default mappings no bucket matches the action text [a]. *)
Lemma mapped_value_default_none (a : pystr) (broker : option pystr) :
  forallb (fun bucket =>
             match scan_bucket bucket a with
             | Some _ => false
             | None => true
             end) (dict_values default_mappings) = true ->
  mapped_value default_mappings a broker = None.
Proof.
  intros Hall; unfold mapped_value.
  rewrite forallb_forall in Hall.
  assert (Hgen : match dict_get (str "general") default_mappings with
                 | Some bucket => scan_bucket bucket a
                 | None => None
                 end = None).
  { destruct (default_mappings_buckets (str "general")) as [E|(bk & E & Hin)];
      rewrite E; [reflexivity|].
    specialize (Hall _ Hin); now destruct (scan_bucket bk a). }
  destruct broker as [b|]; [|exact Hgen].
  destruct (nonempty b); [|exact Hgen].
  destruct (default_mappings_buckets (lower b)) as [E|(bucket & E & Hin)];
    rewrite E; [exact Hgen|].
  specialize (Hall _ Hin).
  destruct (scan_bucket bucket a); [discriminate|exact Hgen].
Qed.

(** C2.  With the default mappings the action text "Buy to Open" does not
    reach the table of option phrases: the general bucket's key "buy" is a
    substring of it, so the mapper answers [BUY] for every quantity, broker
    and option flag. *)
Theorem standardize_buy_to_open_default
    (is_option : bool) (quantity : option Decimal) (broker : option pystr) :
  standardize_option_transaction_type default_mappings (str "Buy to Open")
    is_option quantity broker = Ok BUY.
Proof.
  unfold standardize_option_transaction_type, get_transaction_type.
  set (action := strip (lower (str "Buy to Open"))).
  rewrite (mapped_value_default _ (ttype_value BUY) broker);
    [|reflexivity|reflexivity].
  destruct quantity; reflexivity.
Qed.

(** The other two examples of the same contract hold on the code. *)
Lemma standardize_stc_default
    (is_option : bool) (quantity : option Decimal) (broker : option pystr) :
  standardize_option_transaction_type default_mappings (str "STC")
    is_option quantity broker = Ok SELL_TO_CLOSE.
Proof.
  unfold standardize_option_transaction_type, get_transaction_type.
  rewrite mapped_value_default_none; [|reflexivity].
  destruct quantity; reflexivity.
Qed.

Lemma standardize_unknown_default
    (quantity : option Decimal) (broker : option pystr) :
  standardize_option_transaction_type default_mappings (str "unknown garbage")
    false quantity broker = Ok OTHER.
Proof.
  unfold standardize_option_transaction_type, get_transaction_type.
  rewrite mapped_value_default_none; [|reflexivity].
  destruct quantity; reflexivity.
Qed.

(** A quantity that is a NaN cannot be compared with zero: on a transfer the
    comparison raises. *)
Lemma standardize_transfer_nan_raises :
  standardize_option_transaction_type default_mappings (str "transfer")
    false (Some (DNaN false false 0)) None = Raise InvalidOperation.
Proof. reflexivity. Qed.

(** ** Matchers *)

Lemma flat_map_map {A B C} (f : B -> list C) (g : A -> B) (l : list A) :
  flat_map f (map g l) = flat_map (fun x => f (g x)) l.
Proof. induction l as [|x l IH]; simpl; [reflexivity|now rewrite IH]. Qed.

Lemma map_flat_map {A B C} (f : B -> C) (g : A -> list B) (l : list A) :
  map f (flat_map g l) = flat_map (fun x => map f (g x)) l.
Proof.
  induction l as [|x l IH]; simpl; [reflexivity|].
  now rewrite map_app, IH.
Qed.

Lemma flat_map_flat_map {A B C} (f : B -> list C) (g : A -> list B) (l : list A) :
  flat_map f (flat_map g l) = flat_map (fun x => flat_map f (g x)) l.
Proof.
  induction l as [|x l IH]; simpl; [reflexivity|].
  now rewrite flat_map_app, IH.
Qed.

Lemma groups_app (ms1 ms2 : list Re.matcher) (s : pystr) :
  Re.groups (ms1 ++ ms2) s =
  flat_map (fun gr =>
              map (fun gr' => (fst gr ++ fst gr', snd gr'))
                  (Re.groups ms2 (snd gr)))
           (Re.groups ms1 s).
Proof.
  revert s; induction ms1 as [|m ms1 IH]; intros s; simpl.
  - rewrite app_nil_r.
    rewrite <- (map_id (Re.groups ms2 s)) at 1.
    apply map_ext; now intros [g r].
  - rewrite flat_map_flat_map.
    apply flat_map_ext; intros [x r]; simpl.
    rewrite IH, flat_map_map, map_flat_map.
    apply flat_map_ext; intros [g r']; simpl.
    now rewrite map_map.
Qed.

Lemma groups_app_single (ms1 ms2 : list Re.matcher) (s : pystr) g r :
  Re.groups ms1 s = [(g, r)] ->
  Re.groups (ms1 ++ ms2) s =
  map (fun gr' => (g ++ fst gr', snd gr')) (Re.groups ms2 r).
Proof. intros H; rewrite groups_app, H; simpl; apply app_nil_r. Qed.

Lemma groups_app_nil (ms1 ms2 : list Re.matcher) (s : pystr) :
  Re.groups ms1 s = [] -> Re.groups (ms1 ++ ms2) s = [].
Proof. intros H; rewrite groups_app, H; reflexivity. Qed.

Lemma groups_head_nil (m : Re.matcher) (ms : list Re.matcher) (s : pystr) :
  m s = [] -> Re.groups (m :: ms) s = [].
Proof. intros H; simpl; rewrite H; reflexivity. Qed.

Lemma groups_two (a b : Re.matcher) (s : pystr) gs r :
  In (gs, r) (Re.groups [a; b] s) ->
  exists x1 r1 x2, gs = [x1; x2] /\ In (x1, r1) (a s) /\ In (x2, r) (b r1).
Proof.
  simpl; intros H.
  apply in_flat_map in H as ([x1 r1] & H1 & H).
  apply in_map_iff in H as ([g2 r2] & E & H).
  apply in_flat_map in H as ([x2 r3] & H2 & H).
  simpl in H; destruct H as [H|[]].
  inversion H; subst; inversion E; subst.
  exists x1, r1, x2; auto.
Qed.

Lemma search_In (ms : list Re.matcher) (s : pystr) m :
  Re.search ms s = Some m -> exists t, In m (Re.groups ms t).
Proof.
  induction s as [|c s IH]; simpl; unfold Re.match_.
  - destruct (Re.groups ms []) as [|m' l] eqn:E; simpl; [discriminate|].
    intros H; inversion H; subst; exists []; rewrite E; now left.
  - destruct (Re.groups ms (c :: s)) as [|m' l] eqn:E; simpl.
    + destruct s; exact IH.
    + intros H; inversion H; subst; exists (c :: s); rewrite E; now left.
Qed.

Lemma consumes_cls (P : char -> Prop) (p : char -> bool) :
  (forall c, p c = true -> P c) -> consumes P (Re.cls p).
Proof.
  intros H [|c s] x r; simpl; [tauto|].
  destruct (p c) eqn:E; simpl; [|tauto].
  intros [K|[]]; inversion K; subst; auto.
Qed.

Lemma consumes_seq (P : char -> Prop) (a b : Re.matcher) :
  consumes P a -> consumes P b -> consumes P (Re.seq a b).
Proof.
  intros Ha Hb s x r H; unfold Re.seq in H.
  apply in_flat_map in H as ([x1 r1] & H1 & H).
  apply in_map_iff in H as ([x2 r2] & E & H2); simpl in E.
  inversion E; subst.
  apply Forall_app; split; [eapply Ha|eapply Hb]; eassumption.
Qed.

Lemma consumes_alt (P : char -> Prop) (a b : Re.matcher) :
  consumes P a -> consumes P b -> consumes P (Re.alt a b).
Proof.
  intros Ha Hb s x r H; unfold Re.alt in H.
  apply in_app_or in H as [H|H]; [eapply Ha|eapply Hb]; eassumption.
Qed.

Lemma consumes_rep (P : char -> Prop) (p : char -> bool) (lo hi : nat) :
  (forall c, p c = true -> P c) -> consumes P (Re.rep p lo hi).
Proof.
  intros H; revert lo; induction hi as [|hi IH]; intros lo s x r; simpl.
  - destruct lo; simpl; [|tauto].
    intros [K|[]]; inversion K; constructor.
  - intros K; apply in_app_or in K as [K|K].
    + destruct s as [|c s]; [destruct K|].
      destruct (p c) eqn:E; [|destruct K].
      apply in_map_iff in K as ([x' r'] & E' & K); simpl in E'.
      inversion E'; subst; constructor; [auto|eapply IH; eassumption].
    + destruct lo; simpl in K; [|tauto].
      destruct K as [K|[]]; inversion K; constructor.
Qed.

(** ** Dates *)

Lemma is_date_char_digit (c : char) : is_digit c = true -> is_date_char c = true.
Proof. unfold is_date_char; intros ->; reflexivity. Qed.

Lemma consumes_date_like : consumes (fun c => is_date_char c = true) re_date_like.
Proof.
  unfold re_date_like.
  repeat match goal with
         | |- consumes _ (Re.alt _ _) => apply consumes_alt
         | |- consumes _ (Re.seq _ _) => apply consumes_seq
         | |- consumes _ (Re.rep _ _ _) =>
             apply consumes_rep; exact is_date_char_digit
         | |- consumes _ (Re.chr _) =>
             apply consumes_cls; intros c Hc; apply N.eqb_eq in Hc; subst;
             reflexivity
         end.
Qed.

Lemma lit_ci_as_of_head (c : char) (r : pystr) :
  is_date_char c = true -> Re.lit_ci (str "as of ") (c :: r) = [].
Proof.
  intros H.
  change (str "as of ") with (97 :: str "s of "); cbn [Re.lit_ci].
  unfold Re.seq, Re.chr_ci, Re.cls.
  replace (lower_char c =? lower_char 97) with false; [reflexivity|].
  symmetry; apply N.eqb_neq.
  unfold is_date_char, is_digit, chr_slash, chr_dash in H.
  unfold lower_char, is_upper; simpl.
  repeat match goal with
         | |- context [?a <=? ?b] => destruct (N.leb_spec a b)
         | H : context [?a <=? ?b] |- _ => destruct (N.leb_spec a b)
         | H : context [?a =? ?b] |- _ => destruct (N.eqb_spec a b)
         end; simpl in *; try discriminate; lia.
Qed.

Lemma search_as_of_none (s : pystr) :
  Forall (fun c => is_date_char c = true) s ->
  Re.search as_of_pattern s = None.
Proof.
  induction 1 as [|c s Hc Hs IH]; [reflexivity|].
  simpl; unfold Re.match_, as_of_pattern.
  rewrite groups_head_nil by now apply lit_ci_as_of_head.
  simpl; destruct s; exact IH.
Qed.

Lemma as_of_group_chars (s : pystr) m :
  Re.search as_of_pattern s = Some m ->
  Forall (fun c => is_date_char c = true) (Re.group 1 m).
Proof.
  intros H; apply search_In in H as (t & H).
  destruct m as [gs r]; apply groups_two in H as (x1 & r1 & x2 & -> & _ & H).
  unfold Re.group; simpl.
  eapply consumes_date_like; eassumption.
Qed.

Lemma date_new_raises (y m d : N) (e : exn) :
  date_new y m d = Raise e -> e = ValueError.
Proof. unfold date_new; destruct (valid_date _); congruence. Qed.

Lemma strptime_raises (s : pystr) (fmt : list fmt_item) (e : exn) :
  strptime s fmt = Raise e -> e = ValueError.
Proof.
  unfold strptime.
  destruct (Re.match_ _ _) as [[gs [|c rest]]|]; try congruence.
  destruct (fmt_fields _ _ _) as [[y m] d]; apply date_new_raises.
Qed.

Lemma try_formats_first_format (fmts : list (list fmt_item)) (s : pystr) :
  try_formats fmts s = Ok (first_format fmts s).
Proof.
  induction fmts as [|fmt fmts IH]; simpl; [reflexivity|].
  destruct (strptime s fmt) as [d|e] eqn:E; [reflexivity|].
  apply strptime_raises in E; subst; exact IH.
Qed.

Lemma parse_date_eq (s : pystr) : parse_date s = Ok (parse_date_value s).
Proof.
  unfold parse_date, parse_date_value; fold (date_text s).
  rewrite try_formats_first_format; cbn [bind].
  destruct (first_format formats (date_text s)); [reflexivity|].
  destruct (Re.search date_pattern (date_text s));
    [rewrite try_formats_first_format|]; reflexivity.
Qed.

Lemma parse_date_as_of (s : pystr) m :
  Re.search as_of_pattern s = Some m ->
  parse_date s = parse_date (Re.group 1 m).
Proof.
  intros H; rewrite !parse_date_eq; f_equal.
  assert (E1 : date_text s = Re.group 1 m) by (unfold date_text; now rewrite H).
  assert (E2 : date_text (Re.group 1 m) = Re.group 1 m).
  { unfold date_text.
    now rewrite (search_as_of_none _ (as_of_group_chars _ _ H)). }
  unfold parse_date_value; now rewrite E1, E2.
Qed.

(** ** Numerals *)

Ltac bool_to_prop :=
  repeat match goal with
         | H : _ && _ = true |- _ => apply andb_true_iff in H; destruct H
         | H : _ || _ = false |- _ => apply orb_false_iff in H; destruct H
         | H : (_ <=? _) = true |- _ => apply N.leb_le in H
         | H : (_ <=? _) = false |- _ => apply N.leb_gt in H
         | H : (_ =? _) = true |- _ => apply N.eqb_eq in H
         | H : (_ =? _) = false |- _ => apply N.eqb_neq in H
         end.

Lemma digit_chr_is_digit (k : N) : k < 10 -> is_digit (digit_chr k) = true.
Proof.
  intros H; unfold is_digit, digit_chr.
  apply andb_true_iff; split; apply N.leb_le; lia.
Qed.

Lemma is_digit_not_space (c : char) : is_digit c = true -> is_space c = false.
Proof.
  unfold is_digit, is_space; intros H; bool_to_prop.
  repeat (apply orb_false_iff; split);
    try (apply N.eqb_neq; lia);
    apply andb_false_iff;
    ((left; apply N.leb_gt; lia) || (right; apply N.leb_gt; lia)).
Qed.

Lemma digit_val_chr (k : N) : digit_val (digit_chr k) = k.
Proof. unfold digit_val, digit_chr; lia. Qed.

Lemma lstrip_nonspace (s : pystr) :
  Forall (fun c => is_space c = false) s -> lstrip s = s.
Proof. destruct 1 as [|c s Hc _]; simpl; [reflexivity|now rewrite Hc]. Qed.

Lemma strip_id (s : pystr) :
  Forall (fun c => is_space c = false) s -> strip s = s.
Proof.
  intros H; unfold strip, rstrip.
  rewrite (lstrip_nonspace _ H), (lstrip_nonspace _ (Forall_rev H)).
  apply rev_involutive.
Qed.

Lemma pad2_digits (n : N) : n < 100 -> Forall (fun c => is_digit c = true) (pad2 n).
Proof.
  intros H; unfold pad2; repeat constructor; apply digit_chr_is_digit.
  - apply N.Div0.div_lt_upper_bound; lia.
  - apply N.mod_lt; lia.
Qed.

Lemma pad4_digits (n : N) : n < 10000 -> Forall (fun c => is_digit c = true) (pad4 n).
Proof.
  intros H; unfold pad4; repeat constructor; apply digit_chr_is_digit;
    try (apply N.mod_lt; lia).
  apply N.Div0.div_lt_upper_bound; lia.
Qed.

Lemma py_int_digits (s : pystr) :
  Forall (fun c => is_digit c = true) s -> py_int s = int_of_digits 0 s.
Proof.
  intros H; unfold py_int; rewrite strip_id; [reflexivity|].
  eapply Forall_impl; [|exact H]; exact is_digit_not_space.
Qed.

Lemma py_int_pad2 (n : N) : n < 100 -> py_int (pad2 n) = n.
Proof.
  intros H; rewrite py_int_digits by now apply pad2_digits.
  unfold pad2; cbn [int_of_digits]; rewrite !digit_val_chr.
  pose proof (N.Div0.div_mod n 10); lia.
Qed.

Lemma py_int_pad4 (n : N) : n < 10000 -> py_int (pad4 n) = n.
Proof.
  intros H; rewrite py_int_digits by now apply pad4_digits.
  unfold pad4; cbn [int_of_digits]; rewrite !digit_val_chr.
  pose proof (N.Div0.div_mod n 10); pose proof (N.Div0.div_mod (n / 10) 10).
  pose proof (N.Div0.div_mod (n / 100) 10).
  assert (E1 : n / 100 = n / 10 / 10) by (rewrite N.Div0.div_div; reflexivity).
  assert (E2 : n / 1000 = n / 100 / 10) by (rewrite N.Div0.div_div; reflexivity).
  assert (n / 1000 < 10) by (apply N.Div0.div_lt_upper_bound; lia).
  rewrite E2, E1 in *.
  lia.
Qed.

(** ** The format expressions on padded numerals *)

(** Case analysis on a number with a computable upper bound. *)
Ltac enum_pos p H :=
  try (vm_compute in H; discriminate H);
  try (destruct p as [p|p|]; [enum_pos p H|enum_pos p H|];
       try (vm_compute in H; discriminate H)).

Ltac enum_N m H :=
  destruct m as [|p];
  [try (vm_compute in H; discriminate H)|enum_pos p H].

Lemma month_sep (m : N) (sep : char) (tail : pystr) :
  sep = chr_dash \/ sep = chr_slash ->
  (1 <=? m) && (m <=? 12) = true ->
  Re.groups [re_m; Re.chr sep] (pad2 m ++ sep :: tail)
  = [([pad2 m; [sep]], tail)].
Proof.
  intros [->| ->] H; enum_N m H; vm_compute; reflexivity.
Qed.

Lemma day_sep (d : N) (tail : pystr) :
  (1 <=? d) && (d <=? 31) = true ->
  Re.groups [re_d; Re.chr chr_slash] (pad2 d ++ chr_slash :: tail)
  = [([pad2 d; [chr_slash]], tail)].
Proof.
  intros H; enum_N d H; vm_compute; reflexivity.
Qed.

Lemma day_end (d : N) :
  (1 <=? d) && (d <=? 31) = true ->
  hd_error (Re.groups [re_d] (pad2 d)) = Some ([pad2 d], []).
Proof.
  intros H; enum_N d H; vm_compute; reflexivity.
Qed.

Lemma month_rejects_day (d : N) (tail : pystr) :
  (13 <=? d) && (d <=? 31) = true ->
  Re.groups [re_m; Re.chr chr_slash] (pad2 d ++ chr_slash :: tail) = [].
Proof.
  intros H; enum_N d H; vm_compute; reflexivity.
Qed.

Lemma re_Y_digits (a b c e : char) (r : pystr) :
  Forall (fun x => is_digit x = true) [a; b; c; e] ->
  re_Y (a :: b :: c :: e :: r) = [([a; b; c; e], r)].
Proof.
  intros H.
  inversion_clear H as [|? ? Ha H1]; inversion_clear H1 as [|? ? Hb H2].
  inversion_clear H2 as [|? ? Hc H3]; inversion_clear H3 as [|? ? He _].
  unfold re_Y, Re.seq, Re.cls; simpl.
  rewrite Ha; simpl; rewrite Hb; simpl; rewrite Hc; simpl; rewrite He.
  reflexivity.
Qed.

Lemma re_Y_slash (c1 c2 : char) (r : pystr) :
  re_Y (c1 :: c2 :: chr_slash :: r) = [].
Proof.
  unfold re_Y, Re.seq, Re.cls; simpl.
  destruct (is_digit c1); simpl; [|reflexivity].
  destruct (is_digit c2); reflexivity.
Qed.

Lemma pad4_shape (n : N) : exists a b c e, pad4 n = [a; b; c; e].
Proof. unfold pad4; eauto. Qed.

Lemma pad2_shape (n : N) : exists a b, pad2 n = [a; b].
Proof. unfold pad2; eauto. Qed.

Lemma year_sep (y : N) (tail : pystr) :
  y < 10000 ->
  Re.groups [re_Y; Re.chr chr_dash] (pad4 y ++ chr_dash :: tail)
  = [([pad4 y; [chr_dash]], tail)].
Proof.
  intros H; pose proof (pad4_digits _ H) as D.
  destruct (pad4_shape y) as (a & b & c & e & E); rewrite E in *.
  cbn [Re.groups app]; rewrite (re_Y_digits _ _ _ _ _ D); reflexivity.
Qed.

Lemma year_end (y : N) :
  y < 10000 -> Re.groups [re_Y] (pad4 y) = [([pad4 y], [])].
Proof.
  intros H; pose proof (pad4_digits _ H) as D.
  destruct (pad4_shape y) as (a & b & c & e & E); rewrite E in *.
  cbn [Re.groups]; rewrite (re_Y_digits _ _ _ _ _ D); reflexivity.
Qed.

Lemma days_in_month_le (y m : N) : days_in_month y m <= 31.
Proof.
  unfold days_in_month.
  repeat match goal with
         | |- context [match ?x with _ => _ end] => destruct x
         end; lia.
Qed.

Lemma valid_date_bounds (d : date) :
  valid_date d = true ->
  year d < 10000
  /\ (1 <=? month d) && (month d <=? 12) = true
  /\ (1 <=? day d) && (day d <=? 31) = true.
Proof.
  unfold valid_date; intros H.
  pose proof (days_in_month_le (year d) (month d)).
  bool_to_prop.
  repeat split; try lia;
    apply andb_true_iff; split; apply N.leb_le; lia.
Qed.

Lemma bounds_lt_100 (n k : N) :
  (1 <=? n) && (n <=? k) = true -> k < 100 -> n < 100.
Proof. intros H ?; bool_to_prop; lia. Qed.

Lemma strptime_iso (d : date) :
  valid_date d = true -> strptime (iso_string d) fmt_iso = Ok d.
Proof.
  intros V; destruct (valid_date_bounds _ V) as (Hy & Hm & Hd).
  destruct d as [y m dd]; simpl in *.
  unfold strptime, iso_string, Re.match_; cbn [year month day].
  change (map fmt_matcher fmt_iso)
    with ([re_Y; Re.chr chr_dash] ++ [re_m; Re.chr chr_dash] ++ [re_d]).
  rewrite (groups_app_single _ _ _ _ _ (year_sep _ _ Hy)).
  rewrite (groups_app_single _ _ _ _ _ (month_sep _ _ _ (or_introl eq_refl) Hm)).
  rewrite !map_map.
  destruct (Re.groups [re_d] (pad2 dd)) as [|[g r] l] eqn:E;
    pose proof (day_end _ Hd) as De; rewrite E in De; [discriminate|].
  inversion De; subst; cbn [map hd_error fst snd app fmt_fields fmt_iso].
  rewrite (py_int_pad4 _ Hy).
  rewrite (py_int_pad2 _ (bounds_lt_100 _ _ Hm eq_refl)).
  rewrite (py_int_pad2 _ (bounds_lt_100 _ _ Hd eq_refl)).
  unfold date_new; rewrite V; reflexivity.
Qed.

Lemma strptime_iso_slash (c1 c2 : char) (r : pystr) :
  strptime (c1 :: c2 :: chr_slash :: r) fmt_iso = Raise ValueError.
Proof.
  unfold strptime, Re.match_.
  change (map fmt_matcher fmt_iso) with (re_Y :: map fmt_matcher (tl fmt_iso)).
  rewrite groups_head_nil by apply re_Y_slash; reflexivity.
Qed.

Lemma strptime_us (d : date) :
  valid_date d = true -> strptime (us_string d) fmt_us = Ok d.
Proof.
  intros V; destruct (valid_date_bounds _ V) as (Hy & Hm & Hd).
  destruct d as [y m dd]; simpl in *.
  unfold strptime, us_string, Re.match_; cbn [year month day].
  change (map fmt_matcher fmt_us)
    with ([re_m; Re.chr chr_slash] ++ [re_d; Re.chr chr_slash] ++ [re_Y]).
  rewrite (groups_app_single _ _ _ _ _ (month_sep _ _ _ (or_intror eq_refl) Hm)).
  rewrite (groups_app_single _ _ _ _ _ (day_sep _ _ Hd)).
  rewrite (year_end _ Hy).
  cbn [map hd_error fst snd app fmt_fields fmt_us].
  rewrite (py_int_pad4 _ Hy).
  rewrite (py_int_pad2 _ (bounds_lt_100 _ _ Hm eq_refl)).
  rewrite (py_int_pad2 _ (bounds_lt_100 _ _ Hd eq_refl)).
  unfold date_new; rewrite V; reflexivity.
Qed.

Lemma strptime_us_rejects_day (d : date) :
  (13 <=? day d) && (day d <=? 31) = true ->
  strptime (eu_string d) fmt_us = Raise ValueError.
Proof.
  intros H; unfold strptime, eu_string, Re.match_.
  change (map fmt_matcher fmt_us)
    with ([re_m; Re.chr chr_slash] ++ [re_d; Re.chr chr_slash] ++ [re_Y]).
  rewrite (groups_app_nil _ _ _ (month_rejects_day _ _ H)); reflexivity.
Qed.

Lemma strptime_eu (d : date) :
  valid_date d = true -> strptime (eu_string d) fmt_eu = Ok d.
Proof.
  intros V; destruct (valid_date_bounds _ V) as (Hy & Hm & Hd).
  destruct d as [y m dd]; simpl in *.
  unfold strptime, eu_string, Re.match_; cbn [year month day].
  change (map fmt_matcher fmt_eu)
    with ([re_d; Re.chr chr_slash] ++ [re_m; Re.chr chr_slash] ++ [re_Y]).
  rewrite (groups_app_single _ _ _ _ _ (day_sep _ _ Hd)).
  rewrite (groups_app_single _ _ _ _ _ (month_sep _ _ _ (or_intror eq_refl) Hm)).
  rewrite (year_end _ Hy).
  cbn [map hd_error fst snd app fmt_fields fmt_eu].
  rewrite (py_int_pad4 _ Hy).
  rewrite (py_int_pad2 _ (bounds_lt_100 _ _ Hm eq_refl)).
  rewrite (py_int_pad2 _ (bounds_lt_100 _ _ Hd eq_refl)).
  unfold date_new; rewrite V; reflexivity.
Qed.

Lemma date_chars_pad2 (n : N) :
  n < 100 -> Forall (fun c => is_date_char c = true) (pad2 n).
Proof.
  intros H; eapply Forall_impl; [|exact (pad2_digits _ H)].
  exact is_date_char_digit.
Qed.

Lemma date_chars_pad4 (n : N) :
  n < 10000 -> Forall (fun c => is_date_char c = true) (pad4 n).
Proof.
  intros H; eapply Forall_impl; [|exact (pad4_digits _ H)].
  exact is_date_char_digit.
Qed.

Lemma date_text_iso (d : date) :
  valid_date d = true -> date_text (iso_string d) = iso_string d.
Proof.
  intros V; destruct (valid_date_bounds _ V) as (Hy & Hm & Hd).
  unfold date_text; rewrite search_as_of_none; [reflexivity|].
  unfold iso_string.
  repeat first [apply Forall_app; split | apply Forall_cons; [reflexivity|]].
  - now apply date_chars_pad4.
  - apply date_chars_pad2; eapply bounds_lt_100; [exact Hm|reflexivity].
  - apply date_chars_pad2; eapply bounds_lt_100; [exact Hd|reflexivity].
Qed.

Lemma date_text_slashes (y a b : N) :
  y < 10000 -> a < 100 -> b < 100 ->
  date_text (pad2 a ++ chr_slash :: pad2 b ++ chr_slash :: pad4 y)
  = pad2 a ++ chr_slash :: pad2 b ++ chr_slash :: pad4 y.
Proof.
  intros Hy Ha Hb.
  unfold date_text; rewrite search_as_of_none; [reflexivity|].
  repeat first [apply Forall_app; split | apply Forall_cons; [reflexivity|]];
    auto using date_chars_pad2, date_chars_pad4.
Qed.

Lemma parse_date_iso (d : date) :
  valid_date d = true -> parse_date (iso_string d) = Ok (Some d).
Proof.
  intros V; rewrite parse_date_eq; f_equal.
  unfold parse_date_value; rewrite (date_text_iso _ V).
  unfold formats; cbn [first_format]; now rewrite (strptime_iso _ V).
Qed.

Lemma parse_date_us (d : date) :
  valid_date d = true -> parse_date (us_string d) = Ok (Some d).
Proof.
  intros V; destruct (valid_date_bounds _ V) as (Hy & Hm & Hd).
  rewrite parse_date_eq; f_equal.
  unfold parse_date_value, us_string.
  rewrite date_text_slashes;
    [|assumption|eapply bounds_lt_100; [eassumption|reflexivity]..].
  fold (us_string d).
  unfold formats; cbn [first_format].
  destruct (pad2_shape (month d)) as (a & b & E).
  assert (F : strptime (us_string d) fmt_iso = Raise ValueError).
  { unfold us_string; rewrite E; apply strptime_iso_slash. }
  now rewrite F, (strptime_us _ V).
Qed.

Lemma parse_date_eu_late_day (d : date) :
  valid_date d = true -> 12 < day d -> parse_date (eu_string d) = Ok (Some d).
Proof.
  intros V Hlate; destruct (valid_date_bounds _ V) as (Hy & Hm & Hd).
  assert (Hd' : (13 <=? day d) && (day d <=? 31) = true).
  { bool_to_prop; apply andb_true_iff; split; apply N.leb_le; lia. }
  rewrite parse_date_eq; f_equal.
  unfold parse_date_value, eu_string.
  rewrite date_text_slashes;
    [|assumption|eapply bounds_lt_100; [eassumption|reflexivity]..].
  fold (eu_string d).
  unfold formats; cbn [first_format].
  destruct (pad2_shape (day d)) as (a & b & E).
  assert (F : strptime (eu_string d) fmt_iso = Raise ValueError).
  { unfold eu_string; rewrite E; apply strptime_iso_slash. }
  now rewrite F, (strptime_us_rejects_day _ Hd'), (strptime_eu _ V).
Qed.

Lemma parse_date_eu_early_day (d : date) :
  valid_date d = true -> day d <= 12 ->
  parse_date (eu_string d) = Ok (Some (swap_day_month d)).
Proof.
  intros V Hearly; destruct (valid_date_bounds _ V) as (Hy & Hm & Hd).
  change (eu_string d) with (us_string (swap_day_month d)).
  apply parse_date_us.
  unfold valid_date in *; destruct d as [y m dd]; simpl in *.
  repeat (apply andb_true_iff in V as [V ?]).
  bool_to_prop.
  repeat (apply andb_true_iff; split); apply N.leb_le; try lia.
  unfold days_in_month.
  repeat match goal with
         | |- context [match ?x with _ => _ end] => destruct x
         end; lia.
Qed.

(** C5 (as the code has it).  [parse_date] never raises and its value is:
    the first of the formats year-month-day, month/day/year, day/month/year,
    day-month-year that parses the text, else the first that parses the
    first date-like substring, else [None]; the text is the date after
    "as of" when the input has one.  A valid date written year-month-day or
    month/day/year comes back as the same date.  A valid date written
    day/month/year comes back as the same date when its day is above 12,
    and with day and month exchanged when its day is at most 12. *)
Theorem parse_date_contract :
  (forall s, parse_date s = Ok (parse_date_value s))
  /\ (forall s m,
         Re.search as_of_pattern s = Some m ->
         parse_date s = parse_date (Re.group 1 m))
  /\ (forall d,
         valid_date d = true ->
         parse_date (iso_string d) = Ok (Some d)
         /\ parse_date (us_string d) = Ok (Some d))
  /\ (forall d,
         valid_date d = true -> 12 < day d ->
         parse_date (eu_string d) = Ok (Some d))
  /\ (forall d,
         valid_date d = true -> day d <= 12 ->
         parse_date (eu_string d) = Ok (Some (swap_day_month d))).
Proof.
  split; [exact parse_date_eq|].
  split; [exact parse_date_as_of|].
  split; [intros d V; split; [now apply parse_date_iso|now apply parse_date_us]|].
  split; [exact parse_date_eu_late_day|exact parse_date_eu_early_day].
Qed.

Lemma parse_date_contract_witness :
  parse_date (str "07/22/2024 as of 07/19/2024") = parse_date (str "07/19/2024")
  /\ parse_date (str "2024-02-29") = Ok (Some (mkdate 2024 2 29))
  /\ parse_date (str "25/12/2024") = Ok (Some (mkdate 2024 12 25))
  /\ parse_date (str "05/03/2024") = Ok (Some (mkdate 2024 5 3)).
Proof.
  destruct parse_date_contract as (_ & Hasof & Hiso & Hlate & Hearly).
  split; [|split; [|split]].
  - refine (Hasof (str "07/22/2024 as of 07/19/2024")
              ([str "as of "; str "07/19/2024"], []) _).
    vm_compute; reflexivity.
  - refine (proj1 (Hiso (mkdate 2024 2 29) _)); vm_compute; reflexivity.
  - refine (Hlate (mkdate 2024 12 25) _ _); vm_compute; reflexivity.
  - refine (Hearly (mkdate 2024 3 5) _ _); vm_compute; [reflexivity|discriminate].
Defined.

(** C5, the claim as stated fails: the fifth of March 2024 written
    day/month/year is read as the third of May. *)
Lemma parse_date_eu_counterexample :
  valid_date (mkdate 2024 3 5) = true
  /\ eu_string (mkdate 2024 3 5) = str "05/03/2024"
  /\ parse_date (str "05/03/2024") = Ok (Some (mkdate 2024 5 3))
  /\ parse_date (eu_string (mkdate 2024 3 5)) <> Ok (Some (mkdate 2024 3 5)).
Proof.
  repeat split; try reflexivity.
  vm_compute; discriminate.
Qed.

(** ** parse_option_details *)

Lemma Decimal_div_1000_raises (d : Decimal) (e : exn) :
  Decimal_div_1000 d = Raise e -> e = InvalidOperation.
Proof.
  destruct d as [neg c z|neg|neg [|] p]; unfold Decimal_div_1000;
    try congruence.
  destruct (c =? 0); [congruence|].
  destruct (drop_zeros 3 c (z - 3)); congruence.
Qed.

Lemma groups_cons_In (m : Re.matcher) (ms : list Re.matcher) (s : pystr) gs r :
  In (gs, r) (Re.groups (m :: ms) s) ->
  exists x r1 gs', gs = x :: gs' /\ In (x, r1) (m s) /\ In (gs', r) (Re.groups ms r1).
Proof.
  simpl; intros H.
  apply in_flat_map in H as ([x r1] & H1 & H).
  apply in_map_iff in H as ([gs' r'] & E & H); simpl in *.
  inversion E; subst; eauto 6.
Qed.

Lemma match_In (ms : list Re.matcher) (s : pystr) m :
  Re.match_ ms s = Some m -> In m (Re.groups ms s).
Proof.
  unfold Re.match_; destruct (Re.groups ms s); simpl; [discriminate|].
  intros H; inversion H; now left.
Qed.

Lemma cls_In (p : char -> bool) (s x r : pystr) :
  In (x, r) (Re.cls p s) -> exists c, x = [c] /\ p c = true.
Proof.
  destruct s as [|c s]; simpl; [tauto|].
  destruct (p c) eqn:E; simpl; [|tauto].
  intros [H|[]]; inversion H; subst; eauto.
Qed.

Lemma occ_option_letter (symbol : pystr) m :
  Re.match_ occ_pattern symbol = Some m ->
  Re.group 2 m = str "C" \/ Re.group 2 m = str "P".
Proof.
  intros H; apply match_In in H; destruct m as [gs r]; unfold occ_pattern in H.
  apply groups_cons_In in H as (x0 & r0 & gs0 & -> & _ & H).
  apply groups_cons_In in H as (x1 & r1 & gs1 & -> & _ & H).
  apply groups_cons_In in H as (x2 & r2 & gs2 & -> & H2 & _).
  apply cls_In in H2 as (c & -> & Hc).
  unfold Re.group; simpl.
  unfold is_C_or_P in Hc; apply orb_true_iff in Hc as [Hc|Hc];
    apply N.eqb_eq in Hc; subst; auto.
Qed.

Lemma parse_occ_returns m (r : OptionDetails) :
  exists r',
    parse_occ m r = Ok r'
    /\ is_option r' = true
    /\ option_type r' =
         (if str_eqb (Re.group 2 m) (str "C") then Some CALL
          else if str_eqb (Re.group 2 m) (str "P") then Some PUT
          else option_type r).
Proof.
  unfold parse_occ.
  destruct (date_new _ _ _) as [d|e] eqn:D; cbn [bind try_except].
  2: apply date_new_raises in D; subst; cbn [exn_isa exn_eqb orb].
  all: destruct (Decimal_of_str (Re.group 3 m)) as [q|e] eqn:Q;
       cbn [bind try_except_in].
  all: try (apply Decimal_of_str_raises in Q; subst; cbn [existsb exn_isa exn_eqb orb]).
  all: try (destruct (Decimal_div_1000 q) as [q'|e] eqn:V;
            cbn [bind try_except_in];
            try (apply Decimal_div_1000_raises in V; subst;
                 cbn [existsb exn_isa exn_eqb orb])).
  all: eexists; split; [reflexivity|];
       destruct (str_eqb (Re.group 2 m) (str "C"));
       [|destruct (str_eqb (Re.group 2 m) (str "P"))]; split; reflexivity.
Qed.

Lemma strike_from_returns (patterns : list (list Re.matcher * nat))
    (description : pystr) (r : OptionDetails) :
  exists r',
    strike_from patterns description r = Ok r'
    /\ is_option r' = is_option r /\ option_type r' = option_type r.
Proof.
  induction patterns as [|[pattern i] patterns IH]; simpl; [eauto|].
  destruct (Re.search pattern description) as [m|]; [|exact IH].
  destruct (Decimal_of_str (Re.group i m)) as [d|e] eqn:D; simpl; [eauto|].
  apply Decimal_of_str_raises in D; subst; simpl; exact IH.
Qed.

Lemma expiration_from_returns (patterns : list (list Re.matcher * nat))
    (description : pystr) (r : OptionDetails) :
  exists r',
    expiration_from patterns description r = Ok r'
    /\ is_option r' = is_option r /\ option_type r' = option_type r.
Proof.
  induction patterns as [|[pattern i] patterns IH]; simpl; [eauto|].
  destruct (Re.search pattern description) as [m|]; [|exact IH].
  rewrite parse_date_eq; simpl; eauto.
Qed.

Lemma details_grow_refl (r : OptionDetails) : details_grow r r.
Proof. split; auto. Qed.

Lemma details_grow_trans (a b c : OptionDetails) :
  details_grow a b -> details_grow b c -> details_grow a c.
Proof. intros [H1 H2] [H3 H4]; split; auto. Qed.

Lemma from_description_returns (symbol description : pystr) (r : OptionDetails) :
  exists r', from_description symbol description r = Ok r' /\ details_grow r r'.
Proof.
  unfold from_description.
  destruct (existsb _ option_indicators); [|eauto using details_grow_refl].
  set (r1 := set_is_option true r).
  set (r2 := if negb (nonempty symbol) then _ else r1).
  set (r3 := if has "call" (lower description) then _ else _).
  destruct (strike_from_returns price_patterns description r3) as (r4 & E4 & I4 & O4).
  destruct (expiration_from_returns date_patterns description r4) as (r5 & E5 & I5 & O5).
  rewrite E4; cbn [bind]; rewrite E5; eexists; split; [reflexivity|].
  assert (I2 : is_option r2 = true).
  { subst r2; destruct (negb (nonempty symbol)); [|reflexivity].
    destruct (Re.match_ ticker_pattern description); reflexivity. }
  assert (O2 : option_type r2 = option_type r).
  { subst r2; destruct (negb (nonempty symbol)); [|reflexivity].
    destruct (Re.match_ ticker_pattern description); reflexivity. }
  assert (I3 : is_option r3 = true).
  { subst r3; destruct (has "call" _); [exact I2|].
    destruct (has "put" _); exact I2. }
  assert (O3 : option_type r2 <> None -> option_type r3 <> None).
  { subst r3; destruct (has "call" _); [discriminate|].
    destruct (has "put" _); [discriminate|auto]. }
  split.
  - intros _; congruence.
  - intros H; rewrite O5, O4; apply O3; congruence.
Qed.

Lemma scan_part_returns (part : pystr) (r : OptionDetails) :
  exists r', scan_part part r = Ok r' /\ details_grow r r'.
Proof.
  assert (G : forall r', is_option r' = is_option r ->
                         (option_type r <> None -> option_type r' <> None) ->
                         details_grow r r').
  { intros r' I O; split; [congruence|exact O]. }
  unfold scan_part; rewrite parse_date_eq; cbn [bind].
  destruct (is_some (parse_date_value part) && is_none (expiration_date r)).
  { eexists; split; [reflexivity|apply G; simpl; auto]. }
  destruct (Decimal_of_str _) as [d|e] eqn:D; cbn [bind try_except_in].
  2: apply Decimal_of_str_raises in D; subst; cbn [existsb exn_isa exn_eqb orb bind].
  1: destruct (strike_unset r); cbn [bind];
     [eexists; split; [reflexivity|apply G; simpl; auto]|].
  all: destruct (str_in (upper part) [str "C"; str "CALL"]
                 && is_none (option_type r)) eqn:C;
       [|destruct (str_in (upper part) [str "P"; str "PUT"]
                   && is_none (option_type r)) eqn:P];
       eexists; (split; [reflexivity|]);
       apply G; simpl; auto; discriminate.
Qed.

Lemma scan_parts_returns (parts : list pystr) (r : OptionDetails) :
  exists r', scan_parts parts r = Ok r' /\ details_grow r r'.
Proof.
  revert r; induction parts as [|part parts IH]; intros r; simpl.
  - eauto using details_grow_refl.
  - destruct (scan_part_returns part r) as (r1 & E1 & G1); rewrite E1; simpl.
    destruct (IH r1) as (r2 & E2 & G2); eauto using details_grow_trans.
Qed.

Lemma from_spaced_symbol_returns (symbol : pystr) (r : OptionDetails) :
  exists r', from_spaced_symbol symbol r = Ok r' /\ details_grow r r'.
Proof.
  unfold from_spaced_symbol.
  destruct (contains _ _); [|eauto using details_grow_refl].
  destruct (3 <=? _)%nat; [|eauto using details_grow_refl].
  destruct (scan_parts_returns (tl (split symbol))
              (set_is_option true (set_ticker (hd [] (split symbol)) r)))
    as (r' & E & G).
  exists r'; split; [exact E|].
  eapply details_grow_trans; [|exact G]; split; auto.
Qed.

Lemma option_details_steps_returns (symbol : pystr) (description : option pystr)
    (r : OptionDetails) :
  exists r', option_details_steps symbol description r = Ok r'.
Proof.
  unfold option_details_steps.
  assert (H : exists r1,
             match description with
             | Some d => if nonempty d then from_description symbol d r else Ok r
             | None => Ok r
             end = Ok r1).
  { destruct description as [d|]; [|eauto].
    destruct (nonempty d); [|eauto].
    destruct (from_description_returns symbol d r) as (r1 & E & _); eauto. }
  destruct H as (r1 & ->); cbn [bind].
  destruct (from_spaced_symbol_returns symbol r1) as (r2 & E & _); eauto.
Qed.

Lemma default_option_type_set (r : OptionDetails) :
  is_option (default_option_type r) = is_option r
  /\ (is_option r = true -> option_type (default_option_type r) <> None)
  /\ (is_option r = true -> option_type r = None ->
      default_option_type r = set_option_type (Some CALL) r).
Proof.
  unfold default_option_type.
  destruct (is_option r) eqn:I, (option_type r) eqn:O; simpl;
    rewrite ?I, ?O; repeat split; intros; congruence.
Qed.

(** C7.  [parse_option_details] returns for every symbol and description,
    and the details it returns have an option type, [CALL] or [PUT],
    whenever they are flagged as an option; when the steps before the
    default leave an option without a type, the type returned is [CALL]. *)
Theorem option_flag_implies_option_type
    (symbol : pystr) (description : option pystr) :
  (exists r,
      parse_option_details symbol description = Ok r
      /\ (is_option r = true ->
          option_type r = Some CALL \/ option_type r = Some PUT))
  /\ (forall r0,
         negb (nonempty symbol) && negb (truthy_str description) = false ->
         Re.match_ occ_pattern symbol = None ->
         option_details_steps symbol description
           (mkOptionDetails false symbol None None None) = Ok r0 ->
         is_option r0 = true -> option_type r0 = None ->
         parse_option_details symbol description
         = Ok (set_option_type (Some CALL) r0)).
Proof.
  assert (CP : forall o : option OptionType,
             o <> None -> o = Some CALL \/ o = Some PUT).
  { intros [[|]|]; auto; congruence. }
  split.
  - unfold parse_option_details.
    destruct (negb (nonempty symbol) && negb (truthy_str description)).
    { eexists; split; [reflexivity|discriminate]. }
    destruct (Re.match_ occ_pattern symbol) as [m|] eqn:M.
    + destruct (parse_occ_returns m (mkOptionDetails false symbol None None None))
        as (r & E & I & O).
      exists r; split; [exact E|]; intros _; rewrite O.
      destruct (occ_option_letter _ _ M) as [G|G]; rewrite G; auto.
    + destruct (option_details_steps_returns symbol description
                  (mkOptionDetails false symbol None None None)) as (r & E).
      rewrite E; cbn [bind]; eexists; split; [reflexivity|].
      destruct (default_option_type_set r) as (I & S & _).
      rewrite I; intros H; apply CP, S, H.
  - intros r0 Hearly Hocc Hsteps I O.
    unfold parse_option_details; rewrite Hearly, Hocc, Hsteps; cbn [bind].
    f_equal; now apply default_option_type_set.
Qed.

Lemma option_flag_implies_option_type_witness :
  parse_option_details (str "AAPL") (Some (str "strike 150"))
  = Ok (mkOptionDetails true (str "AAPL") (Some CALL) None
          (Some (DFinite false 150 0%Z))).
Proof.
  refine (eq_trans
            (proj2 (option_flag_implies_option_type (str "AAPL")
                      (Some (str "strike 150")))
               (mkOptionDetails true (str "AAPL") None None
                  (Some (DFinite false 150 0%Z))) _ _ _ _ _) _);
    vm_compute; reflexivity.
Defined.

(** ** Dictionaries *)

Lemma str_eqb_sym (a b : pystr) : str_eqb a b = str_eqb b a.
Proof.
  destruct (str_eqb a b) eqn:E.
  - apply str_eqb_eq in E; subst; symmetry; apply str_eqb_refl.
  - symmetry; apply str_eqb_neq; apply str_eqb_neq in E; congruence.
Qed.

Lemma dict_get_set_same {V} (k : pystr) (v : V) (d : dict V) :
  dict_get k (dict_set k v d) = Some v.
Proof.
  induction d as [|[k' v'] d IH]; simpl.
  - now rewrite str_eqb_refl.
  - destruct (str_eqb k' k) eqn:E; simpl; rewrite E; [reflexivity|exact IH].
Qed.

Lemma dict_get_set_other {V} (k k' : pystr) (v : V) (d : dict V) :
  str_eqb k' k = false -> dict_get k (dict_set k' v d) = dict_get k d.
Proof.
  intros H; induction d as [|[k0 v0] d IH]; simpl.
  - now rewrite H.
  - destruct (str_eqb k0 k') eqn:E; simpl.
    + apply str_eqb_eq in E; subst k0; now rewrite H.
    + now rewrite IH.
Qed.

Lemma dict_set_set {V} (k : pystr) (v v' : V) (d : dict V) :
  dict_set k v (dict_set k v' d) = dict_set k v d.
Proof.
  induction d as [|[k0 v0] d IH]; simpl.
  - now rewrite str_eqb_refl.
  - destruct (str_eqb k0 k) eqn:E; simpl; rewrite E; [reflexivity|].
    now rewrite IH.
Qed.

Lemma same_except_refl {V} (ks : list pystr) (t : dict V) : same_except ks t t.
Proof. intros k _; reflexivity. Qed.

Lemma same_except_trans {V} (ks : list pystr) (a b c : dict V) :
  same_except ks a b -> same_except ks b c -> same_except ks a c.
Proof. intros H1 H2 k Hk; rewrite (H2 k Hk); exact (H1 k Hk). Qed.

Lemma str_in_false (k : pystr) (ks : list pystr) (k' : pystr) :
  str_in k ks = false -> str_in k' ks = true -> str_eqb k' k = false.
Proof.
  intros Hk Hk'; apply str_eqb_neq; intros ->; congruence.
Qed.

Lemma same_except_set {V} (ks : list pystr) (k : pystr) (v : V) (t t' : dict V) :
  str_in k ks = true -> same_except ks t t' -> same_except ks t (dict_set k v t').
Proof.
  intros Hk H k0 Hk0.
  rewrite dict_get_set_other by (eapply str_in_false; eassumption).
  exact (H k0 Hk0).
Qed.

Lemma same_except_weaken {V} (ks ks' : list pystr) (t t' : dict V) :
  (forall k, str_in k ks = true -> str_in k ks' = true) ->
  same_except ks t t' -> same_except ks' t t'.
Proof.
  intros Hsub H k Hk; apply H.
  destruct (str_in k ks) eqn:E; [|reflexivity].
  rewrite (Hsub _ E) in Hk; discriminate.
Qed.

(** ** Rows of expired options *)

(** C8.  On a row whose action is "Expired" and whose file has a price and
    an amount column, the zeroes set for the expiration are replaced by the
    values of the columns: the staged transaction has price 1.50 and amount
    150.00. *)
Theorem expired_row_takes_mapped_price_and_amount (rt : Runtime) :
  exists t,
    process_row default_mappings Examples.expired_mappings 2 Examples.expired_row
    = Ok t
    /\ has "expir" (lower (strip (str "Expired"))) = true
    /\ tx_get "transaction_type" t = VTType OPTION_EXPIRATION
    /\ tx_get "price" t = VDec (DFinite false 150 (-2))
    /\ tx_get "amount" t = VDec (DFinite false 15000 (-2)).
Proof.
  eexists; split; [vm_compute; reflexivity|].
  repeat split.
Qed.

(** ** Staged rows *)

(** Inversion of a computation that returned: every scrutinee is split. *)
Ltac run H :=
  unfold bind, try_except, try_except_all, try_except_in in H;
  repeat match type of H with
         | context [match ?x with _ => _ end] =>
             lazymatch x with
             | context [match _ with _ => _ end] => fail
             | _ => destruct x eqn:?; cbv beta iota in H
             end
         end;
  try discriminate H;
  try (injection H as H; subst).

Section RowProperties.

Context {rt : Runtime}.

Lemma tx_get_same (k k' : string) (v : pyval) (t : Transaction) :
  str_eqb (str k') (str k) = true -> tx_get k (tx_set k' v t) = v.
Proof.
  intros H; apply str_eqb_eq in H; unfold tx_get, tx_set.
  rewrite H, dict_get_set_same; reflexivity.
Qed.

Lemma tx_get_other (k k' : string) (v : pyval) (t : Transaction) :
  str_eqb (str k') (str k) = false -> tx_get k (tx_set k' v t) = tx_get k t.
Proof.
  intros H; unfold tx_get, tx_set; now rewrite dict_get_set_other.
Qed.

Lemma tx_has_same (k k' : string) (v : pyval) (t : Transaction) :
  str_eqb (str k') (str k) = true -> tx_has k (tx_set k' v t) = true.
Proof.
  intros H; apply str_eqb_eq in H; unfold tx_has, dict_has, tx_set.
  rewrite H, dict_get_set_same; reflexivity.
Qed.

Lemma tx_has_other (k k' : string) (v : pyval) (t : Transaction) :
  str_eqb (str k') (str k) = false -> tx_has k (tx_set k' v t) = tx_has k t.
Proof.
  intros H; unfold tx_has, dict_has, tx_set; now rewrite dict_get_set_other.
Qed.

Lemma same_except_get (ks : list pystr) (k : string) (t t' : Transaction) :
  same_except ks t t' -> str_in (str k) ks = false ->
  tx_get k t' = tx_get k t /\ tx_has k t' = tx_has k t.
Proof.
  intros H Hk; unfold tx_get, tx_has, dict_has; now rewrite (H _ Hk).
Qed.

Ltac frame :=
  repeat match goal with
         | |- same_except _ ?t ?t => apply same_except_refl
         | |- same_except _ _ (append_error _ _) => unfold append_error
         | |- same_except _ _ (append_warning _ _) => unfold append_warning
         | |- same_except _ _ (when ?b _ _) => unfold when
         | |- same_except _ _ (tx_set _ _ _) =>
             apply same_except_set; [reflexivity|]
         | |- same_except _ _ (dict_set _ _ _) =>
             apply same_except_set; [reflexivity|]
         | |- same_except _ _ (if ?b then _ else _) => destruct b
         | |- same_except _ _ (match ?x with _ => _ end) => destruct x
         end.

Lemma step_date_frame cm row (t t' : Transaction) :
  step_date cm row t = Ok t' -> same_except other_keys t t'.
Proof. unfold step_date; intros H; run H; frame. Qed.

Lemma step_symbol_frame cm row (t t' : Transaction) :
  step_symbol cm row t = Ok t' -> same_except other_keys t t'.
Proof. unfold step_symbol; intros H; run H; frame. Qed.


Lemma step_symbol_warning_frame (t : Transaction) :
  same_except other_keys t (step_symbol_warning t).
Proof. unfold step_symbol_warning; frame. Qed.

Lemma step_instrument_type_frame cm row (t t' : Transaction) :
  step_instrument_type cm row t = Ok t' -> same_except other_keys t t'.
Proof. unfold step_instrument_type; intros H; run H; frame. Qed.

Lemma step_account_name_frame cm row (t : Transaction) :
  same_except other_keys t (step_account_name cm row t).
Proof. unfold step_account_name; frame. Qed.

Lemma step_quantity_frame cm row (t t' : Transaction) :
  step_quantity cm row t = Ok t' -> same_except [str "quantity"] t t'.
Proof. unfold step_quantity; intros H; run H; frame. Qed.

Lemma step_price_frame cm row (t t' : Transaction) :
  step_price cm row t = Ok t' -> same_except [str "price"] t t'.
Proof. unfold step_price; intros H; run H; frame. Qed.

Lemma step_fees_frame cm row (t t' : Transaction) :
  step_fees cm row t = Ok t' -> same_except [str "fees"] t t'.
Proof. unfold step_fees; intros H; run H; frame. Qed.

Lemma step_journal_details_frame cm row (t t' : Transaction) :
  step_journal_details cm row t = Ok t' -> same_except other_keys t t'.
Proof. unfold step_journal_details; intros H; run H; frame. Qed.

Lemma step_notes_frame cm row (t : Transaction) :
  same_except other_keys t (step_notes cm row t).
Proof. unfold step_notes; frame. Qed.

Lemma step_explicit_amount_frame cm row (t t' : Transaction) :
  step_explicit_amount cm row t = Ok t' -> same_except [str "amount"] t t'.
Proof. unfold step_explicit_amount; intros H; run H; frame. Qed.

Lemma step_calculated_amount_frame (t t' : Transaction) :
  step_calculated_amount t = Ok t' -> same_except [str "amount"] t t'.
Proof. unfold step_calculated_amount; intros H; run H; frame. Qed.

Lemma step_required_fields_frame (t : Transaction) :
  same_except other_keys t (step_required_fields t).
Proof. unfold step_required_fields; frame. Qed.

Lemma step_action_frame mappings cm row (t t' : Transaction) :
  step_action mappings cm row t = Ok t' ->
  same_except
    (other_keys ++ map str ["amount"; "price"; "quantity"; "transaction_type"]%string)
    t t'.
Proof. unfold step_action; intros H; run H; frame. Qed.

Lemma process_row_steps mappings cm n row (t : Transaction) :
  process_row mappings cm n row = Ok t ->
  exists t1 t2 t3 t5 t7 t8 t9 t10 t12 t13,
    step_date cm row (new_transaction n row) = Ok t1
    /\ step_action mappings cm row t1 = Ok t2
    /\ step_symbol cm row t2 = Ok t3
    /\ step_instrument_type cm row (step_symbol_warning t3) = Ok t5
    /\ step_quantity cm row (step_account_name cm row t5) = Ok t7
    /\ step_price cm row t7 = Ok t8
    /\ step_fees cm row t8 = Ok t9
    /\ step_journal_details cm row t9 = Ok t10
    /\ step_explicit_amount cm row (step_notes cm row t10) = Ok t12
    /\ step_calculated_amount t12 = Ok t13
    /\ t = step_required_fields t13.
Proof.
  unfold process_row; intros H.
  repeat match type of H with
         | bind ?c _ = Ok _ =>
             let E := fresh "E" in
             destruct c eqn:E; [cbn [bind] in H|discriminate H]
         end.
  injection H as <-.
  repeat eexists; eassumption.
Qed.

Ltac getset :=
  unfold append_error, append_warning, when, tx_set, tx_get, tx_has, dict_has in *;
  repeat first [ rewrite dict_get_set_same
               | rewrite dict_get_set_other by reflexivity ].

Lemma step_action_amount mappings cm row (t t' : Transaction) :
  step_action mappings cm row t = Ok t' ->
  dict_get (str "amount") t = None ->
  dict_get (str "amount") t' =
    if expiry_action cm row then Some (VDec Decimal_zero) else None.
Proof.
  unfold step_action, expiry_action; intros H A; run H;
    repeat match goal with
           | E : ?x = _ |- context [?x] => rewrite E
           end;
    getset; try reflexivity; try assumption.
Qed.


Lemma step_explicit_amount_eq cm row (t t' : Transaction) :
  step_explicit_amount cm row t = Ok t' ->
  t' = match explicit_amount cm row with
       | Some d => tx_set "amount" (VDec d) t
       | None => t
       end.
Proof.
  unfold step_explicit_amount, explicit_amount.
  destruct (column_value cm row "amount") as [a|]; [|congruence].
  rewrite parse_decimal_eq; cbn [bind].
  destruct (decimal_value a); congruence.
Qed.

Lemma step_calculated_amount_present (t t' : Transaction) :
  step_calculated_amount t = Ok t' -> tx_has "amount" t = true -> t' = t.
Proof.
  unfold step_calculated_amount; intros H A; rewrite A in H.
  cbn [negb andb] in H; congruence.
Qed.

Lemma tx_get_has (k : string) (t : Transaction) :
  tx_get k t <> VNone -> tx_has k t = true.
Proof.
  unfold tx_get, tx_has, dict_has; destruct (dict_get (str k) t); congruence.
Qed.

Lemma calculate_amount_trade (q p : Decimal) (f : option Decimal) (buy : bool) :
  calculate_amount (Some q) (Some p) f (ttype_value (if buy then BUY else SELL))
  = (a <- trade_amount q p f buy ;; Ok (Some a))%py.
Proof.
  unfold calculate_amount, trade_amount; destruct buy; cbn [str_in existsb];
    [change (str_in (ttype_value BUY) [str "buy"; str "sell"]) with true
    |change (str_in (ttype_value SELL) [str "buy"; str "sell"]) with true];
    cbv beta iota.
  - change (str_eqb (ttype_value BUY) (str "buy")) with true; cbv iota.
    destruct (dec_mul q p); cbn [bind]; [|reflexivity].
    destruct f; [|reflexivity]; destruct (dec_add a d); reflexivity.
  - change (str_eqb (ttype_value SELL) (str "buy")) with false; cbv iota.
    destruct (dec_mul q p); cbn [bind]; [|reflexivity].
    destruct f; [|reflexivity]; destruct (dec_sub a d); reflexivity.
Qed.

Lemma calculate_amount_other (q p f : option Decimal) (ty : TransactionType) :
  ty <> BUY -> ty <> SELL ->
  calculate_amount q p f (ttype_value ty) = Ok None.
Proof.
  intros H1 H2; unfold calculate_amount.
  destruct q, p; try reflexivity.
  destruct ty; try congruence; reflexivity.
Qed.

Lemma step_required_fields_amount (t : Transaction) :
  tx_has "transaction_type" t = true -> tx_has "amount" t = false ->
  In (str "Cannot determine transaction amount")
     (errors_of (step_required_fields t)).
Proof.
  intros Hty Ham; unfold step_required_fields; rewrite Hty.
  match goal with
  | |- context [when _ _ ?x] =>
      assert (E : tx_has "amount" x = false)
  end.
  { repeat match goal with
           | |- context [if ?b then _ else _] => destruct b
           | |- context [when ?b _ _] => destruct b; unfold when
           end; getset; assumption. }
  rewrite E; unfold when; cbn [negb].
  unfold errors_of, list_of, append_error, tx_set.
  rewrite dict_get_set_same; apply in_or_app; right; now left.
Qed.


(** The values at the five keys of the amount, from one state to a later
    one. *)
Ltac carry F k :=
  let H := fresh "K" in
  pose proof (same_except_get _ k _ _ F eq_refl) as H; destruct H.

Lemma row_amount_resolution mappings cm n row (t : Transaction) :
  process_row mappings cm n row = Ok t ->
  (forall d, explicit_amount cm row = Some d -> tx_get "amount" t = VDec d)
  /\ (explicit_amount cm row = None -> expiry_action cm row = true ->
      tx_get "amount" t = VDec Decimal_zero)
  /\ (explicit_amount cm row = None -> expiry_action cm row = false ->
      (forall buy q p,
          tx_get "transaction_type" t = VTType (if buy : bool then BUY else SELL) ->
          tx_get "quantity" t = VDec q -> tx_get "price" t = VDec p ->
          exists a,
            trade_amount q p (as_decimal (tx_get "fees" t)) buy = Ok a
            /\ tx_get "amount" t = VDec a)
      /\ (forall ty,
             tx_get "transaction_type" t = VTType ty -> ty <> BUY -> ty <> SELL ->
             tx_has "amount" t = false
             /\ In (str "Cannot determine transaction amount") (errors_of t))).
Proof.
  intros H.
  apply process_row_steps in H
    as (t1 & t2 & t3 & t5 & t7 & t8 & t9 & t10 & t12 & t13
        & S1 & S2 & S3 & S5 & S7 & S8 & S9 & S10 & S12 & S13 & ->).
  (* the amount before the explicit step *)
  assert (A11 : dict_get (str "amount") (step_notes cm row t10)
                = if expiry_action cm row then Some (VDec Decimal_zero) else None).
  { rewrite (step_notes_frame cm row t10 (str "amount") eq_refl).
    rewrite (step_journal_details_frame _ _ _ _ S10 (str "amount") eq_refl).
    rewrite (step_fees_frame _ _ _ _ S9 (str "amount") eq_refl).
    rewrite (step_price_frame _ _ _ _ S8 (str "amount") eq_refl).
    rewrite (step_quantity_frame _ _ _ _ S7 (str "amount") eq_refl).
    rewrite (step_account_name_frame cm row t5 (str "amount") eq_refl).
    rewrite (step_instrument_type_frame _ _ _ _ S5 (str "amount") eq_refl).
    rewrite (step_symbol_warning_frame t3 (str "amount") eq_refl).
    rewrite (step_symbol_frame _ _ _ _ S3 (str "amount") eq_refl).
    apply (step_action_amount _ _ _ _ _ S2).
    rewrite (step_date_frame _ _ _ _ S1 (str "amount") eq_refl); reflexivity. }
  pose proof (step_explicit_amount_eq _ _ _ _ S12) as E12.
  pose proof (step_calculated_amount_frame _ _ S13) as F13.
  pose proof (step_required_fields_frame t13) as F14.
  set (t := step_required_fields t13) in *.
  assert (Kam : tx_get "amount" t = tx_get "amount" t13
                /\ tx_has "amount" t = tx_has "amount" t13)
    by (apply (same_except_get _ "amount" _ _ F14); reflexivity).
  assert (Kty : tx_get "transaction_type" t = tx_get "transaction_type" t12).
  { rewrite (proj1 (same_except_get _ "transaction_type" _ _ F14 eq_refl)).
    apply (same_except_get _ "transaction_type" _ _ F13); reflexivity. }
  assert (Kq : tx_get "quantity" t = tx_get "quantity" t12).
  { rewrite (proj1 (same_except_get _ "quantity" _ _ F14 eq_refl)).
    apply (same_except_get _ "quantity" _ _ F13); reflexivity. }
  assert (Kp : tx_get "price" t = tx_get "price" t12).
  { rewrite (proj1 (same_except_get _ "price" _ _ F14 eq_refl)).
    apply (same_except_get _ "price" _ _ F13); reflexivity. }
  assert (Kf : tx_get "fees" t = tx_get "fees" t12).
  { rewrite (proj1 (same_except_get _ "fees" _ _ F14 eq_refl)).
    apply (same_except_get _ "fees" _ _ F13); reflexivity. }
  destruct Kam as [Kam Kham].
  split; [|split].
  - (* an explicit amount *)
    intros d Hd; rewrite Hd in E12.
    assert (P : tx_has "amount" t12 = true)
      by (subst t12; apply tx_has_same; reflexivity).
    rewrite (step_calculated_amount_present _ _ S13 P) in Kam.
    rewrite Kam; subst t12; apply tx_get_same; reflexivity.
  - (* the zero of an expired option *)
    intros Hn Hx; rewrite Hn in E12; subst t12; rewrite Hx in A11.
    assert (P : tx_has "amount" (step_notes cm row t10) = true)
      by (unfold tx_has, dict_has; now rewrite A11).
    rewrite (step_calculated_amount_present _ _ S13 P) in Kam.
    rewrite Kam; unfold tx_get; now rewrite A11.
  - intros Hn Hx; rewrite Hn in E12; subst t12; rewrite Hx in A11.
    set (t11 := step_notes cm row t10) in *.
    assert (P : tx_has "amount" t11 = false)
      by (unfold tx_has, dict_has; now rewrite A11).
    split.
    + (* a purchase or a sale *)
      intros buy q p Hty Hq Hp.
      rewrite Kty in Hty; rewrite Kq in Hq; rewrite Kp in Hp; rewrite Kf.
      unfold step_calculated_amount in S13.
      rewrite P, (tx_get_has "transaction_type" t11) in S13
        by (rewrite Hty; discriminate).
      cbn [negb andb] in S13.
      rewrite Hty, Hq, Hp in S13; cbn [ttype_value_of bind as_decimal] in S13.
      rewrite calculate_amount_trade in S13.
      destruct (trade_amount q p (as_decimal (tx_get "fees" t11)) buy) as [a|e];
        cbn [bind] in S13; [|discriminate].
      injection S13 as <-; exists a; split; [reflexivity|].
      rewrite Kam; apply tx_get_same; reflexivity.
    + (* any other type *)
      intros ty Hty N1 N2.
      rewrite Kty in Hty.
      assert (Q : tx_has "transaction_type" t11 = true)
        by (apply tx_get_has; rewrite Hty; discriminate).
      unfold step_calculated_amount in S13.
      rewrite P, Q in S13; cbn [negb andb] in S13.
      rewrite Hty in S13; cbn [ttype_value_of bind] in S13.
      rewrite (calculate_amount_other _ _ _ ty N1 N2) in S13; cbn [bind] in S13.
      injection S13 as <-.
      split; [now rewrite Kham|].
      apply step_required_fields_amount; assumption.
Qed.



(** *** The checks of the grid *)

Lemma errors_of_set_errors (l : list pystr) (t : Transaction) :
  errors_of (tx_set "errors" (VList l) t) = l.
Proof.
  unfold errors_of, list_of, tx_set; now rewrite dict_get_set_same.
Qed.

Lemma tx_set_set (k : string) (v v' : pyval) (t : Transaction) :
  tx_set k v (tx_set k v' t) = tx_set k v t.
Proof. apply dict_set_set. Qed.

Lemma add_error_set (m : pystr) (l : list pystr) (t : Transaction) :
  add_error m (tx_set "errors" (VList l) t)
  = tx_set "errors" (VList (if str_in m l then l else l ++ [m])) t.
Proof.
  unfold add_error.
  rewrite tx_has_same by reflexivity.
  rewrite errors_of_set_errors.
  destruct (str_in m l); [reflexivity|].
  unfold append_error; rewrite errors_of_set_errors; apply tx_set_set.
Qed.

(** A check adds its message to errors that do not have it yet. *)
Lemma check_set (c : bool) (m : string) (l : list pystr) (t : Transaction) :
  str_in (str m) l = false ->
  when c (add_error (str m)) (tx_set "errors" (VList l) t)
  = tx_set "errors" (VList (l ++ error_if c m)) t.
Proof.
  intros H; destruct c; cbn [when error_if].
  - now rewrite add_error_set, H.
  - now rewrite app_nil_r.
Qed.

Lemma missing_set_errors (k : string) (v : pyval) (t : Transaction) :
  str_eqb (str "errors") (str k) = false ->
  missing k (tx_set "errors" v t) = missing k t.
Proof.
  intros H; unfold missing; now rewrite tx_has_other, tx_get_other.
Qed.

Lemma account_name_missing_set_errors (v : pyval) (t : Transaction) :
  account_name_missing (tx_set "errors" v t) = account_name_missing t.
Proof.
  unfold account_name_missing.
  rewrite missing_set_errors, tx_get_other by reflexivity; reflexivity.
Qed.

Lemma account_name_missing_blank (t : Transaction) (b : bool) :
  account_name_missing t = Ok b -> account_blank t = b.
Proof.
  unfold account_name_missing, account_blank.
  destruct (missing "account_name" t); [intros H; now injection H|].
  destruct (tx_get "account_name" t); try discriminate.
  intros H; now injection H.
Qed.

Lemma str_in_app (m : pystr) (a b : list pystr) :
  str_in m (a ++ b) = str_in m a || str_in m b.
Proof. apply existsb_app. Qed.

Lemma str_in_error_if (m : pystr) (c : bool) (m' : string) :
  str_eqb m (str m') = false -> str_in m (error_if c m') = false.
Proof. intros H; destruct c; simpl; [now rewrite H|reflexivity]. Qed.

(** The errors of the first checks: date, type, account name. *)
Lemma basic_checks (t : Transaction) (b : bool) :
  account_name_missing t = Ok b ->
  let l := error_if (missing "transaction_date" t) "Date is required"
           ++ error_if (missing "transaction_type" t)
                "Transaction type is required"
           ++ error_if b "Account name is required" in
  validate_row t
  = Ok (check_type_fields (tx_set "errors" (VList l) t)).
Proof.
  intros Hb l; unfold validate_row.
  cbv zeta.
  rewrite (missing_set_errors "transaction_date") by reflexivity.
  rewrite (check_set _ "Date is required") by reflexivity.
  rewrite (missing_set_errors "transaction_type") by reflexivity.
  rewrite (check_set _ "Transaction type is required")
    by (apply str_in_error_if; reflexivity).
  rewrite account_name_missing_set_errors, Hb; cbn [bind app].
  do 2 f_equal; subst l.
  unfold check_account_name.
  destruct b.
  - rewrite add_error_set.
    rewrite str_in_app.
    rewrite !str_in_error_if by reflexivity.
    cbn [orb error_if]; now rewrite app_assoc.
  - rewrite errors_of_set_errors; cbn [error_if]; rewrite app_nil_r.
    replace (filter _ _) with (@nil pystr); [reflexivity|].
    destruct (missing "transaction_date" t), (missing "transaction_type" t);
      vm_compute; reflexivity.
Qed.


Lemma type_checks (l : list pystr) (t : Transaction) :
  str_in (str "Symbol is required for this transaction type") l = false ->
  str_in (str "Instrument type is required when symbol is provided") l = false ->
  str_in (str "Quantity is required for buy/sell transactions") l = false ->
  str_in (str "Price is required for buy/sell transactions") l = false ->
  str_in (str "Amount is required for all transactions") l = false ->
  check_type_fields (tx_set "errors" (VList l) t)
  = tx_set "errors" (VList (l ++ type_errors t)) t.
Proof.
  intros H1 H2 H3 H4 H5.
  unfold check_type_fields, type_errors, absent.
  rewrite tx_has_other, tx_get_other by reflexivity.
  destruct (tx_has "transaction_type" t); [|now rewrite app_nil_r].
  cbv zeta.
  destruct (ttype_in (tx_get "transaction_type" t) [BUY; SELL; DIVIDEND; SPLIT]),
    (ttype_in (tx_get "transaction_type" t) [BUY; SELL]);
    repeat
      (rewrite ?missing_set_errors, ?tx_has_other, ?tx_get_other by reflexivity;
       rewrite check_set
         by (rewrite ?str_in_app, ?H1, ?H2, ?H3, ?H4, ?H5;
             rewrite ?str_in_error_if by reflexivity; reflexivity));
    rewrite <- ?app_assoc; cbn [app]; reflexivity.
Qed.

Lemma validate_row_spec (t : Transaction) (b : bool) :
  account_name_missing t = Ok b ->
  validate_row t = Ok (tx_set "errors" (VList (grid_errors t)) t).
Proof.
  intros Hb; rewrite (basic_checks _ _ Hb); cbv zeta.
  rewrite type_checks;
    try (rewrite ?str_in_app; rewrite ?str_in_error_if by reflexivity;
         reflexivity).
  unfold grid_errors; rewrite (account_name_missing_blank _ _ Hb).
  now rewrite <- !app_assoc.
Qed.

Lemma validate_row_returns (t t' : Transaction) :
  validate_row t = Ok t' -> exists b, account_name_missing t = Ok b.
Proof.
  unfold validate_row; cbv zeta.
  rewrite (missing_set_errors "transaction_date") by reflexivity.
  rewrite (check_set _ "Date is required") by reflexivity.
  rewrite (missing_set_errors "transaction_type") by reflexivity.
  rewrite (check_set _ "Transaction type is required")
    by (apply str_in_error_if; reflexivity).
  rewrite account_name_missing_set_errors.
  destruct (account_name_missing t) as [b|e]; [eauto|discriminate].
Qed.

Lemma validate_row_eq (t t' : Transaction) :
  validate_row t = Ok t' -> t' = tx_set "errors" (VList (grid_errors t)) t.
Proof.
  intros H; destruct (validate_row_returns _ _ H) as (b & Hb).
  rewrite (validate_row_spec _ _ Hb) in H; congruence.
Qed.


(** *** Edits *)

Lemma convert_edit_sets (column : pystr) (value : edit) (t t1 : Transaction) :
  convert_edit column value t = Ok (inr t1) ->
  exists v, t1 = dict_set column v t.
Proof.
  unfold convert_edit; intros H; run H; eauto.
Qed.

Lemma recalculate_amount_trade (column : pystr) (t t2 : Transaction)
    (buy : bool) (q p : Decimal) :
  str_in column [str "quantity"; str "price"; str "fees"] = true ->
  tx_get "transaction_type" t = VTType (if buy then BUY else SELL) ->
  tx_get "quantity" t = VDec q -> tx_get "price" t = VDec p ->
  recalculate_amount column t = Ok t2 ->
  exists a,
    trade_amount q p (as_decimal (tx_get "fees" t)) buy = Ok a
    /\ t2 = tx_set "amount" (VDec a) t.
Proof.
  intros Hc Hty Hq Hp; unfold recalculate_amount.
  rewrite Hc, (tx_get_has "transaction_type" t) by (rewrite Hty; discriminate).
  cbn [andb]; rewrite Hty, Hq, Hp.
  replace (ttype_in (VTType (if buy then BUY else SELL)) [BUY; SELL]) with true
    by (destruct buy; reflexivity).
  cbn [ttype_value_of bind as_decimal].
  rewrite calculate_amount_trade.
  destruct (trade_amount q p (as_decimal (tx_get "fees" t)) buy) as [a|e];
    cbn [bind]; [|discriminate].
  intros H; injection H as <-; eauto.
Qed.

Lemma trade_column_cases (column : pystr) :
  str_in column [str "quantity"; str "price"; str "fees"] = true ->
  column = str "quantity" \/ column = str "price" \/ column = str "fees".
Proof.
  unfold str_in; cbn [existsb]; intros H.
  repeat (apply orb_true_iff in H as [H|H]);
    try (apply str_eqb_eq in H; auto); discriminate.
Qed.

Lemma edit_recomputes_amount (t0 t' : Transaction) (column : pystr)
    (value : edit) (buy : bool) (q p : Decimal) :
  str_in column [str "quantity"; str "price"; str "fees"] = true ->
  tx_get "transaction_type" t0 = VTType (if buy then BUY else SELL) ->
  setData_row t0 column value = Ok (true, t') ->
  tx_get "quantity" t' = VDec q -> tx_get "price" t' = VDec p ->
  exists a,
    trade_amount q p (as_decimal (tx_get "fees" t')) buy = Ok a
    /\ tx_get "amount" t' = VDec a.
Proof.
  intros Hc Hty H Hq Hp; unfold setData_row in H.
  destruct (convert_edit column value t0) as [[t1|t1]|e] eqn:C;
    cbn [bind] in H; try discriminate.
  destruct (recalculate_amount column t1) as [t2|e] eqn:R;
    cbn [bind] in H; [|discriminate].
  destruct (validate_row t2) as [t3|e] eqn:V; cbn [bind] in H; [|discriminate].
  injection H as <-.
  apply validate_row_eq in V; subst t3.
  rewrite tx_get_other in Hq, Hp |- * by reflexivity.
  rewrite (tx_get_other "amount") by reflexivity.
  apply convert_edit_sets in C as (v & ->).
  assert (Hty1 : tx_get "transaction_type" (dict_set column v t0)
                 = VTType (if buy then BUY else SELL)).
  { rewrite <- Hty; unfold tx_get.
    destruct (trade_column_cases _ Hc) as [->|[->| ->]];
      now rewrite dict_get_set_other. }
  set (t1 := dict_set column v t0) in *.
  assert (Q : tx_get "quantity" t2 = tx_get "quantity" t1
              /\ tx_get "price" t2 = tx_get "price" t1
              /\ tx_get "fees" t2 = tx_get "fees" t1).
  { unfold recalculate_amount in R; run R;
      rewrite ?tx_get_other by reflexivity; auto. }
  destruct Q as (Q1 & Q2 & Q3); rewrite Q1 in Hq; rewrite Q2 in Hp; rewrite Q3.
  destruct (recalculate_amount_trade _ _ _ _ _ _ Hc Hty1 Hq Hp R) as (a & Ha & ->).
  exists a; split; [exact Ha|apply tx_get_same; reflexivity].
Qed.


Lemma no_amount_error_set (k : string) (v : pyval) (t : Transaction) :
  str_eqb (str k) (str "errors") = false ->
  no_amount_error t -> no_amount_error (tx_set k v t).
Proof.
  intros Hk H m; unfold errors_of, list_of, tx_set.
  rewrite dict_get_set_other by exact Hk; apply H.
Qed.

Lemma no_amount_error_append (msg : pystr) (t : Transaction) :
  str_in msg amount_errors = false ->
  no_amount_error t -> no_amount_error (append_error msg t).
Proof.
  intros Hm H m; unfold append_error; rewrite errors_of_set_errors.
  intros I; apply in_app_or in I as [I|[<-|[]]]; [now apply H|exact Hm].
Qed.

Lemma no_amount_error_frame (ks : list pystr) (t t' : Transaction) :
  same_except ks t t' -> str_in (str "errors") ks = false ->
  no_amount_error t -> no_amount_error t'.
Proof.
  intros F Hk H m; unfold errors_of, list_of; rewrite (F _ Hk); apply H.
Qed.

(** A step that appends other errors leaves a row without amount error. *)
Ltac clean :=
  repeat match goal with
         | H : no_amount_error ?t |- no_amount_error ?t => exact H
         | |- no_amount_error (append_error _ _) =>
             apply no_amount_error_append; [reflexivity|]
         | |- no_amount_error (append_warning _ _) => unfold append_warning
         | |- no_amount_error (when ?b _ _) => unfold when
         | |- no_amount_error (tx_set _ _ _) =>
             apply no_amount_error_set; [reflexivity|]
         | |- no_amount_error (if ?b then _ else _) => destruct b
         | |- no_amount_error (match ?x with _ => _ end) => destruct x
         end.

Lemma step_date_clean cm row (t t' : Transaction) :
  step_date cm row t = Ok t' -> no_amount_error t -> no_amount_error t'.
Proof. unfold step_date; intros H C; run H; clean. Qed.

Lemma step_action_clean mappings cm row (t t' : Transaction) :
  step_action mappings cm row t = Ok t' ->
  no_amount_error t -> no_amount_error t'.
Proof. unfold step_action; intros H C; run H; clean. Qed.

Lemma step_symbol_clean cm row (t t' : Transaction) :
  step_symbol cm row t = Ok t' -> no_amount_error t -> no_amount_error t'.
Proof. unfold step_symbol; intros H C; run H; clean. Qed.

Lemma step_symbol_warning_clean (t : Transaction) :
  no_amount_error t -> no_amount_error (step_symbol_warning t).
Proof. unfold step_symbol_warning; intros C; clean. Qed.

Lemma step_instrument_type_clean cm row (t t' : Transaction) :
  step_instrument_type cm row t = Ok t' ->
  no_amount_error t -> no_amount_error t'.
Proof. unfold step_instrument_type; intros H C; run H; clean. Qed.

Lemma step_account_name_clean cm row (t : Transaction) :
  no_amount_error t -> no_amount_error (step_account_name cm row t).
Proof. unfold step_account_name; intros C; clean. Qed.

Lemma step_journal_details_clean cm row (t t' : Transaction) :
  step_journal_details cm row t = Ok t' ->
  no_amount_error t -> no_amount_error t'.
Proof. unfold step_journal_details; intros H C; run H; clean. Qed.

Lemma step_notes_clean cm row (t : Transaction) :
  no_amount_error t -> no_amount_error (step_notes cm row t).
Proof. unfold step_notes; intros C; clean. Qed.

Lemma when_append_has (k : string) (b : bool) (m : pystr) (t : Transaction) :
  str_eqb (str "errors") (str k) = false ->
  tx_has k (when b (append_error m) t) = tx_has k t.
Proof.
  intros H; destruct b; [|reflexivity].
  unfold when, append_error; now apply tx_has_other.
Qed.

(** The check of the required fields adds no amount error to a row that has
    an amount. *)
Lemma step_required_fields_clean (t : Transaction) (d : Decimal) :
  tx_get "amount" t = VDec d ->
  no_amount_error t -> no_amount_error (step_required_fields t).
Proof.
  intros A C; unfold step_required_fields.
  destruct (tx_has "transaction_type" t); [|exact C].
  assert (P0 : tx_has "amount" t = true)
    by (apply tx_get_has; rewrite A; discriminate).
  destruct (ttype_in (tx_get "transaction_type" t) [BUY; SELL]).
  - match goal with
    | |- no_amount_error (when (negb (tx_has "amount" ?x)) _ _) =>
        assert (Px : tx_has "amount" x = true)
    end.
    { rewrite !when_append_has by reflexivity; exact P0. }
    rewrite Px; cbn [negb when]; clean.
  - destruct (ttype_in (tx_get "transaction_type" t) [DEPOSIT; WITHDRAWAL; FEE]).
    + rewrite A; cbn [is_None when]; rewrite P0; exact C.
    + rewrite P0; exact C.
Qed.

(** A staged row that has an amount carries no amount error. *)
Lemma process_row_no_amount_error mappings cm n row (t : Transaction)
    (d : Decimal) :
  process_row mappings cm n row = Ok t ->
  tx_get "amount" t = VDec d -> no_amount_error t.
Proof.
  intros H A.
  apply process_row_steps in H
    as (t1 & t2 & t3 & t5 & t7 & t8 & t9 & t10 & t12 & t13
        & S1 & S2 & S3 & S5 & S7 & S8 & S9 & S10 & S12 & S13 & ->).
  assert (A13 : tx_get "amount" t13 = VDec d).
  { rewrite <- A; symmetry.
    apply (same_except_get _ "amount" _ _ (step_required_fields_frame t13)).
    reflexivity. }
  apply (step_required_fields_clean _ d A13).
  apply (no_amount_error_frame _ _ _ (step_calculated_amount_frame _ _ S13) eq_refl).
  apply (no_amount_error_frame _ _ _ (step_explicit_amount_frame _ _ _ _ S12) eq_refl).
  apply step_notes_clean.
  apply (step_journal_details_clean _ _ _ _ S10).
  apply (no_amount_error_frame _ _ _ (step_fees_frame _ _ _ _ S9) eq_refl).
  apply (no_amount_error_frame _ _ _ (step_price_frame _ _ _ _ S8) eq_refl).
  apply (no_amount_error_frame _ _ _ (step_quantity_frame _ _ _ _ S7) eq_refl).
  apply step_account_name_clean.
  apply (step_instrument_type_clean _ _ _ _ S5).
  apply step_symbol_warning_clean.
  apply (step_symbol_clean _ _ _ _ S3).
  apply (step_action_clean _ _ _ _ _ S2).
  apply (step_date_clean _ _ _ _ S1).
  intros m [].
Qed.

(** C3 (as the code has it).  A mapped amount column that parses gives the
    row's amount.  Without one, a row whose action text contains "expir" or
    "worthless" has amount zero and carries neither error about the
    amount, whatever its type; any other row of type BUY has amount
    quantity x price + fees and of type SELL quantity x price - fees, given
    quantity and price, and a row of any other type has no amount and
    carries the error "Cannot determine transaction amount".  A successful
    edit of quantity, price or fees on a row of type BUY or SELL leaves the
    amount at the same formula on the edited values. *)
Theorem amount_resolution :
  (forall mappings cm n row (t : Transaction),
      process_row mappings cm n row = Ok t ->
      (forall d, explicit_amount cm row = Some d -> tx_get "amount" t = VDec d)
      /\ (explicit_amount cm row = None -> expiry_action cm row = true ->
          tx_get "amount" t = VDec Decimal_zero
          /\ ~ In (str "Cannot determine transaction amount") (errors_of t)
          /\ ~ In (str "Amount is required for cash transactions")
                  (errors_of t))
      /\ (explicit_amount cm row = None -> expiry_action cm row = false ->
          (forall buy q p,
              tx_get "transaction_type" t
              = VTType (if buy : bool then BUY else SELL) ->
              tx_get "quantity" t = VDec q -> tx_get "price" t = VDec p ->
              exists a,
                trade_amount q p (as_decimal (tx_get "fees" t)) buy = Ok a
                /\ tx_get "amount" t = VDec a)
          /\ (forall ty,
                 tx_get "transaction_type" t = VTType ty ->
                 ty <> BUY -> ty <> SELL ->
                 tx_has "amount" t = false
                 /\ In (str "Cannot determine transaction amount")
                       (errors_of t))))
  /\ (forall (t0 t' : Transaction) column value buy q p,
         str_in column [str "quantity"; str "price"; str "fees"] = true ->
         tx_get "transaction_type" t0 = VTType (if buy : bool then BUY else SELL) ->
         setData_row t0 column value = Ok (true, t') ->
         tx_get "quantity" t' = VDec q -> tx_get "price" t' = VDec p ->
         exists a,
           trade_amount q p (as_decimal (tx_get "fees" t')) buy = Ok a
           /\ tx_get "amount" t' = VDec a).
Proof.
  split.
  - intros mappings cm n row t H.
    destruct (row_amount_resolution _ _ _ _ _ H) as (R1 & R2 & R3).
    split; [exact R1|]; split; [|exact R3].
    intros Hn Hx; specialize (R2 Hn Hx); split; [exact R2|].
    pose proof (process_row_no_amount_error _ _ _ _ _ _ H R2) as C.
    split; intros I; apply C in I; discriminate.
  - exact edit_recomputes_amount.
Qed.

Lemma errors_truthy (t : Transaction) (m : pystr) :
  In m (errors_of t) -> truthy (tx_get "errors" t) = true.
Proof.
  unfold errors_of, list_of, tx_get.
  destruct (dict_get (str "errors") t) as [[]|]; simpl; try tauto.
  destruct l; simpl; tauto.
Qed.

Lemma errors_kept_refl (t : Transaction) : errors_kept t t.
Proof. intros m H; exact H. Qed.

Lemma errors_kept_trans (a b c : Transaction) :
  errors_kept a b -> errors_kept b c -> errors_kept a c.
Proof. intros H1 H2 m H; auto. Qed.

Lemma errors_kept_frame (ks : list pystr) (t t' : Transaction) :
  same_except ks t t' -> str_in (str "errors") ks = false -> errors_kept t t'.
Proof.
  intros F Hk m; unfold errors_of, list_of; now rewrite (F _ Hk).
Qed.

Lemma errors_kept_set (k : string) (v : pyval) (t t' : Transaction) :
  str_eqb (str k) (str "errors") = false ->
  errors_kept t t' -> errors_kept t (tx_set k v t').
Proof.
  intros Hk H m Hm; unfold errors_of, list_of, tx_set.
  rewrite dict_get_set_other by exact Hk; now apply H.
Qed.

Lemma errors_kept_append (msg : pystr) (t t' : Transaction) :
  errors_kept t t' -> errors_kept t (append_error msg t').
Proof.
  intros H m Hm; unfold append_error; rewrite errors_of_set_errors.
  apply in_or_app; left; now apply H.
Qed.

Ltac kept :=
  repeat match goal with
         | |- errors_kept ?t ?t => apply errors_kept_refl
         | |- errors_kept _ (append_error _ _) => apply errors_kept_append
         | |- errors_kept _ (when ?b _ _) => unfold when
         | |- errors_kept _ (tx_set _ _ _) =>
             apply errors_kept_set; [reflexivity|]
         | |- errors_kept _ (if ?b then _ else _) => destruct b
         | |- errors_kept _ (match ?x with _ => _ end) => destruct x
         end.

Lemma step_journal_details_kept cm row (t t' : Transaction) :
  step_journal_details cm row t = Ok t' -> errors_kept t t'.
Proof. unfold step_journal_details; intros H; run H; kept. Qed.

Lemma step_notes_kept cm row (t : Transaction) :
  errors_kept t (step_notes cm row t).
Proof. unfold step_notes; kept. Qed.

Lemma step_required_fields_kept (t : Transaction) :
  errors_kept t (step_required_fields t).
Proof. unfold step_required_fields; kept. Qed.

Lemma unmapped_account_error mappings cm n row (t : Transaction) :
  dict_get (str "account_name") cm = None ->
  process_row mappings cm n row = Ok t ->
  In (str "Account name is required but not mapped") (errors_of t).
Proof.
  intros Hcm H.
  apply process_row_steps in H
    as (t1 & t2 & t3 & t5 & t7 & t8 & t9 & t10 & t12 & t13
        & S1 & S2 & S3 & S5 & S7 & S8 & S9 & S10 & S12 & S13 & ->).
  apply step_required_fields_kept.
  apply (errors_kept_frame _ _ _ (step_calculated_amount_frame _ _ S13) eq_refl).
  apply (errors_kept_frame _ _ _ (step_explicit_amount_frame _ _ _ _ S12) eq_refl).
  apply step_notes_kept.
  apply (step_journal_details_kept _ _ _ _ S10).
  apply (errors_kept_frame _ _ _ (step_fees_frame _ _ _ _ S9) eq_refl).
  apply (errors_kept_frame _ _ _ (step_price_frame _ _ _ _ S8) eq_refl).
  apply (errors_kept_frame _ _ _ (step_quantity_frame _ _ _ _ S7) eq_refl).
  unfold step_account_name, column_value; rewrite Hcm.
  unfold append_error; rewrite errors_of_set_errors.
  apply in_or_app; right; now left.
Qed.

Lemma account_edit_revalidates (t : Transaction) (v : pystr) :
  is_blank v = false ->
  let t1 := tx_set "account_name" (VStr v) t in
  setData_row t (str "account_name") (EStr v)
  = Ok (true, tx_set "errors" (VList (grid_errors t1)) t1)
  /\ account_blank t1 = false.
Proof.
  intros Hv t1.
  assert (Hm : account_name_missing t1 = Ok false).
  { unfold account_name_missing, missing; subst t1.
    rewrite tx_has_same, tx_get_same by reflexivity.
    assert (N : nonempty v = true) by (destruct v; [discriminate|reflexivity]).
    cbn [truthy]; rewrite N; cbn [negb orb]; f_equal.
    apply str_eqb_neq; intros E; apply strip_nil_iff in E; congruence. }
  split; [|exact (account_name_missing_blank _ _ Hm)].
  unfold setData_row.
  change (convert_edit (str "account_name") (EStr v) t)
    with (@Ok (Transaction + Transaction) (inr t1)).
  cbn [bind].
  change (recalculate_amount (str "account_name") t1) with (Ok t1).
  cbn [bind]; now rewrite (validate_row_spec _ _ Hm).
Qed.

Lemma grid_errors_no_account (t : Transaction) (e : pystr) :
  account_blank t = false -> In e (grid_errors t) ->
  has "account name" (lower e) = false.
Proof.
  intros Hb; unfold grid_errors, type_errors, error_if; rewrite Hb.
  repeat match goal with
         | |- context [if ?b then _ else _] => destruct b
         end;
    cbn [app In]; intros H;
    repeat (destruct H as [<-|H]; [vm_compute; reflexivity|]);
    destruct H.
Qed.


(** C6 (as the code has it).  A row imported without a mapping for
    [account_name] carries the error "Account name is required but not
    mapped" and [save_transactions] passes over it.  An edit that supplies
    a non-blank account name is accepted and validates the row anew: its
    errors become exactly the errors of the grid's required-field checks on
    the edited row, none of which is about the account name. *)
Theorem account_name_error_and_edit :
  (forall mappings cm n row (t : Transaction),
      dict_get (str "account_name") cm = None ->
      process_row mappings cm n row = Ok t ->
      In (str "Account name is required but not mapped") (errors_of t)
      /\ forall constraints s, save_one constraints s t = Ok s)
  /\ (forall (t : Transaction) v,
         is_blank v = false ->
         let t1 := tx_set "account_name" (VStr v) t in
         let t' := tx_set "errors" (VList (grid_errors t1)) t1 in
         setData_row t (str "account_name") (EStr v) = Ok (true, t')
         /\ errors_of t' = grid_errors t1
         /\ ~ In (str "Account name is required") (errors_of t')
         /\ forall e, In e (errors_of t') -> has "account name" (lower e) = false).
Proof.
  split.
  - intros mappings cm n row t Hcm H.
    pose proof (unmapped_account_error _ _ _ _ _ Hcm H) as E.
    split; [exact E|].
    intros constraints s; unfold save_one.
    now rewrite (errors_truthy _ _ E).
  - intros t v Hv t1 t'.
    destruct (account_edit_revalidates t v Hv) as [H B].
    fold t1 in H, B; fold t' in H.
    assert (E : errors_of t' = grid_errors t1) by apply errors_of_set_errors.
    split; [exact H|]; split; [exact E|]; rewrite E; split.
    + intros K; apply (grid_errors_no_account _ _ B) in K.
      vm_compute in K; discriminate.
    + intros e; now apply grid_errors_no_account.
Qed.

End RowProperties.

Lemma amount_resolution_witness :
  tx_get "amount" (staged Examples.trade_mappings Examples.buy_row)
  = VDec (DFinite false 51 0%Z)
  /\ tx_get "amount"
       (edited (staged Examples.trade_mappings Examples.buy_row) "quantity"
          (EStr (str "7")))
     = VDec (DFinite false 36 0%Z).
Proof.
  destruct (@amount_resolution ExampleRuntime.runtime) as [Hrow Hedit].
  split.
  - destruct (Hrow default_mappings Examples.trade_mappings 2%Z Examples.buy_row
                (staged Examples.trade_mappings Examples.buy_row) eq_refl)
      as (_ & _ & H).
    destruct H as [H _]; [reflexivity|reflexivity|].
    destruct (H true (DFinite false 10 0%Z) (DFinite false 5 0%Z)
                eq_refl eq_refl eq_refl) as (a & Ha & ->).
    vm_compute in Ha; injection Ha as <-; reflexivity.
  - destruct (Hedit (staged Examples.trade_mappings Examples.buy_row)
                (edited (staged Examples.trade_mappings Examples.buy_row)
                   "quantity" (EStr (str "7")))
                (str "quantity") (EStr (str "7")) true
                (DFinite false 7 0%Z) (DFinite false 5 0%Z)
                eq_refl eq_refl eq_refl eq_refl eq_refl) as (a & Ha & ->).
    vm_compute in Ha; injection Ha as <-; reflexivity.
Defined.

(** C3, the claim as stated fails: an expired option in a file without
    amount column is no purchase and no sale, was given no amount, and yet
    has the amount zero and no error. *)
Lemma expired_row_amount_counterexample :
  let t := staged Examples.bare_mappings Examples.bare_expired_row in
  @process_row ExampleRuntime.runtime default_mappings Examples.bare_mappings 2
    Examples.bare_expired_row = Ok t
  /\ explicit_amount Examples.bare_mappings Examples.bare_expired_row = None
  /\ tx_get "transaction_type" t = VTType OPTION_EXPIRATION
  /\ tx_get "amount" t = VDec Decimal_zero
  /\ errors_of t = []
  /\ ~ (tx_has "amount" t = false /\ errors_of t <> []).
Proof.
  repeat split; try reflexivity.
  vm_compute; intros [H _]; discriminate.
Qed.

Lemma account_name_error_and_edit_witness :
  In (str "Account name is required but not mapped")
     (errors_of (staged Examples.deposit_mappings Examples.deposit_row))
  /\ errors_of
       (edited (staged Examples.deposit_mappings Examples.deposit_row)
          "account_name" (EStr (str "Main"))) = [].
Proof.
  destruct (@account_name_error_and_edit ExampleRuntime.runtime) as [Hrow Hedit].
  split.
  - refine (proj1 (Hrow default_mappings Examples.deposit_mappings 2%Z
                     Examples.deposit_row _ eq_refl eq_refl)).
  - destruct (Hedit (staged Examples.deposit_mappings Examples.deposit_row)
                (str "Main") eq_refl) as (H & E & _).
    unfold edited; change (str "account_name") with (str "account_name") in H.
    rewrite H, E; reflexivity.
Defined.

(** C6, the claim as stated fails: the imported deposit carries the errors
    "Invalid instrument type: bond" and "Account name is required but not
    mapped"; after the edit of the account name it carries none, so the
    edit removed the other error too. *)
Lemma account_edit_counterexample :
  let t := staged Examples.deposit_mappings Examples.deposit_row in
  let t' := edited t "account_name" (EStr (str "Main")) in
  @process_row ExampleRuntime.runtime default_mappings
    Examples.deposit_mappings 2 Examples.deposit_row = Ok t
  /\ errors_of t = [ str "Invalid instrument type: bond";
                     str "Account name is required but not mapped" ]
  /\ ~ In (str "Account name is required") (errors_of t)
  /\ @setData_row ExampleRuntime.runtime t (str "account_name")
       (EStr (str "Main")) = Ok (true, t')
  /\ errors_of t' = []
  /\ errors_of t' <>
       list_remove (str "Account name is required but not mapped") (errors_of t).
Proof.
  repeat split; try reflexivity.
  - vm_compute; intuition discriminate.
  - vm_compute; discriminate.
Qed.

(** ** Commit *)

Section DatabaseProperties.

Context {rt : Runtime}.
Variable constraints : Storage -> bool.

Lemma flush_inv (s s' : Session) :
  flush constraints s = Ok s' ->
  committed s' = committed s
  /\ accounts (working s') = accounts (working s)
  /\ all_transactions s' = all_transactions s.
Proof.
  unfold flush, all_transactions; destruct (constraints _); [|discriminate].
  intros H; injection H as <-; simpl; now rewrite app_nil_r.
Qed.

Lemma get_or_create_symbol_inv (s s' : Session) a b c d e (sym : Symbol) :
  get_or_create_symbol constraints s a b c d e = Ok (sym, s') ->
  committed s' = committed s
  /\ accounts (working s') = accounts (working s)
  /\ all_transactions s' = all_transactions s.
Proof.
  unfold get_or_create_symbol; intros H.
  match type of H with
  | bind ?x _ = _ => destruct x as [os|]; cbn [bind] in H; [|discriminate]
  end.
  destruct (find _ _).
  - injection H as _ <-; auto.
  - match type of H with
    | bind (flush _ ?s0) _ = _ =>
        destruct (flush constraints s0) as [s1|] eqn:F; cbn [bind] in H;
        [|discriminate]; apply flush_inv in F
    end.
    injection H as _ <-; exact F.
Qed.

(** The symbol resolution raises a [ValueError] of its own or the refusal
    of the database. *)
Lemma get_or_create_symbol_raises (s : Session) a b c d e (x : exn) :
  get_or_create_symbol constraints s a b c d e = Raise x ->
  x = ValueError \/ x = IntegrityError.
Proof.
  unfold get_or_create_symbol; intros H.
  match type of H with
  | bind ?o _ = _ => destruct o as [os|x0] eqn:O; cbn [bind] in H
  end.
  - destruct (find _ _); [discriminate|].
    unfold flush in H; destruct (constraints _); cbn [bind] in H;
      [discriminate|].
    injection H as <-; now right.
  - injection H as <-; left.
    destruct (is_itype b OPTION); [|discriminate].
    destruct (negb (truthy a)); [congruence|].
    destruct e; cbn [bind] in O; try discriminate.
    unfold try_except_in in O; cbn [bind] in O.
    match type of O with
    | context [Decimal_of_str ?p] =>
        destruct (Decimal_of_str p) as [v|x1] eqn:D; cbn [bind] in O
    end; [discriminate|].
    apply Decimal_of_str_raises in D; subst x1.
    cbn in O; congruence.
Qed.

(** What [save_one] does to a session it returns from. *)
Lemma save_one_outcome (s s' : Session) (t : Transaction) :
  save_one constraints s t = Ok s' ->
  committed s' = committed s
  /\ accounts (working s') = accounts (working s)
  /\ (no_errors t = false /\ s' = s
      \/ no_errors t = true /\ symbol_rejected constraints t
         /\ all_transactions s' = all_transactions s
      \/ no_errors t = true
         /\ exists name account symbol_id rec,
              dict_get (str "account_name") t = Some name
              /\ get_account_by_name s name = Some account
              /\ db_transaction_of account symbol_id t = Ok rec
              /\ all_transactions s' = all_transactions s ++ [rec]).
Proof.
  unfold save_one, no_errors, tx_index.
  destruct (truthy (tx_get "errors" t)).
  { intros H; injection H as <-; auto. }
  destruct (dict_get (str "account_name") t) as [name|]; cbn [bind];
    [|discriminate].
  destruct (get_account_by_name s name) as [account|] eqn:GA; [|discriminate].
  destruct (truthy (tx_get "symbol" t)) eqn:Sy.
  - match goal with
    | |- context [try_except (bind ?g _) _ _] => destruct g as [[sym s1]|e] eqn:G
    end; cbn [bind try_except].
    + apply get_or_create_symbol_inv in G as (C1 & A1 & T1); cbn [fst snd].
      destruct (db_transaction_of account (Some (symbol_id sym)) t) as [rec|]
        eqn:D; cbn [bind]; [|discriminate].
      intros H; injection H as <-.
      split; [exact C1|]; split; [exact A1|].
      right; right; split; [reflexivity|].
      exists name, account, (Some (symbol_id sym)), rec.
      repeat split; try reflexivity; try assumption.
      unfold all_transactions, add_transaction in *; cbn [working pending].
      now rewrite app_assoc, T1.
    + destruct (exn_isa e ValueError) eqn:V; [|discriminate].
      cbn [bind]; intros H; injection H as <-.
      split; [reflexivity|]; split; [reflexivity|].
      right; left; split; [reflexivity|]; split; [|reflexivity].
      split; [exact Sy|].
      destruct (get_or_create_symbol_raises _ _ _ _ _ _ _ G) as [->| ->];
        [eauto|discriminate].
  - cbn [bind].
    destruct (db_transaction_of account None t) as [rec|] eqn:D; cbn [bind];
      [|discriminate].
    intros H; injection H as <-.
    split; [reflexivity|]; split; [reflexivity|].
    right; right; split; [reflexivity|].
    exists name, account, None, rec.
    repeat split; try reflexivity; try assumption.
    unfold all_transactions, add_transaction; cbn [working pending].
    now rewrite app_assoc.
Qed.


Lemma save_all_skips (s : Session) (txs : list Transaction) :
  save_all constraints s txs = save_all constraints s (filter no_errors txs).
Proof.
  revert s; induction txs as [|t txs IH]; intros s; [reflexivity|].
  cbn [save_all filter]; unfold no_errors at 1.
  destruct (truthy (tx_get "errors" t)) eqn:E; cbn [negb].
  - unfold save_one at 1; rewrite E; cbn [bind]; apply IH.
  - cbn [save_all]; destruct (save_one constraints s t); cbn [bind];
      [apply IH|reflexivity].
Qed.

Lemma save_all_unknown_account (s : Session) (txs : list Transaction)
    (t : Transaction) (name : pyval) :
  In t txs -> no_errors t = true ->
  dict_get (str "account_name") t = Some name ->
  find (fun a => sql_eq (VStr (account_name a)) name) (accounts (working s)) = None ->
  exists e, save_all constraints s txs = Raise e.
Proof.
  intros Hin Hne Hname; revert s Hin.
  induction txs as [|t0 txs IH]; intros s Hin Hfind; [destruct Hin|].
  cbn [save_all].
  destruct (save_one constraints s t0) as [s1|e] eqn:S; cbn [bind]; [|eauto].
  destruct Hin as [->|Hin].
  - exfalso; revert S; unfold save_one, tx_index, get_account_by_name.
    unfold no_errors in Hne; apply negb_true_iff in Hne.
    rewrite Hne, Hname; cbn [bind]; rewrite Hfind; discriminate.
  - apply IH; [exact Hin|].
    apply save_one_outcome in S as (_ & A & _); now rewrite A.
Qed.

(** What [save_all] does to a session it returns from: the rows without
    errors and nothing else are turned into records, in pending or flushed
    state. *)
Lemma save_all_outcome (s s' : Session) (txs : list Transaction) :
  save_all constraints s txs = Ok s' ->
  committed s' = committed s
  /\ accounts (working s') = accounts (working s)
  /\ exists new,
       all_transactions s' = all_transactions s ++ new
       /\ (forall rec, In rec new ->
             exists t account symbol_id,
               In t txs /\ no_errors t = true
               /\ db_transaction_of account symbol_id t = Ok rec)
       /\ (forall t, In t txs -> no_errors t = true ->
             symbol_rejected constraints t
             \/ exists name account symbol_id rec,
                  dict_get (str "account_name") t = Some name
                  /\ find (fun a => sql_eq (VStr (account_name a)) name)
                          (accounts (working s)) = Some account
                  /\ db_transaction_of account symbol_id t = Ok rec
                  /\ In rec new).
Proof.
  revert s; induction txs as [|t txs IH]; intros s; cbn [save_all].
  - intros H; injection H as <-; repeat split.
    exists []; rewrite app_nil_r; repeat split; intros; contradiction.
  - destruct (save_one constraints s t) as [s1|e] eqn:S; cbn [bind];
      [|discriminate].
    intros H; apply IH in H as (C & A & new & T & Hnew & Hall).
    apply save_one_outcome in S as (C1 & A1 & O).
    split; [congruence|]; split; [congruence|].
    destruct O as [[Hne ->]|[(Hne & Hrej & T1)|(Hne & name & acc & sid & rec & Hn & Hg & Hd & T1)]].
    + exists new; split; [exact T|]; split.
      * intros rec Hr; destruct (Hnew rec Hr) as (t' & a & i & Hi & He & Hd).
        exists t', a, i; repeat split; auto; now right.
      * intros t' [<-|Hi] He; [congruence|auto].
    + exists new; split; [congruence|]; split.
      * intros rec Hr; destruct (Hnew rec Hr) as (t' & a & i & Hi & He & Hd).
        exists t', a, i; repeat split; auto; now right.
      * intros t' [<-|Hi] He; [now left|].
        destruct (Hall t' Hi He) as [R|(n & a & i & r & H1 & H2 & H3 & H4)];
          [now left|right].
        exists n, a, i, r; repeat split; auto; congruence.
    + exists (rec :: new); split.
      { rewrite T, T1, <- app_assoc; reflexivity. }
      split.
      * intros rec' [<-|Hr].
        -- exists t, acc, sid; repeat split; auto; now left.
        -- destruct (Hnew rec' Hr) as (t' & a & i & Hi & He & Hd').
           exists t', a, i; repeat split; auto; now right.
      * intros t' [<-|Hi] He.
        -- right; exists name, acc, sid, rec; repeat split; auto; now left.
        -- destruct (Hall t' Hi He) as [R|(n & a & i & r & H1 & H2 & H3 & H4)];
             [now left|right].
           exists n, a, i, r; repeat split; auto; [congruence|now right].
Qed.

End DatabaseProperties.


(** ** Column detection *)

Lemma dict_set_keeps {V} (k f : pystr) (v x : V) (m : dict V) :
  dict_has k m = false -> dict_get f m = Some x ->
  dict_get f (dict_set k v m) = Some x.
Proof.
  intros Hk Hf; rewrite dict_get_set_other; [exact Hf|].
  apply str_eqb_neq; intros ->; unfold dict_has in Hk; now rewrite Hf in Hk.
Qed.

Lemma description_pass_keeps (headers : list pystr) (m : ColumnMappings)
    (f h : pystr) :
  dict_get f m = Some h ->
  dict_get f (ColumnMapper.description_pass headers m) = Some h.
Proof.
  intros H; induction headers as [|h0 hs IH]; cbn [ColumnMapper.description_pass];
    [exact H|].
  destruct (ColumnMapper.matches_any _ _); [|exact IH].
  destruct (dict_has (str "notes") m) eqn:E; cbn [negb]; [exact IH|].
  now apply dict_set_keeps.
Qed.

Lemma assign_field_keeps (table : list (pystr * list pystr))
    (hl h : pystr) (m : ColumnMappings) (f x : pystr) :
  dict_get f m = Some x ->
  dict_get f (ColumnMapper.assign_field table hl h m) = Some x.
Proof.
  intros H; induction table as [|[g pats] table IH];
    cbn [ColumnMapper.assign_field]; [exact H|].
  destruct (ColumnMapper.matches_any pats hl); [|exact IH].
  destruct (dict_has g m) eqn:E; cbn [negb]; [exact IH|].
  now apply dict_set_keeps.
Qed.

Lemma pattern_step_keeps (m : ColumnMappings) (h0 f x : pystr) :
  dict_get f m = Some x -> dict_get f (ColumnMapper.pattern_step m h0) = Some x.
Proof.
  intros H; unfold ColumnMapper.pattern_step.
  destruct (ColumnMapper.skipped _); [exact H|now apply assign_field_keeps].
Qed.

Lemma pattern_pass_keeps (headers : list pystr) (m : ColumnMappings)
    (f x : pystr) :
  dict_get f m = Some x ->
  dict_get f (ColumnMapper.pattern_pass headers m) = Some x.
Proof.
  revert m; induction headers as [|h0 hs IH]; intros m H; [exact H|].
  apply (IH (ColumnMapper.pattern_step m h0)); now apply pattern_step_keeps.
Qed.

Lemma infer_symbol_keeps (headers : list pystr) (preview : list Row)
    (m : ColumnMappings) (f x : pystr) :
  dict_get f m = Some x ->
  dict_get f (ColumnMapper.infer_symbol headers preview m) = Some x.
Proof.
  intros H; unfold ColumnMapper.infer_symbol.
  destruct (dict_has (str "action") m); cbn [andb]; [|exact H].
  destruct (dict_has (str "symbol") m) eqn:E; cbn [negb]; [exact H|].
  destruct (ColumnMapper.first_unmapped _ _ _ _); [|exact H].
  now apply dict_set_keeps.
Qed.

Lemma infer_action_keeps (headers : list pystr) (preview : list Row)
    (m : ColumnMappings) (f x : pystr) :
  dict_get f m = Some x ->
  dict_get f (ColumnMapper.infer_action headers preview m) = Some x.
Proof.
  intros H; unfold ColumnMapper.infer_action.
  destruct (dict_has (str "date") m); cbn [andb]; [|exact H].
  destruct (dict_has (str "action") m) eqn:E; cbn [negb]; [exact H|].
  destruct (ColumnMapper.first_unmapped _ _ _ _); [|exact H].
  now apply dict_set_keeps.
Qed.

(** The description pass gives [notes] to the first description-like
    header. *)
Lemma description_pass_first (headers : list pystr) (m : ColumnMappings) :
  dict_get (str "notes") m = None ->
  ColumnMapper.description_pass headers m
  = match find (fun h => ColumnMapper.matches_any
                           ColumnMapper.description_fields (lower h)) headers with
    | Some h => dict_set (str "notes") h m
    | None => m
    end.
Proof.
  intros H; induction headers as [|h0 hs IH];
    cbn [ColumnMapper.description_pass find]; [reflexivity|].
  destruct (ColumnMapper.matches_any _ _); [|exact IH].
  unfold dict_has; now rewrite H.
Qed.

(** The inferences take the first header, in the order of the file, that
    no field has yet and whose preview values pass the test. *)
Lemma first_unmapped_find (test : pystr -> bool) (preview : list Row)
    (headers : list pystr) (m : ColumnMappings) :
  ColumnMapper.first_unmapped test preview headers m
  = find (fun h => negb (str_in h (dict_values m)) && previewed test preview h)
         headers.
Proof.
  induction headers as [|h0 hs IH]; cbn [ColumnMapper.first_unmapped find];
    [reflexivity|].
  destruct (str_in h0 (dict_values m)); cbn [negb andb]; [exact IH|].
  unfold previewed at 1.
  destruct (existsb _ preview); [reflexivity|exact IH].
Qed.

(** A field the loop over the table gives to the header has patterns that
    match it. *)
Lemma assign_field_assigned (table : list (pystr * list pystr))
    (hl h : pystr) (m : ColumnMappings) (f x : pystr) :
  distinct_keys table = true ->
  dict_get f m = None ->
  dict_get f (ColumnMapper.assign_field table hl h m) = Some x ->
  x = h /\ exists pats,
             dict_get f table = Some pats
             /\ ColumnMapper.matches_any pats hl = true.
Proof.
  intros D Hm; induction table as [|[g pats] table IH];
    cbn [ColumnMapper.assign_field dict_get]; [congruence|].
  cbn [distinct_keys] in D; apply andb_true_iff in D as [D1 D2].
  apply negb_true_iff in D1.
  destruct (str_eqb g f) eqn:E.
  - apply str_eqb_eq in E; subst g.
    assert (Hh : dict_has f m = false) by (unfold dict_has; now rewrite Hm).
    rewrite Hh; cbn [negb].
    destruct (ColumnMapper.matches_any pats hl) eqn:M.
    + rewrite dict_get_set_same; intros H; injection H as <-; eauto.
    + intros H; destruct (IH D2 H) as (_ & p & Hp & _).
      unfold dict_has in D1; now rewrite Hp in D1.
  - destruct (ColumnMapper.matches_any pats hl); [|exact (IH D2)].
    destruct (dict_has g m); cbn [negb]; [exact (IH D2)|].
    rewrite dict_get_set_other by exact E; congruence.
Qed.

(** A header that matches a field and is not given to it is given to a
    field that stands before it in the table. *)
Lemma assign_field_taken (table : list (pystr * list pystr))
    (hl h : pystr) (m : ColumnMappings) (f : pystr) (pats : list pystr) :
  dict_get f table = Some pats ->
  ColumnMapper.matches_any pats hl = true ->
  dict_get f (ColumnMapper.assign_field table hl h m) = None ->
  exists g pats_g,
    In (g, pats_g) (entries_before f table)
    /\ ColumnMapper.matches_any pats_g hl = true
    /\ dict_get g (ColumnMapper.assign_field table hl h m) = Some h.
Proof.
  intros Hp M; induction table as [|[g pg] table IH];
    cbn [ColumnMapper.assign_field dict_get entries_before] in *;
    [discriminate|].
  destruct (str_eqb g f) eqn:E.
  - apply str_eqb_eq in E; subst g; injection Hp as ->; rewrite M.
    destruct (dict_has f m) eqn:Hh; cbn [negb].
    + unfold dict_has in Hh; destruct (dict_get f m) as [x|] eqn:G;
        [|discriminate].
      now rewrite (assign_field_keeps _ _ _ _ _ _ G).
    + now rewrite dict_get_set_same.
  - destruct (ColumnMapper.matches_any pg hl) eqn:Mg.
    + destruct (dict_has g m) eqn:Hh; cbn [negb].
      * intros H; destruct (IH Hp H) as (g' & p' & I & M' & G).
        exists g', p'; split; [now right|auto].
      * intros _; exists g, pg; split; [now left|].
        split; [exact Mg|apply dict_get_set_same].
    + intros H; destruct (IH Hp H) as (g' & p' & I & M' & G).
      exists g', p'; split; [now right|auto].
Qed.

Lemma common_patterns_distinct :
  distinct_keys ColumnMapper.common_patterns = true.
Proof. reflexivity. Qed.

Lemma pattern_step_assigned (m : ColumnMappings) (h0 f x : pystr) :
  dict_get f m = None ->
  dict_get f (ColumnMapper.pattern_step m h0) = Some x ->
  x = h0 /\ exists pats, patterns_of f = Some pats /\ candidate pats h0 = true.
Proof.
  intros Hm; unfold ColumnMapper.pattern_step, candidate.
  destruct (ColumnMapper.skipped (lower h0)); [congruence|].
  intros H.
  destruct (assign_field_assigned _ _ _ _ _ _ common_patterns_distinct Hm H)
    as (-> & pats & Hp & M).
  split; [reflexivity|]; exists pats; split; [exact Hp|now rewrite M].
Qed.

Lemma pattern_step_taken (m : ColumnMappings) (h0 f : pystr)
    (pats : list pystr) :
  patterns_of f = Some pats -> candidate pats h0 = true ->
  dict_get f (ColumnMapper.pattern_step m h0) = None ->
  exists g pats_g,
    In (g, pats_g) (fields_before f) /\ candidate pats_g h0 = true
    /\ dict_get g (ColumnMapper.pattern_step m h0) = Some h0.
Proof.
  unfold ColumnMapper.pattern_step, candidate; intros Hp C.
  apply andb_true_iff in C as [C1 C2]; apply negb_true_iff in C1.
  rewrite C1; intros H.
  destruct (assign_field_taken _ _ _ _ _ _ Hp C2 H) as (g & pg & I & M & G).
  exists g, pg; split; [exact I|]; split; [now rewrite M|exact G].
Qed.

(** The pattern pass gives a field to the first header, in the order of the
    file, that matches the field and is not given to a field that stands
    before it in the table. *)
Lemma pattern_pass_winner (headers : list pystr) (m : ColumnMappings)
    (f h : pystr) :
  dict_get f m = None ->
  dict_get f (ColumnMapper.pattern_pass headers m) = Some h ->
  exists pre post pats,
    headers = pre ++ h :: post
    /\ patterns_of f = Some pats
    /\ candidate pats h = true
    /\ forall h', In h' pre -> candidate pats h' = true ->
         exists g pats_g,
           In (g, pats_g) (fields_before f)
           /\ candidate pats_g h' = true
           /\ dict_get g (ColumnMapper.pattern_pass headers m) = Some h'.
Proof.
  revert m; induction headers as [|h0 hs IH]; intros m Hm H;
    [cbn in H; congruence|].
  change (ColumnMapper.pattern_pass (h0 :: hs) m)
    with (ColumnMapper.pattern_pass hs (ColumnMapper.pattern_step m h0)) in *.
  destruct (dict_get f (ColumnMapper.pattern_step m h0)) as [x|] eqn:G.
  - destruct (pattern_step_assigned _ _ _ _ Hm G) as (-> & pats & Hp & C).
    rewrite (pattern_pass_keeps hs _ _ _ G) in H; injection H as <-.
    exists [], hs, pats; repeat split; auto.
    intros h' [].
  - destruct (IH _ G H) as (pre & post & pats & -> & Hp & C & Hpre).
    exists (h0 :: pre), post, pats; repeat split; auto.
    intros h' [<-|I] C'; [|now apply Hpre].
    destruct (pattern_step_taken _ _ _ _ Hp C' G) as (g & pg & Ig & Cg & Gg).
    exists g, pg; repeat split; auto.
    now apply pattern_pass_keeps.
Qed.

(** Without the signature of a broker among the headers the fingerprint
    pass changes nothing. *)
Lemma detect_special_formats_no_signature (headers : list pystr)
    (preview : list Row) (m : ColumnMappings) :
  ColumnMapper.has_headers headers
    ["Run Date"; "Action"; "Symbol"; "Amount ($)"]%string = false ->
  ColumnMapper.has_headers headers
    ["Date"; "Symbol"; "Description"; "Quantity"; "Price"; "Amount"]%string
  = false ->
  ColumnMapper.has_headers headers
    ["Date"; "Symbol"; "Action"; "Quantity"; "Price"; "Fees & Comm";
     "Amount"]%string = false ->
  ColumnMapper.has_headers headers
    ["Open Date"; "Quantity"; "Price"; "Cost/Share"; "Market Value";
     "Holding Period"]%string = false ->
  ColumnMapper.detect_special_formats headers preview m = m.
Proof.
  intros H1 H2 H3 H4.
  unfold ColumnMapper.detect_special_formats, ColumnMapper.lot_details,
    ColumnMapper.robinhood, ColumnMapper.schwab, ColumnMapper.fidelity.
  now rewrite H1, H2, H3, H4.
Qed.

Lemma infer_symbol_first (headers : list pystr) (preview : list Row)
    (m : ColumnMappings) (h : pystr) :
  dict_get (str "symbol") m = None ->
  dict_get (str "symbol") (ColumnMapper.infer_symbol headers preview m) = Some h ->
  find (fun h => negb (str_in h (dict_values m))
                 && previewed symbol_like preview h) headers = Some h.
Proof.
  intros Hm; unfold ColumnMapper.infer_symbol.
  destruct (_ && _); [|congruence].
  rewrite first_unmapped_find.
  change (fun v => ColumnMapper.short_word (upper (strip v))) with symbol_like.
  destruct (find _ headers); [|congruence].
  now rewrite dict_get_set_same.
Qed.

Lemma infer_action_first (headers : list pystr) (preview : list Row)
    (m : ColumnMappings) (h : pystr) :
  dict_get (str "action") m = None ->
  dict_get (str "action") (ColumnMapper.infer_action headers preview m) = Some h ->
  find (fun h => negb (str_in h (dict_values m))
                 && previewed action_like preview h) headers = Some h.
Proof.
  intros Hm; unfold ColumnMapper.infer_action.
  destruct (_ && _); [|congruence].
  rewrite first_unmapped_find.
  change (fun v => ColumnMapper.matches_any ColumnMapper.common_actions (lower v))
    with action_like.
  destruct (find _ headers); [|congruence].
  now rewrite dict_get_set_same.
Qed.

(** One header in the loop over the fields: the first field of the table
    that the header matches and that has no mapping gets it. *)
Lemma assign_field_find (table : list (pystr * list pystr))
    (hl h : pystr) (m : ColumnMappings) :
  ColumnMapper.assign_field table hl h m
  = match find (fun fp => ColumnMapper.matches_any (snd fp) hl
                          && negb (dict_has (fst fp) m)) table with
    | Some fp => dict_set (fst fp) h m
    | None => m
    end.
Proof.
  induction table as [|[g pats] table IH];
    cbn [ColumnMapper.assign_field find fst snd]; [reflexivity|].
  destruct (ColumnMapper.matches_any pats hl); cbn [andb]; [|exact IH].
  destruct (dict_has g m); cbn [negb]; [exact IH|reflexivity].
Qed.

Lemma pattern_step_find (m : ColumnMappings) (h : pystr) :
  ColumnMapper.pattern_step m h
  = if ColumnMapper.skipped (lower h) then m
    else match find (fun fp => ColumnMapper.matches_any (snd fp) (lower h)
                               && negb (dict_has (fst fp) m))
                    ColumnMapper.common_patterns with
         | Some fp => dict_set (fst fp) h m
         | None => m
         end.
Proof.
  unfold ColumnMapper.pattern_step; now rewrite assign_field_find.
Qed.

(** A header is given to one field at most. *)
Lemma pattern_step_one (m : ColumnMappings) (h0 f g x y : pystr) :
  dict_get f m = None -> dict_get g m = None ->
  dict_get f (ColumnMapper.pattern_step m h0) = Some x ->
  dict_get g (ColumnMapper.pattern_step m h0) = Some y ->
  f = g.
Proof.
  intros Hf Hg; rewrite pattern_step_find.
  destruct (ColumnMapper.skipped (lower h0)); [congruence|].
  destruct (find _ _) as [[f0 pats]|]; [|congruence].
  cbn [fst]; intros Gf Gg.
  destruct (str_eqb f0 f) eqn:Ef;
    [|rewrite dict_get_set_other in Gf by exact Ef; congruence].
  destruct (str_eqb f0 g) eqn:Eg;
    [|rewrite dict_get_set_other in Gg by exact Eg; congruence].
  apply str_eqb_eq in Ef, Eg; congruence.
Qed.

Lemma pattern_pass_one (headers : list pystr) (m : ColumnMappings)
    (f g h : pystr) :
  NoDup headers ->
  dict_get f m = None -> dict_get g m = None ->
  dict_get f (ColumnMapper.pattern_pass headers m) = Some h ->
  dict_get g (ColumnMapper.pattern_pass headers m) = Some h ->
  f = g.
Proof.
  revert m; induction headers as [|h0 hs IH]; intros m D Hf Hg Gf Gg;
    [cbn in Gf; congruence|].
  change (ColumnMapper.pattern_pass (h0 :: hs) m)
    with (ColumnMapper.pattern_pass hs (ColumnMapper.pattern_step m h0)) in *.
  inversion_clear D as [|? ? Hn D'].
  assert (Late : forall k,
             dict_get k (ColumnMapper.pattern_step m h0) = None ->
             dict_get k (ColumnMapper.pattern_pass hs
                           (ColumnMapper.pattern_step m h0)) = Some h ->
             In h hs).
  { intros k K1 K2.
    destruct (pattern_pass_winner _ _ _ _ K1 K2) as (pre & post & _ & -> & _).
    apply in_or_app; right; now left. }
  destruct (dict_get f (ColumnMapper.pattern_step m h0)) as [x|] eqn:Sf;
    destruct (dict_get g (ColumnMapper.pattern_step m h0)) as [y|] eqn:Sg.
  - exact (pattern_step_one _ _ _ _ _ _ Hf Hg Sf Sg).
  - exfalso; apply Hn.
    destruct (pattern_step_assigned _ _ _ _ Hf Sf) as (-> & _).
    rewrite (pattern_pass_keeps hs _ _ _ Sf) in Gf; injection Gf as <-.
    exact (Late g Sg Gg).
  - exfalso; apply Hn.
    destruct (pattern_step_assigned _ _ _ _ Hg Sg) as (-> & _).
    rewrite (pattern_pass_keeps hs _ _ _ Sg) in Gg; injection Gg as <-.
    exact (Late f Sf Gf).
  - exact (IH _ D' Sf Sg Gf Gg).
Qed.

Lemma entries_before_other (f g : pystr) (pats : list pystr)
    (table : list (pystr * list pystr)) :
  In (g, pats) (entries_before f table) -> g <> f.
Proof.
  induction table as [|[k pk] table IH]; cbn [entries_before]; [intros []|].
  destruct (str_eqb k f) eqn:E; [intros []|].
  intros [I|I]; [|now apply IH].
  injection I as <- _; intros ->; now rewrite str_eqb_refl in E.
Qed.

(** C9 (as the code has it).  None of the four heuristic passes changes
    the header of a field that is mapped.  The description pass gives
    [notes] to the first description-like header.  The pattern pass skips
    the headers that start with a double quote or have more than 50
    characters, and gives every other header to one field at most: the
    first field of the table of patterns that the header matches and that
    has no mapping.  So the header a field gets from the pass is the first
    one, in the order of the file, that is looked at, matches the patterns
    of the field and is not given to a field that stands before it in the
    table; in a file of distinct headers that header is given to no other
    field by the pass.  The two inferences give their field to the first
    header that no field has and whose preview values pass their test.  The
    fingerprint pass changes nothing without a signature among the headers,
    and with the signature of Fidelity it replaces the header the pattern
    pass found for [fees]. *)
Theorem heuristic_passes_keep_mappings :
  (forall headers preview (m : ColumnMappings) f h,
      dict_get f m = Some h ->
      dict_get f (ColumnMapper.description_pass headers m) = Some h
      /\ dict_get f (ColumnMapper.pattern_pass headers m) = Some h
      /\ dict_get f (ColumnMapper.infer_symbol headers preview m) = Some h
      /\ dict_get f (ColumnMapper.infer_action headers preview m) = Some h)
  /\ (forall headers (m : ColumnMappings),
         dict_get (str "notes") m = None ->
         ColumnMapper.description_pass headers m
         = match find (fun h => ColumnMapper.matches_any
                                  ColumnMapper.description_fields (lower h))
                      headers with
           | Some h => dict_set (str "notes") h m
           | None => m
           end)
  /\ (forall (m : ColumnMappings) h,
         ColumnMapper.pattern_step m h
         = if ColumnMapper.skipped (lower h) then m
           else match find (fun fp =>
                              ColumnMapper.matches_any (snd fp) (lower h)
                              && negb (dict_has (fst fp) m))
                           ColumnMapper.common_patterns with
                | Some fp => dict_set (fst fp) h m
                | None => m
                end)
  /\ (forall headers (m : ColumnMappings) f h,
         dict_get f m = None ->
         dict_get f (ColumnMapper.pattern_pass headers m) = Some h ->
         (exists pre post pats,
             headers = pre ++ h :: post
             /\ patterns_of f = Some pats
             /\ candidate pats h = true
             /\ forall h', In h' pre -> candidate pats h' = true ->
                  exists g pats_g,
                    In (g, pats_g) (fields_before f)
                    /\ candidate pats_g h' = true
                    /\ dict_get g (ColumnMapper.pattern_pass headers m)
                       = Some h')
         /\ (NoDup headers ->
             (forall g,
                 dict_get g m = None ->
                 dict_get g (ColumnMapper.pattern_pass headers m) = Some h ->
                 g = f)
             /\ (forall g pats_g,
                    In (g, pats_g) (fields_before f) ->
                    dict_get g m = None ->
                    dict_get g (ColumnMapper.pattern_pass headers m)
                    <> Some h)))
  /\ (forall headers preview (m : ColumnMappings) h,
         dict_get (str "symbol") m = None ->
         dict_get (str "symbol") (ColumnMapper.infer_symbol headers preview m)
         = Some h ->
         find (fun h => negb (str_in h (dict_values m))
                        && previewed symbol_like preview h) headers = Some h)
  /\ (forall headers preview (m : ColumnMappings) h,
         dict_get (str "action") m = None ->
         dict_get (str "action") (ColumnMapper.infer_action headers preview m)
         = Some h ->
         find (fun h => negb (str_in h (dict_values m))
                        && previewed action_like preview h) headers = Some h)
  /\ (forall headers preview (m : ColumnMappings),
         ColumnMapper.has_headers headers
           ["Run Date"; "Action"; "Symbol"; "Amount ($)"]%string = false ->
         ColumnMapper.has_headers headers
           ["Date"; "Symbol"; "Description"; "Quantity"; "Price";
            "Amount"]%string = false ->
         ColumnMapper.has_headers headers
           ["Date"; "Symbol"; "Action"; "Quantity"; "Price"; "Fees & Comm";
            "Amount"]%string = false ->
         ColumnMapper.has_headers headers
           ["Open Date"; "Quantity"; "Price"; "Cost/Share"; "Market Value";
            "Holding Period"]%string = false ->
         ColumnMapper.detect_special_formats headers preview m = m)
  /\ (let headers := MapperExamples.fidelity_headers in
      let m := ColumnMapper.pattern_pass headers
                 (ColumnMapper.description_pass headers []) in
      dict_get (str "fees") m = Some (str "Commission ($)")
      /\ dict_get (str "fees")
           (ColumnMapper.detect_special_formats headers [] m)
         = Some (str "Fees ($)")).
Proof.
  split; [|split; [|split; [|split; [|split; [|split; [|split]]]]]].
  - intros headers preview m f h H; repeat split.
    + now apply description_pass_keeps.
    + now apply pattern_pass_keeps.
    + now apply infer_symbol_keeps.
    + now apply infer_action_keeps.
  - exact description_pass_first.
  - exact pattern_step_find.
  - intros headers m f h Hm H; split; [exact (pattern_pass_winner _ _ _ _ Hm H)|].
    intros D; split.
    + intros g Hg G; exact (pattern_pass_one _ _ _ _ _ D Hg Hm G H).
    + intros g pats_g I Hg G.
      apply (entries_before_other _ _ _ _ I).
      exact (pattern_pass_one _ _ _ _ _ D Hg Hm G H).
  - exact infer_symbol_first.
  - exact infer_action_first.
  - exact detect_special_formats_no_signature.
  - split; vm_compute; reflexivity.
Qed.

Lemma heuristic_passes_keep_mappings_witness :
  dict_get (str "notes")
    (ColumnMapper.pattern_pass MapperExamples.fidelity_headers
       (ColumnMapper.description_pass MapperExamples.fidelity_headers []))
  = Some (str "Description")
  /\ (exists pre post, MapperExamples.cash_headers = pre ++ str "Total" :: post)
  /\ dict_get (str "quantity")
       (ColumnMapper.pattern_pass MapperExamples.cash_headers [])
     <> Some (str "Total").
Proof.
  destruct heuristic_passes_keep_mappings as (K & _ & _ & W & _).
  split.
  - exact (proj1 (proj2
             (K MapperExamples.fidelity_headers []
                (ColumnMapper.description_pass MapperExamples.fidelity_headers [])
                (str "notes") (str "Description") eq_refl))).
  - destruct (W MapperExamples.cash_headers [] (str "amount") (str "Total")
                eq_refl eq_refl) as ((pre & post & _ & E & _) & U).
    split; [exists pre, post; exact E|].
    assert (D : NoDup MapperExamples.cash_headers).
    { apply NoDup_cons; [intros [E'|[]]; discriminate E'|].
      apply NoDup_cons; [intros []|apply NoDup_nil]. }
    apply (proj2 (U D) (str "quantity")
             (ColumnMapper.strs ["quantity"; "qty"; "shares"; "amount"]%string));
      [do 3 right; left; reflexivity|reflexivity].
Defined.

(** C9, the claim as stated fails: the header "Amount" is the first that
    matches the patterns of the field [amount], and the field goes to the
    header "Total" after it, since "Amount" is given to [quantity]. *)
Lemma first_matching_header_counterexample :
  let m := ColumnMapper.detect_column_patterns MapperExamples.cash_headers [] [] in
  m = [(str "quantity", str "Amount"); (str "amount", str "Total")]
  /\ ColumnMapper.pattern_pass MapperExamples.cash_headers [] = m
  /\ match patterns_of (str "amount") with
     | Some pats => candidate pats (str "Amount")
     | None => false
     end = true
  /\ dict_get (str "amount") m <> Some (str "Amount").
Proof.
  repeat split; vm_compute; discriminate.
Qed.

(** * Further properties of the code *)

(** ** Staged rows: the fields a row comes out with *)

(** Which keys a step writes. *)
Ltac writes :=
  repeat match goal with
         | |- same_except _ ?t ?t => apply same_except_refl
         | |- same_except _ _ (append_error _ _) => unfold append_error
         | |- same_except _ _ (append_warning _ _) => unfold append_warning
         | |- same_except _ _ (when ?b _ _) => unfold when
         | |- same_except _ _ (tx_set _ _ _) =>
             apply same_except_set; [reflexivity|]
         | |- same_except _ _ (dict_set _ _ _) =>
             apply same_except_set; [reflexivity|]
         | |- same_except _ _ (if ?b then _ else _) => destruct b
         | |- same_except _ _ (match ?x with _ => _ end) => destruct x
         end.

Ltac keeps :=
  repeat match goal with
         | |- errors_kept ?t ?t => apply errors_kept_refl
         | |- errors_kept _ (append_error _ _) => apply errors_kept_append
         | |- errors_kept _ (append_warning _ _) =>
             unfold append_warning
         | |- errors_kept _ (when ?b _ _) => unfold when
         | |- errors_kept _ (tx_set _ _ _) =>
             apply errors_kept_set; [reflexivity|]
         | |- errors_kept _ (if ?b then _ else _) => destruct b
         | |- errors_kept _ (match ?x with _ => _ end) => destruct x
         end.

Section StepProperties.

Context {rt : Runtime}.

Lemma step_date_writes cm row (t t' : Transaction) :
  step_date cm row t = Ok t' ->
  same_except (map str ["transaction_date"; "errors"]%string) t t'.
Proof. unfold step_date; intros H; run H; writes. Qed.

Lemma step_action_writes mappings cm row (t t' : Transaction) :
  step_action mappings cm row t = Ok t' ->
  same_except
    (map str ["instrument_type"; "price"; "amount"; "quantity";
              "transaction_type"; "transaction_type_str"; "errors"]%string)
    t t'.
Proof. unfold step_action; intros H; run H; writes. Qed.

Lemma step_symbol_writes cm row (t t' : Transaction) :
  step_symbol cm row t = Ok t' ->
  same_except
    (map str ["symbol"; "instrument_type"; "option_type"; "expiration_date";
              "strike_price"; "original_symbol"; "notes"]%string)
    t t'.
Proof. unfold step_symbol; intros H; run H; writes. Qed.

Lemma step_symbol_warning_writes (t : Transaction) :
  same_except [str "warnings"] t (step_symbol_warning t).
Proof. unfold step_symbol_warning; writes. Qed.

Lemma step_instrument_type_writes cm row (t t' : Transaction) :
  step_instrument_type cm row t = Ok t' ->
  same_except
    (map str ["instrument_type"; "instrument_type_str"; "errors";
              "warnings"]%string) t t'.
Proof. unfold step_instrument_type; intros H; run H; writes. Qed.

Lemma step_account_name_writes cm row (t : Transaction) :
  same_except (map str ["account_name"; "errors"]%string) t
    (step_account_name cm row t).
Proof. unfold step_account_name; writes. Qed.

Lemma step_journal_details_writes cm row (t t' : Transaction) :
  step_journal_details cm row t = Ok t' ->
  same_except
    (map str ["journal_details"; "journal_details_str"; "errors"]%string) t t'.
Proof. unfold step_journal_details; intros H; run H; writes. Qed.

Lemma step_notes_writes cm row (t : Transaction) :
  same_except [str "notes"] t (step_notes cm row t).
Proof. unfold step_notes; writes. Qed.

Lemma step_required_fields_writes (t : Transaction) :
  same_except [str "errors"] t (step_required_fields t).
Proof. unfold step_required_fields; writes. Qed.


Lemma step_date_keeps cm row (t t' : Transaction) :
  step_date cm row t = Ok t' -> errors_kept t t'.
Proof. unfold step_date; intros H; run H; keeps. Qed.

Lemma step_action_keeps mappings cm row (t t' : Transaction) :
  step_action mappings cm row t = Ok t' -> errors_kept t t'.
Proof. unfold step_action; intros H; run H; keeps. Qed.

Lemma step_instrument_type_keeps cm row (t t' : Transaction) :
  step_instrument_type cm row t = Ok t' -> errors_kept t t'.
Proof. unfold step_instrument_type; intros H; run H; keeps. Qed.

Lemma step_account_name_keeps cm row (t : Transaction) :
  errors_kept t (step_account_name cm row t).
Proof. unfold step_account_name; keeps. Qed.

Lemma errors_kept_nil (t t' : Transaction) :
  errors_kept t t' -> errors_of t' = [] -> errors_of t = [].
Proof.
  intros K E; destruct (errors_of t) as [|m l] eqn:Et; [reflexivity|].
  specialize (K m); rewrite Et, E in K; destruct K; now left.
Qed.

Lemma append_error_not_nil (m : pystr) (t : Transaction) :
  errors_of (append_error m t) <> [].
Proof.
  unfold append_error; rewrite errors_of_set_errors.
  destruct (errors_of t); discriminate.
Qed.

(** The steps of a row, with what each one writes and keeps. *)
Lemma process_row_trace mappings cm n row (t : Transaction) :
  process_row mappings cm n row = Ok t ->
  exists t1 t2 t3 t5 t7 t8 t9 t10 t12 t13,
    (step_date cm row (new_transaction n row) = Ok t1
     /\ step_action mappings cm row t1 = Ok t2
     /\ step_symbol cm row t2 = Ok t3
     /\ step_instrument_type cm row (step_symbol_warning t3) = Ok t5
     /\ step_quantity cm row (step_account_name cm row t5) = Ok t7
     /\ step_price cm row t7 = Ok t8
     /\ step_fees cm row t8 = Ok t9
     /\ step_journal_details cm row t9 = Ok t10
     /\ step_explicit_amount cm row (step_notes cm row t10) = Ok t12
     /\ step_calculated_amount t12 = Ok t13
     /\ t = step_required_fields t13)
    /\ (errors_kept t1 t /\ errors_kept t2 t
        /\ errors_kept (step_account_name cm row t5) t
        /\ errors_kept t13 t).
Proof.
  intros H.
  apply process_row_steps in H
    as (t1 & t2 & t3 & t5 & t7 & t8 & t9 & t10 & t12 & t13
        & S1 & S2 & S3 & S5 & S7 & S8 & S9 & S10 & S12 & S13 & ->).
  exists t1, t2, t3, t5, t7, t8, t9, t10, t12, t13.
  split; [repeat split; assumption|].
  assert (K13 : errors_kept t13 (step_required_fields t13))
    by apply step_required_fields_kept.
  assert (Kacc : errors_kept (step_account_name cm row t5)
                   (step_required_fields t13)).
  { eapply errors_kept_trans; [|exact K13].
    eapply errors_kept_trans;
      [exact (errors_kept_frame _ _ _ (step_quantity_frame _ _ _ _ S7) eq_refl)|].
    eapply errors_kept_trans;
      [exact (errors_kept_frame _ _ _ (step_price_frame _ _ _ _ S8) eq_refl)|].
    eapply errors_kept_trans;
      [exact (errors_kept_frame _ _ _ (step_fees_frame _ _ _ _ S9) eq_refl)|].
    eapply errors_kept_trans; [exact (step_journal_details_kept _ _ _ _ S10)|].
    eapply errors_kept_trans; [apply step_notes_kept|].
    eapply errors_kept_trans;
      [exact (errors_kept_frame _ _ _
                (step_explicit_amount_frame _ _ _ _ S12) eq_refl)|].
    exact (errors_kept_frame _ _ _ (step_calculated_amount_frame _ _ S13) eq_refl). }
  assert (K2 : errors_kept t2 (step_required_fields t13)).
  { eapply errors_kept_trans; [|exact Kacc].
    eapply errors_kept_trans;
      [exact (errors_kept_frame _ _ _ (step_symbol_writes _ _ _ _ S3) eq_refl)|].
    eapply errors_kept_trans;
      [exact (errors_kept_frame _ _ _ (step_symbol_warning_writes t3) eq_refl)|].
    eapply errors_kept_trans; [exact (step_instrument_type_keeps _ _ _ _ S5)|].
    apply step_account_name_keeps. }
  repeat split; try assumption.
  eapply errors_kept_trans; [exact (step_action_keeps _ _ _ _ _ S2)|exact K2].
Qed.


End StepProperties.

(** Rewrites the value of a key back over the steps that do not write it. *)
Ltac back :=
  repeat match goal with
         | W : same_except ?ks ?a ?b |- context [dict_get ?k ?b] =>
             rewrite (W k eq_refl)
         end.

Section StagedFields.

Context {rt : Runtime}.

Lemma tx_get_dict (k : string) (t : Transaction) (v : pyval) :
  tx_get k t = v -> v <> VNone -> dict_get (str k) t = Some v.
Proof.
  unfold tx_get; destruct (dict_get (str k) t); intros <- H; congruence.
Qed.

Lemma errors_of_set_other (k : string) (v : pyval) (t : Transaction) :
  str_eqb (str k) (str "errors") = false ->
  errors_of (tx_set k v t) = errors_of t.
Proof.
  intros H; unfold errors_of, list_of, tx_set; now rewrite dict_get_set_other.
Qed.

Lemma step_action_type mappings cm row (t t' : Transaction) :
  step_action mappings cm row t = Ok t' -> errors_of t' = [] ->
  exists ty, tx_get "transaction_type" t' = VTType ty.
Proof.
  unfold step_action; intros H E; run H;
    try (eexists; apply tx_get_same; reflexivity);
    exfalso; revert E;
    rewrite ?errors_of_set_other by reflexivity;
    apply append_error_not_nil.
Qed.

Lemma step_required_fields_amount_present (t : Transaction) :
  tx_has "transaction_type" t = true ->
  errors_of (step_required_fields t) = [] -> tx_has "amount" t = true.
Proof.
  intros Hty E; destruct (tx_has "amount" t) eqn:HA; [reflexivity|exfalso].
  revert E; unfold step_required_fields; rewrite Hty; unfold when.
  repeat match goal with
         | |- context [if ?b then _ else _] =>
             lazymatch b with
             | context [if _ then _ else _] => fail
             | _ => destruct b eqn:?
             end
         end;
    unfold append_error in *;
    repeat match goal with
           | H : negb (tx_has "amount" _) = _ |- _ =>
               rewrite ?tx_has_other in H by reflexivity;
               rewrite HA in H; discriminate H
           end;
    rewrite ?errors_of_set_errors;
    match goal with
    | |- ?l ++ _ = [] -> _ => destruct l; discriminate
    end.
Qed.

(** The amount of a staged row is a [Decimal] when it has one. *)
Lemma process_row_amount_decimal mappings cm n row (t : Transaction) :
  process_row mappings cm n row = Ok t ->
  tx_has "amount" t = true -> exists d, tx_get "amount" t = VDec d.
Proof.
  intros H.
  apply process_row_steps in H
    as (t1 & t2 & t3 & t5 & t7 & t8 & t9 & t10 & t12 & t13
        & S1 & S2 & S3 & S5 & S7 & S8 & S9 & S10 & S12 & S13 & ->).
  pose proof (step_date_writes _ _ _ _ S1) as W1.
  pose proof (step_symbol_writes _ _ _ _ S3) as W3.
  pose proof (step_symbol_warning_writes t3) as W4.
  pose proof (step_instrument_type_writes _ _ _ _ S5) as W5.
  pose proof (step_account_name_writes cm row t5) as W6.
  pose proof (step_quantity_frame _ _ _ _ S7) as W7.
  pose proof (step_price_frame _ _ _ _ S8) as W8.
  pose proof (step_fees_frame _ _ _ _ S9) as W9.
  pose proof (step_journal_details_writes _ _ _ _ S10) as W10.
  pose proof (step_notes_writes cm row t10) as W11.
  pose proof (step_required_fields_writes t13) as W14.
  assert (A1 : dict_get (str "amount") t1 = None) by (back; reflexivity).
  pose proof (step_action_amount _ _ _ _ _ S2 A1) as A2.
  assert (A11 : dict_get (str "amount") (step_notes cm row t10) = None
                \/ exists d, dict_get (str "amount") (step_notes cm row t10)
                             = Some (VDec d)).
  { back; rewrite A2; destruct (expiry_action cm row); eauto. }
  apply step_explicit_amount_eq in S12.
  assert (A12 : dict_get (str "amount") t12 = None
                \/ exists d, dict_get (str "amount") t12 = Some (VDec d)).
  { subst t12; destruct (explicit_amount cm row); [|exact A11].
    right; eexists; apply dict_get_set_same. }
  assert (A13 : dict_get (str "amount") t13 = None
                \/ exists d, dict_get (str "amount") t13 = Some (VDec d)).
  { unfold step_calculated_amount in S13; run S13; try exact A12;
      right; eexists; apply dict_get_set_same. }
  unfold tx_has, dict_has, tx_get; back.
  destruct A13 as [->|(d & ->)]; [discriminate|eauto].
Qed.


End StagedFields.

Ltac trace H :=
  apply process_row_trace in H
    as (t1 & t2 & t3 & t5 & t7 & t8 & t9 & t10 & t12 & t13
        & (S1 & S2 & S3 & S5 & S7 & S8 & S9 & S10 & S12 & S13 & Et)
        & K1 & K2 & K6 & K13);
  pose proof (step_date_writes _ _ _ _ S1) as W1;
  pose proof (step_action_writes _ _ _ _ _ S2) as W2;
  pose proof (step_symbol_writes _ _ _ _ S3) as W3;
  match type of S5 with
  | step_instrument_type _ _ (step_symbol_warning ?x) = _ =>
      pose proof (step_symbol_warning_writes x) as W4
  end;
  pose proof (step_instrument_type_writes _ _ _ _ S5) as W5;
  match type of S7 with
  | step_quantity _ _ (step_account_name ?c ?r ?x) = _ =>
      pose proof (step_account_name_writes c r x) as W6
  end;
  pose proof (step_quantity_frame _ _ _ _ S7) as W7;
  pose proof (step_price_frame _ _ _ _ S8) as W8;
  pose proof (step_fees_frame _ _ _ _ S9) as W9;
  pose proof (step_journal_details_writes _ _ _ _ S10) as W10;
  match type of S12 with
  | step_explicit_amount _ _ (step_notes ?c ?r ?x) = _ =>
      pose proof (step_notes_writes c r x) as W11
  end;
  pose proof (step_explicit_amount_frame _ _ _ _ S12) as W12;
  pose proof (step_calculated_amount_frame _ _ S13) as W13;
  match type of Et with
  | _ = step_required_fields ?x =>
      pose proof (step_required_fields_writes x) as W14
  end.

Section StagedRows.

Context {rt : Runtime}.

(** X1.  A staged row without errors has the fields the commit reads: the date
    its date column parses to, a transaction type, the stripped, non-blank
    text of its account column, and an amount that is a [Decimal]; the
    record of the commit can be built from it. *)
Theorem error_free_row_is_complete mappings cm n row (t : Transaction) :
  process_row mappings cm n row = Ok t -> errors_of t = [] ->
  exists v d ty a amount,
    column_value cm row "date" = Some v
    /\ parse_date v = Ok (Some d)
    /\ tx_get "transaction_date" t = VDate d
    /\ tx_get "transaction_type" t = VTType ty
    /\ column_value cm row "account_name" = Some a
    /\ is_blank a = false
    /\ tx_get "account_name" t = VStr (strip a)
    /\ tx_get "amount" t = VDec amount
    /\ forall account symbol_id,
         exists rec, db_transaction_of account symbol_id t = Ok rec.
Proof.
  intros H E; pose proof H as H0; trace H.
  pose proof (errors_kept_nil _ _ K1 E) as E1.
  pose proof (errors_kept_nil _ _ K2 E) as E2.
  pose proof (errors_kept_nil _ _ K6 E) as E6.
  (* the date *)
  unfold step_date in S1.
  destruct (column_value cm row "date") as [v|];
    [|injection S1 as <-; now apply append_error_not_nil in E1].
  rewrite parse_date_eq in S1; cbn [bind] in S1.
  destruct (parse_date_value v) as [d|] eqn:PD;
    [|injection S1 as <-; now apply append_error_not_nil in E1].
  injection S1 as S1.
  assert (Gd : tx_get "transaction_date" t = VDate d).
  { subst t; unfold tx_get; back; rewrite <- S1.
    unfold tx_set; now rewrite dict_get_set_same. }
  (* the type *)
  destruct (step_action_type _ _ _ _ _ S2 E2) as (ty & Gty2).
  assert (Gty13 : tx_get "transaction_type" t13 = VTType ty).
  { rewrite <- Gty2; unfold tx_get; back; reflexivity. }
  assert (Gty : tx_get "transaction_type" t = VTType ty).
  { rewrite <- Gty13; subst t; unfold tx_get; back; reflexivity. }
  (* the account *)
  assert (Hacc : exists a, column_value cm row "account_name" = Some a
                           /\ is_blank a = false
                           /\ tx_get "account_name" t = VStr (strip a)).
  { destruct (column_value cm row "account_name") as [a|] eqn:Ca;
      [|unfold step_account_name in E6; rewrite Ca in E6;
        now apply append_error_not_nil in E6].
    destruct (nonempty (strip a)) eqn:Ne;
      [|unfold step_account_name in E6; rewrite Ca, Ne in E6;
        now apply append_error_not_nil in E6].
    exists a; split; [reflexivity|]; split.
    - destruct (is_blank a) eqn:B; [|reflexivity].
      apply strip_nil_iff in B; rewrite B in Ne; discriminate.
    - subst t; unfold tx_get; back.
      unfold step_account_name; rewrite Ca, Ne; cbn [negb].
      unfold tx_set; now rewrite dict_get_set_same. }
  destruct Hacc as (a & Ca & Ba & Ga).
  (* the amount *)
  assert (HA : tx_has "amount" t = true).
  { assert (HA13 : tx_has "amount" t13 = true).
    { apply step_required_fields_amount_present;
        [apply tx_get_has; rewrite Gty13; discriminate|now rewrite <- Et]. }
    subst t; unfold tx_has, dict_has in *; back; exact HA13. }
  destruct (process_row_amount_decimal _ _ _ _ _ H0 HA) as (amount & Gam).
  exists v, d, ty, a, amount.
  repeat (split; [first [assumption | reflexivity
                        | now rewrite parse_date_eq, PD]|]).
  intros account symbol_id; unfold db_transaction_of, tx_index.
  rewrite (tx_get_dict _ _ _ Gty), (tx_get_dict _ _ _ Gd),
    (tx_get_dict _ _ _ Gam) by discriminate.
  cbn [bind]; eauto.
Qed.

(** X2.  The fees of a staged row: those of the fees column, zero when the file
    has none or the cell is empty; the record of the commit has fees that
    are a [Decimal]. *)
Theorem staged_fees_default mappings cm n row (t : Transaction) :
  process_row mappings cm n row = Ok t ->
  tx_has "fees" t = true
  /\ tx_get "fees" t
     = match column_value cm row "fees" with
       | Some [] | None => VDec Decimal_zero
       | Some f => of_decimal (decimal_value f)
       end
  /\ forall account symbol_id rec,
       db_transaction_of account symbol_id t = Ok rec ->
       exists d, tr_fees rec = VDec d.
Proof.
  intros H; trace H.
  assert (G9 : dict_get (str "fees") t9
               = Some match column_value cm row "fees" with
                      | Some [] | None => VDec Decimal_zero
                      | Some f => of_decimal (decimal_value f)
                      end).
  { revert S9; unfold step_fees.
    destruct (column_value cm row "fees") as [[|c f]|]; cbn [nonempty];
      rewrite ?parse_decimal_eq; cbn [bind]; intros S9; injection S9 as <-;
      unfold tx_set; rewrite dict_get_set_same; reflexivity. }
  assert (G : dict_get (str "fees") t
              = Some match column_value cm row "fees" with
                     | Some [] | None => VDec Decimal_zero
                     | Some f => of_decimal (decimal_value f)
                     end).
  { subst t; back; exact G9. }
  split; [unfold tx_has, dict_has; now rewrite G|].
  split; [unfold tx_get; now rewrite G|].
  intros account symbol_id rec; unfold db_transaction_of, tx_get.
  rewrite G.
  repeat match goal with
         | |- context [tx_index ?k ?x] => destruct (tx_index k x)
         end; cbn [bind]; try discriminate.
  intros R; injection R as <-; cbn [tr_fees].
  destruct (column_value cm row "fees") as [[|c f]|]; cbn; eauto.
  destruct (decimal_value (c :: f)) as [d|]; cbn; eauto.
  destruct (dec_truthy d); eauto.
Qed.


Lemma process_row_row_num mappings cm n row (t : Transaction) :
  process_row mappings cm n row = Ok t ->
  tx_get "row_num" t = VInt n /\ tx_get "original" t = VDict row.
Proof.
  intros H; trace H; subst t; unfold tx_get; back; split; reflexivity.
Qed.

Lemma process_rows_nth mappings cm (rows : list Row) :
  forall n (ts : list Transaction),
    process_rows mappings cm n rows = Ok ts ->
    List.length ts = List.length rows
    /\ forall i row t,
         nth_error rows i = Some row -> nth_error ts i = Some t ->
         process_row mappings cm (n + Z.of_nat i)%Z row = Ok t.
Proof.
  induction rows as [|row0 rows IH]; intros n ts H; cbn [process_rows] in H.
  - injection H as <-; split; [reflexivity|].
    intros [|i] row t; discriminate.
  - destruct (process_row mappings cm n row0) as [t0|] eqn:P; cbn [bind] in H;
      [|discriminate].
    destruct (process_rows mappings cm (n + 1) rows) as [ts'|] eqn:R;
      cbn [bind] in H; [|discriminate].
    injection H as <-; destruct (IH _ _ R) as [L N].
    split; [cbn [List.length]; now rewrite L|].
    intros [|i] row t; cbn [nth_error]; intros Hr Ht.
    + injection Hr as <-; injection Ht as <-.
      now rewrite Z.add_0_r.
    + specialize (N i row t Hr Ht).
      replace (n + Z.of_nat (S i))%Z with (n + 1 + Z.of_nat i)%Z by lia.
      exact N.
Qed.

(** X3.  An import that returns has read the file and has one staged
    transaction for each of its rows, in the order of the file; the
    transaction of the row at index [i] carries the row number [i + 2] and
    the row itself, and every mapped column is a header of the file.  An
    import that raises raises a [FileNotFoundError] or a [ValueError]: the
    first when opening the file raised it, the second for every other
    exception of reading the file and when a mapped column is no header. *)
Theorem import_numbers_rows mappings (file : CsvFile) cm :
  (forall ts : list Transaction,
      import_transactions_from_csv mappings file cm = Ok ts ->
      exists headers rows,
        file = Ok (headers, rows)
        /\ List.length ts = List.length rows
        /\ forallb (fun kv => str_in (snd kv) headers) cm = true
        /\ forall i row t,
             nth_error rows i = Some row -> nth_error ts i = Some t ->
             process_row mappings cm (Z.of_nat i + 2)%Z row = Ok t
             /\ tx_get "row_num" t = VInt (Z.of_nat i + 2)%Z
             /\ tx_get "original" t = VDict row)
  /\ (forall e,
         import_transactions_from_csv mappings file cm = Raise e ->
         e = FileNotFoundError \/ e = ValueError)
  /\ (forall e,
         file = Raise e ->
         import_transactions_from_csv mappings file cm
         = Raise (if exn_eqb e FileNotFoundError then FileNotFoundError
                  else ValueError))
  /\ (forall headers rows field column,
         file = Ok (headers, rows) ->
         In (field, column) cm -> str_in column headers = false ->
         import_transactions_from_csv mappings file cm = Raise ValueError).
Proof.
  unfold import_transactions_from_csv, import_handlers.
  split; [|split; [|split]].
  - intros ts H; destruct file as [[headers rows]|e0]; cbn [bind fst snd] in H.
    + exists headers, rows; split; [reflexivity|].
      destruct (forallb _ cm) eqn:F; [|discriminate].
      destruct (process_rows mappings cm 2 rows) as [ts'|] eqn:R;
        [|destruct (exn_isa _ _); discriminate].
      injection H as <-; destruct (process_rows_nth _ _ _ _ _ R) as [L N].
      split; [exact L|]; split; [reflexivity|].
      intros i row t Hr Ht; specialize (N i row t Hr Ht).
      rewrite Z.add_comm in N; split; [exact N|].
      now apply process_row_row_num in N.
    + destruct (exn_isa e0 FileNotFoundError); discriminate.
  - intros e H.
    match type of H with
    | match ?c with _ => _ end = _ => destruct c as [ts|e0]; [discriminate|]
    end.
    destruct (exn_isa e0 FileNotFoundError); injection H as <-; auto.
  - intros e ->; cbn [bind]; destruct e; reflexivity.
  - intros headers rows field column -> Hin Hc; cbn [bind fst snd].
    assert (F : forallb (fun kv => str_in (snd kv) headers) cm = false).
    { destruct (forallb _ cm) eqn:F; [|reflexivity].
      rewrite forallb_forall in F; specialize (F _ Hin); cbn in F; congruence. }
    now rewrite F.
Qed.

End StagedRows.

Lemma error_free_row_is_complete_witness :
  exists rec,
    db_transaction_of ImportExamples.main_account None
      (staged Examples.trade_mappings Examples.buy_row) = Ok rec.
Proof.
  destruct (@error_free_row_is_complete ExampleRuntime.runtime default_mappings
              Examples.trade_mappings 2%Z Examples.buy_row
              (staged Examples.trade_mappings Examples.buy_row)
              eq_refl eq_refl)
    as (v & d & ty & a & amount & _ & _ & _ & _ & _ & _ & _ & _ & R).
  exact (R ImportExamples.main_account None).
Defined.

Lemma staged_fees_default_witness :
  tx_get "fees" (staged Examples.bare_mappings Examples.bare_expired_row)
  = VDec Decimal_zero.
Proof.
  exact (proj1 (proj2
           (@staged_fees_default ExampleRuntime.runtime default_mappings
              Examples.bare_mappings 2%Z Examples.bare_expired_row
              (staged Examples.bare_mappings Examples.bare_expired_row)
              eq_refl))).
Defined.

Lemma import_numbers_rows_witness :
  @import_transactions_from_csv ExampleRuntime.runtime default_mappings
    (Ok (ImportExamples.trade_headers, [Examples.buy_row; Examples.buy_row]))
    (dict_set (str "symbol") (str "Ticker") Examples.trade_mappings)
  = Raise ValueError
  /\ @import_transactions_from_csv ExampleRuntime.runtime default_mappings
       (Raise FileNotFoundError) Examples.trade_mappings
     = Raise FileNotFoundError.
Proof.
  split.
  - destruct (@import_numbers_rows ExampleRuntime.runtime default_mappings
                (Ok (ImportExamples.trade_headers,
                     [Examples.buy_row; Examples.buy_row]))
                (dict_set (str "symbol") (str "Ticker") Examples.trade_mappings))
      as (_ & _ & _ & Hmissing).
    apply (Hmissing _ _ (str "symbol") (str "Ticker") eq_refl); [|reflexivity].
    repeat (try (left; reflexivity); right).
  - exact (proj1 (proj2 (proj2
             (@import_numbers_rows ExampleRuntime.runtime default_mappings
                (Raise FileNotFoundError) Examples.trade_mappings)))
             FileNotFoundError eq_refl).
Defined.

(** ** The grid: validation and edits *)

Section GridProperties.

Context {rt : Runtime}.

Lemma grid_errors_set_errors (v : pyval) (t : Transaction) :
  grid_errors (tx_set "errors" v t) = grid_errors t.
Proof.
  unfold grid_errors, type_errors, account_blank, absent.
  rewrite !missing_set_errors by reflexivity.
  rewrite !tx_has_other, !tx_get_other by reflexivity.
  reflexivity.
Qed.

(** X4.  Validation replaces the errors of a row by those of its own checks and
    writes nothing else; the errors it leaves do not depend on the errors
    it found, and a second validation changes nothing.  It raises only an
    [AttributeError], on an account name that is no text. *)
Theorem validate_row_idempotent (t : Transaction) :
  (forall t',
      validate_row t = Ok t' ->
      same_except [str "errors"] t t'
      /\ errors_of t' = grid_errors t
      /\ validate_row t' = Ok t'
      /\ forall v, validate_row (tx_set "errors" v t) = Ok t')
  /\ (forall e,
         validate_row t = Raise e ->
         e = AttributeError
         /\ truthy (tx_get "account_name" t) = true
         /\ forall s, tx_get "account_name" t <> VStr s).
Proof.
  split.
  - intros t' H; pose proof (validate_row_returns _ _ H) as (b & Hb).
    apply validate_row_eq in H; subst t'.
    split; [apply same_except_set; [reflexivity|apply same_except_refl]|].
    split; [apply errors_of_set_errors|].
    assert (R : forall v,
               validate_row (tx_set "errors" v t)
               = Ok (tx_set "errors" (VList (grid_errors t)) t)).
    { intros v.
      rewrite (validate_row_spec _ b)
        by now rewrite account_name_missing_set_errors.
      now rewrite grid_errors_set_errors, tx_set_set. }
    split; [apply R|exact R].
  - intros e H.
    destruct (account_name_missing t) as [b|e'] eqn:A.
    + rewrite (validate_row_spec _ _ A) in H; discriminate.
    + assert (E : validate_row t = Raise e').
      { unfold validate_row; cbv zeta.
        rewrite (missing_set_errors "transaction_date") by reflexivity.
        rewrite (check_set _ "Date is required") by reflexivity.
        rewrite (missing_set_errors "transaction_type") by reflexivity.
        rewrite (check_set _ "Transaction type is required")
          by (apply str_in_error_if; reflexivity).
        now rewrite account_name_missing_set_errors, A. }
      rewrite E in H; injection H as <-.
      revert A; unfold account_name_missing, missing.
      destruct (tx_has "account_name" t); cbn [negb orb]; [|discriminate].
      destruct (truthy (tx_get "account_name" t)) eqn:T; cbn [negb];
        [|discriminate].
      destruct (tx_get "account_name" t); try discriminate;
        intros A; injection A as <-; repeat split; congruence.
Qed.


Lemma list_set_length {A} (i : nat) (x : A) (l : list A) :
  List.length (list_set i x l) = List.length l.
Proof.
  revert i; induction l as [|y l IH]; intros [|i]; cbn; auto.
Qed.

Lemma list_set_other {A} (i j : nat) (x : A) (l : list A) :
  j <> i -> nth_error (list_set i x l) j = nth_error l j.
Proof.
  revert i j; induction l as [|y l IH]; intros [|i] [|j] H; cbn; auto;
    try congruence.
Qed.

Lemma list_set_same {A} (i : nat) (x y : A) (l : list A) :
  nth_error l i = Some y -> nth_error (list_set i x l) i = Some x.
Proof.
  revert i; induction l as [|z l IH]; intros [|i]; cbn; try discriminate; auto.
Qed.

Lemma add_error_writes (m : pystr) (t : Transaction) :
  same_except [str "errors"] t (add_error m t).
Proof. unfold add_error; writes. Qed.

Lemma same_except_by {V} (ks ks' : list pystr) (t t' : dict V) :
  same_except ks t t' ->
  forallb (fun k => str_in k ks') ks = true -> same_except ks' t t'.
Proof.
  intros H F; apply (same_except_weaken ks); [|exact H].
  intros k Hk; unfold str_in in Hk; apply existsb_exists in Hk as (k0 & I & E).
  apply str_eqb_eq in E; subst k0.
  rewrite forallb_forall in F; exact (F _ I).
Qed.

(** A refused edit leaves every field of the row, and writes only to the
    errors and to the texts kept beside a field. *)
Lemma convert_edit_refused (column : pystr) (value : edit) (t t' : Transaction) :
  convert_edit column value t = Ok (inl t') ->
  same_except
    (map str ["errors"; "transaction_type_str"; "instrument_type_str";
              "journal_details_str"]%string) t t'.
Proof.
  unfold convert_edit; intros H; run H;
    try apply same_except_refl;
    (eapply same_except_trans;
     [|apply (same_except_by [str "errors"]);
       [apply add_error_writes|reflexivity]]);
    writes.
Qed.

Lemma recalculate_amount_writes (column : pystr) (t t' : Transaction) :
  recalculate_amount column t = Ok t' -> same_except [str "amount"] t t'.
Proof. unfold recalculate_amount; intros H; run H; writes. Qed.

Lemma same_except_cons {V} (k : pystr) (ks : list pystr) (t t' : dict V) :
  same_except ks t t' -> same_except (k :: ks) t t'.
Proof.
  intros H k0 Hk0; apply H.
  unfold str_in in *; cbn [existsb] in Hk0.
  now apply orb_false_iff in Hk0 as [_ Hk0].
Qed.

Lemma same_except_set_head {V} (k : pystr) (ks : list pystr) (v : V)
    (t : dict V) :
  same_except (k :: ks) t (dict_set k v t).
Proof.
  apply same_except_set; [|apply same_except_refl].
  unfold str_in; cbn [existsb]; now rewrite str_eqb_refl.
Qed.

Lemma str_in_snoc (k x : pystr) (ks : list pystr) :
  str_in k ks = true -> str_in k (ks ++ [x]) = true.
Proof.
  unfold str_in; rewrite existsb_app; now intros ->.
Qed.

(** What [setData] writes in the row it edits. *)
Lemma setData_row_writes (t t' : Transaction) (column : pystr) (value : edit)
    (b : bool) :
  setData_row t column value = Ok (b, t') ->
  same_except
    (if b then column :: map str ["amount"; "errors"]%string
     else map str ["errors"; "transaction_type_str"; "instrument_type_str";
                   "journal_details_str"]%string) t t'.
Proof.
  unfold setData_row; intros S.
  destruct (convert_edit column value t) as [[t1|t1]|] eqn:C;
    cbn [bind] in S; [| |discriminate].
  - injection S as <- <-; exact (convert_edit_refused _ _ _ _ C).
  - destruct (recalculate_amount column t1) as [t2|] eqn:R; cbn [bind] in S;
      [|discriminate].
    destruct (validate_row t2) as [t3|] eqn:V; cbn [bind] in S;
      [|discriminate].
    injection S as <- <-.
    apply convert_edit_sets in C as (v & ->).
    apply recalculate_amount_writes in R.
    apply validate_row_eq in V; subst t3.
    apply same_except_set;
      [unfold str_in; cbn [existsb]; apply orb_true_iff; right; reflexivity|].
    eapply same_except_trans; [apply same_except_set_head|].
    apply same_except_cons.
    apply (same_except_by _ _ _ _ R); reflexivity.
Qed.

(** The slot of the window keeps the errors of every row. *)
Lemma hasErrors_on_data_changed (data : list Transaction) :
  hasErrors (on_data_changed data) = hasErrors data.
Proof.
  unfold on_data_changed; destruct (hasErrors data) eqn:H; [exact H|].
  transitivity (hasErrors data); [|exact H].
  unfold hasErrors; clear H.
  induction data as [|t d IH]; cbn [map existsb]; [reflexivity|].
  rewrite IH; f_equal.
  destruct (is_ttype _ _); [|reflexivity].
  now rewrite !tx_get_other by reflexivity.
Qed.

(** The rows after the slot of the window. *)
Lemma on_data_changed_rows (data : list Transaction) :
  List.length (on_data_changed data) = List.length data
  /\ forall i t,
       nth_error data i = Some t ->
       exists t',
         nth_error (on_data_changed data) i = Some t'
         /\ same_except [str "price"; str "amount"] t t'
         /\ (hasErrors data = true
             \/ is_ttype (tx_get "transaction_type" t) OPTION_EXPIRATION = false ->
             t' = t).
Proof.
  unfold on_data_changed; destruct (hasErrors data).
  - split; [reflexivity|]; intros i t N; exists t.
    split; [exact N|]; split; [apply same_except_refl|reflexivity].
  - split; [apply length_map|]; intros i t N.
    rewrite nth_error_map, N; cbn [option_map].
    destruct (is_ttype (tx_get "transaction_type" t) OPTION_EXPIRATION);
      eexists; (split; [reflexivity|]).
    + split; [writes|]; intros [H|H]; discriminate.
    + split; [apply same_except_refl|reflexivity].
Qed.

(** X5.  An edit in the grid of the window, whose model has
    [_on_data_changed] connected to its signal, keeps the number of rows.
    An index beyond the rows is refused and changes nothing; a refused
    edit changes no other row, and of the edited row nothing but errors and
    the texts beside a field.  An accepted edit writes the edited field,
    the amount and the errors of its row; the slot may then set price and
    amount to zero, in the edited row and in the others, and it does so
    only in option expirations and only when no row has errors. *)
Theorem setData_changes_one_row (data data' : list Transaction) (row : nat)
    (column : pystr) (value : edit) (b : bool) :
  setData on_data_changed data row column value = Ok (b, data') ->
  List.length data' = List.length data
  /\ (nth_error data row = None -> b = false /\ data' = data)
  /\ (forall j t,
         j <> row -> nth_error data j = Some t ->
         exists t',
           nth_error data' j = Some t'
           /\ same_except [str "price"; str "amount"] t t'
           /\ (b = false \/ hasErrors data' = true
               \/ is_ttype (tx_get "transaction_type" t) OPTION_EXPIRATION
                  = false ->
               t' = t))
  /\ (forall t,
         nth_error data row = Some t ->
         exists t',
           nth_error data' row = Some t'
           /\ same_except
                (if b then column :: map str ["amount"; "errors"; "price"]%string
                 else map str ["errors"; "transaction_type_str";
                               "instrument_type_str";
                               "journal_details_str"]%string) t t').
Proof.
  unfold setData; intros H.
  destruct (nth_error data row) as [t|] eqn:N.
  - destruct (setData_row t column value) as [[b' t1]|] eqn:S; cbn [bind] in H;
      [|discriminate].
    injection H as <- <-; cbn [fst snd].
    pose proof (setData_row_writes _ _ _ _ _ S) as W.
    pose proof (list_set_length row t1 data) as L.
    pose proof (list_set_same row t1 t data N) as Nr.
    destruct b'.
    + destruct (on_data_changed_rows (list_set row t1 data)) as [L' R].
      split; [now rewrite L'|].
      split; [discriminate|].
      split.
      * intros j t0 Hj N0.
        rewrite <- (list_set_other row j t1 data Hj) in N0.
        destruct (R j t0 N0) as (t' & N' & W' & E).
        exists t'; split; [exact N'|]; split; [exact W'|].
        intros [F|[F|F]]; [discriminate| |apply E; now right].
        apply E; left; now rewrite hasErrors_on_data_changed in F.
      * intros t0 E; injection E as <-.
        destruct (R row t1 Nr) as (t' & N' & W' & _).
        exists t'; split; [exact N'|].
        eapply same_except_trans.
        -- apply (same_except_weaken _ _ _ _
                    (fun k => str_in_snoc k (str "price") _) W).
        -- apply same_except_cons.
           apply (same_except_by _ _ _ _ W'); reflexivity.
    + split; [exact L|].
      split; [discriminate|].
      split.
      * intros j t0 Hj N0; exists t0.
        split; [now rewrite list_set_other|].
        split; [apply same_except_refl|reflexivity].
      * intros t0 E; injection E as <-; exists t1; split; [exact Nr|exact W].
  - injection H as <- <-.
    split; [reflexivity|]; split; [auto|]; split.
    + intros j t _ N0; exists t.
      split; [exact N0|]; split; [apply same_except_refl|reflexivity].
    + intros t; discriminate.
Qed.


Lemma dict_del_set_absent {V} (k : pystr) (v : V) (d : dict V) :
  dict_get k d = None -> dict_del k (dict_set k v d) = d.
Proof.
  induction d as [|[k0 v0] d IH]; cbn.
  - now rewrite str_eqb_refl.
  - destruct (str_eqb k0 k) eqn:E; [discriminate|].
    intros H; cbn; rewrite E; now rewrite IH.
Qed.

Lemma dict_del_set {V} (k : pystr) (v : V) (d : dict V) :
  dict_del k (dict_set k v d) = dict_del k d.
Proof.
  induction d as [|[k0 v0] d IH]; cbn.
  - now rewrite str_eqb_refl.
  - destruct (str_eqb k0 k) eqn:E; cbn; rewrite E; [reflexivity|].
    now rewrite IH.
Qed.

Lemma dict_set_same_value {V} (k : pystr) (v : V) (d : dict V) :
  dict_get k d = Some v -> dict_set k v d = d.
Proof.
  induction d as [|[k0 v0] d IH]; cbn; [discriminate|].
  destruct (str_eqb k0 k) eqn:E.
  - intros H; injection H as <-; reflexivity.
  - intros H; now rewrite IH.
Qed.

Lemma list_remove_last (m : pystr) (l : list pystr) :
  str_in m l = false -> list_remove m (l ++ [m]) = l.
Proof.
  induction l as [|y l IH]; cbn.
  - now rewrite str_eqb_refl.
  - intros H; apply orb_false_iff in H as [H1 H2].
    rewrite str_eqb_sym, H1; now rewrite IH.
Qed.

Lemma str_in_last (m : pystr) (l : list pystr) : str_in m (l ++ [m]) = true.
Proof.
  unfold str_in; rewrite existsb_app; cbn.
  now rewrite str_eqb_refl, orb_true_r.
Qed.

(** X6.  [_add_error] records a message once, and keeps the others;
    [_remove_error] takes back what [_add_error] added: the row is as
    before when it had no [errors] entry or had errors already; a row whose
    [errors] entry was the empty list loses the entry. *)
Theorem add_then_remove_error (m : pystr) (t : Transaction) :
  add_error m (add_error m t) = add_error m t
  /\ In m (errors_of (add_error m t))
  /\ errors_kept t (add_error m t)
  /\ (dict_get (str "errors") t = None ->
      remove_error m (add_error m t) = t)
  /\ (forall l,
         dict_get (str "errors") t = Some (VList l) ->
         str_in m l = false ->
         remove_error m (add_error m t)
         = match l with
           | [] => dict_del (str "errors") t
           | _ => t
           end).
Proof.
  assert (A : forall l t0,
             errors_of t0 = l -> tx_has "errors" t0 = true ->
             add_error m t0
             = if str_in m l then t0
               else tx_set "errors" (VList (l ++ [m])) t0).
  { intros l t0 El Ht; unfold add_error; rewrite Ht, El.
    destruct (str_in m l); [reflexivity|].
    unfold append_error; now rewrite El. }
  assert (B : exists l t0,
             add_error m t = tx_set "errors" (VList l) t0
             /\ str_in m l = true
             /\ (forall x, In x (errors_of t) -> In x l)).
  { unfold add_error.
    destruct (tx_has "errors" t) eqn:Ht.
    - destruct (str_in m (errors_of t)) eqn:I.
      + unfold tx_has, dict_has in Ht.
        destruct (dict_get (str "errors") t) as [v|] eqn:G; [|discriminate].
        revert I; unfold errors_of, list_of; rewrite G.
        destruct v; try discriminate.
        intros I; exists l, t; repeat split; auto.
        unfold tx_set; symmetry; now apply dict_set_same_value.
      + exists (errors_of t ++ [m]), t; split; [reflexivity|].
        split; [apply str_in_last|intros x Hx; apply in_or_app; now left].
    - rewrite errors_of_set_errors; cbn [str_in existsb].
      unfold append_error; rewrite errors_of_set_errors, tx_set_set.
      exists [m], t; split; [reflexivity|]; split; [apply str_in_last with (l := [])|].
      unfold errors_of, list_of, tx_has, dict_has in *.
      destruct (dict_get (str "errors") t); [discriminate|intros x []]. }
  destruct B as (l0 & t0 & E0 & I0 & K0).
  split.
  { rewrite E0, add_error_set, I0; reflexivity. }
  split.
  { rewrite E0, errors_of_set_errors.
    unfold str_in in I0; apply existsb_exists in I0 as (x & Hx & Ex).
    apply str_eqb_eq in Ex; now subst x. }
  split.
  { intros x Hx; rewrite E0, errors_of_set_errors; auto. }
  split.
  - intros G; clear E0 I0 K0.
    unfold add_error, tx_has, dict_has; rewrite G.
    rewrite errors_of_set_errors; cbn [str_in existsb].
    unfold append_error; rewrite errors_of_set_errors, tx_set_set; cbn [app].
    unfold remove_error; rewrite tx_has_same by reflexivity.
    rewrite errors_of_set_errors; cbn; rewrite str_eqb_refl; cbn.
    unfold tx_set; now apply dict_del_set_absent.
  - intros l G I; clear E0 I0 K0.
    assert (El : errors_of t = l) by (unfold errors_of, list_of; now rewrite G).
    assert (Ht : tx_has "errors" t = true)
      by (unfold tx_has, dict_has; now rewrite G).
    rewrite (A l t El Ht), I.
    unfold remove_error; rewrite tx_has_same by reflexivity.
    rewrite errors_of_set_errors, str_in_last; cbn [andb].
    rewrite (list_remove_last _ _ I).
    destruct l as [|x l].
    + unfold tx_set; apply dict_del_set.
    + rewrite tx_set_set; unfold tx_set; now apply dict_set_same_value.
Qed.


(** X7.  [_on_data_changed] changes nothing while a row has errors.  Once no row
    has errors it sets price and amount of every option expiration to zero
    and leaves every other row; it adds no error, and a second call changes
    nothing. *)
Theorem on_data_changed_zeroes_expirations (data : list Transaction) :
  (hasErrors data = true -> on_data_changed data = data)
  /\ (hasErrors data = false ->
      List.length (on_data_changed data) = List.length data
      /\ hasErrors (on_data_changed data) = false
      /\ on_data_changed (on_data_changed data) = on_data_changed data
      /\ forall i t,
           nth_error data i = Some t ->
           exists t',
             nth_error (on_data_changed data) i = Some t'
             /\ same_except [str "price"; str "amount"] t t'
             /\ (is_ttype (tx_get "transaction_type" t) OPTION_EXPIRATION
                 = true ->
                 tx_get "price" t' = VDec Decimal_zero
                 /\ tx_get "amount" t' = VDec Decimal_zero)
             /\ (is_ttype (tx_get "transaction_type" t) OPTION_EXPIRATION
                 = false -> t' = t)).
Proof.
  unfold on_data_changed; split; [intros ->; reflexivity|].
  intros H; rewrite H.
  set (f := fun transaction : Transaction =>
              if is_ttype (tx_get "transaction_type" transaction)
                   OPTION_EXPIRATION
              then tx_set "amount" (VDec Decimal_zero)
                     (tx_set "price" (VDec Decimal_zero) transaction)
              else transaction).
  assert (Ff : forall t, f (f t) = f t).
  { intros t; unfold f.
    destruct (is_ttype (tx_get "transaction_type" t) OPTION_EXPIRATION) eqn:E;
      [|now rewrite E].
    rewrite !tx_get_other, E by reflexivity.
    unfold tx_set.
    rewrite (dict_set_same_value (str "price"))
      by (rewrite dict_get_set_other by reflexivity; apply dict_get_set_same).
    now rewrite dict_set_set. }
  assert (Fe : forall t, tx_get "errors" (f t) = tx_get "errors" t).
  { intros t; unfold f; destruct (is_ttype _ _); [|reflexivity].
    now rewrite !tx_get_other by reflexivity. }
  assert (He : hasErrors (map f data) = false).
  { revert H; unfold hasErrors; induction data as [|t d IH]; cbn;
      [reflexivity|].
    intros H; apply orb_false_iff in H as [H1 H2].
    now rewrite Fe, H1, IH. }
  split; [apply length_map|].
  split; [exact He|].
  split.
  { rewrite He, map_map; apply map_ext; exact Ff. }
  intros i t N; exists (f t).
  split; [rewrite nth_error_map, N; reflexivity|].
  unfold f; destruct (is_ttype _ _).
  - split; [writes|].
    split; [|discriminate].
    intros _; split; [|apply tx_get_same; reflexivity].
    rewrite tx_get_other by reflexivity; apply tx_get_same; reflexivity.
  - split; [apply same_except_refl|].
    split; [discriminate|reflexivity].
Qed.

(** X8.  Every value the drop-down lists of the grid offer for the transaction
    type and the instrument type is accepted by [setData] and stored as the
    member with that value; a text that is no such value is refused, with
    an error that names it. *)
Theorem dropdown_values_accepted (t : Transaction) :
  (forall ty b t',
      setData_row t (str "transaction_type") (EStr (ttype_value ty))
      = Ok (b, t') ->
      b = true /\ tx_get "transaction_type" t' = VTType ty)
  /\ (forall it b t',
         setData_row t (str "instrument_type") (EStr (itype_value it))
         = Ok (b, t') ->
         b = true /\ tx_get "instrument_type" t' = VIType it)
  /\ (forall s,
         (forall ty, ttype_value ty <> s) ->
         setData_row t (str "transaction_type") (EStr s)
         = Ok (false,
               add_error (cat "Invalid transaction type: " s)
                 (tx_set "transaction_type_str" (VStr s) t)))
  /\ (forall s,
         (forall it, itype_value it <> s) ->
         setData_row t (str "instrument_type") (EStr s)
         = Ok (false,
               add_error (cat "Invalid instrument type: " s)
                 (tx_set "instrument_type_str" (VStr s) t))).
Proof.
  split; [|split; [|split]].
  - intros ty b t'; unfold setData_row.
    replace (convert_edit (str "transaction_type") (EStr (ttype_value ty)) t)
      with (@Ok (Transaction + Transaction)
              (inr (tx_set "transaction_type" (VTType ty) t)))
      by (destruct ty; reflexivity).
    cbn [bind].
    change (recalculate_amount (str "transaction_type")
              (tx_set "transaction_type" (VTType ty) t))
      with (Ok (tx_set "transaction_type" (VTType ty) t)).
    cbn [bind].
    destruct (validate_row _) as [t3|] eqn:V; cbn [bind]; [|discriminate].
    intros H; injection H as <- <-; split; [reflexivity|].
    apply validate_row_eq in V; subst t3.
    rewrite tx_get_other by reflexivity; apply tx_get_same; reflexivity.
  - intros it b t'; unfold setData_row.
    replace (convert_edit (str "instrument_type") (EStr (itype_value it)) t)
      with (@Ok (Transaction + Transaction)
              (inr (tx_set "instrument_type" (VIType it) t)))
      by (destruct it; reflexivity).
    cbn [bind].
    change (recalculate_amount (str "instrument_type")
              (tx_set "instrument_type" (VIType it) t))
      with (Ok (tx_set "instrument_type" (VIType it) t)).
    cbn [bind].
    destruct (validate_row _) as [t3|] eqn:V; cbn [bind]; [|discriminate].
    intros H; injection H as <- <-; split; [reflexivity|].
    apply validate_row_eq in V; subst t3.
    rewrite tx_get_other by reflexivity; apply tx_get_same; reflexivity.
  - intros s Hs; unfold setData_row.
    assert (R : TransactionType_of_value s = Raise ValueError).
    { unfold TransactionType_of_value.
      destruct (find _ _) as [ty|] eqn:F; [|reflexivity].
      apply find_some in F as [_ F]; apply str_eqb_eq in F.
      now destruct (Hs ty). }
    change (convert_edit (str "transaction_type") (EStr s) t)
      with (try_except
              (bind (TransactionType_of_value s)
                 (fun ty => Ok (inr (dict_set (str "transaction_type")
                                       (VTType ty) t))))
              ValueError
              (Ok (inl (add_error (cat "Invalid transaction type: " s)
                          (tx_set "transaction_type_str" (VStr s) t))))).
    now rewrite R.
  - intros s Hs; unfold setData_row.
    assert (R : InstrumentType_of_value s = Raise ValueError).
    { unfold InstrumentType_of_value.
      destruct (find _ _) as [ty|] eqn:F; [|reflexivity].
      apply find_some in F as [_ F]; apply str_eqb_eq in F.
      now destruct (Hs ty). }
    change (convert_edit (str "instrument_type") (EStr s) t)
      with (try_except
              (bind (InstrumentType_of_value s)
                 (fun ty => Ok (inr (dict_set (str "instrument_type")
                                       (VIType ty) t))))
              ValueError
              (Ok (inl (add_error (cat "Invalid instrument type: " s)
                          (tx_set "instrument_type_str" (VStr s) t))))).
    now rewrite R.
Qed.

End GridProperties.

Lemma validate_row_idempotent_witness :
  let t := staged Examples.deposit_mappings Examples.deposit_row in
  let t' := tx_set "errors" (VList (grid_errors t)) t in
  validate_row t' = Ok t'.
Proof.
  intros t t'.
  destruct (proj1 (@validate_row_idempotent ExampleRuntime.runtime t) t' eq_refl)
    as (_ & _ & R & _).
  exact R.
Defined.

Lemma setData_changes_one_row_witness :
  let data := [ staged Examples.bare_mappings Examples.bare_expired_row;
                staged Examples.trade_mappings Examples.buy_row ] in
  let r := match @setData ExampleRuntime.runtime on_data_changed data 1
                   (str "quantity") (EStr (str "7")) with
           | Ok r => r
           | Raise _ => (false, [])
           end in
  List.length (snd r) = 2%nat.
Proof.
  intros data r.
  exact (proj1 (@setData_changes_one_row ExampleRuntime.runtime data (snd r) 1
                  (str "quantity") (EStr (str "7")) (fst r) eq_refl)).
Defined.

Lemma add_then_remove_error_witness :
  let t := staged Examples.deposit_mappings Examples.deposit_row in
  remove_error (str "Date is required") (add_error (str "Date is required") t)
  = t.
Proof.
  intros t.
  destruct (@add_then_remove_error ExampleRuntime.runtime
              (str "Date is required") t) as (_ & _ & _ & _ & H).
  exact (H [ str "Invalid instrument type: bond";
             str "Account name is required but not mapped" ]
           eq_refl eq_refl).
Defined.

Lemma on_data_changed_zeroes_expirations_witness :
  exists t',
    nth_error
      (on_data_changed [staged Examples.expired_mappings Examples.expired_row])
      0 = Some t'
    /\ tx_get "price" t' = VDec Decimal_zero
    /\ tx_get "amount" t' = VDec Decimal_zero.
Proof.
  destruct (@on_data_changed_zeroes_expirations ExampleRuntime.runtime
              [staged Examples.expired_mappings Examples.expired_row])
    as (_ & H).
  destruct (H eq_refl) as (_ & _ & _ & N).
  destruct (N 0%nat (staged Examples.expired_mappings Examples.expired_row)
              eq_refl) as (t' & Ht' & _ & Z & _).
  exists t'; split; [exact Ht'|exact (Z eq_refl)].
Defined.

Lemma dropdown_values_accepted_witness :
  let t := staged Examples.trade_mappings Examples.buy_row in
  tx_get "transaction_type" (edited t "transaction_type" (EStr (str "sell")))
  = VTType SELL
  /\ setData_row t (str "transaction_type") (EStr (str "purchase"))
     = Ok (false,
           add_error (cat "Invalid transaction type: " (str "purchase"))
             (tx_set "transaction_type_str" (VStr (str "purchase")) t)).
Proof.
  intros t.
  destruct (@dropdown_values_accepted ExampleRuntime.runtime t)
    as (Hty & _ & Hno & _).
  split.
  - exact (proj2 (Hty SELL true
                    (edited t "transaction_type" (EStr (str "sell")))
                    eq_refl)).
  - apply Hno; intros ty; destruct ty; vm_compute; discriminate.
Defined.

(** ** The review window *)

Section WindowProperties.

Context {rt : Runtime}.

Variable constraints : Storage -> bool.

Lemma hasErrors_false (data : list Transaction) :
  hasErrors data = false -> forall t, In t data -> no_errors t = true.
Proof.
  unfold hasErrors, no_errors; intros H t I.
  destruct (truthy (tx_get "errors" t)) eqn:T; [|reflexivity].
  assert (X : existsb (fun row => truthy (tx_get "errors" row)) data = true)
    by (apply existsb_exists; eauto).
  congruence.
Qed.

(** X9.  [save_to_database] stores nothing when there is no row or when a row
    has errors, and whenever it does not succeed.  When it succeeds no row
    was passed over for its errors: every row of the grid has its record
    among the new ones, the rows whose symbol was refused with a
    [ValueError] apart, and the accounts are as before. *)
Theorem save_to_database_stores_every_row (st : Storage)
    (txs : list Transaction) :
  (hasErrors txs = true ->
   save_to_database constraints st txs = (false, st))
  /\ (forall st',
         save_to_database constraints st txs = (false, st') ->
         st' = st)
  /\ (forall st',
         save_to_database constraints st txs = (true, st') ->
         txs <> []
         /\ hasErrors txs = false
         /\ accounts st' = accounts st
         /\ exists new,
              transactions st' = transactions st ++ new
              /\ forall t,
                   In t txs ->
                   symbol_rejected constraints t \/ persisted st t new).
Proof.
  unfold save_to_database; split; [|split].
  - intros H; rewrite H; destruct txs; reflexivity.
  - intros st'; destruct txs as [|t0 ts]; [congruence|].
    destruct (hasErrors (t0 :: ts)); [congruence|].
    unfold save_transactions.
    destruct (bind _ _); intros H; inversion H; reflexivity.
  - intros st'; destruct txs as [|t0 ts]; [discriminate|].
    destruct (hasErrors (t0 :: ts)) eqn:HE; [discriminate|].
    unfold save_transactions.
    destruct (save_all constraints (begin st) (t0 :: ts)) as [s|] eqn:S;
      cbn [bind]; [|discriminate].
    unfold commit.
    destruct (flush constraints s) as [s1|] eqn:F; cbn [bind]; [|discriminate].
    intros H; injection H as <-.
    split; [discriminate|]; split; [reflexivity|].
    apply save_all_outcome in S as (_ & A & new & T & _ & Hall).
    pose proof F as F'; apply flush_inv in F' as (_ & A1 & _).
    split; [now rewrite A1, A|].
    exists new; split.
    + unfold flush in F; destruct (constraints _); [|discriminate].
      injection F as <-; cbn [working transactions].
      unfold all_transactions in T; cbn [begin working pending] in T.
      now rewrite app_nil_r in T.
    + intros t I.
      destruct (Hall t I (hasErrors_false _ HE t I)) as [R|P];
        [now left|right; exact P].
Qed.


Lemma process_rows_In mappings cm (rows : list Row) :
  forall n (ts : list Transaction) t,
    process_rows mappings cm n rows = Ok ts -> In t ts ->
    exists m row, In row rows /\ process_row mappings cm m row = Ok t.
Proof.
  induction rows as [|row0 rows IH]; intros n ts t H; cbn [process_rows] in H.
  - injection H as <-; intros [].
  - destruct (process_row mappings cm n row0) as [t0|] eqn:P; cbn [bind] in H;
      [|discriminate].
    destruct (process_rows mappings cm (n + 1) rows) as [ts'|] eqn:R;
      cbn [bind] in H; [|discriminate].
    injection H as <-; intros [<-|I].
    + exists n, row0; split; [now left|exact P].
    + destruct (IH _ _ _ R I) as (m & row & Ir & Pr).
      exists m, row; split; [now right|exact Pr].
Qed.

(** X10.  [load_csv] on a file whose [account_name] has no mapping: without an
    account chosen in the dialog nothing is loaded; with one, every
    transaction gets it as account name and still carries the error of the
    import, "Account name is required but not mapped", so that a loaded
    file with a row has errors and [save_to_database] stores nothing
    before an edit validates the rows anew. *)
Theorem load_csv_override_keeps_error mappings headers rows cm :
  dict_get (str "account_name") cm = None ->
  load_csv mappings (Ok (headers, rows)) cm None = Ok None
  /\ forall a (txs : list Transaction),
       load_csv mappings (Ok (headers, rows)) cm (Some a) = Ok (Some txs) ->
       nonempty a = true
       /\ List.length txs = List.length rows
       /\ (forall t,
             In t txs ->
             tx_get "account_name" t = VStr a
             /\ In (str "Account name is required but not mapped")
                   (errors_of t))
       /\ (rows <> [] ->
           hasErrors txs = true
           /\ forall st, save_to_database constraints st txs = (false, st)).
Proof.
  intros Hcm; unfold load_csv, import_preview, import_handlers, dict_has.
  rewrite Hcm; cbn [negb bind fst snd].
  split; [reflexivity|].
  intros a txs; destruct (nonempty a) eqn:Na; [|discriminate].
  destruct (import_transactions_from_csv mappings (Ok (headers, rows)) cm)
    as [ts|] eqn:I; cbn [bind]; [|discriminate].
  intros H; injection H as <-.
  split; [reflexivity|].
  unfold import_transactions_from_csv, import_handlers in I.
  cbn [bind fst snd] in I.
  destruct (forallb _ cm); [|discriminate].
  destruct (process_rows mappings cm 2 rows) as [ts'|] eqn:R;
    [|destruct (exn_isa _ _); discriminate].
  injection I as ->.
  destruct (process_rows_nth _ _ _ _ _ R) as [L _].
  assert (All : forall t,
             In t (map (fun transaction =>
                          tx_set "account_name" (VStr a) transaction) ts) ->
             tx_get "account_name" t = VStr a
             /\ In (str "Account name is required but not mapped")
                   (errors_of t)).
  { intros t Ht; apply in_map_iff in Ht as (t0 & <- & I0).
    split; [apply tx_get_same; reflexivity|].
    rewrite errors_of_set_other by reflexivity.
    destruct (process_rows_In _ _ _ _ _ _ R I0) as (m & row & _ & P).
    exact (unmapped_account_error _ _ _ _ _ Hcm P). }
  split; [now rewrite length_map|].
  split; [exact All|].
  intros Hrows.
  assert (HE : hasErrors (map (fun transaction =>
                                 tx_set "account_name" (VStr a) transaction) ts)
               = true).
  { destruct ts as [|t0 ts]; [destruct rows; [congruence|discriminate]|].
    cbn [map hasErrors existsb]; unfold hasErrors; cbn [existsb].
    apply orb_true_iff; left.
    apply errors_truthy
      with (m := str "Account name is required but not mapped").
    apply All; now left. }
  split; [exact HE|].
  intros st; unfold save_to_database; rewrite HE.
  destruct (map _ ts); reflexivity.
Qed.

End WindowProperties.

Lemma save_to_database_stores_every_row_witness :
  let txs := [staged Examples.trade_mappings Examples.buy_row] in
  let st' := snd (save_to_database CommitExamples.accepting
                    CommitExamples.with_account txs) in
  exists new,
    transactions st' = transactions CommitExamples.with_account ++ new
    /\ persisted CommitExamples.with_account
         (staged Examples.trade_mappings Examples.buy_row) new.
Proof.
  intros txs st'.
  destruct (@save_to_database_stores_every_row ExampleRuntime.runtime
              CommitExamples.accepting CommitExamples.with_account txs)
    as (_ & _ & H).
  destruct (H st' eq_refl) as (_ & _ & _ & new & E & Hall).
  exists new; split; [exact E|].
  destruct (Hall (staged Examples.trade_mappings Examples.buy_row))
    as [(Sy & _)|P]; [left; reflexivity| |exact P].
  vm_compute in Sy; discriminate.
Defined.

Lemma load_csv_override_keeps_error_witness :
  hasErrors ImportExamples.loaded_deposit = true
  /\ forall t,
       In t ImportExamples.loaded_deposit ->
       tx_get "account_name" t = VStr (str "Main").
Proof.
  destruct (@load_csv_override_keeps_error ExampleRuntime.runtime
              CommitExamples.accepting default_mappings
              ImportExamples.deposit_headers [Examples.deposit_row]
              Examples.deposit_mappings eq_refl) as (_ & H).
  destruct (H (str "Main") ImportExamples.loaded_deposit eq_refl)
    as (_ & _ & Hall & Herr).
  split.
  - apply Herr; discriminate.
  - intros t I; exact (proj1 (Hall t I)).
Defined.

(** ** Symbols *)

Section SymbolProperties.

Context {rt : Runtime}.

Variable constraints : Storage -> bool.

Lemma find_app_last {A} (f : A -> bool) (l : list A) (x : A) :
  find f l = None -> f x = true -> find f (l ++ [x]) = Some x.
Proof.
  induction l as [|y l IH]; cbn; [now intros _ ->|].
  destruct (f y); [discriminate|exact IH].
Qed.

Lemma dec_num_eqb_refl (d : Decimal) :
  numeric_20_8 d = true -> dec_num_eqb d d = true.
Proof.
  destruct d as [neg c e| |]; try discriminate; intros _; cbn [dec_num_eqb].
  destruct (c =? 0); cbn [orb andb]; [reflexivity|].
  now rewrite Bool.eqb_reflx, N.eqb_refl.
Qed.

(** X11.  A symbol that [get_or_create_symbol] returned is found again: a second
    call with the same arguments returns the same symbol and leaves the
    session as it is, whether the first call found the symbol or created
    it.  The arguments are values that the columns of the table store as
    they are: a text of at most 20 characters as ticker, an instrument
    type, a strike that is absent or a number with at most eight decimals
    and twelve digits before the point, and for an option a type that is
    absent or a member of the enumeration and a date that is absent or
    equal to itself as the database compares it. *)
Theorem get_or_create_symbol_finds_again (s s' : Session)
    (ticker instrument_type option_type expiration_date strike_price : pyval)
    (symbol : Symbol) :
  (exists x, ticker = VStr x /\ (List.length x <= 20)%nat) ->
  sql_eq instrument_type instrument_type = true ->
  (strike_price = VNone
   \/ exists d, strike_price = VDec d /\ numeric_20_8 d = true) ->
  (is_itype instrument_type OPTION = true ->
   (option_type = VNone \/ exists o, option_type = VOType o)
   /\ (truthy expiration_date = true ->
       sql_eq expiration_date expiration_date = true)) ->
  get_or_create_symbol constraints s ticker instrument_type option_type
    expiration_date strike_price = Ok (symbol, s') ->
  get_or_create_symbol constraints s' ticker instrument_type option_type
    expiration_date strike_price = Ok (symbol, s')
  /\ (List.length (symbols (working s'))
      <= S (List.length (symbols (working s))))%nat.
Proof.
  intros (x & Ex & _) Hi Hs Hopt0.
  assert (Ht : sql_eq ticker ticker = true)
    by (subst ticker; apply str_eqb_refl).
  assert (Hopt : is_itype instrument_type OPTION = true ->
                 (option_type = VNone \/ exists o, option_type = VOType o)
                 /\ (truthy expiration_date = true ->
                     sql_eq expiration_date expiration_date = true)
                 /\ (forall p, strike_price <> VStr p)
                 /\ (truthy strike_price = true ->
                     sql_eq strike_price strike_price = true)).
  { intros O; destruct (Hopt0 O) as [A B].
    split; [exact A|]; split; [exact B|]; split.
    - intros p E; destruct Hs as [->|(d & -> & _)]; discriminate E.
    - intros T; destruct Hs as [->|(d & -> & N)]; [discriminate T|].
      cbn [sql_eq]; now apply dec_num_eqb_refl. }
  clear x Ex Hs Hopt0; unfold get_or_create_symbol.
  match goal with
  | |- bind ?o _ = _ -> _ => destruct o as [[ot sp]|] eqn:O
  end; cbn [bind fst snd]; [|discriminate].
  assert (Q : forall sym : Symbol,
             symbol_ticker sym = ticker ->
             symbol_instrument_type sym = instrument_type ->
             symbol_option_type sym = ot ->
             symbol_expiration_date sym = expiration_date ->
             symbol_strike_price sym = sp ->
             (sql_eq (symbol_ticker sym) ticker
              && sql_eq (symbol_instrument_type sym) instrument_type
              && (if is_itype instrument_type OPTION
                  then sql_eq (symbol_option_type sym) ot
                       && (if truthy expiration_date
                           then sql_eq (symbol_expiration_date sym)
                                  expiration_date
                           else true)
                       && (if truthy sp
                           then sql_eq (symbol_strike_price sym) sp
                           else true)
                  else true)) = true).
  { intros sym -> -> -> -> ->; rewrite Ht, Hi; cbn [andb].
    destruct (is_itype instrument_type OPTION) eqn:Io; [|reflexivity].
    destruct (Hopt eq_refl) as (Hc & Hd & He1 & He2).
    assert (Esp : sp = strike_price /\ exists o, ot = VOType o).
    { revert O.
      destruct (negb (truthy ticker)); [discriminate|].
      destruct strike_price; try (now destruct (He1 s0));
        cbn [bind]; intros O; injection O as <- <-;
        (split; [reflexivity|]);
        destruct Hc as [->|(o & ->)]; cbn; eauto. }
    destruct Esp as (-> & o & ->).
    assert (Eo : sql_eq (VOType o) (VOType o) = true) by (destruct o; reflexivity).
    rewrite Eo; cbn [andb].
    destruct (truthy expiration_date) eqn:Td;
      [rewrite (Hd eq_refl)|]; cbn [andb];
      (destruct (truthy strike_price) eqn:Te; [now rewrite (He2 eq_refl)|]);
      reflexivity. }
  match goal with
  | |- context [find ?q (symbols (working s))] =>
      set (query := q) in *; destruct (find query (symbols (working s)))
        as [found|] eqn:F
  end.
  - intros H; injection H as <- <-; rewrite F; split; [reflexivity|lia].
  - unfold flush; cbn [working symbols accounts transactions pending].
    destruct (constraints _); cbn [bind]; [|discriminate].
    intros H; injection H as <- <-.
    cbn [working symbols].
    match goal with
    | |- context [find query (?l ++ [?x])] =>
        rewrite (find_app_last query l x F
                   (Q x eq_refl eq_refl eq_refl eq_refl eq_refl))
    end.
    split; [reflexivity|rewrite length_app; cbn; lia].
Qed.

End SymbolProperties.

Lemma get_or_create_symbol_finds_again_witness :
  match ImportExamples.share_lookup ImportExamples.fresh_session with
  | Ok (symbol, s') => ImportExamples.share_lookup s' = Ok (symbol, s')
  | Raise _ => False
  end.
Proof.
  destruct (ImportExamples.share_lookup ImportExamples.fresh_session)
    as [[symbol s']|] eqn:E; [|vm_compute in E; discriminate].
  refine (proj1 (@get_or_create_symbol_finds_again ExampleRuntime.runtime
                   CommitExamples.accepting ImportExamples.fresh_session s'
                   (VStr (str "AAPL")) (VIType STOCK) VNone VNone VNone symbol
                   _ eq_refl (or_introl eq_refl)
                   (fun H => False_ind _ (Bool.diff_false_true H))
                   E)).
  exists (str "AAPL"); split; [reflexivity|vm_compute; lia].
Defined.

(** ** The mappings of the mapper *)

Lemma startswith_refl (s : pystr) : startswith s s = true.
Proof. induction s as [|c s IH]; cbn; [reflexivity|now rewrite N.eqb_refl]. Qed.

Lemma contains_refl (s : pystr) : contains s s = true.
Proof. destruct s; cbn; [reflexivity|]. now rewrite N.eqb_refl, startswith_refl. Qed.

Lemma lower_char_idem (c : char) : lower_char (lower_char c) = lower_char c.
Proof.
  unfold lower_char, is_upper.
  destruct ((65 <=? c) && (c <=? 90)) eqn:E; [|now rewrite E].
  replace ((65 <=? c + 32) && (c + 32 <=? 90)) with false; [reflexivity|].
  symmetry; apply andb_false_iff; right; apply N.leb_gt.
  apply andb_true_iff in E as [E _]; apply N.leb_le in E; lia.
Qed.

Lemma lower_idem (s : pystr) : lower (lower s) = lower s.
Proof.
  unfold lower; rewrite map_map; apply map_ext; exact lower_char_idem.
Qed.

Lemma scan_bucket_set {V} (bucket : dict V) (k a : pystr) (v : V) :
  contains k a = true ->
  (forall k' v', In (k', v') bucket -> contains k' a = true -> k' = k) ->
  scan_bucket (dict_set k v bucket) a = Some v.
Proof.
  intros Hk; unfold scan_bucket.
  induction bucket as [|[k0 v0] b IH]; intros H; cbn.
  - now rewrite Hk.
  - destruct (str_eqb k0 k) eqn:E; cbn.
    + apply str_eqb_eq in E; subst k0; now rewrite Hk.
    + destruct (contains k0 a) eqn:C.
      * apply str_eqb_neq in E; destruct E.
        apply (H k0 v0); [now left|exact C].
      * apply IH; intros k' v' I; apply (H k' v'); now right.
Qed.

Lemma add_mapping_get (mappings : Mappings) (broker action : pystr)
    (ty : TransactionType + pystr) :
  dict_get broker (add_mapping mappings broker action ty)
  = Some (dict_set (lower action)
            match ty with inl t => ttype_value t | inr v => v end
            match dict_get broker mappings with
            | Some bucket => bucket
            | None => []
            end)
  /\ forall k, str_eqb broker k = false ->
       dict_get k (add_mapping mappings broker action ty) = dict_get k mappings.
Proof.
  unfold add_mapping.
  destruct (dict_has broker mappings) eqn:Hh; cbn [negb]; unfold dict_has in Hh.
  - destruct (dict_get broker mappings) as [bucket|] eqn:G; [|discriminate].
    split; [apply dict_get_set_same|].
    intros k Hk; now apply dict_get_set_other.
  - rewrite dict_get_set_same.
    destruct (dict_get broker mappings); [discriminate|].
    split; [apply dict_get_set_same|].
    intros k Hk; now rewrite !dict_get_set_other.
Qed.

(** X12.  A mapping added for a broker whose name is in lower case is the one a
    lookup of the same action text for that broker finds, when no other
    key of the broker's mappings occurs in the text: the lookup returns the
    type that was added (a transfer type when no quantity is given). *)
Theorem add_mapping_lookup (mappings : Mappings) (broker action : pystr)
    (ty : TransactionType) (quantity : option Decimal) :
  lower broker = broker -> nonempty broker = true ->
  (forall bucket k v,
      dict_get broker mappings = Some bucket -> In (k, v) bucket ->
      contains k (lower action) = true -> k = lower action) ->
  is_transfer ty = false \/ quantity = None ->
  get_transaction_type (add_mapping mappings broker action (inl ty)) action
    (Some broker) quantity = Ok (Some ty).
Proof.
  intros Hl Hn Hk Hq.
  assert (M : mapped_value (add_mapping mappings broker action (inl ty))
                (lower action) (Some broker) = Some (ttype_value ty)).
  { unfold mapped_value; rewrite Hn, Hl.
    rewrite (proj1 (add_mapping_get mappings broker action (inl ty))).
    rewrite scan_bucket_set; [reflexivity|apply contains_refl|].
    intros k' v' I C.
    destruct (dict_get broker mappings) as [bucket|] eqn:G; [|destruct I].
    exact (Hk bucket k' v' eq_refl I C). }
  unfold get_transaction_type; rewrite M.
  assert (R : match quantity with
              | Some q =>
                  if is_transfer_value (ttype_value ty)
                  then bind (dec_lt_zero q)
                         (fun neg : bool =>
                            Ok (Some (if neg then ttype_value TRANSFER_OUT
                                      else ttype_value TRANSFER_IN)))
                  else Ok (Some (ttype_value ty))
              | None => Ok (Some (ttype_value ty))
              end = Ok (Some (ttype_value ty))).
  { destruct quantity as [q|]; [|reflexivity].
    rewrite is_transfer_value_iff.
    destruct Hq as [->|Hq]; [reflexivity|discriminate]. }
  rewrite R; cbn [bind].
  now rewrite TransactionType_of_value_value.
Qed.

(** X13.  The mapper looks a broker up under its name in lower case: a mapping
    added under a name with an upper-case letter changes no lookup, for any
    action text, broker and quantity. *)
Theorem add_mapping_upper_case_unused (mappings : Mappings)
    (broker action : pystr) (ty : TransactionType + pystr) :
  lower broker <> broker ->
  forall action' broker' quantity,
    get_transaction_type (add_mapping mappings broker action ty) action'
      broker' quantity
    = get_transaction_type mappings action' broker' quantity.
Proof.
  intros Hl action' broker' quantity.
  assert (G : forall k, lower k = k ->
              dict_get k (add_mapping mappings broker action ty)
              = dict_get k mappings).
  { intros k Hk.
    apply (proj2 (add_mapping_get mappings broker action ty)).
    apply str_eqb_neq; intros ->; contradiction. }
  unfold get_transaction_type, mapped_value.
  rewrite (G (str "general")) by reflexivity.
  destruct broker' as [b|]; [|reflexivity].
  now rewrite (G (lower b)) by apply lower_idem.
Qed.

Lemma add_mapping_lookup_witness :
  get_transaction_type
    (add_mapping default_mappings (str "mybroker") (str "Stock Plan Activity")
       (inl BUY))
    (str "Stock Plan Activity") (Some (str "mybroker")) None = Ok (Some BUY).
Proof.
  apply add_mapping_lookup.
  - reflexivity.
  - reflexivity.
  - intros bucket k v H; vm_compute in H; discriminate.
  - right; reflexivity.
Defined.

Lemma add_mapping_upper_case_unused_witness :
  get_transaction_type
    (add_mapping default_mappings (str "MyBroker") (str "stock plan activity")
       (inl BUY))
    (str "stock plan activity") (Some (str "MyBroker")) None
  = get_transaction_type default_mappings (str "stock plan activity")
      (Some (str "MyBroker")) None.
Proof.
  apply add_mapping_upper_case_unused.
  intros H; vm_compute in H; discriminate.
Defined.

(** ** Detected mappings and the headers of the file *)

Lemma str_in_In (h : pystr) (l : list pystr) : In h l -> str_in h l = true.
Proof.
  intros H; unfold str_in; apply existsb_exists; exists h.
  split; [exact H|apply str_eqb_refl].
Qed.

Lemma columns_exist_set (hs : list pystr) (m : ColumnMappings) (k v : pystr) :
  columns_exist hs m = true -> str_in v hs = true ->
  columns_exist hs (dict_set k v m) = true.
Proof.
  unfold columns_exist; intros Hm Hv.
  induction m as [|[k0 v0] m IH]; cbn in *; [now rewrite Hv|].
  apply andb_true_iff in Hm as [H0 Hm].
  destruct (str_eqb k0 k); cbn; [now rewrite Hv, Hm|].
  now rewrite H0, IH.
Qed.

Lemma columns_exist_update (hs : list pystr) (e m : ColumnMappings) :
  columns_exist hs m = true -> columns_exist hs e = true ->
  columns_exist hs (dict_update m e) = true.
Proof.
  unfold dict_update; revert m; induction e as [|[k v] e IH]; intros m Hm He;
    cbn; [exact Hm|].
  cbn in He; apply andb_true_iff in He as [Hv He].
  apply IH; [now apply columns_exist_set|exact He].
Qed.

Lemma description_pass_columns (hs l : list pystr) (m : ColumnMappings) :
  (forall h, In h l -> str_in h hs = true) ->
  columns_exist hs m = true ->
  columns_exist hs (ColumnMapper.description_pass l m) = true.
Proof.
  intros Hl Hm; induction l as [|h l IH];
    cbn [ColumnMapper.description_pass]; [exact Hm|].
  assert (IH' := IH (fun x I => Hl x (or_intror I))).
  destruct (ColumnMapper.matches_any ColumnMapper.description_fields (lower h));
    [|exact IH'].
  destruct (negb (dict_has (str "notes") m)); [|exact IH'].
  apply columns_exist_set; [exact Hm|apply Hl; now left].
Qed.

Lemma assign_field_columns (hs : list pystr)
    (table : list (pystr * list pystr)) (hl h : pystr) (m : ColumnMappings) :
  str_in h hs = true -> columns_exist hs m = true ->
  columns_exist hs (ColumnMapper.assign_field table hl h m) = true.
Proof.
  intros Hh Hm; induction table as [|[f pats] table IH];
    cbn [ColumnMapper.assign_field]; [exact Hm|].
  destruct (ColumnMapper.matches_any pats hl); [|exact IH].
  destruct (negb (dict_has f m)); [|exact IH].
  now apply columns_exist_set.
Qed.

Lemma pattern_pass_columns (hs l : list pystr) (m : ColumnMappings) :
  (forall h, In h l -> str_in h hs = true) ->
  columns_exist hs m = true ->
  columns_exist hs (ColumnMapper.pattern_pass l m) = true.
Proof.
  unfold ColumnMapper.pattern_pass; revert m.
  induction l as [|h l IH]; intros m Hl Hm; cbn [fold_left]; [exact Hm|].
  apply IH; [intros x I; apply Hl; now right|].
  unfold ColumnMapper.pattern_step.
  destruct (ColumnMapper.skipped (lower h)); [exact Hm|].
  apply assign_field_columns; [apply Hl; now left|exact Hm].
Qed.

Lemma first_unmapped_In (test : pystr -> bool) (preview : list Row)
    (l : list pystr) (m : ColumnMappings) (h : pystr) :
  ColumnMapper.first_unmapped test preview l m = Some h -> In h l.
Proof.
  rewrite first_unmapped_find; intros H; now apply find_some in H as [H _].
Qed.

Lemma has_headers_In (hs : list pystr) (signature : list string) (h : string) :
  ColumnMapper.has_headers hs signature = true -> In h signature ->
  str_in (str h) hs = true.
Proof.
  unfold ColumnMapper.has_headers; intros H I.
  rewrite forallb_forall in H; exact (H h I).
Qed.

Lemma pairs_columns (hs : list pystr) (signature : list string)
    (l : list (string * string)) :
  ColumnMapper.has_headers hs signature = true ->
  forallb (fun kv => existsb (String.eqb (snd kv)) signature) l = true ->
  columns_exist hs (ColumnMapper.pairs l) = true.
Proof.
  intros H; unfold columns_exist, ColumnMapper.pairs.
  induction l as [|[k v] l IH]; cbn; [reflexivity|].
  intros F; apply andb_true_iff in F as [Fv Fl].
  rewrite (IH Fl), andb_true_r.
  apply existsb_exists in Fv as (x & Ix & Ex).
  apply String.eqb_eq in Ex; cbn in Ex; subst x.
  exact (has_headers_In _ _ _ H Ix).
Qed.

Lemma symbol_rows_columns (hs : list pystr) (rows : list Row)
    (m : ColumnMappings) :
  rows_within hs rows = true -> columns_exist hs m = true ->
  columns_exist hs
    (fold_left (fun m row => ColumnMapper.symbol_of_row row m) rows m) = true.
Proof.
  revert m; induction rows as [|row rows IH]; intros m Hr Hm; cbn;
    [exact Hm|].
  cbn in Hr; apply andb_true_iff in Hr as [H0 Hr].
  apply IH; [exact Hr|].
  unfold ColumnMapper.symbol_of_row.
  destruct (find _ row) as [hv|] eqn:F; [|exact Hm].
  apply find_some in F as [F _].
  apply columns_exist_set; [exact Hm|].
  rewrite forallb_forall in H0; exact (H0 _ F).
Qed.

(** X14.  The mappings the detection proposes name headers of the file, so that
    the import does not end on a mapped column that the file lacks.  This
    holds when the file has the four columns the table of Fidelity names
    beyond its signature (Quantity, Price ($), Fees ($), Description), or
    lacks the signature of Fidelity. *)
Theorem detected_columns_exist (headers : list pystr) (preview_data : list Row)
    (m : ColumnMappings) :
  columns_exist headers m = true ->
  rows_within headers (firstn 5 preview_data) = true ->
  (ColumnMapper.has_headers headers
     ["Run Date"; "Action"; "Symbol"; "Amount ($)"]%string = true ->
   ColumnMapper.has_headers headers
     ["Quantity"; "Price ($)"; "Fees ($)"; "Description"]%string = true) ->
  columns_exist headers
    (ColumnMapper.detect_column_patterns headers preview_data m) = true
  /\ forall field column,
       In (field, column)
          (ColumnMapper.detect_column_patterns headers preview_data m) ->
       In column headers.
Proof.
  intros Hm Hrows Hfid.
  assert (Hin : forall h, In h headers -> str_in h headers = true)
    by (intros h; apply str_in_In).
  assert (C : columns_exist headers
                (ColumnMapper.detect_column_patterns headers preview_data m)
              = true).
  { unfold ColumnMapper.detect_column_patterns; cbv zeta.
    set (preview := firstn 5 preview_data) in *.
    set (m1 := ColumnMapper.description_pass headers m).
    assert (H1 : columns_exist headers m1 = true)
      by now apply description_pass_columns.
    set (m2 := ColumnMapper.pattern_pass headers m1).
    assert (H2 : columns_exist headers m2 = true)
      by now apply pattern_pass_columns.
    set (m3 := ColumnMapper.infer_symbol headers preview m2).
    assert (H3 : columns_exist headers m3 = true).
    { unfold m3, ColumnMapper.infer_symbol.
      destruct (_ && _); [|exact H2].
      destruct (ColumnMapper.first_unmapped _ _ _ _) as [h|] eqn:F; [|exact H2].
      apply columns_exist_set; [exact H2|].
      apply Hin; exact (first_unmapped_In _ _ _ _ _ F). }
    set (m4 := ColumnMapper.infer_action headers preview m3).
    assert (H4 : columns_exist headers m4 = true).
    { unfold m4, ColumnMapper.infer_action.
      destruct (_ && _); [|exact H3].
      destruct (ColumnMapper.first_unmapped _ _ _ _) as [h|] eqn:F; [|exact H3].
      apply columns_exist_set; [exact H3|].
      apply Hin; exact (first_unmapped_In _ _ _ _ _ F). }
    unfold ColumnMapper.detect_special_formats.
    set (m5 := ColumnMapper.fidelity headers m4).
    assert (H5 : columns_exist headers m5 = true).
    { unfold m5, ColumnMapper.fidelity.
      destruct (ColumnMapper.has_headers headers
                  ["Run Date"; "Action"; "Symbol"; "Amount ($)"]%string)
        eqn:S; [|exact H4].
      pose proof (Hfid eq_refl) as S'.
      assert (U : columns_exist headers
                    (dict_update m4
                       (ColumnMapper.pairs
                          [("date", "Run Date"); ("action", "Action");
                           ("symbol", "Symbol"); ("amount", "Amount ($)");
                           ("quantity", "Quantity"); ("price", "Price ($)");
                           ("fees", "Fees ($)")]%string)) = true).
      { apply columns_exist_update; [exact H4|].
        unfold columns_exist, ColumnMapper.pairs; cbn [map forallb fst snd].
        rewrite (has_headers_In _ _ "Run Date" S),
          (has_headers_In _ _ "Action" S), (has_headers_In _ _ "Symbol" S),
          (has_headers_In _ _ "Amount ($)" S),
          (has_headers_In _ _ "Quantity" S'),
          (has_headers_In _ _ "Price ($)" S'),
          (has_headers_In _ _ "Fees ($)" S') by (cbn; tauto).
        reflexivity. }
      destruct (dict_get (str "account_name") _) as [[|c a]|]; try exact U;
        (apply columns_exist_set;
         [exact U|apply (has_headers_In _ _ "Description" S'); cbn; tauto]). }
    set (m6 := ColumnMapper.schwab headers m5).
    assert (H6 : columns_exist headers m6 = true).
    { unfold m6, ColumnMapper.schwab.
      destruct (ColumnMapper.has_headers headers
                  ["Date"; "Symbol"; "Description"; "Quantity"; "Price";
                   "Amount"]%string) eqn:S; [|exact H5].
      apply columns_exist_set;
        [|apply (has_headers_In _ _ "Description" S); cbn; tauto].
      apply columns_exist_update; [exact H5|].
      apply (pairs_columns _ _ _ S); reflexivity. }
    set (m7 := ColumnMapper.robinhood headers m6).
    assert (H7 : columns_exist headers m7 = true).
    { unfold m7, ColumnMapper.robinhood.
      destruct (ColumnMapper.has_headers headers
                  ["Date"; "Symbol"; "Action"; "Quantity"; "Price";
                   "Fees & Comm"; "Amount"]%string) eqn:S; [|exact H6].
      apply columns_exist_update; [exact H6|].
      apply (pairs_columns _ _ _ S); reflexivity. }
    unfold ColumnMapper.lot_details.
    destruct (ColumnMapper.has_headers headers
                ["Open Date"; "Quantity"; "Price"; "Cost/Share";
                 "Market Value"; "Holding Period"]%string) eqn:S;
      [|exact H7].
    assert (U : columns_exist headers
                  (dict_update m7
                     (ColumnMapper.pairs
                        [("date", "Open Date"); ("quantity", "Quantity");
                         ("price", "Cost/Share");
                         ("amount", "Market Value")]%string)) = true).
    { apply columns_exist_update; [exact H7|].
      apply (pairs_columns _ _ _ S); reflexivity. }
    destruct (negb _); [|exact U].
    now apply symbol_rows_columns. }
  split; [exact C|].
  intros field column I.
  unfold columns_exist in C; rewrite forallb_forall in C.
  specialize (C _ I); cbn in C.
  unfold str_in in C; apply existsb_exists in C as (h & Ih & E).
  apply str_eqb_eq in E; now subst h.
Qed.

Lemma detected_columns_exist_witness :
  columns_exist MapperExamples.fidelity_headers
    (ColumnMapper.detect_column_patterns MapperExamples.fidelity_headers [] [])
  = true.
Proof.
  exact (proj1 (detected_columns_exist MapperExamples.fidelity_headers [] []
                  eq_refl eq_refl (fun _ => eq_refl))).
Defined.

(** ** The mappings of the dialog *)

Section DialogProperties.

Context {rt : Runtime}.

(** X15.  A mapping file loaded in the dialog keeps the mappings whose column is
    a header of the file, and only those; what it keeps passes the test of
    the import on mapped columns, whatever the file held, and a file whose
    columns are all headers is kept whole. *)
Theorem loaded_mappings_exist (mappings : ColumnMappings)
    (headers : list pystr) :
  columns_exist headers (MapperDialog.valid_mappings mappings headers) = true
  /\ (forall f h,
         In (f, h) (MapperDialog.valid_mappings mappings headers)
         <-> In (f, h) mappings /\ In h headers)
  /\ (columns_exist headers mappings = true ->
      MapperDialog.valid_mappings mappings headers = mappings)
  /\ (forall mp rows,
         import_transactions_from_csv mp (Ok (headers, rows))
           (MapperDialog.valid_mappings mappings headers)
         = import_handlers
             (process_rows mp
                (MapperDialog.valid_mappings mappings headers) 2 rows)).
Proof.
  assert (C : columns_exist headers (MapperDialog.valid_mappings mappings headers)
              = true).
  { unfold columns_exist, MapperDialog.valid_mappings.
    apply forallb_forall; intros kv I; now apply filter_In in I as [_ I]. }
  split; [exact C|]; split; [|split].
  - intros f h; unfold MapperDialog.valid_mappings; rewrite filter_In; cbn.
    split; intros [I H]; (split; [exact I|]).
    + unfold str_in in H; apply existsb_exists in H as (x & Ix & E).
      apply str_eqb_eq in E; now subst x.
    + now apply str_in_In.
  - clear C; unfold columns_exist, MapperDialog.valid_mappings.
    induction mappings as [|kv m IH]; cbn [filter forallb]; [reflexivity|].
    intros H; apply andb_true_iff in H as [H1 H2].
    rewrite H1; f_equal; now apply IH.
  - intros mp rows; unfold import_transactions_from_csv; cbn [bind fst snd].
    unfold columns_exist in C; now rewrite C.
Qed.

Lemma dict_get_del {V} (k : pystr) (d : dict V) :
  distinct_keys d = true ->
  dict_get k (dict_del k d) = None
  /\ forall k', str_eqb k k' = false ->
       dict_get k' (dict_del k d) = dict_get k' d.
Proof.
  induction d as [|[k0 v0] d IH]; cbn; [auto|].
  intros H; apply andb_true_iff in H as [H1 H2]; apply negb_true_iff in H1.
  destruct (str_eqb k0 k) eqn:E.
  - apply str_eqb_eq in E; subst k0.
    unfold dict_has in H1; destruct (dict_get k d); [discriminate|].
    split; [reflexivity|]; intros k' Hk; now rewrite Hk.
  - destruct (IH H2) as [I1 I2]; cbn; rewrite E.
    split; [exact I1|].
    intros k' Hk; destruct (str_eqb k0 k'); [reflexivity|now apply I2].
Qed.

(** X16.  The OK button of the mapping dialog is enabled exactly when [date] and
    [action] are mapped.  Choosing a header for a field maps that field and
    no other; choosing "not mapped" leaves it without mapping and changes
    no other, so that it disables OK when the field is required. *)
Theorem mapping_dialog_required_fields (m : ColumnMappings) (field : pystr) :
  MapperDialog.ok_enabled m
  = dict_has (str "date") m && dict_has (str "action") m
  /\ (forall v,
         nonempty v = true ->
         dict_get field (MapperDialog.on_mapping_changed field (Some v) m)
         = Some v
         /\ forall f, str_eqb field f = false ->
              dict_get f (MapperDialog.on_mapping_changed field (Some v) m)
              = dict_get f m)
  /\ (distinct_keys m = true ->
      dict_get field (MapperDialog.on_mapping_changed field None m) = None
      /\ (forall f, str_eqb field f = false ->
            dict_get f (MapperDialog.on_mapping_changed field None m)
            = dict_get f m)
      /\ (In field MapperDialog.required_fields ->
          MapperDialog.ok_enabled
            (MapperDialog.on_mapping_changed field None m) = false)).
Proof.
  assert (Ok_eq : forall m0,
             MapperDialog.ok_enabled m0
             = dict_has (str "date") m0 && dict_has (str "action") m0).
  { intros m0; unfold MapperDialog.ok_enabled, MapperDialog.missing_required,
      MapperDialog.required_fields; cbn [filter].
    destruct (dict_has (str "date") m0), (dict_has (str "action") m0);
      reflexivity. }
  split; [apply Ok_eq|]; split.
  - intros v Hv; unfold MapperDialog.on_mapping_changed; rewrite Hv.
    split; [apply dict_get_set_same|].
    intros f Hf; now apply dict_get_set_other.
  - intros D.
    change (MapperDialog.on_mapping_changed field None m)
      with (if dict_has field m then dict_del field m else m).
    assert (G : dict_get field
                  (if dict_has field m then dict_del field m else m) = None
                /\ forall f, str_eqb field f = false ->
                     dict_get f (if dict_has field m then dict_del field m
                                 else m) = dict_get f m).
    { destruct (dict_has field m) eqn:H; [now apply dict_get_del|].
      unfold dict_has in H; destruct (dict_get field m); [discriminate|auto]. }
    destruct G as [G1 G2]; split; [exact G1|]; split; [exact G2|].
    intros I; rewrite Ok_eq.
    assert (Hd : dict_has field
                   (if dict_has field m then dict_del field m else m) = false)
      by (unfold dict_has at 1; now rewrite G1).
    destruct I as [<-|[<-|[]]]; rewrite Hd;
      [reflexivity|apply andb_false_r].
Qed.

End DialogProperties.

Lemma loaded_mappings_exist_witness :
  MapperDialog.valid_mappings Examples.trade_mappings
    ImportExamples.trade_headers = Examples.trade_mappings.
Proof.
  exact (proj1 (proj2 (proj2
           (@loaded_mappings_exist ExampleRuntime.runtime
              Examples.trade_mappings ImportExamples.trade_headers)))
           eq_refl).
Defined.

Lemma mapping_dialog_required_fields_witness :
  MapperDialog.ok_enabled
    (MapperDialog.on_mapping_changed (str "date") None Examples.trade_mappings)
  = false.
Proof.
  destruct (mapping_dialog_required_fields Examples.trade_mappings (str "date"))
    as (_ & _ & H).
  destruct (H eq_refl) as (_ & _ & R).
  apply R; left; reflexivity.
Defined.

(** ** Dates with and without leading zeros *)

Lemma month_numeral_sep (p : bool) (m : N) (sep : char) (tail : pystr) :
  sep = chr_dash \/ sep = chr_slash ->
  (1 <=? m) && (m <=? 12) = true ->
  Re.groups [re_m; Re.chr sep] (numeral2 p m ++ sep :: tail)
  = [([numeral2 p m; [sep]], tail)].
Proof.
  intros [->| ->] H; destruct p; enum_N m H; vm_compute; reflexivity.
Qed.

Lemma day_numeral_sep (p : bool) (d : N) (sep : char) (tail : pystr) :
  sep = chr_dash \/ sep = chr_slash ->
  (1 <=? d) && (d <=? 31) = true ->
  Re.groups [re_d; Re.chr sep] (numeral2 p d ++ sep :: tail)
  = [([numeral2 p d; [sep]], tail)].
Proof.
  intros [->| ->] H; destruct p; enum_N d H; vm_compute; reflexivity.
Qed.

Lemma day_numeral_end (p : bool) (d : N) :
  (1 <=? d) && (d <=? 31) = true ->
  hd_error (Re.groups [re_d] (numeral2 p d)) = Some ([numeral2 p d], []).
Proof.
  intros H; destruct p; enum_N d H; vm_compute; reflexivity.
Qed.

Lemma month_rejects_dash (p : bool) (d : N) (tail : pystr) :
  (1 <=? d) && (d <=? 31) = true ->
  Re.groups [re_m; Re.chr chr_slash] (numeral2 p d ++ chr_dash :: tail) = [].
Proof.
  intros H; destruct p; enum_N d H; vm_compute; reflexivity.
Qed.

Lemma day_rejects_dash (p : bool) (d : N) (tail : pystr) :
  (1 <=? d) && (d <=? 31) = true ->
  Re.groups [re_d; Re.chr chr_slash] (numeral2 p d ++ chr_dash :: tail) = [].
Proof.
  intros H; destruct p; enum_N d H; vm_compute; reflexivity.
Qed.

Lemma re_Y_one (c sep : char) (r : pystr) :
  is_digit sep = false -> re_Y (c :: sep :: r) = [].
Proof.
  intros H; unfold re_Y, Re.seq, Re.cls; simpl.
  destruct (is_digit c); simpl; [|reflexivity].
  now rewrite H.
Qed.

Lemma re_Y_two (c1 c2 sep : char) (r : pystr) :
  is_digit sep = false -> re_Y (c1 :: c2 :: sep :: r) = [].
Proof.
  intros H; unfold re_Y, Re.seq, Re.cls; simpl.
  destruct (is_digit c1); simpl; [|reflexivity].
  destruct (is_digit c2); simpl; [|reflexivity].
  now rewrite H.
Qed.

Lemma year_rejects_numeral (p : bool) (n : N) (sep : char) (tail : pystr) :
  sep = chr_dash \/ sep = chr_slash ->
  re_Y (numeral2 p n ++ sep :: tail) = [].
Proof.
  intros Hs; assert (D : is_digit sep = false)
    by (destruct Hs as [->| ->]; reflexivity).
  unfold numeral2, pad2.
  destruct (p || (10 <=? n)); cbn [app];
    [now apply re_Y_two|now apply re_Y_one].
Qed.

Lemma py_int_numeral (p : bool) (n : N) : n < 100 -> py_int (numeral2 p n) = n.
Proof.
  intros H; unfold numeral2.
  destruct (p || (10 <=? n)) eqn:E; [now apply py_int_pad2|].
  apply orb_false_iff in E as [_ E]; apply N.leb_gt in E.
  unfold py_int; rewrite strip_id.
  - cbn [int_of_digits]; rewrite digit_val_chr; lia.
  - constructor; [|constructor].
    apply is_digit_not_space, digit_chr_is_digit; lia.
Qed.

Lemma date_chars_numeral (p : bool) (n : N) :
  n < 100 -> Forall (fun c => is_date_char c = true) (numeral2 p n).
Proof.
  intros H; unfold numeral2.
  destruct (p || (10 <=? n)) eqn:E; [now apply date_chars_pad2|].
  apply orb_false_iff in E as [_ E]; apply N.leb_gt in E.
  constructor; [|constructor].
  apply is_date_char_digit, digit_chr_is_digit; lia.
Qed.

Lemma strptime_iso_text (pm pd : bool) (d : date) :
  valid_date d = true -> strptime (iso_text pm pd d) fmt_iso = Ok d.
Proof.
  intros V; destruct (valid_date_bounds _ V) as (Hy & Hm & Hd).
  destruct d as [y m dd]; simpl in *.
  unfold strptime, iso_text, Re.match_; cbn [year month day].
  change (map fmt_matcher fmt_iso)
    with ([re_Y; Re.chr chr_dash] ++ [re_m; Re.chr chr_dash] ++ [re_d]).
  rewrite (groups_app_single _ _ _ _ _ (year_sep _ _ Hy)).
  rewrite (groups_app_single _ _ _ _ _
             (month_numeral_sep pm _ _ _ (or_introl eq_refl) Hm)).
  rewrite !map_map.
  destruct (Re.groups [re_d] (numeral2 pd dd)) as [|[g r] l] eqn:E;
    pose proof (day_numeral_end pd _ Hd) as De; rewrite E in De;
    [discriminate|].
  inversion De; subst; cbn [map hd_error fst snd app fmt_fields fmt_iso].
  rewrite (py_int_pad4 _ Hy).
  rewrite (py_int_numeral _ _ (bounds_lt_100 _ _ Hm eq_refl)).
  rewrite (py_int_numeral _ _ (bounds_lt_100 _ _ Hd eq_refl)).
  unfold date_new; rewrite V; reflexivity.
Qed.

Lemma strptime_us_text (pm pd : bool) (d : date) :
  valid_date d = true -> strptime (us_text pm pd d) fmt_us = Ok d.
Proof.
  intros V; destruct (valid_date_bounds _ V) as (Hy & Hm & Hd).
  destruct d as [y m dd]; simpl in *.
  unfold strptime, us_text, Re.match_; cbn [year month day].
  change (map fmt_matcher fmt_us)
    with ([re_m; Re.chr chr_slash] ++ [re_d; Re.chr chr_slash] ++ [re_Y]).
  rewrite (groups_app_single _ _ _ _ _
             (month_numeral_sep pm _ _ _ (or_intror eq_refl) Hm)).
  rewrite (groups_app_single _ _ _ _ _
             (day_numeral_sep pd _ _ _ (or_intror eq_refl) Hd)).
  rewrite (year_end _ Hy).
  cbn [map hd_error fst snd app fmt_fields fmt_us].
  rewrite (py_int_pad4 _ Hy).
  rewrite (py_int_numeral _ _ (bounds_lt_100 _ _ Hm eq_refl)).
  rewrite (py_int_numeral _ _ (bounds_lt_100 _ _ Hd eq_refl)).
  unfold date_new; rewrite V; reflexivity.
Qed.

Lemma strptime_dashed_text (pm pd : bool) (d : date) :
  valid_date d = true -> strptime (dashed_text pm pd d) fmt_dashed = Ok d.
Proof.
  intros V; destruct (valid_date_bounds _ V) as (Hy & Hm & Hd).
  destruct d as [y m dd]; simpl in *.
  unfold strptime, dashed_text, Re.match_; cbn [year month day].
  change (map fmt_matcher fmt_dashed)
    with ([re_d; Re.chr chr_dash] ++ [re_m; Re.chr chr_dash] ++ [re_Y]).
  rewrite (groups_app_single _ _ _ _ _
             (day_numeral_sep pd _ _ _ (or_introl eq_refl) Hd)).
  rewrite (groups_app_single _ _ _ _ _
             (month_numeral_sep pm _ _ _ (or_introl eq_refl) Hm)).
  rewrite (year_end _ Hy).
  cbn [map hd_error fst snd app fmt_fields fmt_dashed].
  rewrite (py_int_pad4 _ Hy).
  rewrite (py_int_numeral _ _ (bounds_lt_100 _ _ Hm eq_refl)).
  rewrite (py_int_numeral _ _ (bounds_lt_100 _ _ Hd eq_refl)).
  unfold date_new; rewrite V; reflexivity.
Qed.

Lemma strptime_year_first_rejects (p : bool) (n : N) (sep : char)
    (tail : pystr) :
  sep = chr_dash \/ sep = chr_slash ->
  strptime (numeral2 p n ++ sep :: tail) fmt_iso = Raise ValueError.
Proof.
  intros Hs; unfold strptime, Re.match_.
  change (map fmt_matcher fmt_iso) with (re_Y :: map fmt_matcher (tl fmt_iso)).
  rewrite groups_head_nil by now apply year_rejects_numeral.
  reflexivity.
Qed.

Lemma date_text_id (s : pystr) :
  Forall (fun c => is_date_char c = true) s -> date_text s = s.
Proof. intros H; unfold date_text; now rewrite search_as_of_none. Qed.

(** X17.  A valid date written year-month-day, month/day/year or day-month-year
    comes back as that date, with or without the leading zeros of the month
    and of the day. *)
Theorem parse_date_leading_zeros (pm pd : bool) (d : date) :
  valid_date d = true ->
  parse_date (iso_text pm pd d) = Ok (Some d)
  /\ parse_date (us_text pm pd d) = Ok (Some d)
  /\ parse_date (dashed_text pm pd d) = Ok (Some d).
Proof.
  intros V; destruct (valid_date_bounds _ V) as (Hy & Hm & Hd).
  pose proof (bounds_lt_100 _ _ Hm eq_refl) as Hm'.
  pose proof (bounds_lt_100 _ _ Hd eq_refl) as Hd'.
  rewrite !parse_date_eq; unfold parse_date_value.
  split; [|split]; f_equal.
  - rewrite date_text_id.
    + unfold formats; cbn [first_format].
      now rewrite (strptime_iso_text _ _ _ V).
    + unfold iso_text.
      repeat first [apply Forall_app; split | apply Forall_cons; [reflexivity|]];
        auto using date_chars_numeral, date_chars_pad4.
  - rewrite date_text_id.
    + unfold formats; cbn [first_format].
      assert (F : strptime (us_text pm pd d) fmt_iso = Raise ValueError)
        by (apply strptime_year_first_rejects; now right).
      now rewrite F, (strptime_us_text _ _ _ V).
    + unfold us_text.
      repeat first [apply Forall_app; split | apply Forall_cons; [reflexivity|]];
        auto using date_chars_numeral, date_chars_pad4.
  - rewrite date_text_id.
    + unfold formats; cbn [first_format].
      assert (F1 : strptime (dashed_text pm pd d) fmt_iso = Raise ValueError)
        by (apply strptime_year_first_rejects; now left).
      assert (F2 : strptime (dashed_text pm pd d) fmt_us = Raise ValueError).
      { unfold strptime, dashed_text, Re.match_.
        change (map fmt_matcher fmt_us)
          with ([re_m; Re.chr chr_slash] ++ [re_d; Re.chr chr_slash] ++ [re_Y]).
        now rewrite (groups_app_nil _ _ _ (month_rejects_dash _ _ _ Hd)). }
      assert (F3 : strptime (dashed_text pm pd d) fmt_eu = Raise ValueError).
      { unfold strptime, dashed_text, Re.match_.
        change (map fmt_matcher fmt_eu)
          with ([re_d; Re.chr chr_slash] ++ [re_m; Re.chr chr_slash] ++ [re_Y]).
        now rewrite (groups_app_nil _ _ _ (day_rejects_dash _ _ _ Hd)). }
      now rewrite F1, F2, F3, (strptime_dashed_text _ _ _ V).
    + unfold dashed_text.
      repeat first [apply Forall_app; split | apply Forall_cons; [reflexivity|]];
        auto using date_chars_numeral, date_chars_pad4.
Qed.

Lemma parse_date_leading_zeros_witness :
  parse_date (str "2024-1-5") = Ok (Some (mkdate 2024 1 5))
  /\ parse_date (str "1/5/2024") = Ok (Some (mkdate 2024 1 5))
  /\ parse_date (str "5-1-2024") = Ok (Some (mkdate 2024 1 5)).
Proof.
  exact (parse_date_leading_zeros false false (mkdate 2024 1 5) eq_refl).
Defined.

(** ** Texts without a date *)

Lemma search_suffix (ms : list Re.matcher) (s : pystr) m :
  Re.search ms s = Some m ->
  exists pre t, s = pre ++ t /\ In m (Re.groups ms t).
Proof.
  induction s as [|c s IH]; simpl; unfold Re.match_.
  - destruct (Re.groups ms []) as [|m' l] eqn:E; simpl; [discriminate|].
    intros H; inversion H; subst; exists [], []; rewrite E.
    split; [reflexivity|now left].
  - destruct (Re.groups ms (c :: s)) as [|m' l] eqn:E; simpl.
    + intros H; destruct (IH H) as (pre & t & -> & I).
      exists (c :: pre), t; split; [reflexivity|exact I].
    + intros H; inversion H; subst; exists [], (c :: s); rewrite E.
      split; [reflexivity|now left].
Qed.

Lemma cls_splits (p : char -> bool) (s x r : pystr) :
  In (x, r) (Re.cls p s) -> exists c, x = [c] /\ s = c :: r /\ p c = true.
Proof.
  unfold Re.cls; destruct s as [|c s]; [intros []|].
  destruct (p c) eqn:E; [|intros []].
  intros [H|[]]; inversion H; subst; eauto.
Qed.

Lemma seq_splits (a b : Re.matcher) (s x r : pystr) :
  In (x, r) (Re.seq a b s) ->
  exists x1 r1 x2, x = x1 ++ x2 /\ In (x1, r1) (a s) /\ In (x2, r) (b r1).
Proof.
  unfold Re.seq; intros H.
  apply in_flat_map in H as ([x1 r1] & H1 & H).
  apply in_map_iff in H as ([x2 r2] & E & H2).
  inversion E; subst; cbn in *; eauto 6.
Qed.

Lemma lit_ci_splits (p s x r : pystr) :
  In (x, r) (Re.lit_ci p s) -> s = x ++ r.
Proof.
  revert s x r; induction p as [|c p IH]; intros s x r; cbn [Re.lit_ci].
  - intros [H|[]]; inversion H; reflexivity.
  - intros H; apply seq_splits in H as (x1 & r1 & x2 & -> & H1 & H2).
    apply cls_splits in H1 as (c0 & -> & -> & _).
    apply IH in H2; subst r1; reflexivity.
Qed.

Lemma rep_digit_head (lo hi : nat) (s x r : pystr) :
  In (x, r) (Re.rep is_digit (S lo) hi s) ->
  exists c s', s = c :: s' /\ is_digit c = true.
Proof.
  destruct hi as [|hi]; cbn [Re.rep]; [intros []|].
  rewrite app_nil_r.
  destruct s as [|c s]; [intros []|].
  destruct (is_digit c) eqn:E; [eauto|intros []].
Qed.

Lemma date_like_head (s x r : pystr) :
  In (x, r) (re_date_like s) -> exists c s', s = c :: s' /\ is_digit c = true.
Proof.
  unfold re_date_like, Re.alt; intros H; apply in_app_or in H as [H|H];
    apply seq_splits in H as (x1 & r1 & x2 & _ & H & _);
    exact (rep_digit_head _ _ _ _ _ H).
Qed.

Lemma no_digit_app (a b : pystr) :
  Forall (fun c => is_digit c = false) (a ++ b) ->
  Forall (fun c => is_digit c = false) b.
Proof. intros H; now apply Forall_app in H as [_ H]. Qed.

Lemma search_date_like_none (s : pystr) :
  Forall (fun c => is_digit c = false) s ->
  Re.search as_of_pattern s = None /\ Re.search date_pattern s = None.
Proof.
  intros H; split.
  - destruct (Re.search as_of_pattern s) as [[gs r]|] eqn:E; [|reflexivity].
    exfalso; apply search_suffix in E as (pre & t & -> & I).
    apply no_digit_app in H.
    apply groups_two in I as (x1 & r1 & x2 & _ & I1 & I2).
    apply lit_ci_splits in I1; subst t; apply no_digit_app in H.
    apply date_like_head in I2 as (c & s' & -> & D).
    inversion H; congruence.
  - destruct (Re.search date_pattern s) as [[gs r]|] eqn:E; [|reflexivity].
    exfalso; apply search_suffix in E as (pre & t & -> & I).
    apply no_digit_app in H.
    unfold date_pattern in I; cbn [Re.groups] in I.
    apply in_flat_map in I as ([x1 r1] & I1 & _).
    apply date_like_head in I1 as (c & s' & -> & D).
    inversion H; congruence.
Qed.

Lemma digit_code (c : char) (k : N) :
  is_digit c = false -> 48 <= k -> k <= 57 -> (k =? c) = false.
Proof.
  unfold is_digit; intros H Hk1 Hk2; apply N.eqb_neq; intros <-.
  apply andb_false_iff in H as [H|H]; apply N.leb_gt in H; lia.
Qed.

Lemma in_range_digit (lo hi : string) (c : char) :
  is_digit c = false ->
  match str lo, str hi with
  | [l], [h] => 48 <= l /\ h <= 57
  | _, _ => True
  end ->
  in_range lo hi c = false.
Proof.
  unfold in_range, is_digit; intros H.
  destruct (str lo) as [|l [|]]; try reflexivity.
  destruct (str hi) as [|h [|]]; try reflexivity.
  intros [H1 H2].
  apply andb_false_iff in H as [H|H]; apply N.leb_gt in H;
    apply andb_false_iff; [left|right]; apply N.leb_gt; lia.
Qed.

Lemma first_item_none (s : pystr) :
  Forall (fun c => is_digit c = false) s ->
  re_Y s = [] /\ re_m s = [] /\ re_d s = [].
Proof.
  intros H; destruct s as [|c s]; [repeat split; reflexivity|].
  inversion_clear H as [|? ? Hc Hs].
  assert (R19 : in_range "1" "9" c = false)
    by (apply in_range_digit; [exact Hc|cbn; lia]).
  assert (R02 : in_range "0" "2" c = false)
    by (apply in_range_digit; [exact Hc|cbn; lia]).
  assert (R12 : in_range "1" "2" c = false)
    by (apply in_range_digit; [exact Hc|cbn; lia]).
  assert (E49 : (49 =? c) = false) by (apply digit_code; [exact Hc|lia|lia]).
  assert (E48 : (48 =? c) = false) by (apply digit_code; [exact Hc|lia|lia]).
  assert (E51 : (51 =? c) = false) by (apply digit_code; [exact Hc|lia|lia]).
  split; [|split].
  - unfold re_Y, Re.seq, Re.cls; now rewrite Hc.
  - unfold re_m, Re.alt, Re.seq, Re.chr, Re.cls.
    now rewrite E49, E48, R19.
  - unfold re_d, Re.alt, Re.seq, Re.chr, Re.cls.
    rewrite E51, E48, R12, R19; cbn [flat_map app].
    destruct (32 =? c); [|reflexivity].
    cbn [flat_map snd app map].
    destruct s as [|c2 s]; [reflexivity|].
    inversion_clear Hs as [|? ? Hc2 _].
    now rewrite (in_range_digit "1" "9" c2 Hc2) by (cbn; lia).
Qed.

Lemma first_format_none (s : pystr) :
  Forall (fun c => is_digit c = false) s -> first_format formats s = None.
Proof.
  intros H; destruct (first_item_none _ H) as (HY & Hm & Hd).
  assert (F : forall i fmt,
             fmt_matcher i s = [] -> strptime s (i :: fmt) = Raise ValueError).
  { intros i fmt E; unfold strptime, Re.match_; cbn [map].
    now rewrite groups_head_nil. }
  unfold formats; cbn [first_format].
  unfold fmt_iso, fmt_us, fmt_eu, fmt_dashed.
  rewrite (F Dir_Y _ HY), (F Dir_m _ Hm), !(F Dir_d _ Hd); reflexivity.
Qed.

Section NoDate.

Context {rt : Runtime}.

(** X18.  A text without a decimal digit, the empty text among them, has no
    date: [parse_date] returns [None] on it, and a row of the import whose
    date cell is such a text carries the error "Invalid date format". *)
Theorem parse_date_without_digit (s : pystr) :
  Forall (fun c => is_digit c = false) s ->
  parse_date s = Ok None
  /\ forall mappings cm n row (t : Transaction),
       column_value cm row "date" = Some s ->
       process_row mappings cm n row = Ok t ->
       In (cat "Invalid date format: " s) (errors_of t)
       /\ tx_has "transaction_date" t = false.
Proof.
  intros H.
  assert (P : parse_date s = Ok None).
  { rewrite parse_date_eq; f_equal; unfold parse_date_value.
    destruct (search_date_like_none _ H) as [A D].
    unfold date_text; rewrite A, (first_format_none _ H), D; reflexivity. }
  split; [exact P|].
  intros mappings cm n row t Hc Hp; trace Hp.
  unfold step_date in S1; rewrite Hc, P in S1; cbn [bind] in S1.
  injection S1 as S1.
  split.
  - apply K1; rewrite <- S1; unfold append_error.
    rewrite errors_of_set_errors; apply in_or_app; right; now left.
  - subst t; unfold tx_has, dict_has; back; rewrite <- S1.
    reflexivity.
Qed.

End NoDate.

Lemma parse_date_without_digit_witness :
  parse_date (str "pending") = Ok None.
Proof.
  apply (@parse_date_without_digit ExampleRuntime.runtime).
  repeat constructor.
Defined.

(** ** Option symbols in the OCC format *)

Lemma rep_exact (p : char -> bool) (x r : pystr) :
  Forall (fun c => p c = true) x ->
  Re.rep p (List.length x) (List.length x) (x ++ r) = [(x, r)].
Proof.
  induction 1 as [|c x Hc Hx IH]; cbn [List.length Re.rep app]; [reflexivity|].
  rewrite Hc; cbn [pred]; rewrite IH; reflexivity.
Qed.

Lemma rep_greedy (p : char -> bool) (x r : pystr) :
  Forall (fun c => p c = true) x ->
  match r with c :: _ => p c = false | [] => True end ->
  forall lo hi,
    (lo <= List.length x)%nat -> (List.length x <= hi)%nat ->
    exists l, Re.rep p lo hi (x ++ r) = (x, r) :: l.
Proof.
  intros Hx Hr; induction Hx as [|c x Hc Hx IH]; intros lo hi Hlo Hhi;
    cbn [List.length app] in *.
  - assert (lo = 0)%nat as -> by lia.
    destruct hi as [|hi]; cbn [Re.rep]; [eauto|].
    destruct r as [|c r]; cbn in Hr |- *; [eauto|]; rewrite Hr; cbn; eauto.
  - destruct hi as [|hi]; [lia|]; cbn [Re.rep]; rewrite Hc.
    destruct (IH (pred lo) hi) as (l & ->); [lia|lia|].
    cbn [map fst snd app]; eauto.
Qed.

Lemma groups_first (m : Re.matcher) (ms : list Re.matcher) (s x r : pystr)
    l gs r' :
  m s = (x, r) :: l ->
  hd_error (Re.groups ms r) = Some (gs, r') ->
  hd_error (Re.groups (m :: ms) s) = Some (x :: gs, r').
Proof.
  intros Hm Hg; cbn [Re.groups]; rewrite Hm; cbn [flat_map fst snd].
  destruct (Re.groups ms r) as [|[g0 r0] l0]; [discriminate|].
  cbn in Hg |- *; now inversion Hg.
Qed.

Lemma is_upper_not_digit (c : char) : is_digit c = true -> is_upper c = false.
Proof.
  unfold is_digit, is_upper; intros H; bool_to_prop.
  apply andb_false_iff; left; apply N.leb_gt; lia.
Qed.

Lemma digits_clean (ds : pystr) :
  Forall (fun c => is_digit c = true) ds ->
  replace [DecimalSyntax.chr_underscore] [] (strip ds) = ds.
Proof.
  intros H; rewrite strip_id.
  - rewrite replace_char_filter.
    induction H as [|c ds Hc Hd IH]; cbn [filter]; [reflexivity|].
    replace (negb (DecimalSyntax.chr_underscore =? c)) with true;
      [now rewrite IH|].
    symmetry; apply negb_true_iff, N.eqb_neq; intros <-; discriminate.
  - eapply Forall_impl; [|exact H]; exact is_digit_not_space.
Qed.

(** [Decimal] of a text of decimal digits is the number the digits write. *)
Lemma Decimal_of_digits (ds : pystr) :
  ds <> [] -> Forall (fun c => is_digit c = true) ds ->
  Decimal_of_str ds = Ok (DFinite false (int_of_digits 0 ds) 0).
Proof.
  intros Hne H; unfold Decimal_of_str; rewrite (digits_clean _ H).
  assert (M : Re.match_ DecimalSyntax.number_pattern ds
              = Some ([[]; []; ds; []; []; []], [])).
  { destruct ds as [|c ds']; [congruence|].
    pose proof (Forall_inv H) as Hc; cbn beta in Hc.
    unfold Re.match_, DecimalSyntax.number_pattern.
    assert (Sg : DecimalSyntax.sign_seg (c :: ds') = [([], c :: ds')]).
    { unfold DecimalSyntax.sign_seg, Re.opt, Re.alt, Re.cls, Re.eps.
      replace (DecimalSyntax.is_sign c) with false; [reflexivity|].
      symmetry; unfold DecimalSyntax.is_sign, is_digit in *; bool_to_prop.
      apply orb_false_iff; split; apply N.eqb_neq; lia. }
    assert (Lk : DecimalSyntax.look DecimalSyntax.starts_number (c :: ds')
                 = [([], c :: ds')]).
    { unfold DecimalSyntax.look, DecimalSyntax.starts_number; now rewrite Hc. }
    destruct (rep_greedy is_digit (c :: ds') [] H I 0%nat
                (List.length (c :: ds')) (Nat.le_0_l _) (Nat.le_refl _))
      as (l & St).
    rewrite app_nil_r in St.
    apply (groups_first _ _ _ _ _ _ _ _ Sg).
    apply (groups_first _ _ _ _ _ _ _ _ Lk).
    apply (groups_first _ _ _ _ _ _ _ _ St).
    reflexivity. }
  rewrite M; unfold Re.group; cbn [fst nth tl List.length].
  rewrite app_nil_r; reflexivity.
Qed.

Lemma occ_symbol_match (tk strike : pystr) (d : date) (call : bool) :
  tk <> [] -> Forall (fun c => is_upper c = true) tk ->
  valid_date d = true -> 2000 <= year d -> year d <= 2099 ->
  List.length strike = 8%nat -> Forall (fun c => is_digit c = true) strike ->
  Re.match_ occ_pattern (occ_symbol tk d call strike)
  = Some ([tk; pad2 (year d - 2000) ++ pad2 (month d) ++ pad2 (day d);
           if call then str "C" else str "P"; strike; []], []).
Proof.
  intros Hne Hup Hv Hlo Hhi Hlen Hds.
  unfold valid_date in Hv; bool_to_prop.
  assert (Dd : Forall (fun c => is_digit c = true)
                 (pad2 (year d - 2000) ++ pad2 (month d) ++ pad2 (day d))).
  { pose proof (days_in_month_le (year d) (month d)).
    repeat (apply Forall_app; split); apply pad2_digits; lia. }
  unfold Re.match_, occ_pattern, occ_symbol.
  destruct (rep_greedy is_upper tk
              ((pad2 (year d - 2000) ++ pad2 (month d) ++ pad2 (day d))
               ++ (if call then str "C" else str "P") ++ strike) Hup)
    with (lo := 1%nat)
         (hi := List.length
                  (tk ++ (pad2 (year d - 2000) ++ pad2 (month d) ++ pad2 (day d))
                      ++ (if call then str "C" else str "P") ++ strike))
    as (l & Pl).
  { cbn [pad2 app]. apply is_upper_not_digit, digit_chr_is_digit.
    apply N.Div0.div_lt_upper_bound; lia. }
  { destruct tk; [congruence|cbn; lia]. }
  { rewrite length_app; lia. }
  apply (groups_first _ _ _ _ _ _ _ _ Pl).
  eapply groups_first.
  { exact (rep_exact is_digit _ _ Dd). }
  eapply groups_first.
  { unfold Re.cls; destruct call; cbn; reflexivity. }
  eapply groups_first.
  { rewrite <- (app_nil_r strike) at 1.
    rewrite <- Hlen. exact (rep_exact is_digit _ _ Hds). }
  reflexivity.
Qed.

Lemma strike_quotient (n : N) :
  exists q, Decimal_div_1000 (DFinite false n 0) = Ok q.
Proof.
  unfold Decimal_div_1000; destruct (n =? 0); [eauto|].
  destruct (drop_zeros 3 n (0 - 3)%Z); eauto.
Qed.

(** The branch of the OCC format on the segments of such a symbol. *)
Lemma parse_occ_symbol (tk strike : pystr) (d : date) (call : bool)
    (result : OptionDetails) (q : Decimal) :
  valid_date d = true -> 2000 <= year d -> year d <= 2099 ->
  List.length strike = 8%nat -> Forall (fun c => is_digit c = true) strike ->
  Decimal_div_1000 (DFinite false (int_of_digits 0 strike) 0) = Ok q ->
  parse_occ ([tk; pad2 (year d - 2000) ++ pad2 (month d) ++ pad2 (day d);
              if call then str "C" else str "P"; strike; []], []) result
  = Ok (mkOptionDetails true tk (Some (if call then CALL else PUT))
          (Some d) (Some q)).
Proof.
  intros Hv Hlo Hhi Hlen Hds Q.
  unfold parse_occ, Re.group; cbn [fst nth].
  pose proof Hv as Hv'; unfold valid_date in Hv'; bool_to_prop.
  pose proof (days_in_month_le (year d) (month d)).
  replace (slice (pad2 (year d - 2000) ++ pad2 (month d) ++ pad2 (day d)) 0 2)
    with (pad2 (year d - 2000)) by reflexivity.
  replace (slice (pad2 (year d - 2000) ++ pad2 (month d) ++ pad2 (day d)) 2 4)
    with (pad2 (month d)) by reflexivity.
  replace (slice (pad2 (year d - 2000) ++ pad2 (month d) ++ pad2 (day d)) 4 6)
    with (pad2 (day d)) by reflexivity.
  rewrite !py_int_pad2 by lia.
  replace (2000 + (year d - 2000)) with (year d) by lia.
  unfold date_new.
  replace (mkdate (year d) (month d) (day d)) with d by (destruct d; reflexivity).
  rewrite Hv; cbn [bind try_except].
  assert (Hs : strike <> []) by (intros ->; discriminate).
  rewrite (Decimal_of_digits strike Hs Hds).
  cbn [bind]; rewrite Q; cbn [bind try_except_in].
  destruct call, result; reflexivity.
Qed.

(** X19.  An OCC symbol is read back: the ticker, the expiration date in the years
    2000 to 2099, call or put, and the strike as the number its eight digits
    write divided by 1000; the description is not consulted. *)
Theorem parse_option_details_occ (tk strike : pystr) (d : date) (call : bool)
    (description : option pystr) :
  tk <> [] -> Forall (fun c => is_upper c = true) tk ->
  valid_date d = true -> 2000 <= year d -> year d <= 2099 ->
  List.length strike = 8%nat -> Forall (fun c => is_digit c = true) strike ->
  exists q,
    Decimal_div_1000 (DFinite false (int_of_digits 0 strike) 0) = Ok q
    /\ parse_option_details (occ_symbol tk d call strike) description
       = Ok (mkOptionDetails true tk (Some (if call then CALL else PUT))
               (Some d) (Some q)).
Proof.
  intros Hne Hup Hv Hlo Hhi Hlen Hds.
  destruct (strike_quotient (int_of_digits 0 strike)) as (q & Q).
  exists q; split; [exact Q|].
  unfold parse_option_details.
  replace (nonempty (occ_symbol tk d call strike)) with true
    by (destruct tk; [congruence|reflexivity]).
  cbn [negb andb].
  rewrite (occ_symbol_match tk strike d call Hne Hup Hv Hlo Hhi Hlen Hds).
  exact (parse_occ_symbol tk strike d call _ q Hv Hlo Hhi Hlen Hds Q).
Qed.

Lemma parse_option_details_occ_witness :
  exists q,
    Decimal_div_1000 (DFinite false (int_of_digits 0 (str "00340000")) 0) = Ok q
    /\ parse_option_details
         (occ_symbol (str "MSFT") (mkdate 2021 12 17) true (str "00340000")) None
       = Ok (mkOptionDetails true (str "MSFT") (Some CALL)
               (Some (mkdate 2021 12 17)) (Some q)).
Proof.
  apply (parse_option_details_occ (str "MSFT") (str "00340000")
           (mkdate 2021 12 17) true None);
    first [discriminate | lia | reflexivity
          | repeat (apply Forall_cons; [reflexivity|]); apply Forall_nil].
Defined.

Section OptionRows.

Context {rt : Runtime}.

(** X20.  A row whose symbol cell is an OCC symbol is staged with the ticker as
    its symbol, the cell's text in upper case as its original symbol, and
    the option type, expiration date and strike the symbol writes.  Its
    instrument type is STOCK when the column of instrument types is not
    mapped; with the column mapped it is the member the cell names, and
    OPTION when the cell is blank or names no member. *)
Theorem occ_symbol_row mappings cm n row (t : Transaction)
    (v tk strike : pystr) (d : date) (call : bool) :
  process_row mappings cm n row = Ok t ->
  column_value cm row "symbol" = Some v ->
  upper (strip v) = occ_symbol tk d call strike ->
  tk <> [] -> Forall (fun c => is_upper c = true) tk ->
  valid_date d = true -> 2000 <= year d -> year d <= 2099 ->
  List.length strike = 8%nat -> Forall (fun c => is_digit c = true) strike ->
  tx_get "symbol" t = VStr tk
  /\ tx_get "original_symbol" t = VStr (occ_symbol tk d call strike)
  /\ tx_get "option_type" t = VOType (if call then CALL else PUT)
  /\ tx_get "expiration_date" t = VDate d
  /\ (exists q,
        Decimal_div_1000 (DFinite false (int_of_digits 0 strike) 0) = Ok q
        /\ tx_get "strike_price" t = VDec q)
  /\ tx_get "instrument_type" t
     = match column_value cm row "instrument_type" with
       | None => VIType STOCK
       | Some w =>
           match InstrumentType_of_value (strip (lower w)) with
           | Ok it => VIType it
           | Raise _ => VIType OPTION
           end
       end.
Proof.
  intros H Cs Ev Hne Hup Hv Hlo Hhi Hlen Hds.
  trace H.
  destruct (strike_quotient (int_of_digits 0 strike)) as (q & Q).
  assert (Ne : nonempty (occ_symbol tk d call strike) = true)
    by (destruct tk; [congruence|reflexivity]).
  assert (P : parse_option_details (occ_symbol tk d call strike)
                (Some match column_value cm row "notes" with
                      | Some v0 => strip v0
                      | None => []
                      end)
              = Ok (mkOptionDetails true tk (Some (if call then CALL else PUT))
                      (Some d) (Some q))).
  { unfold parse_option_details; rewrite Ne; cbn [negb andb].
    rewrite (occ_symbol_match tk strike d call Hne Hup Hv Hlo Hhi Hlen Hds).
    exact (parse_occ_symbol tk strike d call _ q Hv Hlo Hhi Hlen Hds Q). }
  assert (G3 : forall k x,
             In (k, x) [("symbol"%string, VStr tk);
                        ("original_symbol"%string, VStr (occ_symbol tk d call strike));
                        ("option_type"%string, VOType (if call then CALL else PUT));
                        ("expiration_date"%string, VDate d);
                        ("strike_price"%string, VDec q);
                        ("instrument_type"%string, VIType OPTION)] ->
             dict_get (str k) t3 = Some x).
  { revert S3; unfold step_symbol; rewrite Cs, Ev, Ne, P.
    cbn [orb bind is_option ticker option_type expiration_date strike_price
         of_option_type of_date of_decimal].
    intros S3; injection S3 as <-.
    intros k x I; cbn [In] in I.
    repeat match type of I with
           | _ \/ _ => destruct I as [I|I]
           end; try contradiction; injection I as <- <-;
      destruct (nonempty match column_value cm row "notes" with
                         | Some v0 => strip v0
                         | None => []
                         end); unfold tx_set;
      repeat first [ rewrite dict_get_set_same; reflexivity
                   | rewrite dict_get_set_other by reflexivity ]. }
  assert (B : forall k x,
             In (k, x) [("symbol"%string, VStr tk);
                        ("original_symbol"%string, VStr (occ_symbol tk d call strike));
                        ("option_type"%string, VOType (if call then CALL else PUT));
                        ("expiration_date"%string, VDate d);
                        ("strike_price"%string, VDec q)] ->
             tx_get k t = x).
  { intros k x I; unfold tx_get.
    assert (E : dict_get (str k) t = dict_get (str k) t3).
    { cbn [In] in I.
      repeat match type of I with
             | _ \/ _ => destruct I as [I|I]
             end; try contradiction; injection I as <- <-; subst t; back;
        reflexivity. }
    rewrite E, (G3 k x); [reflexivity|].
    cbn [In] in I |- *; tauto. }
  split; [apply B; cbn; tauto|].
  split; [apply B; cbn; tauto|].
  split; [apply B; cbn; tauto|].
  split; [apply B; cbn; tauto|].
  split; [exists q; split; [exact Q|apply B; cbn; tauto]|].
  assert (E : dict_get (str "instrument_type") t
              = dict_get (str "instrument_type") t5)
    by (subst t; back; reflexivity).
  assert (G4 : dict_get (str "instrument_type") (step_symbol_warning t3)
               = Some (VIType OPTION))
    by (back; apply G3; cbn; tauto).
  assert (Sy : truthy (tx_get "symbol" (step_symbol_warning t3)) = true).
  { unfold tx_get; back; rewrite (G3 "symbol"%string (VStr tk)) by (cbn; tauto).
    destruct tk; [congruence|reflexivity]. }
  unfold tx_get at 1; rewrite E; clear E.
  revert S5; unfold step_instrument_type.
  destruct (column_value cm row "instrument_type") as [w|].
  - destruct (strip (lower w)) as [|c w'] eqn:Hw; cbn [nonempty].
    + intros S5; injection S5 as <-; rewrite G4; reflexivity.
    + unfold InstrumentType_of_value.
      destruct (find _ all_instrument_types) as [it|]; cbn [bind try_except].
      * intros S5; injection S5 as <-; unfold tx_set.
        now rewrite dict_get_set_same.
      * cbn [exn_isa exn_eqb orb]; intros S5; injection S5 as <-.
        unfold append_error, tx_set.
        rewrite !dict_get_set_other by reflexivity; now rewrite G4.
  - rewrite Sy; intros S5; injection S5 as <-.
    unfold append_warning, tx_set.
    rewrite dict_get_set_other by reflexivity.
    now rewrite dict_get_set_same.
Qed.

End OptionRows.

Lemma occ_symbol_row_witness :
  tx_get "symbol"
    (staged OptionExamples.option_mappings OptionExamples.option_row)
  = VStr (str "MSFT")
  /\ tx_get "instrument_type"
       (staged OptionExamples.option_mappings OptionExamples.option_row)
     = VIType STOCK.
Proof.
  destruct (@occ_symbol_row ExampleRuntime.runtime default_mappings
              OptionExamples.option_mappings 2%Z OptionExamples.option_row
              (staged OptionExamples.option_mappings OptionExamples.option_row)
              (str "msft211217c00340000") (str "MSFT") (str "00340000")
              (mkdate 2021 12 17) true)
    as (S & _ & _ & _ & _ & I);
    try first [ reflexivity | discriminate | lia
              | repeat (apply Forall_cons; [reflexivity|]); apply Forall_nil ].
  split; [exact S|exact I].
Defined.

(** ** Numbers with currency marks *)

Lemma rep_splits (p : char -> bool) (hi lo : nat) (s y r : pystr) :
  In (y, r) (Re.rep p lo hi s) ->
  s = y ++ r /\ Forall (fun c => p c = true) y.
Proof.
  revert lo s y r; induction hi as [|hi IH]; intros lo s y r; cbn [Re.rep].
  - destruct lo; [|intros []].
    intros [H|[]]; inversion H; subst; split; [reflexivity|constructor].
  - intros H; apply in_app_or in H as [H|H].
    + destruct s as [|c s]; [destruct H|].
      destruct (p c) eqn:E; [|destruct H].
      apply in_map_iff in H as ([y' r'] & Eq & H); inversion Eq; subst.
      apply IH in H as [-> F]; split; [reflexivity|now constructor].
    + destruct lo; [|destruct H].
      destruct H as [H|[]]; inversion H; subst; split; [reflexivity|constructor].
Qed.

Lemma groups_nil_by (m : Re.matcher) (ms : list Re.matcher) (s : pystr) :
  (forall x r, In (x, r) (m s) -> Re.groups ms r = []) ->
  Re.groups (m :: ms) s = [].
Proof.
  intros H; cbn [Re.groups].
  induction (m s) as [|[x r] l IH]; [reflexivity|].
  cbn [flat_map fst snd]; rewrite (H x r) by now left.
  apply IH; intros x' r' I; apply (H x' r'); now right.
Qed.

Lemma plain_cases (c : char) :
  is_digit c || is_currency_mark c = true ->
  (48 <= c /\ c <= 57) \/ c = chr_dollar \/ c = chr_euro \/ c = chr_comma.
Proof.
  unfold is_digit, is_currency_mark; intros H.
  repeat (apply orb_true_iff in H as [H|H]); bool_to_prop; auto.
Qed.

Lemma plain_not_upper (c : char) :
  is_digit c || is_currency_mark c = true -> lower_char c = c.
Proof.
  intros H; apply plain_cases in H; unfold lower_char, is_upper.
  replace ((65 <=? c) && (c <=? 90)) with false; [reflexivity|].
  symmetry; apply andb_false_iff.
  destruct H as [[H1 H2]|[ -> |[ -> | -> ]]];
    ((left; apply N.leb_gt; unfold chr_dollar, chr_comma; lia)
     || (right; apply N.leb_gt; unfold chr_euro; lia)).
Qed.

Lemma plain_not_letter (c k : char) (s : pystr) :
  is_digit c || is_currency_mark c = true -> is_alpha k = true ->
  Re.chr_ci k (c :: s) = [].
Proof.
  intros H K; unfold Re.chr_ci, Re.cls; rewrite (plain_not_upper c H).
  replace (c =? lower_char k) with false; [reflexivity|].
  symmetry; apply N.eqb_neq; intros ->.
  apply plain_cases in H.
  unfold lower_char, is_alpha, is_upper, is_lower in *.
  destruct ((65 <=? k) && (k <=? 90)) eqn:U;
    [|rewrite orb_false_l in K]; bool_to_prop;
    unfold chr_dollar, chr_euro, chr_comma in *; lia.
Qed.

Lemma plain_not_sign (c : char) :
  is_digit c || is_currency_mark c = true -> DecimalSyntax.is_sign c = false.
Proof.
  intros H; apply plain_cases in H; unfold DecimalSyntax.is_sign.
  apply orb_false_iff; split; apply N.eqb_neq;
    unfold chr_dollar, chr_euro, chr_comma in *; lia.
Qed.

Lemma plain_not_dot (c : char) :
  is_digit c || is_currency_mark c = true ->
  (DecimalSyntax.chr_dot =? c) = false.
Proof.
  intros H; apply plain_cases in H; apply N.eqb_neq.
  unfold DecimalSyntax.chr_dot, chr_dollar, chr_euro, chr_comma in *; lia.
Qed.

Lemma plain_not_space (c : char) :
  is_digit c || is_currency_mark c = true -> is_space c = false.
Proof.
  intros H; apply orb_true_iff in H as [H|H]; [now apply is_digit_not_space|].
  unfold is_currency_mark in H.
  repeat (apply orb_true_iff in H as [H|H]); apply N.eqb_eq in H; subst c;
    reflexivity.
Qed.

Lemma plain_not_underscore (c : char) :
  is_digit c || is_currency_mark c = true ->
  negb (DecimalSyntax.chr_underscore =? c) = true.
Proof.
  intros H; apply plain_cases in H; apply negb_true_iff, N.eqb_neq.
  unfold DecimalSyntax.chr_underscore, chr_dollar, chr_euro, chr_comma in *; lia.
Qed.

Lemma plain_sign_seg (c : char) (s : pystr) :
  is_digit c || is_currency_mark c = true ->
  DecimalSyntax.sign_seg (c :: s) = [([], c :: s)].
Proof.
  intros H; unfold DecimalSyntax.sign_seg, Re.opt, Re.alt, Re.cls, Re.eps.
  now rewrite (plain_not_sign c H).
Qed.

Lemma digits_no_mark (s : pystr) :
  Forall (fun c => is_digit c = true) s -> existsb is_currency_mark s = false.
Proof.
  induction 1 as [|c s Hc Hs IH]; cbn [existsb]; [reflexivity|].
  rewrite IH, orb_false_r.
  unfold is_digit, is_currency_mark in *; bool_to_prop.
  repeat (apply orb_false_iff; split); apply N.eqb_neq;
    unfold chr_dollar, chr_euro, chr_comma; lia.
Qed.

Lemma opt_seq_nil (a b : Re.matcher) (s : pystr) :
  a s = [] -> Re.opt (Re.seq a b) s = [([], s)].
Proof. intros H; unfold Re.opt, Re.alt, Re.seq, Re.eps; now rewrite H. Qed.

Lemma lit_ci_head_nil (k : char) (p s : pystr) :
  Re.chr_ci k s = [] -> Re.lit_ci (k :: p) s = [].
Proof. intros H; cbn [Re.lit_ci]; unfold Re.seq; now rewrite H. Qed.

(** [Decimal] refuses a text of digits and currency marks that has a mark. *)
Lemma Decimal_of_marked (s : pystr) :
  Forall (fun c => is_digit c || is_currency_mark c = true) s ->
  existsb is_currency_mark s = true ->
  Decimal_of_str s = Raise InvalidOperation.
Proof.
  intros P M; unfold Decimal_of_str.
  rewrite strip_id
    by (eapply Forall_impl; [|exact P]; exact plain_not_space).
  rewrite replace_char_filter.
  replace (filter (fun x => negb (DecimalSyntax.chr_underscore =? x)) s) with s.
  2:{ clear M; induction P as [|c s Hc Hs IH]; cbn [filter]; [reflexivity|].
      now rewrite (plain_not_underscore c Hc), <- IH. }
  destruct s as [|c s']; [discriminate|].
  pose proof (Forall_inv P) as Pc; cbn beta in Pc.
  assert (N1 : Re.match_ DecimalSyntax.number_pattern (c :: s') = None).
  { unfold Re.match_, DecimalSyntax.number_pattern.
    rewrite groups_nil_by; [reflexivity|].
    intros x r; rewrite (plain_sign_seg c s' Pc).
    intros [E|[]]; inversion E; subst; clear E.
    apply groups_nil_by; intros x r I.
    assert (r = c :: s') as ->.
    { unfold DecimalSyntax.look in I.
      destruct (DecimalSyntax.starts_number (c :: s')); [|destruct I].
      destruct I as [E|[]]; now inversion E. }
    clear I; apply groups_nil_by; intros y r I.
    apply rep_splits in I as [E D].
    destruct r as [|c' r'].
    { rewrite app_nil_r in E; subst y.
      rewrite (digits_no_mark _ D) in M; discriminate. }
    assert (Pc' : is_digit c' || is_currency_mark c' = true).
    { rewrite E in P; apply Forall_app in P as [_ P]; exact (Forall_inv P). }
    cbn [Re.groups].
    rewrite opt_seq_nil
      by (unfold Re.chr, Re.cls; now rewrite (plain_not_dot c' Pc')).
    cbn [flat_map app fst snd].
    rewrite opt_seq_nil by exact (plain_not_letter c' 101 r' Pc' eq_refl).
    reflexivity. }
  assert (N2 : Re.match_ DecimalSyntax.infinity_pattern (c :: s') = None).
  { unfold Re.match_, DecimalSyntax.infinity_pattern.
    rewrite groups_nil_by; [reflexivity|].
    intros x r; rewrite (plain_sign_seg c s' Pc).
    intros [E|[]]; inversion E; subst; clear E.
    apply groups_head_nil.
    exact (lit_ci_head_nil 73 (str "nf") _ (plain_not_letter c 73 s' Pc eq_refl)). }
  assert (N3 : Re.match_ DecimalSyntax.nan_pattern (c :: s') = None).
  { unfold Re.match_, DecimalSyntax.nan_pattern.
    rewrite groups_nil_by; [reflexivity|].
    intros x r; rewrite (plain_sign_seg c s' Pc).
    intros [E|[]]; inversion E; subst; clear E.
    apply groups_nil_by; intros x r.
    unfold Re.opt, Re.alt, Re.eps.
    rewrite (plain_not_letter c 115 s' Pc eq_refl).
    intros [E|[]]; inversion E; subst; clear E.
    apply groups_head_nil.
    exact (lit_ci_head_nil 78 (str "aN") _ (plain_not_letter c 78 s' Pc eq_refl)). }
  now rewrite N1, N2, N3.
Qed.

Section CurrencyTexts.

Context {rt : Runtime}.

(** X21.  A cell of digits with dollar or euro signs and commas anywhere among
    them is read by the import as the integer its digits write; typed into
    a numeric column of the grid, the same text is refused with the error
    "Invalid number for ..." as soon as it has one such mark. *)
Theorem currency_text_import_and_edit (s : pystr) :
  filter (fun c => negb (is_currency_mark c)) s <> [] ->
  Forall (fun c => is_digit c = true)
         (filter (fun c => negb (is_currency_mark c)) s) ->
  parse_decimal s
  = Ok (Some (DFinite false
                (int_of_digits 0 (filter (fun c => negb (is_currency_mark c)) s))
                0))
  /\ (existsb is_currency_mark s = true ->
      forall column (t : Transaction),
        str_in column numeric_columns = true ->
        setData_row t column (EStr s)
        = Ok (false,
              add_error (cat "Invalid number for " (column ++ cat ": " s)) t)).
Proof.
  intros Hne Hd.
  assert (P : Forall (fun c => is_digit c || is_currency_mark c = true) s).
  { apply Forall_forall; intros c Hc.
    destruct (is_currency_mark c) eqn:E; [apply orb_true_r|].
    rewrite orb_false_r.
    rewrite Forall_forall in Hd; apply Hd, filter_In; now rewrite E. }
  split.
  - rewrite parse_decimal_eq; unfold decimal_value, cleaned_text.
    assert (B : is_blank s = false).
    { destruct (is_blank s) eqn:B; [|reflexivity]; exfalso.
      destruct (filter (fun c => negb (is_currency_mark c)) s) as [|c l] eqn:F;
        [congruence|].
      assert (I : In c s) by (eapply proj1, filter_In; rewrite F; now left).
      unfold is_blank in B; rewrite forallb_forall in B.
      rewrite Forall_forall in P.
      specialize (B c I); rewrite (plain_not_space c (P c I)) in B.
      discriminate. }
    rewrite B, strip_id
      by (eapply Forall_impl; [|exact Hd]; exact is_digit_not_space).
    unfold decimal_or_none; now rewrite (Decimal_of_digits _ Hne Hd).
  - intros M column t Hc.
    assert (D : Decimal_of_str s = Raise InvalidOperation)
      by exact (Decimal_of_marked s P M).
    destruct s as [|c s']; [discriminate|].
    unfold numeric_columns in Hc; cbn [str_in existsb] in Hc.
    unfold setData_row, convert_edit.
    repeat (apply orb_true_iff in Hc as [Hc|Hc]); try discriminate;
      apply str_eqb_eq in Hc; subst column; cbn [str_eqb str_in existsb orb];
      rewrite D; reflexivity.
Qed.

End CurrencyTexts.

Lemma currency_text_import_and_edit_witness :
  parse_decimal (str "$1,234") = Ok (Some (DFinite false 1234 0))
  /\ @setData_row ExampleRuntime.runtime
       (staged Examples.trade_mappings Examples.buy_row) (str "price")
       (EStr (str "$1,234"))
     = Ok (false,
           add_error (str "Invalid number for price: $1,234")
             (staged Examples.trade_mappings Examples.buy_row)).
Proof.
  destruct (@currency_text_import_and_edit ExampleRuntime.runtime (str "$1,234"))
    as [I E];
    [discriminate
    |repeat (apply Forall_cons; [reflexivity|]); apply Forall_nil|].
  split; [exact I|].
  exact (E eq_refl (str "price")
           (staged Examples.trade_mappings Examples.buy_row) eq_refl).
Defined.
(** ** The commit of a staged batch *)

Section StagedStrikes.

Context {rt : Runtime}.

(** The import leaves a strike price that is absent, [None] or a number. *)
Lemma process_row_strike mappings cm n row (t : Transaction) :
  process_row mappings cm n row = Ok t -> strike_not_text t = true.
Proof.
  intros H; trace H.
  assert (G2 : dict_get (str "strike_price") t2 = None) by (back; reflexivity).
  assert (G : dict_get (str "strike_price") t
              = dict_get (str "strike_price") t3) by (subst t; back; reflexivity).
  unfold strike_not_text, tx_get; rewrite G; clear G.
  revert S3; unfold step_symbol; intros S3; run S3;
    unfold tx_set;
    repeat first [ rewrite dict_get_set_same
                 | rewrite dict_get_set_other by reflexivity ];
    rewrite ?G2; try reflexivity;
    match goal with
    | |- context [of_decimal ?o] => destruct o; reflexivity
    end.
Qed.

(** An edit of another field leaves the strike price as it is. *)
Lemma setData_row_strike (t t' : Transaction) (column : pystr) (value : edit)
    (b : bool) :
  str_eqb column (str "strike_price") = false ->
  setData_row t column value = Ok (b, t') ->
  strike_not_text t' = strike_not_text t.
Proof.
  intros Hc S; apply setData_row_writes in S.
  unfold strike_not_text, tx_get; rewrite (S (str "strike_price")); [reflexivity|].
  rewrite str_eqb_sym in Hc.
  destruct b; unfold str_in; cbn [existsb map]; rewrite ?Hc; reflexivity.
Qed.

Lemma on_data_changed_strike (data : list Transaction) :
  forallb strike_not_text (on_data_changed data)
  = forallb strike_not_text data.
Proof.
  unfold on_data_changed; destruct (hasErrors data); [reflexivity|].
  induction data as [|t d IH]; cbn [map forallb]; [reflexivity|].
  rewrite IH; f_equal.
  destruct (is_ttype _ _); [|reflexivity].
  unfold strike_not_text; now rewrite !tx_get_other by reflexivity.
Qed.

Lemma list_set_forallb {A} (p : A -> bool) (i : nat) (x : A) (l : list A) :
  p x = true -> forallb p l = true -> forallb p (list_set i x l) = true.
Proof.
  intros Hx; revert i; induction l as [|y l IH]; intros [|i]; cbn; auto;
    intros H; apply andb_true_iff in H as [H1 H2].
  - now rewrite Hx.
  - now rewrite H1, IH.
Qed.

(** The rows of the grid keep strike prices that are no text, through every
    edit of a field other than the strike price. *)
Lemma setData_strike (data data' : list Transaction) (row : nat)
    (column : pystr) (value : edit) (b : bool) :
  str_eqb column (str "strike_price") = false ->
  setData on_data_changed data row column value = Ok (b, data') ->
  forallb strike_not_text data = true ->
  forallb strike_not_text data' = true.
Proof.
  intros Hc H F; unfold setData in H.
  destruct (nth_error data row) as [t|] eqn:N; [|now injection H as <- <-].
  destruct (setData_row t column value) as [[b' t']|] eqn:S; cbn [bind] in H;
    [|discriminate].
  injection H as <- <-; cbn [fst snd].
  assert (F' : forallb strike_not_text (list_set row t' data) = true).
  { apply list_set_forallb; [|exact F].
    rewrite (setData_row_strike _ _ _ _ _ Hc S).
    rewrite forallb_forall in F; apply F; eapply nth_error_In; exact N. }
  destruct b'; [now rewrite on_data_changed_strike|exact F'].
Qed.

(** The rows [load_csv] shows have strike prices that are no text. *)
Lemma load_csv_strike mappings (file : CsvFile) cm a (txs : list Transaction) :
  load_csv mappings file cm a = Ok (Some txs) ->
  forallb strike_not_text txs = true.
Proof.
  unfold load_csv, import_preview, import_transactions_from_csv, import_handlers.
  destruct file as [[headers rows]|e]; cbn [bind fst snd];
    [|destruct (exn_isa e FileNotFoundError); discriminate].
  intros H.
  assert (R : exists ts f,
             process_rows mappings cm 2 rows = Ok ts
             /\ txs = map f ts
             /\ forall t, strike_not_text (f t) = strike_not_text t).
  { destruct (if negb (dict_has (str "account_name") cm) then _ else _)
      as [o|]; [|discriminate].
    destruct (forallb _ cm); cbn [bind] in H;
      [|discriminate].
    destruct (process_rows mappings cm 2 rows) as [ts|e] eqn:R; cbn [bind] in H;
      [|destruct (exn_isa e FileNotFoundError); discriminate].
    injection H as <-; exists ts.
    destruct o as [name|].
    - eexists; split; [reflexivity|]; split; [reflexivity|].
      intros t; unfold strike_not_text; now rewrite tx_get_other by reflexivity.
    - exists (fun t => t); split; [reflexivity|]; split; [|reflexivity].
      now rewrite map_id. }
  destruct R as (ts & f & R & -> & Hf).
  apply forallb_forall; intros t I; apply in_map_iff in I as (t0 & <- & I).
  rewrite Hf.
  destruct (process_rows_In _ _ _ _ _ _ R I) as (m & row & _ & P).
  exact (process_row_strike _ _ _ _ _ P).
Qed.

End StagedStrikes.
Section CommitProperties.

Context {rt : Runtime}.

Variable constraints : Storage -> bool.

(** The symbol resolution raises a [ValueError] only for an option without
    ticker or with a text as strike price. *)
Lemma get_or_create_symbol_value_error (s : Session) a b c d e :
  get_or_create_symbol constraints s a b c d e = Raise ValueError ->
  truthy a = false \/ exists p, e = VStr p.
Proof.
  unfold get_or_create_symbol; intros H.
  match type of H with
  | bind ?o _ = _ => destruct o as [os|x0] eqn:O; cbn [bind] in H
  end.
  - destruct (find _ _); [discriminate|].
    unfold flush in H; destruct (constraints _); cbn [bind] in H; discriminate.
  - destruct (is_itype b OPTION); [|discriminate].
    destruct (truthy a); [right|now left].
    cbn [negb] in O.
    destruct e; cbn [bind] in O; try discriminate; eauto.
Qed.

(** A row with a symbol and a strike price that is no text is not passed
    over. *)
Lemma staged_symbol_accepted (t : Transaction) :
  strike_not_text t = true -> ~ symbol_rejected constraints t.
Proof.
  intros S (Sy & s & it & R).
  apply get_or_create_symbol_value_error in R as [R|(p & R)]; [congruence|].
  unfold strike_not_text in S; rewrite R in S; discriminate.
Qed.

(** C4.  [save_transactions] passes over every row with errors: the batch
    and the batch without those rows have the same outcome.  When a row
    without errors names an account that the storage does not have, the
    call raises and the storage is as before.  Every raise leaves the
    storage as before.  A return adds to the storage one record for each
    row without errors whose strike price is no text, and no record that is
    not the record of a row without errors; a row with a text as strike
    price either has its record too or was passed over for a [ValueError]
    of its symbol.  The rows of a staged batch have no text as strike
    price: those that [load_csv] shows have none, and an edit in the grid
    of the window leaves it so; every row without errors of a staged batch
    is thus persisted, or none is. *)
Theorem save_transactions_all_or_nothing (st : Storage) (txs : list Transaction) :
  save_transactions constraints st txs
  = save_transactions constraints st (filter no_errors txs)
  /\ (forall t name,
         In t txs -> no_errors t = true ->
         dict_get (str "account_name") t = Some name ->
         get_account_by_name (begin st) name = None ->
         exists e, save_transactions constraints st txs = (Raise e, st))
  /\ (forall e st',
         save_transactions constraints st txs = (Raise e, st') -> st' = st)
  /\ (forall r st',
         save_transactions constraints st txs = (Ok r, st') ->
         r = true
         /\ accounts st' = accounts st
         /\ exists new,
              transactions st' = transactions st ++ new
              /\ (forall rec, In rec new ->
                    exists t account symbol_id,
                      In t txs /\ no_errors t = true
                      /\ db_transaction_of account symbol_id t = Ok rec)
              /\ (forall t, In t txs -> no_errors t = true ->
                    strike_not_text t = true -> persisted st t new)
              /\ (forall t, In t txs -> no_errors t = true ->
                    symbol_rejected constraints t \/ persisted st t new))
  /\ (forall mappings file cm a (loaded : list Transaction),
         load_csv mappings file cm a = Ok (Some loaded) ->
         forallb strike_not_text loaded = true)
  /\ (forall (data data' : list Transaction) row column value b,
         str_eqb column (str "strike_price") = false ->
         setData on_data_changed data row column value = Ok (b, data') ->
         forallb strike_not_text data = true ->
         forallb strike_not_text data' = true).
Proof.
  split; [|split; [|split; [|split; [|split]]]].
  - unfold save_transactions; now rewrite save_all_skips.
  - intros t name Hin Hne Hname Hfind; unfold save_transactions.
    destruct (save_all_unknown_account constraints (begin st) txs t name
                Hin Hne Hname Hfind)
      as (e & ->); cbn [bind]; eauto.
  - intros e st'; unfold save_transactions.
    destruct (bind (save_all constraints (begin st) txs) (commit constraints));
      intros H; inversion H; reflexivity.
  - intros r st'; unfold save_transactions.
    destruct (save_all constraints (begin st) txs) as [s|] eqn:S; cbn [bind];
      [|discriminate].
    unfold commit; destruct (flush constraints s) as [s1|] eqn:F; cbn [bind];
      [|discriminate].
    intros H; injection H as <- <-.
    apply save_all_outcome in S as (_ & A & new & T & Hnew & Hall).
    pose proof F as F'; apply flush_inv in F' as (_ & A1 & _).
    split; [reflexivity|]; split; [now rewrite A1, A|].
    exists new; split; [|split; [exact Hnew|split]].
    + unfold flush in F; destruct (constraints _); [|discriminate].
      injection F as <-; cbn [working transactions].
      unfold all_transactions in T; cbn [begin working pending] in T.
      now rewrite app_nil_r in T.
    + intros t Hin Hne Hs; destruct (Hall t Hin Hne) as [R|P]; [|exact P].
      now apply staged_symbol_accepted in R.
    + intros t Hin Hne; destruct (Hall t Hin Hne) as [R|P]; [now left|right].
      exact P.
  - intros mappings file cm a loaded; apply load_csv_strike.
  - intros data data' row column value b; apply setData_strike.
Qed.

End CommitProperties.

Lemma save_transactions_all_or_nothing_witness :
  (exists e,
      save_transactions CommitExamples.accepting CommitExamples.without_account
        CommitExamples.batch = (Raise e, CommitExamples.without_account))
  /\ exists new,
       transactions
         (snd (save_transactions CommitExamples.accepting
                 CommitExamples.with_account CommitExamples.batch))
       = transactions CommitExamples.with_account ++ new
       /\ persisted CommitExamples.with_account
            (staged Examples.trade_mappings Examples.buy_row) new.
Proof.
  split.
  - destruct (@save_transactions_all_or_nothing ExampleRuntime.runtime
                CommitExamples.accepting CommitExamples.without_account
                CommitExamples.batch) as (_ & H & _).
    apply (H (staged Examples.trade_mappings Examples.buy_row)
             (VStr (str "Main"))).
    + right; left; reflexivity.
    + reflexivity.
    + reflexivity.
    + reflexivity.
  - destruct (@save_transactions_all_or_nothing ExampleRuntime.runtime
                CommitExamples.accepting CommitExamples.with_account
                CommitExamples.batch) as (_ & _ & _ & H & _).
    destruct (H true
                (snd (save_transactions CommitExamples.accepting
                        CommitExamples.with_account CommitExamples.batch))
                eq_refl) as (_ & _ & new & E & _ & Hall & _).
    exists new; split; [exact E|].
    apply (Hall (staged Examples.trade_mappings Examples.buy_row));
      [right; left; reflexivity|reflexivity|reflexivity].
Defined.
